(* ===== verification/_CoqProject ===== *)
-Q . S2P
Prelude.v
Store.v
Notify.v
Orders.v
Linking.v
Telegram.v
BotText.v
Auth.v
Accounts.v
Catalog.v
Schema.v
Pagination.v
BotApi.v
Bot.v
BotFlow.v
BotProgress.v
BotRace.v
App.v
BotScenarios.v
Scenarios.v
AccountScenarios.v
