(* ===== verification/Prelude.v ===== *)
(** * Verification of the two-seller order system (Flask backend + Telegram bot)

    This development models the order system of the repository: the Flask
    backend [src/back/app.py] with its helpers [src/back/database.py],
    [src/back/auth.py] and [src/back/config.py], and the Telegram bot
    [src/tg_bot/bot.py].

    ** The program and how its parts interact

    - The data store ([database.py]): five SQLite tables ([users],
      [products], [orders], [order_items], [telegram_link_tokens]) accessed
      through [execute_query], which runs one statement and commits it.
    - Configuration and authentication ([config.py], [auth.py]): the
      [Config] classes read from the environment, bcrypt password hashing,
      JWT access tokens and the [jwt_required] decorator that every
      user-facing route of [app.py] goes through.
    - Accounts ([reg], [login], [get_profile], [update_profile],
      [delete_account] in [app.py]).
    - The product catalog ([create_product], [get_products],
      [get_all_products], [update_product], [delete_product]).
    - The notification channel ([send_telegram_notification]): a
      best-effort push to a Telegram chat that swallows every error.
    - The order workflow ([create_order], [get_orders], [get_order],
      [update_order]): validates items, writes one order row and one item
      row per line, then notifies the buyer and each other owner.
    - Account linking ([generate_telegram_token], [link_telegram]).
    - The Telegram entry points ([create_telegram_order],
      [get_telegram_products], [get_telegram_user_info],
      [get_telegram_orders]): identify the user by chat id.
    - The bot ([bot.py]): commands, the order-creation conversation on
      aiogram's FSM storage, the pagination of the order list; it calls the
      Telegram entry points over HTTP through [make_api_request].  aiogram
      handles each update in its own task, so the handlers of overlapping
      updates interleave at their [await]s.
    - Start-up: the backend configures itself and creates the schema when
      [app.py] is imported; the bot exits without [BOT_TOKEN] and
      otherwise polls the updates.

    ** Files (in dependency order)

    - [Prelude.v] (this file): the exception-state monad [EST] in which the
      handlers are written (a state that persists when an exception is
      raised, as committed SQLite writes do), its [est_pres] preservation
      lemmas, Python truthiness, list helpers, the tactics and the hint
      database [osys].
    - [Store.v]: rows as Records, a table as the list of its rows in rowid
      order with its AUTOINCREMENT counter, the world (database, clock,
      statement counter, injected statement faults, notification log), the
      primitives [exec] and [query] that model one [execute_query] call,
      and the table invariant (rowids strictly increasing, below the
      counter) with the lookup lemmas; [exec_with] binds the statement's
      int parameters as SQLite INTEGERs, raising [OverflowError] outside
      [-2^63 .. 2^63 - 1] as sqlite3 does.
    - [Notify.v]: the typeclass [NotificationChannel] (the interface the
      handlers are proved against) and its instance [telegram_channel].
    - [Orders.v]: the order workflow.
    - [Linking.v]: token issuance and redemption, [user_by_telegram].
    - [Telegram.v]: the four Telegram entry points.
    - [BotText.v]: Python's [str.strip], [split], [partition], [lower],
      [startswith], [int()] and [float()] on byte strings.
    - [Auth.v]: [config.py] ([config_of], [config_dict], [get_config]) and
      [auth.py] ([hash_pswd], [check_pswd], [create_access_token],
      [verify_access_token], [jwt_required]) over two library interfaces,
      [PasswordHasher] (bcrypt) and [JwtCodec] (PyJWT, HS256).
    - [Accounts.v]: the five account handlers.
    - [Catalog.v]: the five catalog handlers.
    - [Schema.v]: [init_db] and the schema's typing invariant
      [schema_inv] (well-formed tables, [UNIQUE] username, email and link
      token), statement by statement and for every handler that writes
      [users] or [telegram_link_tokens].
    - [Pagination.v]: [split_orders_into_pages], [create_pagination_keyboard]
      and the callback data round trip.
    - [BotApi.v]: JSON values and Python dicts, [make_api_request] over the
      [BackendApi] interface.
    - [Bot.v]: the bot state (FSM storage, module dicts, requests sent,
      actions), every handler of bot.py, and [dispatch] in registration
      order.
    - [BotFlow.v]: the invariant of the order conversation and the
      theorems on routing and input checks.
    - [BotProgress.v]: the [eventually] combinator over bot updates and
      the progress of the order conversation from [/create_order] to the
      order request.
    - [BotRace.v]: the concurrent dispatch of aiogram: the conversation
      handlers split at their last [await] (equations show head then
      pending [set_state] is the handler), runs [conc_run] that interleave
      heads and pending steps, and a race that breaks the conversation
      invariant.
    - [App.v]: the start-up of both programs: the module level of
      [app.py] ([get_config], the CORS origins, [init_db]), its [/] route
      and [app.run]'s debug flag; the module level of [bot.py] (the
      [BOT_TOKEN] check) and [main]'s polling as [run_updates] (the
      sequential schedule).
    - [Scenarios.v], [BotScenarios.v], [AccountScenarios.v]: the
      specification's scenarios run on the model, executable instances of
      the interfaces (a replaying backend, a toy hasher and a toy JWT codec
      whose decode inverts encode), and the witnesses of the theorems with
      hypotheses.

    ** Modelling choices

    - Money ([REAL] columns, Python floats) is modelled as exact integers
      [Z] (amounts in the smallest currency unit) in the backend; the bot's
      [float()] yields exact rationals, infinities and NaN.  Rounding to
      doubles is not modelled.
    - A table is an association list in rowid order: SQLite's scan order,
      which decides what [fetch_one] returns when several rows match.
    - Every [execute_query] call consumes one statement index; the world
      lists the indices at which the statement raises, so that partial
      failures of multi-statement handlers can be stated.  Constraint
      violations ([UNIQUE], [NOT NULL]) raise as well.
    - [datetime.now()], [datetime.utcnow()] and [CURRENT_TIMESTAMP] read the
      world's clock [w_now], in seconds, constant during one request.
    - bcrypt and HMAC-SHA256 are libraries: they are interfaces whose laws
      are the properties the code relies on (a hash checks against its
      password; decoding with the key inverts encoding; a token has no
      space).  PyJWT's [exp]/[iat] checks are written out.  The salt that
      [bcrypt.gensalt()] draws is an argument of [reg].
    - Recursion on Python's [range] and on digits takes fuel: [stop - start]
      for [range(start, stop, step)] with [step >= 1] (each iteration
      advances by at least one) and [n + 1] for [str(n)] (each digit
      divides by ten).  [pagination_fuel_enough] shows this fuel is
      enough: more fuel gives the same result, so the loops end on their
      own conditions.
    - Python ints are unbounded.  They meet a bound where the code
      converts them: at [float * int] a double must hold them (an
      [OverflowError] from [2^1024 - 2^970] on, [fits_double]); where
      sqlite3 binds them they must fit 64 bits ([exec_with]).  The model
      checks both for the item quantities of [create_order] and the 64-bit
      bound for the quantity of [create_telegram_order].
    - The bot's updates: [run_updates] handles each to its end before the
      next; [BotRace.v] adds the schedules in which the four conversation
      handlers are suspended at their last [await].

    ** Theorems (see each file)

    - Orders: the total is the sum of price times quantity; validation
      failures write nothing; a fault after the order row leaves an order
      without its items; the database invariant; the owner grouping equals
      its reference; the notifications; the collapsed not-found rule.
    - Orders (bounds): a quantity a double holds but outside 64 bits
      raises [OverflowError] in the item loop after the order row is
      committed; a larger one raises at [price * qty] before any write.
    - Linking: one token per user after issuance; dead tokens get one
      reply; the invariant that no user holds two unused tokens, kept
      because issuing deletes before it inserts; the interleaving of two
      issues that breaks it and the chat-id collision.
    - Accounts and Schema: [reg]'s duplicate check tests exactly the rows the UNIQUE
      constraints refuse, so registration answers 400 and never raises
      an [IntegrityError].
    - Telegram: the entry points on success and on an unknown chat id.
    - Auth: a token's lifetime is exactly [t0 <= now < t0 + 24 h]; with
      the secret unset, tokens signed with the key of config.py are
      accepted for any user.
    - Accounts: registration then login; username shadowing by an email;
      the delete cascade and its partial commit.
    - Catalog: order history untouched by catalog handlers; deleting a
      product hides bought items; the price check.
    - Pagination and BotFlow: pages, keyboard and callback round trip; the
      conversation invariant over every state reached in the sequential
      schedule, and the consistent order the confirmation then sends; the
      retry, NaN, routing and double-confirmation behaviours; from
      [/create_order], the answers of a linked user lead the bot to send
      the order request (liveness, [BotProgress.v]).
    - BotRace: under aiogram's concurrent dispatch, five quick messages
      reach the description prompt with a total that is not price times
      quantity.

    ** Not modelled (see PROJECT.json)

    - The indexes [init_db] creates (they change how rows are found, not
      which); [get_db_connection] and the row factory (connection
      plumbing); the [NOT NULL] clauses beyond the one [update_product] meets
      ([Catalog.v]); the [FOREIGN KEY] clauses (SQLite
      enforces them only under [PRAGMA foreign_keys], which the code never
      sets); the HTTP transport of the
      bot and the Telegram Bot API beyond the requests and replies; the
      printing of [get_config]; rounding of floats to doubles (the bot's
      [float()] of ['1e-400'] is positive in the model, [0.0] in Python);
      [int()] on non-ASCII decimal digits; the 64-bit binding of the URL
      ids of [get_order], [update_order], [update_product] and
      [delete_product], of an item's [product_id] in [create_order], and
      of the [total_amount] and [price] of [create_telegram_order]: ids or
      amounts of [2^63] or more give a 500 in the program and are handled
      as ordinary values in the model; a JSON [null] [total_amount] in
      [create_telegram_order], taken as missing; [Command] filters on a
      photo's caption; the schedules in which a handler is suspended at
      an [await] before its last one.
*)

From stdpp Require Export base list sets strings.
From Stdlib Require Export ZArith Lia Sorted.

(** ** Outcomes and the exception-state monad *)

(** An exception raised by the Python code.  [DbError] is an exception of
    [sqlite3] (a failed or refused statement); [KeyError k] a missing dict
    key [k]; [TypeError] an operation on a value of the wrong type (a
    subscript of [None] included); [ValueError] a failed [int()] or
    [float()] conversion; [AttributeError] a method called on [None];
    [OverflowError] an int too large for an SQLite INTEGER or for a
    double. *)
Inductive exn := DbError | KeyError (key : string) | TypeError | ValueError | AttributeError | OverflowError.

#[export] Instance exn_eq_dec : EqDecision exn.
Proof. solve_decision. Defined.

Inductive outcome (A : Type) := Ret (a : A) | Raise (e : exn).
Arguments Ret {A} a.
Arguments Raise {A} e.

(** A computation on state [S] that may raise: the state it reached is kept
    when it raises, as a committed SQLite write is. *)
Definition EST (S A : Type) : Type := S -> S * outcome A.

#[export] Instance est_ret {S} : MRet (EST S) := fun A a s => (s, Ret a).
#[export] Instance est_bind {S} : MBind (EST S) :=
  fun A B f m s =>
    match m s with
    | (s', Ret a) => f a s'
    | (s', Raise e) => (s', Raise e)
    end.

Definition throw {S A} (e : exn) : EST S A := fun s => (s, Raise e).

(** [try ... except Exception] around a computation. *)
Definition catch {S A} (m : EST S A) (h : exn -> EST S A) : EST S A :=
  fun s => match m s with
           | (s', Ret a) => (s', Ret a)
           | (s', Raise e) => h e s'
           end.

Section EstLaws.
Context {S : Type}.

Lemma est_bind_ret {A B} (a : A) (f : A -> EST S B) s :
  (mret a ≫= f) s = f a s.
Proof. reflexivity. Qed.

Lemma est_bind_assoc {A B C} (m : EST S A) (f : A -> EST S B) (g : B -> EST S C) s :
  ((m ≫= f) ≫= g) s = (m ≫= (fun a => f a ≫= g)) s.
Proof. unfold mbind, est_bind. destruct (m s) as [s' []]; reflexivity. Qed.

Lemma est_bind_mret_r {A} (m : EST S A) s : (m ≫= mret) s = m s.
Proof. unfold mbind, est_bind. destruct (m s) as [s' []]; reflexivity. Qed.

Lemma est_bind_ext {A B} (m : EST S A) (f g : A -> EST S B) s :
  (forall a s', f a s' = g a s') -> (m ≫= f) s = (m ≫= g) s.
Proof. intros Hfg. unfold mbind, est_bind. destruct (m s) as [s' []]; [apply Hfg | reflexivity]. Qed.

Lemma catch_run {A} (m : EST S A) h s s' a : m s = (s', Ret a) -> catch m h s = (s', Ret a).
Proof. intros Hm. unfold catch. by rewrite Hm. Qed.

Lemma catch_raise {A} (m : EST S A) h s s' e : m s = (s', Raise e) -> catch m h s = h e s'.
Proof. intros Hm. unfold catch. by rewrite Hm. Qed.

(** A bind only looks at what its first computation yields. *)
Lemma est_bind_same {A B} (m m' : EST S A) (f : A -> EST S B) s s' :
  m s = m' s' -> (m ≫= f) s = (m' ≫= f) s'.
Proof. intros Hm. unfold mbind, est_bind. by rewrite Hm. Qed.

Lemma est_bind_run {A B} (m : EST S A) (f : A -> EST S B) s s' a :
  m s = (s', Ret a) -> (m ≫= f) s = f a s'.
Proof. intros H. unfold mbind, est_bind. by rewrite H. Qed.

Lemma est_bind_raise {A B} (m : EST S A) (f : A -> EST S B) s s' e :
  m s = (s', Raise e) -> (m ≫= f) s = (s', Raise e).
Proof. intros H. unfold mbind, est_bind. by rewrite H. Qed.

(** [m] relates every state to the state it ends in by [R], whether it
    returns or raises.  With [R] a preorder this is preserved by [≫=], so
    a frame property or an invariant of a whole handler follows from the
    same fact about each of its statements. *)
Definition est_pres {A} (R : relation S) (m : EST S A) : Prop := forall s, R s (m s).1.

Lemma est_pres_ret {A} (R : relation S) `{!Reflexive R} (a : A) : est_pres R (mret a).
Proof. intros s. simpl. reflexivity. Qed.

Lemma est_pres_throw {A} (R : relation S) `{!Reflexive R} e : est_pres R (@throw S A e).
Proof. intros s. simpl. reflexivity. Qed.

Lemma est_pres_bind {A B} (R : relation S) `{!Transitive R} (m : EST S A) (f : A -> EST S B) :
  est_pres R m -> (forall a, est_pres R (f a)) -> est_pres R (m ≫= f).
Proof.
  intros Hm Hf s. unfold mbind, est_bind. specialize (Hm s).
  destruct (m s) as [s' [a|e]]; simpl in *; [|done]. etransitivity; [exact Hm | apply Hf].
Qed.

Lemma est_pres_catch {A} (R : relation S) `{!Transitive R} (m : EST S A) (h : exn -> EST S A) :
  est_pres R m -> (forall e, est_pres R (h e)) -> est_pres R (catch m h).
Proof.
  intros Hm Hh s. unfold catch. specialize (Hm s).
  destruct (m s) as [s' [a|e]]; simpl in *; [done|]. etransitivity; [exact Hm | apply Hh].
Qed.

(** Every value [m] returns satisfies [P]. *)
Definition est_post {A} (P : A -> Prop) (m : EST S A) : Prop :=
  forall s s' a, m s = (s', Ret a) -> P a.

Lemma est_post_ret {A} (P : A -> Prop) a : P a -> est_post P (mret a).
Proof. intros HP s s' a' [= _ <-]. done. Qed.

Lemma est_post_throw {A} (P : A -> Prop) e : est_post P (throw e).
Proof. by intros s s' a' [=]. Qed.

Lemma est_post_bind {A B} (P : B -> Prop) (m : EST S A) (f : A -> EST S B) :
  (forall a, est_post P (f a)) -> est_post P (m ≫= f).
Proof.
  intros Hf s s' b. unfold mbind, est_bind.
  destruct (m s) as [s1 [a|e]]; [apply Hf | by intros [=]].
Qed.
End EstLaws.

(** ** Python values *)

(** Truthiness of an optional text column ([if user['telegram_id']:]):
    [None] and the empty string are false. *)
Definition truthy_str (o : option string) : bool :=
  match o with
  | Some s => negb (bool_decide (s = ""%string))
  | None => false
  end.

(** Truthiness of an optional JSON number ([not item.get('qty')]). *)
Definition truthy_Z (o : option Z) : bool :=
  match o with
  | Some z => negb (Z.eqb z 0)
  | None => false
  end.

(** [sum(...)] over a list of amounts. *)
Definition sumZ {A} (f : A -> Z) (l : list A) : Z :=
  foldr (fun x acc => f x + acc)%Z 0%Z l.

Lemma sumZ_cons {A} (f : A -> Z) x l : sumZ f (x :: l) = (f x + sumZ f l)%Z.
Proof. reflexivity. Qed.

Lemma sumZ_app {A} (f : A -> Z) l1 l2 :
  sumZ f (l1 ++ l2) = (sumZ f l1 + sumZ f l2)%Z.
Proof. induction l1 as [|x l IH]; simpl; [done | rewrite IH; lia]. Qed.

Lemma sumZ_ext {A} (f g : A -> Z) l :
  (forall x, x ∈ l -> f x = g x) -> sumZ f l = sumZ g l.
Proof.
  induction l as [|x l IH]; intros Hfg; simpl; [done|].
  rewrite Hfg by set_solver. rewrite IH; [done|]. intros y Hy. apply Hfg. set_solver.
Qed.

Lemma sumZ_map {A B} (f : B -> Z) (g : A -> B) l :
  sumZ f (map g l) = sumZ (fun x => f (g x)) l.
Proof. induction l as [|x l IH]; simpl; [done | by rewrite IH]. Qed.

(** ** [ORDER BY key DESC]

    A stable insertion sort on a descending key: rows with equal keys keep
    their scan (rowid) order. *)
Fixpoint insert_desc {A} (key : A -> Z) (x : A) (l : list A) : list A :=
  match l with
  | [] => [x]
  | y :: l' => if Z.leb (key y) (key x) then x :: y :: l' else y :: insert_desc key x l'
  end.

Fixpoint sort_desc {A} (key : A -> Z) (l : list A) : list A :=
  match l with
  | [] => []
  | x :: l' => insert_desc key x (sort_desc key l')
  end.

Section SortDesc.
Context {A : Type} (key : A -> Z).

Lemma insert_desc_perm x l : insert_desc key x l ≡ₚ x :: l.
Proof.
  induction l as [|y l IH]; simpl; [done|].
  destruct (Z.leb (key y) (key x)); [done|]. rewrite IH. apply perm_swap.
Qed.

Lemma sort_desc_perm l : sort_desc key l ≡ₚ l.
Proof. induction l as [|x l IH]; simpl; [done|]. rewrite insert_desc_perm. by constructor. Qed.

Lemma insert_desc_sorted x l :
  Sorted (fun a b => key b <= key a)%Z l -> Sorted (fun a b => key b <= key a)%Z (insert_desc key x l).
Proof.
  induction l as [|y l IH]; simpl; intros Hs; [by repeat constructor|].
  destruct (Z.leb_spec (key y) (key x)) as [Hle|Hlt]; [constructor; [done | constructor; lia]|].
  apply Sorted_inv in Hs as [Hs Hh]. constructor; [by apply IH|].
  destruct l as [|z l]; simpl; [constructor; lia|].
  inversion Hh; subst. destruct (Z.leb (key z) (key x)); constructor; lia.
Qed.

Lemma sort_desc_sorted l : Sorted (fun a b => key b <= key a)%Z (sort_desc key l).
Proof. induction l as [|x l IH]; simpl; [constructor | by apply insert_desc_sorted]. Qed.
End SortDesc.

Lemma truthy_str_Some s : s <> EmptyString -> truthy_str (Some s) = true.
Proof. intros Hs. simpl. by rewrite bool_decide_eq_false_2. Qed.

(** ** Lists without duplicate keys (a [UNIQUE] column) *)

Section NoDupKeys.
Context {A B : Type} (f : A -> B).

Lemma NoDup_map_elem_eq l x y : NoDup (map f l) -> x ∈ l -> y ∈ l -> f x = f y -> x = y.
Proof.
  induction l as [|z l IH]; simpl; intros Hnd Hx Hy Hf; [by apply elem_of_nil in Hx|].
  apply NoDup_cons in Hnd as [Hz Hnd].
  apply elem_of_cons in Hx as [->|Hx], Hy as [->|Hy]; [done | | | by apply IH].
  - destruct Hz. rewrite Hf. by apply list_elem_of_fmap_2.
  - destruct Hz. rewrite <- Hf. by apply list_elem_of_fmap_2.
Qed.

Lemma NoDup_map_filter (P : A -> bool) l : NoDup (map f l) -> NoDup (map f (List.filter P l)).
Proof.
  induction l as [|z l IH]; simpl; intros Hnd; [done|]. apply NoDup_cons in Hnd as [Hz Hnd].
  destruct (P z); simpl; [|by apply IH]. apply NoDup_cons; split; [|by apply IH].
  intros Hin. apply Hz. apply list_elem_of_fmap in Hin as (y & Hy & Hin).
  rewrite Hy. apply list_elem_of_fmap_2. apply list_elem_of_In in Hin.
  apply filter_In in Hin as [Hin _]. by apply list_elem_of_In.
Qed.
End NoDupKeys.

(** ** Weakest preconditions

    [wp m Q E s]: run from [s], [m] returns [a] in a state satisfying
    [Q a], or raises in a state satisfying [E].  A handler is reasoned
    about by rewriting with [wp_bind] down its statements. *)

Section Wp.
Context {S : Type}.

Definition wp {A} (m : EST S A) (Q : A -> S -> Prop) (E : S -> Prop) (s : S) : Prop :=
  match m s with (s', Ret a) => Q a s' | (s', Raise _) => E s' end.

Lemma wp_bind {A B} (m : EST S A) (f : A -> EST S B) Q E s :
  wp (m ≫= f) Q E s <-> wp m (fun a => wp (f a) Q E) E s.
Proof. unfold wp, mbind, est_bind. by destruct (m s) as [s' [a|e]]. Qed.

Lemma wp_ret {A} (a : A) Q E s : wp (mret a) Q E s <-> Q a s.
Proof. done. Qed.

Lemma wp_throw {A} e Q E s : wp (@throw S A e) Q E s <-> E s.
Proof. done. Qed.

Lemma wp_mono {A} (m : EST S A) (Q Q' : A -> S -> Prop) (E E' : S -> Prop) s :
  wp m Q E s -> (forall a s', Q a s' -> Q' a s') -> (forall s', E s' -> E' s') -> wp m Q' E' s.
Proof. unfold wp. destruct (m s) as [s' [a|e]]; eauto. Qed.

(** An invariant [I] is kept by [m] when it holds in the state [m] ends
    in, whether it returns or raises. *)
Lemma wp_inv {A} (I : S -> Prop) (m : EST S A) s : wp m (fun _ => I) I s -> I (m s).1.
Proof. unfold wp. by destruct (m s) as [s' [a|e]]. Qed.
End Wp.

(** ** Automation *)

Create HintDb osys.
Create Rewrite HintDb osys_rw.

#[export] Hint Rewrite @est_bind_ret @sumZ_app @sumZ_map : osys_rw.

(** Run one step of a monadic program whose first computation is known. *)
Ltac est_step :=
  match goal with
  | H : ?m ?s = (?s', Ret ?a) |- context [ (?m ≫= ?f) ?s ] =>
      rewrite (est_bind_run m f s s' a H)
  | H : ?m ?s = (?s', Raise ?e) |- context [ (?m ≫= ?f) ?s ] =>
      rewrite (est_bind_raise m f s s' e H)
  end.

(** Prove [est_pres R m] by walking the structure of [m]: binds, returns,
    throws, and case analysis on the matches and conditionals in it; the
    leaves (statements, sends) are closed by the [osys] hints. *)
Ltac est_pres_step :=
  match goal with
  | |- est_pres _ (mret _) => refine (est_pres_ret _ _)
  | |- est_pres _ (throw _) => refine (est_pres_throw _ _)
  | |- est_pres _ (_ ≫= _) => refine (est_pres_bind _ _ _ _ _); [| intros ?]
  | |- est_pres _ (catch _ _) => refine (est_pres_catch _ _ _ _ _); [| intros ?]
  | |- est_pres _ (if ?b then _ else _) => destruct b
  | |- est_pres _ (match ?x with _ => _ end) => destruct x
  end.

Ltac est_pres_auto := repeat (est_pres_step || solve [eauto with osys]).

(** The same walk for [est_post P m]. *)
Ltac est_post_auto :=
  repeat match goal with
  | |- est_post _ (mret _) => apply est_post_ret
  | |- est_post _ (throw _) => apply est_post_throw
  | |- est_post _ (_ ≫= _) => apply est_post_bind; intros ?
  | |- est_post _ (if ?b then _ else _) => destruct b
  | |- est_post _ (match ?x with _ => _ end) => destruct x
  | |- _ => solve [eauto with osys]
  end.

(** Unfold the monad's combinators so that [simpl] evaluates a handler. *)
Ltac est_unfold :=
  unfold mbind, est_bind, mret, est_ret, throw, catch in *.
