(* ===== verification/Store.v ===== *)
(** * The data store: [src/back/database.py]

    The five tables created by [init_db], each row as a Record with the
    columns of its [CREATE TABLE], a table as the list of its rows in rowid
    order with its AUTOINCREMENT counter, and the world a request runs in.
    [exec] models one call of [execute_query]: it runs one statement on
    its own connection and commits it, or raises and rolls that statement
    back.  The notices sent by the notification channel are declared here
    because the world logs them. *)

From S2P Require Import Prelude.

(** ** Rows *)

(** [users] (database.py:17-27). *)
Record user_row := {
  u_username : string;
  u_email : string;
  u_first_name : string;
  u_last_name : string;
  u_password_hash : string;
  u_theme : option string;
  u_telegram_id : option string;
  u_created_at : Z
}.

(** [products] (database.py:29-37). *)
Record product_row := {
  p_name : string;
  p_price : Z;
  p_description : option string;
  p_created_by : nat;
  p_created_at : Z
}.

(** [orders] (database.py:39-46); [status] is the text column. *)
Record order_row := {
  o_user_id : nat;
  o_total_amount : Z;
  o_status : string;
  o_created_at : Z
}.

(** [order_items] (database.py:48-56). *)
Record item_row := {
  oi_order_id : nat;
  oi_product_id : nat;
  oi_qty : Z;
  oi_price : Z
}.

(** [telegram_link_tokens] (database.py:58-65). *)
Record token_row := {
  t_user_id : nat;
  t_token : string;
  t_expires_at : Z;
  t_is_used : bool
}.

(** ** Tables *)

(** A table: its rows in rowid order (the B-tree scan order) and the
    AUTOINCREMENT counter of [sqlite_sequence]. *)
Record table (R : Type) := mk_table { rows : list (nat * R); seq : nat }.
Arguments mk_table {R} rows seq.
Arguments rows {R} t.
Arguments seq {R} t.

Definition empty_table {R} : table R := mk_table [] 0.

Fixpoint lookup_row {R} (id : nat) (l : list (nat * R)) : option R :=
  match l with
  | [] => None
  | (k, r) :: l' => if Nat.eqb k id then Some r else lookup_row id l'
  end.

(** [SELECT * FROM t WHERE id = ?] with [fetch_one]. *)
Definition tbl_get {R} (id : nat) (t : table R) : option R := lookup_row id (rows t).

(** [INSERT INTO t ...] with [lastrowid]: AUTOINCREMENT takes the counter
    plus one. *)
Definition tbl_insert {R} (r : R) (t : table R) : nat * table R :=
  let id := S (seq t) in (id, mk_table (rows t ++ [(id, r)]) id).

(** [SELECT ... WHERE P] with [fetch_all]: the matching rows in scan order. *)
Definition tbl_select {R} (P : nat -> R -> bool) (t : table R) : list (nat * R) :=
  List.filter (fun kr => P kr.1 kr.2) (rows t).

(** [SELECT ... WHERE P] with [fetch_one]: the first matching row. *)
Definition tbl_find {R} (P : nat -> R -> bool) (t : table R) : option (nat * R) :=
  List.find (fun kr => P kr.1 kr.2) (rows t).

(** [UPDATE t SET ... WHERE P]. *)
Definition tbl_update {R} (P : nat -> R -> bool) (f : R -> R) (t : table R) : table R :=
  mk_table (map (fun kr => if P kr.1 kr.2 then (kr.1, f kr.2) else kr) (rows t)) (seq t).

(** [DELETE FROM t WHERE P]. *)
Definition tbl_delete {R} (P : nat -> R -> bool) (t : table R) : table R :=
  mk_table (List.filter (fun kr => negb (P kr.1 kr.2)) (rows t)) (seq t).

(** Well-formedness: rowids strictly increase along the scan and none
    exceeds the counter, so a new rowid is fresh and lands at the end. *)
Definition tbl_wf {R} (t : table R) : Prop :=
  StronglySorted lt (map fst (rows t)) /\ Forall (fun k => k <= seq t) (map fst (rows t)).

(** ** The database *)

Record db := {
  users : table user_row;
  products : table product_row;
  orders : table order_row;
  order_items : table item_row;
  tokens : table token_row
}.

Definition db_wf (d : db) : Prop :=
  tbl_wf (users d) /\ tbl_wf (products d) /\ tbl_wf (orders d) /\
  tbl_wf (order_items d) /\ tbl_wf (tokens d).

Definition set_users (t : table user_row) (d : db) : db :=
  {| users := t; products := products d; orders := orders d;
     order_items := order_items d; tokens := tokens d |}.
Definition set_products (t : table product_row) (d : db) : db :=
  {| users := users d; products := t; orders := orders d;
     order_items := order_items d; tokens := tokens d |}.
Definition set_orders (t : table order_row) (d : db) : db :=
  {| users := users d; products := products d; orders := t;
     order_items := order_items d; tokens := tokens d |}.
Definition set_order_items (t : table item_row) (d : db) : db :=
  {| users := users d; products := products d; orders := orders d;
     order_items := t; tokens := tokens d |}.
Definition set_tokens (t : table token_row) (d : db) : db :=
  {| users := users d; products := products d; orders := orders d;
     order_items := order_items d; tokens := t |}.

Lemma db_wf_set_users t d : db_wf d -> tbl_wf t -> db_wf (set_users t d).
Proof. unfold db_wf; simpl; tauto. Qed.
Lemma db_wf_set_products t d : db_wf d -> tbl_wf t -> db_wf (set_products t d).
Proof. unfold db_wf; simpl; tauto. Qed.
Lemma db_wf_set_orders t d : db_wf d -> tbl_wf t -> db_wf (set_orders t d).
Proof. unfold db_wf; simpl; tauto. Qed.
Lemma db_wf_set_order_items t d : db_wf d -> tbl_wf t -> db_wf (set_order_items t d).
Proof. unfold db_wf; simpl; tauto. Qed.
Lemma db_wf_set_tokens t d : db_wf d -> tbl_wf t -> db_wf (set_tokens t d).
Proof. unfold db_wf; simpl; tauto. Qed.

(** ** Notices sent to a Telegram chat (their content, not their HTML) *)

(** One line of the buyer's order notice: product name and quantity. *)
Definition buyer_line := (string * Z)%type.
(** One line of an owner's notice: name, quantity, unit price, line total. *)
Definition owner_line := (string * Z * Z * Z)%type.

Inductive notice :=
  (** [create_order], app.py:402-406: at most three lines, the count of
      the others, the total. *)
  | NOrderCreated (order_id : nat) (lines : list buyer_line) (more : nat) (total : Z)
  (** app.py:411-413: the owner's lines and their revenue. *)
  | NProductsBought (order_id : nat) (lines : list owner_line) (revenue : Z)
  (** app.py:523: the new and the previous status. *)
  | NStatusChanged (order_id : nat) (new_status old_status : string)
  (** app.py:603-605: every line (name, quantity, price) and the total. *)
  | NTelegramOrderCreated (order_id : nat) (lines : list (string * Z * Z)) (total : Z)
  (** app.py:673. *)
  | NLinkCode (token : string)
  (** app.py:717. *)
  | NLinked (email : string)
  (** app.py:242. *)
  | NProductCreated (name : string) (price : Z).

(** A call of [send_telegram_notification]: recipient, notice, result. *)
Record attempt := { at_chat : string; at_notice : notice; at_ok : bool }.

(** ** The world a request runs in *)

Record world := {
  w_db : db;
  w_now : Z;                 (** [datetime.now()], seconds *)
  w_stmt : nat;              (** statements executed so far *)
  w_faults : list nat;       (** statement indices that raise *)
  w_bot_token : bool;        (** [os.getenv('BOT_TOKEN')] is set *)
  w_net_down : list nat;     (** attempt indices whose HTTP push fails *)
  w_sent : list attempt      (** notification attempts, in order *)
}.

Abbreviation M := (EST world).

Definition set_db (d : db) (w : world) : world :=
  {| w_db := d; w_now := w_now w; w_stmt := w_stmt w; w_faults := w_faults w;
     w_bot_token := w_bot_token w; w_net_down := w_net_down w; w_sent := w_sent w |}.

Definition tick (w : world) : world :=
  {| w_db := w_db w; w_now := w_now w; w_stmt := S (w_stmt w); w_faults := w_faults w;
     w_bot_token := w_bot_token w; w_net_down := w_net_down w; w_sent := w_sent w |}.

Definition log_attempt (a : attempt) (w : world) : world :=
  {| w_db := w_db w; w_now := w_now w; w_stmt := w_stmt w; w_faults := w_faults w;
     w_bot_token := w_bot_token w; w_net_down := w_net_down w; w_sent := w_sent w ++ [a] |}.

(** [execute_query] (database.py:81-104): a statement [q] on the database
    either yields its result and the committed database, or is refused
    ([None], a constraint violation); the statement raises as well when its
    index is an injected fault.  A raised statement leaves the database as
    it was (the rollback). *)
Definition exec {A} (q : db -> option (A * db)) : M A := fun w =>
  if decide (w_stmt w ∈ w_faults w) then (tick w, Raise DbError)
  else match q (w_db w) with
       | Some (a, d') => (set_db d' (tick w), Ret a)
       | None => (tick w, Raise DbError)
       end.

(** A read-only statement ([SELECT]): it reads the database and never
    changes it; it raises when its index is an injected fault. *)
Definition query {A} (f : db -> A) : M A := fun w =>
  if decide (w_stmt w ∈ w_faults w) then (tick w, Raise DbError) else (tick w, Ret (f (w_db w))).

(** [datetime.now()]. *)
Definition now : M Z := fun w => (w, Ret (w_now w)).

(** SQLite keeps an [INTEGER] in at most 64 bits: [cursor.execute]
    (database.py:87) binds a Python [int] parameter as a signed 64-bit
    integer and raises [OverflowError] ("Python int too large to convert
    to SQLite INTEGER") for one outside [-2^63, 2^63 - 1], before the
    statement runs. *)
Definition int64_min : Z := (-9223372036854775808)%Z.
Definition int64_max : Z := 9223372036854775807%Z.
Definition fits_int64 (z : Z) : bool := (int64_min <=? z)%Z && (z <=? int64_max)%Z.

(** Python's [float * int] converts the [int] with [PyLong_AsDouble],
    which rounds it to 53 bits (half to even) and raises [OverflowError]
    ("int too large to convert to float") when the result reaches
    [2^1024]: from [2^1024 - 2^970] on, the point halfway above the
    largest double [2^1024 - 2^971], which rounds up to even. *)
Definition double_int_bound : Z := (2 ^ 1024 - 2 ^ 970)%Z.
Definition fits_double (z : Z) : bool := (Z.abs z <? double_int_bound)%Z.

(** A statement with the [int] parameters [params] checked when they are
    bound.  The handlers pass the request values they bind as item
    quantities; rowids and the user id of a token stay within 64 bits.
    The URL ids and the Telegram order's [total_amount] and [price] are
    bound without the check in the model (see the header). *)
Definition exec_with {A} (params : list Z) (q : db -> option (A * db)) : M A := fun w =>
  if forallb fits_int64 params then exec q w else (tick w, Raise OverflowError).

(** ** Tables: lookups after each statement *)

Section TableLemmas.
Context {R : Type}.
Implicit Types (t : table R) (l : list (nat * R)).

Lemma lookup_row_app id l1 l2 :
  lookup_row id (l1 ++ l2) =
  match lookup_row id l1 with Some r => Some r | None => lookup_row id l2 end.
Proof.
  induction l1 as [|[k r] l1 IH]; simpl; [done|].
  destruct (Nat.eqb k id); [done | exact IH].
Qed.

Lemma lookup_row_notin id l : id ∉ map fst l -> lookup_row id l = None.
Proof.
  induction l as [|[k r] l IH]; simpl; intros Hn; [done|].
  destruct (Nat.eqb_spec k id) as [->|_]; [set_solver|].
  apply IH. set_solver.
Qed.

Lemma lookup_row_In id l r : lookup_row id l = Some r -> (id, r) ∈ l.
Proof.
  induction l as [|[k r'] l IH]; simpl; [done|].
  destruct (Nat.eqb_spec k id) as [->|_]; intros H.
  - injection H as ->. left.
  - right. by apply IH.
Qed.

Lemma tbl_fresh t : tbl_wf t -> S (seq t) ∉ map fst (rows t).
Proof.
  intros [_ Hb] Hin. rewrite List.Forall_forall in Hb.
  apply list_elem_of_In in Hin. specialize (Hb _ Hin). lia.
Qed.

Lemma tbl_get_fresh t : tbl_wf t -> tbl_get (S (seq t)) t = None.
Proof. intros Hwf. by apply lookup_row_notin, tbl_fresh. Qed.

Lemma tbl_get_insert_eq t r :
  tbl_wf t -> tbl_get (tbl_insert r t).1 (tbl_insert r t).2 = Some r.
Proof.
  intros Hwf. unfold tbl_get, tbl_insert; simpl.
  rewrite lookup_row_app, lookup_row_notin by (by apply tbl_fresh).
  cbn [lookup_row]. by rewrite Nat.eqb_refl.
Qed.

Lemma tbl_get_insert_ne t r id :
  id <> (tbl_insert r t).1 -> tbl_get id (tbl_insert r t).2 = tbl_get id t.
Proof.
  intros Hne. unfold tbl_get, tbl_insert in *; cbn [fst snd rows] in *.
  rewrite lookup_row_app. destruct (lookup_row id (rows t)); [done|].
  cbn [lookup_row]. destruct (Nat.eqb_spec (S (seq t)) id); [congruence | done].
Qed.

Lemma StronglySorted_snoc (xs : list nat) x :
  StronglySorted lt xs -> Forall (fun k => k < x) xs -> StronglySorted lt (xs ++ [x]).
Proof.
  induction xs as [|y xs IH]; simpl; intros Hs Hb.
  - repeat constructor.
  - inversion Hs; subst. inversion Hb; subst. constructor; [by apply IH|].
    apply Forall_app; split; [done|]. by repeat constructor.
Qed.

Lemma tbl_insert_wf t r : tbl_wf t -> tbl_wf (tbl_insert r t).2.
Proof.
  intros [Hs Hb]. unfold tbl_wf, tbl_insert; cbn [fst snd rows seq]. rewrite map_app. split.
  - apply StronglySorted_snoc; [done|]. eapply Forall_impl; [exact Hb|]. simpl; lia.
  - apply Forall_app; split; [|by repeat constructor].
    eapply Forall_impl; [exact Hb|]. simpl; lia.
Qed.

Lemma tbl_update_keys P f t : map fst (rows (tbl_update P f t)) = map fst (rows t).
Proof.
  unfold tbl_update; simpl. rewrite map_map.
  apply map_ext. intros [k r]; simpl. by destruct (P k r).
Qed.

Lemma tbl_update_wf P f t : tbl_wf t -> tbl_wf (tbl_update P f t).
Proof. unfold tbl_wf. rewrite tbl_update_keys. done. Qed.

Lemma StronglySorted_filter_fst (P : nat * R -> bool) l :
  StronglySorted lt (map fst l) -> StronglySorted lt (map fst (List.filter P l)).
Proof.
  induction l as [|kr l IH]; simpl; [done|]. intros Hs. inversion Hs; subst.
  destruct (P kr); simpl; [|by apply IH]. constructor; [by apply IH|].
  rewrite List.Forall_forall in *. intros k Hk. apply H2.
  apply in_map_iff in Hk as (kr' & <- & Hin). apply filter_In in Hin as [Hin _].
  by apply in_map.
Qed.

Lemma tbl_delete_wf P t : tbl_wf t -> tbl_wf (tbl_delete P t).
Proof.
  intros [Hs Hb]. unfold tbl_delete; split; simpl.
  - by apply StronglySorted_filter_fst.
  - rewrite List.Forall_forall in *. intros k Hk. apply Hb.
    apply in_map_iff in Hk as (kr & <- & Hin). apply filter_In in Hin as [Hin _].
    by apply in_map.
Qed.

Lemma tbl_get_update P f t id :
  tbl_get id (tbl_update P f t) =
  match tbl_get id t with Some r => Some (if P id r then f r else r) | None => None end.
Proof.
  unfold tbl_get, tbl_update; simpl. induction (rows t) as [|[k r] l IH]; simpl; [done|].
  destruct (P k r) eqn:HP; simpl; destruct (Nat.eqb_spec k id) as [->|]; by rewrite ?HP.
Qed.

Lemma tbl_get_delete P t id :
  tbl_wf t ->
  tbl_get id (tbl_delete P t) =
  match tbl_get id t with Some r => if P id r then None else Some r | None => None end.
Proof.
  intros [Hs _]. unfold tbl_get, tbl_delete; simpl.
  induction (rows t) as [|[k r] l IH]; simpl in *; [done|]. inversion Hs; subst.
  destruct (Nat.eqb_spec k id) as [->|Hne].
  - destruct (P id r) eqn:HP; simpl; [|by rewrite Nat.eqb_refl].
    apply lookup_row_notin. intros Hin. apply list_elem_of_In, in_map_iff in Hin as (kr & Hk & Hin).
    apply filter_In in Hin as [Hin _]. rewrite List.Forall_forall in H2.
    specialize (H2 kr.1 (in_map _ _ _ Hin)). lia.
  - destruct (P k r); simpl; [by apply IH|].
    destruct (Nat.eqb_spec k id); [congruence | by apply IH].
Qed.

Lemma tbl_select_insert P t r :
  tbl_select P (tbl_insert r t).2 =
  tbl_select P t ++ (if P (tbl_insert r t).1 r then [((tbl_insert r t).1, r)] else []).
Proof. unfold tbl_select, tbl_insert; simpl. rewrite List.filter_app. simpl. by destruct (P _ r). Qed.

Lemma tbl_select_delete P Q t :
  tbl_select P (tbl_delete Q t) = List.filter (fun kr => negb (Q kr.1 kr.2)) (tbl_select P t).
Proof.
  unfold tbl_select, tbl_delete; simpl. induction (rows t) as [|[k r] l IH]; simpl; [done|].
  destruct (Q k r) eqn:HQ, (P k r) eqn:HP; simpl; rewrite ?HQ, ?HP; simpl; by rewrite IH.
Qed.

Lemma tbl_find_None P t : tbl_find P t = None <-> forall k r, (k, r) ∈ rows t -> P k r = false.
Proof.
  unfold tbl_find. induction (rows t) as [|[k r] l IH]; simpl.
  - split; [intros _ k r Hin; by apply elem_of_nil in Hin | done].
  - destruct (P k r) eqn:HP; split; try done.
    + intros Hn. specialize (Hn k r (proj2 (elem_of_cons _ _ _) (or_introl eq_refl))). congruence.
    + intros Hl k' r' Hin. apply elem_of_cons in Hin as [[= -> ->]|Hin]; [done|]. by apply IH.
    + intros Hl. apply IH. intros k' r' Hin. apply Hl. rewrite elem_of_cons. by right.
Qed.

Lemma tbl_find_Some P t k r : tbl_find P t = Some (k, r) -> (k, r) ∈ rows t /\ P k r = true.
Proof.
  unfold tbl_find. intros Hf. apply find_some in Hf as [Hin HP]. by rewrite list_elem_of_In.
Qed.

(** A [DELETE ... WHERE P] leaves no row that [P] selects, and every row
    that [P] keeps apart stays selected as it was. *)
Lemma tbl_select_delete_all P Q t :
  (forall k r, P k r = true -> Q k r = true) -> tbl_select P (tbl_delete Q t) = [].
Proof.
  intros HPQ. rewrite tbl_select_delete. unfold tbl_select.
  induction (rows t) as [|[k r] l IH]; simpl; [done|].
  destruct (P k r) eqn:HP; simpl; [|done]. by rewrite (HPQ k r HP).
Qed.

Lemma tbl_select_delete_disj P Q t :
  (forall k r, P k r = true -> Q k r = false) -> tbl_select P (tbl_delete Q t) = tbl_select P t.
Proof.
  intros HPQ. rewrite tbl_select_delete. unfold tbl_select.
  induction (rows t) as [|[k r] l IH]; simpl; [done|].
  destruct (P k r) eqn:HP; simpl; [|done]. by rewrite (HPQ k r HP), IH.
Qed.

Lemma tbl_find_insert P t r :
  tbl_find P (tbl_insert r t).2 =
  match tbl_find P t with
  | Some kr => Some kr
  | None => if P (tbl_insert r t).1 r then Some ((tbl_insert r t).1, r) else None
  end.
Proof.
  unfold tbl_find, tbl_insert; simpl. induction (rows t) as [|[k r'] l IH]; simpl; [done|].
  by destruct (P k r').
Qed.

Lemma tbl_update_elem P f t k r :
  (k, r) ∈ rows (tbl_update P f t) <-> exists r0, (k, r0) ∈ rows t /\ r = if P k r0 then f r0 else r0.
Proof.
  unfold tbl_update; simpl. rewrite list_elem_of_fmap. split.
  - intros ([k0 r0] & Heq & Hin). simpl in Heq. exists r0.
    destruct (P k0 r0) eqn:HP; injection Heq as -> ->; rewrite HP; by split.
  - intros (r0 & Hin & ->). exists (k, r0). simpl. by destruct (P k r0).
Qed.

Lemma tbl_delete_elem P t k r : (k, r) ∈ rows (tbl_delete P t) <-> (k, r) ∈ rows t /\ P k r = false.
Proof.
  unfold tbl_delete; simpl. rewrite !list_elem_of_In, filter_In. simpl.
  by rewrite Bool.negb_true_iff.
Qed.

(** In a well-formed table a rowid names one row. *)
Lemma tbl_get_elem t k r : tbl_wf t -> (k, r) ∈ rows t -> tbl_get k t = Some r.
Proof.
  intros [Hs _]. unfold tbl_get. induction (rows t) as [|[k' r'] l IH]; simpl in *; intros Hin;
    [by apply elem_of_nil in Hin|].
  inversion Hs as [|? ? Hs' Hlt]; subst. apply elem_of_cons in Hin as [[= -> ->]|Hin].
  - by rewrite Nat.eqb_refl.
  - destruct (Nat.eqb_spec k' k) as [->|]; [|by apply IH].
    rewrite List.Forall_forall in Hlt. specialize (Hlt k (in_map fst _ _ (proj1 (list_elem_of_In _ _) Hin))). lia.
Qed.

(** An UPDATE of rows that come after the first row a [fetch_one] finds
    leaves that answer as it was. *)
Lemma tbl_find_update_after P Q f t k r :
  tbl_wf t -> tbl_find P t = Some (k, r) -> (forall k' r', Q k' r' = true -> k < k') ->
  tbl_find P (tbl_update Q f t) = Some (k, r).
Proof.
  intros [Hs _]. unfold tbl_find, tbl_update; simpl. intros Hf HQ.
  induction (rows t) as [|[k0 r0] l IH]; simpl in *; [done|]. inversion Hs as [|? ? Hs' Hlt]; subst.
  destruct (P k0 r0) eqn:HP.
  - injection Hf as -> ->. destruct (Q k r) eqn:Hq; [specialize (HQ _ _ Hq); lia|]. simpl. by rewrite HP.
  - destruct (Q k0 r0) eqn:Hq; simpl; [|rewrite HP; by apply IH].
    exfalso. specialize (HQ _ _ Hq). apply find_some in Hf as [Hin _].
    rewrite List.Forall_forall in Hlt. specialize (Hlt k (in_map fst _ _ Hin)). simpl in Hlt. lia.
Qed.

(** In a well-formed table a [fetch_one] finds the matching row of the
    smallest rowid. *)
Lemma tbl_find_first P t k r k' r' :
  tbl_wf t -> tbl_find P t = Some (k, r) -> (k', r') ∈ rows t -> P k' r' = true -> k <= k'.
Proof.
  intros [Hs _]. unfold tbl_find. induction (rows t) as [|[k0 r0] l IH]; simpl in *;
    intros Hf Hin HP; [by apply elem_of_nil in Hin|].
  inversion Hs as [|? ? Hs' Hlt]; subst. rewrite List.Forall_forall in Hlt.
  destruct (P k0 r0) eqn:HP0.
  - injection Hf as -> ->. apply elem_of_cons in Hin as [[= -> ->]|Hin]; [lia|].
    specialize (Hlt k' (in_map fst _ _ (proj1 (list_elem_of_In _ _) Hin))). simpl in Hlt. lia.
  - apply elem_of_cons in Hin as [[= -> ->]|Hin]; [congruence|]. by apply IH.
Qed.

Lemma tbl_insert_elem t r k r' :
  (k, r') ∈ rows (tbl_insert r t).2 <-> (k, r') ∈ rows t \/ (k, r') = ((tbl_insert r t).1, r).
Proof. unfold tbl_insert; simpl. by rewrite elem_of_app, list_elem_of_singleton. Qed.
End TableLemmas.

#[export] Hint Resolve tbl_insert_wf tbl_update_wf tbl_delete_wf : osys.

(** ** The invariant as a computation *)

Fixpoint ascending (l : list nat) : bool :=
  match l with
  | [] => true
  | x :: l' => forallb (fun y => Nat.ltb x y) l' && ascending l'
  end.

Definition tbl_wfb {R} (t : table R) : bool :=
  ascending (map fst (rows t)) && forallb (fun k => Nat.leb k (seq t)) (map fst (rows t)).

Lemma ascending_sound l : ascending l = true -> StronglySorted lt l.
Proof.
  induction l as [|x l IH]; simpl; [constructor|]. intros [Hf Ha]%andb_true_iff.
  constructor; [by apply IH|]. apply Forall_forall. intros y Hy.
  rewrite forallb_forall in Hf. apply list_elem_of_In in Hy. specialize (Hf y Hy). by apply Nat.ltb_lt.
Qed.

Lemma tbl_wfb_sound {R} (t : table R) : tbl_wfb t = true -> tbl_wf t.
Proof.
  unfold tbl_wfb, tbl_wf. intros [Ha Hb]%andb_true_iff. split; [by apply ascending_sound|].
  apply Forall_forall. intros k Hk. rewrite forallb_forall in Hb.
  apply list_elem_of_In in Hk. specialize (Hb k Hk). by apply Nat.leb_le.
Qed.

Definition db_wfb (d : db) : bool :=
  tbl_wfb (users d) && tbl_wfb (products d) && tbl_wfb (orders d) && tbl_wfb (order_items d) &&
  tbl_wfb (tokens d).

Lemma db_wfb_sound d : db_wfb d = true -> db_wf d.
Proof.
  unfold db_wfb. intros H.
  apply andb_prop in H as [H Ht]. apply andb_prop in H as [H Hi].
  apply andb_prop in H as [H Ho]. apply andb_prop in H as [Hu Hp].
  refine (conj _ (conj _ (conj _ (conj _ _)))); by apply tbl_wfb_sound.
Qed.

(** ** The statement primitive *)

Lemma exec_run {A} (q : db -> option (A * db)) w a d' :
  w_stmt w ∉ w_faults w -> q (w_db w) = Some (a, d') ->
  exec q w = (set_db d' (tick w), Ret a).
Proof. intros Hf Hq. unfold exec. rewrite decide_False by done. by rewrite Hq. Qed.

Lemma exec_fault {A} (q : db -> option (A * db)) w :
  w_stmt w ∈ w_faults w -> exec q w = (tick w, Raise DbError).
Proof. intros Hf. unfold exec. by rewrite decide_True. Qed.

(** A statement that returned ran its query on the database it found and
    committed the result. *)
Lemma exec_ret_inv {A} (q : db -> option (A * db)) w w' a :
  exec q w = (w', Ret a) -> q (w_db w) = Some (a, w_db w').
Proof.
  unfold exec. case_decide; [done|]. destruct (q (w_db w)) as [[a' d']|]; [|done].
  by intros [= <- <-].
Qed.

(** A statement that raised committed nothing. *)
Lemma exec_raise_inv {A} (q : db -> option (A * db)) w w' e :
  exec q w = (w', Raise e) -> w_db w' = w_db w.
Proof. unfold exec. case_decide; [by intros [= <-]|]. destruct (q (w_db w)) as [[a' d']|]; by intros [= <-]. Qed.

Lemma exec_refused {A} (q : db -> option (A * db)) w :
  q (w_db w) = None -> exec q w = (tick w, Raise DbError).
Proof. intros Hq. unfold exec. case_decide; [done|]. by rewrite Hq. Qed.

Lemma query_run {A} (f : db -> A) w :
  w_stmt w ∉ w_faults w -> query f w = (tick w, Ret (f (w_db w))).
Proof. intros Hf. unfold query. by rewrite decide_False. Qed.

Lemma query_db {A} (f : db -> A) w : w_db (query f w).1 = w_db w /\ w_sent (query f w).1 = w_sent w.
Proof. unfold query. by case_decide. Qed.

(** Every statement, whatever its result, advances the statement counter
    by one and never changes the clock or the notification log. *)
Lemma exec_frame {A} (q : db -> option (A * db)) w :
  w_stmt (exec q w).1 = S (w_stmt w) /\ w_sent (exec q w).1 = w_sent w /\
  w_now (exec q w).1 = w_now w /\ w_faults (exec q w).1 = w_faults w.
Proof. unfold exec. case_decide; [done|]. by destruct (q (w_db w)) as [[a d']|]. Qed.

(** ** Flask replies *)

(** A handler's reply: a JSON payload with its status code, or
    [{'error': msg}] with its status code. *)
Inductive reply (A : Type) := Reply (code : nat) (v : A) | ErrorReply (code : nat) (msg : string).
Arguments Reply {A} code v.
Arguments ErrorReply {A} code msg.

(** Flask turns an exception that escapes a handler into a 500 reply; the
    statements committed before it stay committed. *)
Definition serve {A} (h : M (reply A)) (w : world) : world * reply A :=
  match h w with
  | (w', Ret r) => (w', r)
  | (w', Raise _) => (w', ErrorReply 500 "Internal Server Error")
  end.

(** [rows_to_dict_list] (app.py:23-24): [dict(row)] keeps the columns
    of a row, so the list is the rows themselves, [[]] when there are
    none. *)
Definition rows_to_dict_list {A} (rows : list A) : list A :=
  match rows with [] => [] | _ => rows end.

(** ** Frame relations between the world before and after a computation *)

(** Read-only: the database and the notification log are unchanged. *)
Definition ro (w w' : world) : Prop := w_db w' = w_db w /\ w_sent w' = w_sent w.

(** The log only grows: the attempts already made stay as they were. *)
Definition sent_ext (w w' : world) : Prop := exists l, w_sent w' = w_sent w ++ l.

(** An invariant [I] of the database holds after if it held before. *)
Definition inv_kept (I : db -> Prop) (w w' : world) : Prop := I (w_db w) -> I (w_db w').

#[export] Instance ro_preorder : PreOrder ro.
Proof.
  split; [by intros w | intros w1 w2 w3 [H1 H2] [H3 H4]; split; congruence].
Qed.

#[export] Instance sent_ext_preorder : PreOrder sent_ext.
Proof.
  split; [intros w; exists []; by rewrite app_nil_r|].
  intros w1 w2 w3 [l1 H1] [l2 H2]. exists (l1 ++ l2). by rewrite H2, H1, app_assoc.
Qed.

#[export] Instance inv_kept_preorder I : PreOrder (inv_kept I).
Proof. unfold inv_kept. split; [intros w HI; exact HI | intros w1 w2 w3 H1 H2 HI; auto]. Qed.

Lemma query_ro {A} (f : db -> A) : est_pres ro (query f).
Proof. intros w. apply query_db. Qed.

Lemma query_sent_ext {A} (f : db -> A) : est_pres sent_ext (query f).
Proof. intros w. exists []. rewrite app_nil_r. apply query_db. Qed.

Lemma query_inv_kept {A} I (f : db -> A) : est_pres (inv_kept I) (query f).
Proof. intros w. unfold inv_kept. by rewrite (proj1 (query_db f w)). Qed.

Lemma now_ro : est_pres ro now.
Proof. by intros w. Qed.

Lemma now_sent_ext : est_pres sent_ext now.
Proof. intros w. simpl. reflexivity. Qed.

Lemma now_inv_kept I : est_pres (inv_kept I) now.
Proof. intros w. simpl. reflexivity. Qed.

Lemma exec_sent_ext {A} (q : db -> option (A * db)) : est_pres sent_ext (exec q).
Proof. intros w. exists []. rewrite app_nil_r. apply (exec_frame q w). Qed.

(** A statement keeps an invariant when every change it commits keeps it. *)
Lemma exec_inv_kept {A} (I : db -> Prop) (q : db -> option (A * db)) :
  (forall d a d', I d -> q d = Some (a, d') -> I d') -> est_pres (inv_kept I) (exec q).
Proof.
  intros Hq w HI. unfold exec. case_decide; [done|].
  destruct (q (w_db w)) as [[a d']|] eqn:E; [by eapply Hq | done].
Qed.

(** The parts of the world that statements and sends never change. *)
Definition env_same (w w' : world) : Prop :=
  w_now w' = w_now w /\ w_faults w' = w_faults w /\ w_bot_token w' = w_bot_token w /\
  w_net_down w' = w_net_down w.

#[export] Instance env_same_preorder : PreOrder env_same.
Proof. split; [by intros w | intros w1 w2 w3 (?&?&?&?) (?&?&?&?); repeat split; congruence]. Qed.

Lemma query_env {A} (f : db -> A) : est_pres env_same (query f).
Proof. intros w. unfold query. by case_decide. Qed.

Lemma exec_env {A} (q : db -> option (A * db)) : est_pres env_same (exec q).
Proof. intros w. unfold exec. case_decide; [done|]. by destruct (q (w_db w)) as [[a d']|]. Qed.

Lemma now_env : est_pres env_same now.
Proof. intros w. simpl. reflexivity. Qed.

Lemma no_faults_clear w i : w_faults w = [] -> i ∉ w_faults w.
Proof. intros ->. apply not_elem_of_nil. Qed.

#[export] Hint Resolve query_env exec_env now_env no_faults_clear : osys.

(** A statement with parameters keeps what every statement keeps, when
    consuming a statement index keeps it too. *)
Lemma exec_with_pres {A} (R : relation world) params (q : db -> option (A * db)) :
  (forall w, R w (tick w)) -> est_pres R (exec q) -> est_pres R (exec_with params q).
Proof. intros Ht Hq w. unfold exec_with. destruct (forallb fits_int64 params); [apply Hq | apply Ht]. Qed.

Lemma exec_with_fits {A} params (q : db -> option (A * db)) w :
  forallb fits_int64 params = true -> exec_with params q w = exec q w.
Proof. intros Hp. unfold exec_with. by rewrite Hp. Qed.

Lemma exec_with_overflow {A} params (q : db -> option (A * db)) w :
  forallb fits_int64 params = false -> exec_with params q w = (tick w, Raise OverflowError).
Proof. intros Hp. unfold exec_with. by rewrite Hp. Qed.

Lemma int64_bounds : int64_min = (- 2 ^ 63)%Z /\ int64_max = (2 ^ 63 - 1)%Z.
Proof. split; vm_compute; reflexivity. Qed.

Lemma tick_env w : env_same w (tick w).
Proof. done. Qed.

Lemma tick_sent_ext w : sent_ext w (tick w).
Proof. exists []. by rewrite app_nil_r. Qed.

Lemma tick_inv_kept I w : inv_kept I w (tick w).
Proof. by intros HI. Qed.

#[export] Hint Resolve tick_env tick_sent_ext tick_inv_kept : osys.
#[export] Hint Extern 1 (est_pres _ (exec_with _ _)) => apply exec_with_pres : osys.

#[export] Hint Resolve query_ro query_sent_ext query_inv_kept now_ro now_sent_ext now_inv_kept
  exec_sent_ext : osys.
