(* ===== verification/Notify.v ===== *)
(** * The notification channel: [send_telegram_notification] (app.py:26-63)

    The interface the handlers rely on is the typeclass
    [NotificationChannel]: [send] never raises, leaves the database and the
    statement counter alone, and logs exactly one attempt with its
    recipient and notice.  The handlers of [Orders.v] and [Linking.v] are
    proved against this interface; [telegram_channel] is its instance that
    models the code (the asynchronous HTTP push wrapped in a fresh event
    loop, every exception turned into [False]). *)

From S2P Require Import Prelude Store.

Class NotificationChannel := {
  send : string -> notice -> M bool;
  send_spec : forall chat n w,
    exists ok, send chat n w = (log_attempt {| at_chat := chat; at_notice := n; at_ok := ok |} w, Ret ok)
}.

(** [send_telegram_notification_async] (app.py:26-52): without [BOT_TOKEN]
    it returns [False] before any request; otherwise the push succeeds
    unless the network (timeout, connection error, non-200 reply) fails
    this attempt.  Every exception is caught, here and in the synchronous
    wrapper (app.py:54-63), so the result is a boolean and nothing is
    raised. *)
Definition send_telegram_notification_async (w : world) : bool :=
  if w_bot_token w then negb (bool_decide (length (w_sent w) ∈ w_net_down w)) else false.

Definition send_telegram_notification (chat : string) (n : notice) : M bool := fun w =>
  let ok := send_telegram_notification_async w in
  (log_attempt {| at_chat := chat; at_notice := n; at_ok := ok |} w, Ret ok).

#[export] Program Instance telegram_channel : NotificationChannel := {
  send := send_telegram_notification
}.
Next Obligation. intros chat n w. by eexists. Qed.

(** ** Consequences of the interface *)

Section ChannelFacts.
Context `{NotificationChannel}.

Lemma send_db chat n w : w_db (send chat n w).1 = w_db w.
Proof. by destruct (send_spec chat n w) as [ok ->]. Qed.

Lemma send_stmt chat n w : w_stmt (send chat n w).1 = w_stmt w.
Proof. by destruct (send_spec chat n w) as [ok ->]. Qed.

Lemma send_sent chat n w :
  exists ok, w_sent (send chat n w).1 = w_sent w ++ [{| at_chat := chat; at_notice := n; at_ok := ok |}].
Proof. destruct (send_spec chat n w) as [ok ->]. by exists ok. Qed.

(** A send followed by the rest of a handler: the rest runs on the world
    with one more logged attempt, whatever the push returned. *)
Lemma send_bind {A} chat n (k : bool -> M A) w :
  exists ok, (send chat n ≫= k) w =
             k ok (log_attempt {| at_chat := chat; at_notice := n; at_ok := ok |} w).
Proof. destruct (send_spec chat n w) as [ok Hs]. exists ok. by apply est_bind_run. Qed.

Lemma send_sent_ext chat n : est_pres sent_ext (send chat n).
Proof.
  intros w. destruct (send_spec chat n w) as [ok ->]. simpl.
  eexists. reflexivity.
Qed.

Lemma send_inv_kept I chat n : est_pres (inv_kept I) (send chat n).
Proof. intros w HI. by rewrite send_db. Qed.

Lemma send_env chat n : est_pres env_same (send chat n).
Proof. intros w. by destruct (send_spec chat n w) as [ok ->]. Qed.
End ChannelFacts.

#[export] Hint Resolve send_sent_ext send_inv_kept send_env : osys.
