(* ===== verification/Orders.v ===== *)
(** * The order workflow: [create_order], [get_orders], [get_order],
      [update_order] (app.py:334-537)

    Each handler is written statement by statement in the monad [M]: one
    [exec]/[query] per [execute_query] call, one [send] per
    [send_telegram_notification] call, early [return]s as replies.  The
    handlers take the user id that [jwt_required] put in [request.user_id]
    and the parsed JSON body.  They are defined in a Section over a
    [NotificationChannel], so their theorems hold for any channel that
    meets the interface. *)

From S2P Require Import Prelude Store Notify.

(** ** Request and response data *)

(** An element of [data['items']]: its [product_id] and [qty] fields
    ([None] when missing or [null]). *)
Record item_req := { req_product_id : option nat; req_qty : option Z }.

Definition truthy_nat (o : option nat) : bool :=
  match o with Some n => negb (Nat.eqb n 0) | None => false end.

(** An entry of [order_items] in [create_order] (app.py:362-369). *)
Record line := {
  l_product_id : nat; l_qty : Z; l_price : Z; l_name : string;
  l_owner_id : nat; l_owner_tg : option string
}.

(** [product_owners] (app.py:344, 371-381): a dict in insertion order from
    owner id to the owner's chat id and lines. *)
Definition owners := list (nat * (option string * list owner_line)).

Fixpoint add_owner_line (oid : nat) (tg : option string) (ol : owner_line) (os : owners) : owners :=
  match os with
  | [] => [(oid, (tg, [ol]))]
  | (k, (tg', ls)) :: os' =>
      if Nat.eqb k oid then (k, (tg', ls ++ [ol])) :: os' else (k, (tg', ls)) :: add_owner_line oid tg ol os'
  end.

(** An item of a reply (app.py:428-433, 474-479). *)
Record item_view := { iv_product_name : string; iv_quantity : Z; iv_price : Z; iv_total : Z }.

(** The reply of [create_order] and [get_order]; [ov_items] is empty in
    the reply of [update_order], which has no [items] key. *)
Record order_view := {
  ov_id : nat; ov_total_amount : Z; ov_status : string; ov_created_at : Z; ov_items : list item_view
}.

(** ** Statements *)

(** [SELECT p.*, u.telegram_id, u.id as owner_id FROM products p JOIN users u
    ON p.created_by = u.id WHERE p.id = ?] (app.py:350-354). *)
Definition product_with_owner (pid : nat) (d : db) : option (product_row * user_row) :=
  match tbl_get pid (products d) with
  | Some p => match tbl_get (p_created_by p) (users d) with
              | Some u => Some (p, u)
              | None => None
              end
  | None => None
  end.

(** [INSERT INTO orders (user_id, total_amount, status) VALUES (?, ?, ?)]
    with [lastrowid]; [created_at] is [CURRENT_TIMESTAMP]. *)
Definition insert_order (uid : nat) (total : Z) (status : string) (ts : Z) (d : db) : option (nat * db) :=
  let '(id, t) := tbl_insert {| o_user_id := uid; o_total_amount := total; o_status := status;
                                o_created_at := ts |} (orders d) in
  Some (id, set_orders t d).

(** [INSERT INTO order_items (order_id, product_id, qty, price) VALUES (?, ?, ?, ?)]. *)
Definition insert_item (oid pid : nat) (qty price : Z) (d : db) : option (unit * db) :=
  let '(_, t) := tbl_insert {| oi_order_id := oid; oi_product_id := pid; oi_qty := qty;
                               oi_price := price |} (order_items d) in
  Some (tt, set_order_items t d).

(** [SELECT oi.*, p.name as product_name FROM order_items oi JOIN products p
    ON oi.product_id = p.id WHERE oi.order_id = ?]: the order's items in
    rowid order, those whose product row is gone dropped by the inner join. *)
Definition items_of_order (oid : nat) (d : db) : list (item_row * string) :=
  omap (fun kr : nat * item_row =>
          match tbl_get (oi_product_id kr.2) (products d) with
          | Some p => Some (kr.2, p_name p)
          | None => None
          end)
       (tbl_select (fun _ i => Nat.eqb (oi_order_id i) oid) (order_items d)).

Definition item_view_of (x : item_row * string) : item_view :=
  {| iv_product_name := x.2; iv_quantity := oi_qty x.1; iv_price := oi_price x.1;
     iv_total := oi_qty x.1 * oi_price x.1 |}.

(** [SELECT * FROM users WHERE id = ?]. *)
Definition user_by_id (uid : nat) (d : db) : option user_row := tbl_get uid (users d).

(** [SELECT * FROM orders WHERE id = ? AND user_id = ?]. *)
Definition order_of_user (oid uid : nat) (d : db) : option order_row :=
  match tbl_get oid (orders d) with
  | Some o => if Nat.eqb (o_user_id o) uid then Some o else None
  | None => None
  end.

(** [SELECT o.*, COUNT(oi.id) as items_count FROM orders o LEFT JOIN
    order_items oi ON o.id = oi.order_id WHERE o.user_id = ? GROUP BY o.id
    ORDER BY o.created_at DESC] (app.py:439-446): the user's orders with the
    count of their item rows, newest first (ties in rowid order). *)
Definition count_items (oid : nat) (d : db) : nat :=
  length (tbl_select (fun _ i => Nat.eqb (oi_order_id i) oid) (order_items d)).

Definition orders_with_counts (uid : nat) (d : db) : list (nat * order_row * nat) :=
  sort_desc (fun x : nat * order_row * nat => o_created_at x.1.2)
    (map (fun kr : nat * order_row => (kr.1, kr.2, count_items kr.1 d))
       (tbl_select (fun _ o => Nat.eqb (o_user_id o) uid) (orders d))).

(** [allowed_statuses] (app.py:499). *)
Definition allowed_statuses : list string := ["new"; "in_progress"; "completed"; "canceled"]%string.

Definition with_status (s : string) (o : order_row) : order_row :=
  {| o_user_id := o_user_id o; o_total_amount := o_total_amount o; o_status := s;
     o_created_at := o_created_at o |}.

(** [UPDATE orders SET status = ? WHERE id = ?] (app.py:503-506). *)
Definition set_status (oid : nat) (s : string) (d : db) : option (unit * db) :=
  Some (tt, set_orders (tbl_update (fun k _ => Nat.eqb k oid) (with_status s) (orders d)) d).

(** [SELECT u.telegram_id FROM orders o JOIN users u ON o.user_id = u.id
    WHERE o.id = ?] (app.py:508-512): [None] when there is no row. *)
Definition buyer_chat_of_order (oid : nat) (d : db) : option (option string) :=
  match tbl_get oid (orders d) with
  | Some o => match tbl_get (o_user_id o) (users d) with
              | Some u => Some (u_telegram_id u)
              | None => None
              end
  | None => None
  end.

Section Handlers.
Context `{NotificationChannel}.

(** ** [create_order] (app.py:334-434) *)

(** The loop of app.py:346-381: validate each item, resolve its product
    and accumulate the total, the lines and the owners.  [inl] is an
    early reply.  The price read from the [REAL] column is a float, so
    [product['price'] * item['qty']] (app.py:359) converts the quantity
    to a double and raises [OverflowError] when it is too large for one. *)
Fixpoint resolve_items (items : list item_req) (total : Z) (ls : list line) (os : owners)
  : M (reply order_view + (Z * list line * owners)) :=
  match items with
  | [] => mret (inr (total, ls, os))
  | it :: items' =>
      if negb (truthy_nat (req_product_id it)) || negb (truthy_Z (req_qty it)) then
        mret (inl (ErrorReply 400 "Each item must have product_id and qty"))
      else
        let pid := default 0 (req_product_id it) in
        let qty := default 0%Z (req_qty it) in
        r ← query (product_with_owner pid);
        match r with
        | None => mret (inl (ErrorReply 404 "Product with id not found"))
        | Some (p, u) =>
            if negb (fits_double qty) then throw OverflowError else
            let item_total := (p_price p * qty)%Z in
            let l := {| l_product_id := pid; l_qty := qty; l_price := p_price p;
                        l_name := p_name p; l_owner_id := p_created_by p;
                        l_owner_tg := u_telegram_id u |} in
            resolve_items items' (total + item_total)%Z (ls ++ [l])
              (add_owner_line (p_created_by p) (u_telegram_id u)
                 (p_name p, qty, p_price p, item_total) os)
        end
  end.

(** app.py:389-393: one INSERT per line, in order. *)
Fixpoint insert_items (oid : nat) (ls : list line) : M unit :=
  match ls with
  | [] => mret tt
  | l :: ls' => exec_with [l_qty l] (insert_item oid (l_product_id l) (l_qty l) (l_price l)) ;; insert_items oid ls'
  end.

(** app.py:401-407. *)
Definition notify_buyer (oid : nat) (buyer : option user_row) (ls : list line) (total : Z) : M unit :=
  match buyer with
  | Some b =>
      if truthy_str (u_telegram_id b) then
        let more := if Nat.ltb 3 (length ls) then length ls - 3 else 0 in
        _ ← send (default ""%string (u_telegram_id b))
              (NOrderCreated oid (map (fun l => (l_name l, l_qty l)) (take 3 ls)) more total);
        mret tt
      else mret tt
  | None => mret tt
  end.

(** app.py:409-414: one notice per owner other than the buyer. *)
Fixpoint notify_owners (uid oid : nat) (os : owners) : M unit :=
  match os with
  | [] => mret tt
  | (k, (tg, ols)) :: os' =>
      (if truthy_str tg && negb (Nat.eqb k uid) then
         _ ← send (default ""%string tg)
               (NProductsBought oid ols (sumZ (fun ol : owner_line => ol.2) ols));
         mret tt
       else mret tt) ;;
      notify_owners uid oid os'
  end.

(** app.py:389-434, once the order row [oid] is written. *)
Definition after_insert (uid oid : nat) (total : Z) (ls : list line) (os : owners)
  : M (reply order_view) :=
  insert_items oid ls ;;
  buyer ← query (user_by_id uid);
  notify_buyer oid buyer ls total ;;
  notify_owners uid oid os ;;
  details ← query (items_of_order oid);
  t ← now;
  mret (Reply 201 {| ov_id := oid; ov_total_amount := total; ov_status := "new";
                     ov_created_at := t; ov_items := map item_view_of details |}).

Definition create_order (uid : nat) (items : option (list item_req)) : M (reply order_view) :=
  match items with
  | None | Some [] => mret (ErrorReply 400 "Items array required")
  | Some its =>
      res ← resolve_items its 0%Z [] [];
      match res with
      | inl r => mret r
      | inr (total, ls, os) =>
          ts ← now;
          oid ← exec (insert_order uid total "new" ts);
          after_insert uid oid total ls os
      end
  end.
(** ** [get_orders] (app.py:436-448) *)
Definition get_orders (uid : nat) : M (reply (list (nat * order_row * nat))) :=
  os ← query (orders_with_counts uid);
  mret (Reply 200 (rows_to_dict_list os)).

(** ** [get_order] (app.py:450-480).  The URL's [order_id] is bound as
    an SQLite INTEGER; an id of [2^63] or more would raise
    [OverflowError] (500) at the SELECT, which the model does not check
    (it answers 404). *)
Definition get_order (uid oid : nat) : M (reply order_view) :=
  o ← query (order_of_user oid uid);
  match o with
  | None => mret (ErrorReply 404 "Order not found")
  | Some o =>
      its ← query (items_of_order oid);
      mret (Reply 200 {| ov_id := oid; ov_total_amount := o_total_amount o; ov_status := o_status o;
                         ov_created_at := o_created_at o; ov_items := map item_view_of its |})
  end.

(** ** [update_order] (app.py:482-537)

    [data] is [request.get_json()]: [None] for a JSON [null] body, on
    which ['status' in data] raises; [Some None] for a body without a
    [status] key. *)
Definition change_status (oid : nat) (old : string) (data : option (option string))
  : M (option (reply order_view)) :=
  match data with
  | None => throw TypeError
  | Some None => mret None
  | Some (Some s) =>
      if bool_decide (s ∈ allowed_statuses) then
        exec (set_status oid s) ;;
        buyer ← query (buyer_chat_of_order oid);
        match buyer with
        | Some tg =>
            if truthy_str tg then
              _ ← send (default ""%string tg) (NStatusChanged oid s old); mret None
            else mret None
        | None => mret None
        end
      else mret (Some (ErrorReply 400 "Invalid status"))
  end.

(** [update_order] (app.py:482-537); its URL [order_id] is bound
    without the 64-bit check, as in [get_order]. *)
Definition update_order (uid oid : nat) (data : option (option string)) : M (reply order_view) :=
  o ← query (order_of_user oid uid);
  match o with
  | None => mret (ErrorReply 404 "Order not found")
  | Some o =>
      early ← change_status oid (o_status o) data;
      match early with
      | Some r => mret r
      | None =>
          upd ← query (fun d => tbl_get oid (orders d));
          match upd with
          | None => throw TypeError
          | Some u => mret (Reply 200 {| ov_id := oid; ov_total_amount := o_total_amount u;
                                        ov_status := o_status u; ov_created_at := o_created_at u;
                                        ov_items := [] |})
          end
      end
  end.
End Handlers.

(** ** Specification of [create_order]

    What the loop should compute, stated without the monad: each item
    resolves to a line with the product's price at call time, the total is
    the sum of the line totals, and the owners are the grouping of the
    lines by owner in order of first appearance. *)

Definition line_of (d : db) (it : item_req) : option line :=
  if truthy_nat (req_product_id it) && truthy_Z (req_qty it) && fits_double (default 0%Z (req_qty it)) then
    match product_with_owner (default 0 (req_product_id it)) d with
    | Some (p, u) =>
        Some {| l_product_id := default 0 (req_product_id it); l_qty := default 0%Z (req_qty it);
                l_price := p_price p; l_name := p_name p; l_owner_id := p_created_by p;
                l_owner_tg := u_telegram_id u |}
    | None => None
    end
  else None.

Fixpoint lines_of (d : db) (its : list item_req) : option (list line) :=
  match its with
  | [] => Some []
  | it :: its' =>
      match line_of d it, lines_of d its' with
      | Some l, Some ls => Some (l :: ls)
      | _, _ => None
      end
  end.

Definition line_total (l : line) : Z := (l_price l * l_qty l)%Z.

Definition owner_line_of (l : line) : owner_line := (l_name l, l_qty l, l_price l, line_total l).

Definition group_step (os : owners) (l : line) : owners :=
  add_owner_line (l_owner_id l) (l_owner_tg l) (owner_line_of l) os.

(** The order item row a line is stored as: the price is copied. *)
Definition item_of (oid : nat) (l : line) : item_row :=
  {| oi_order_id := oid; oi_product_id := l_product_id l; oi_qty := l_qty l; oi_price := l_price l |}.

(** The database invariant of the order workflow: well-formed tables,
    every item row refers to an order rowid already handed out, and every
    stored status is one of [allowed_statuses]. *)
Definition order_db_inv (d : db) : Prop :=
  db_wf d /\
  Forall (fun kr : nat * item_row => oi_order_id kr.2 <= seq (orders d)) (rows (order_items d)) /\
  Forall (fun kr : nat * order_row => o_status kr.2 ∈ allowed_statuses) (rows (orders d)).

(** No injected fault among the next [n] statements. *)
Definition clear_for (n : nat) (w : world) : Prop :=
  forall i, w_stmt w <= i < w_stmt w + n -> i ∉ w_faults w.

Definition order_db_invb (d : db) : bool :=
  db_wfb d &&
  forallb (fun kr : nat * item_row => Nat.leb (oi_order_id kr.2) (seq (orders d))) (rows (order_items d)) &&
  forallb (fun kr : nat * order_row => bool_decide (o_status kr.2 ∈ allowed_statuses)) (rows (orders d)).

Lemma order_db_invb_sound d : order_db_invb d = true -> order_db_inv d.
Proof.
  unfold order_db_invb. intros [[Hw Hi]%andb_true_iff Hs]%andb_true_iff.
  split; [by apply db_wfb_sound|]. rewrite forallb_forall in Hi, Hs. split.
  - apply Forall_forall. intros kr Hk. apply list_elem_of_In in Hk. by apply Nat.leb_le, Hi.
  - apply Forall_forall. intros kr Hk. apply list_elem_of_In in Hk. by eapply bool_decide_eq_true_1, Hs.
Qed.

(** Every quantity binds as a SQLite [INTEGER]. *)
Definition qty_fit (ls : list line) : Prop := Forall (fun l => fits_int64 (l_qty l) = true) ls.

(** The item table after the INSERTs of app.py:389-393 for lines [ls]. *)
Definition ins_items (oid : nat) (ls : list line) (t : table item_row) : table item_row :=
  foldl (fun t l => (tbl_insert (item_of oid l) t).2) t ls.

Section OrderProofs.
Context `{NotificationChannel}.

Lemma clear_for_tick n w : clear_for (S n) w -> clear_for n (tick w).
Proof. intros Hc i Hi. apply Hc. simpl in Hi. lia. Qed.

Lemma clear_for_head n w : clear_for (S n) w -> w_stmt w ∉ w_faults w.
Proof. intros Hc. apply Hc. lia. Qed.

Lemma clear_for_le m n w : m <= n -> clear_for n w -> clear_for m w.
Proof. intros Hle Hc i Hi. apply Hc. lia. Qed.

Lemma clear_for_nil n w : w_faults w = [] -> clear_for n w.
Proof. intros Hf i _. rewrite Hf. apply not_elem_of_nil. Qed.

Lemma resolve_items_ro its total ls os : est_pres ro (resolve_items its total ls os).
Proof. revert total ls os. induction its; intros; simpl; est_pres_auto. Qed.

(** The loop computes the specification: with no fault among its
    [length its] SELECTs, it returns the total, the lines and the owners
    of [lines_of], and reads nothing but the products. *)
Lemma resolve_items_spec its ls' total ls os w :
  clear_for (length its) w -> lines_of (w_db w) its = Some ls' ->
  resolve_items its total ls os w =
    (Nat.iter (length its) tick w,
     Ret (inr ((total + sumZ line_total ls')%Z, ls ++ ls', foldl group_step os ls'))).
Proof.
  revert ls' total ls os w. induction its as [|it its IH]; intros ls' total ls os w Hc Hl;
    cbn [resolve_items lines_of length] in *.
  - injection Hl as <-. simpl. by rewrite Z.add_0_r, app_nil_r.
  - destruct (line_of (w_db w) it) as [l|] eqn:El; [|done].
    destruct (lines_of (w_db w) its) as [ls1|] eqn:Els; [|done]. injection Hl as <-.
    unfold line_of in El.
    destruct (truthy_nat (req_product_id it) && truthy_Z (req_qty it) && fits_double _) eqn:Ev; [|done].
    apply andb_true_iff in Ev as [[Hp Hq]%andb_true_iff Hd]. rewrite Hp, Hq. cbn [negb orb].
    erewrite est_bind_run by (apply query_run, (clear_for_head _ _ Hc)).
    destruct (product_with_owner _ _) as [[p u]|]; [|done]. injection El as <-. rewrite Hd. cbn [negb].
    rewrite IH with (ls' := ls1); [| by apply clear_for_tick | done].
    rewrite Nat.iter_succ_r, <- app_assoc, sumZ_cons. cbn [foldl app].
    do 5 f_equal. unfold line_total; simpl. lia.
Qed.

(** The loop raises [OverflowError] at item [k] when the items before it
    resolve, item [k] passes the check, its product exists and its
    quantity is too large for a double; only SELECTs ran before. *)
Lemma resolve_items_overflow its k it ls1 p u total ls os w :
  clear_for (S k) w -> lines_of (w_db w) (take k its) = Some ls1 -> its !! k = Some it ->
  truthy_nat (req_product_id it) && truthy_Z (req_qty it) = true ->
  product_with_owner (default 0 (req_product_id it)) (w_db w) = Some (p, u) ->
  fits_double (default 0%Z (req_qty it)) = false ->
  resolve_items its total ls os w = (Nat.iter (S k) tick w, Raise OverflowError).
Proof.
  revert its ls1 total ls os w. induction k as [|k IH]; intros [|it0 its] ls1 total ls os w Hc Hl Hk Hv Hp Hd;
    try discriminate Hk; cbn [resolve_items].
  - injection Hk as ->. apply andb_true_iff in Hv as [Hv1 Hv2]. rewrite Hv1, Hv2. cbn [negb orb].
    erewrite est_bind_run by (apply query_run, (clear_for_head _ _ Hc)). rewrite Hp, Hd. reflexivity.
  - cbn [take lines_of] in Hl. cbn in Hk.
    destruct (line_of (w_db w) it0) as [l|] eqn:El; [|done].
    destruct (lines_of (w_db w) (take k its)) as [ls2|] eqn:Els; [|done].
    unfold line_of in El.
    destruct (truthy_nat (req_product_id it0) && truthy_Z (req_qty it0) && fits_double _) eqn:Ev; [|done].
    apply andb_true_iff in Ev as [[Hp0 Hq0]%andb_true_iff Hd0]. rewrite Hp0, Hq0. cbn [negb orb].
    erewrite est_bind_run by (apply query_run, (clear_for_head _ _ Hc)).
    destruct (product_with_owner _ _) as [[p0 u0]|]; [|done]. rewrite Hd0. cbn [negb].
    rewrite (IH its ls2); [by rewrite (Nat.iter_succ_r (S k)) | by apply clear_for_tick | done | done | done | done | done].
Qed.

Lemma clear_for_step n w w' :
  clear_for (S n) w -> w_stmt w' = S (w_stmt w) -> w_faults w' = w_faults w -> clear_for n w'.
Proof. intros Hc Hs Hf i Hi. rewrite Hf. apply Hc. lia. Qed.

Lemma set_order_items_id d : set_order_items (order_items d) d = d.
Proof. by destruct d. Qed.

(** The INSERT loop with no fault among its statements adds one item row
    per line, in order. *)
Lemma insert_items_ok oid ls w :
  qty_fit ls -> clear_for (length ls) w ->
  exists w', insert_items oid ls w = (w', Ret tt) /\
    w_db w' = set_order_items (ins_items oid ls (order_items (w_db w))) (w_db w) /\
    w_sent w' = w_sent w /\ w_stmt w' = w_stmt w + length ls /\ env_same w w'.
Proof.
  revert w. induction ls as [|l ls IH]; intros w Hq Hc; simpl.
  - exists w. rewrite set_order_items_id. repeat split; [lia|..]; reflexivity.
  - apply Forall_cons in Hq as [Hl Hq].
    erewrite est_bind_run by (rewrite exec_with_fits by (cbn; by rewrite Hl);
                              apply exec_run; [apply (clear_for_head _ _ Hc) | reflexivity]).
    match goal with |- context [insert_items oid ls ?w1] =>
      destruct (IH w1) as (w' & E & Hdb & Hs & Hst & Henv); [done | by eapply clear_for_step|] end.
    exists w'. rewrite E, Hdb, Hs, Hst. simpl. repeat split; [lia|..]; apply Henv.
Qed.

(** What the item INSERT [k] of the loop raises, if anything, for line
    [l]: the quantity is bound first, then the statement runs. *)
Definition item_insert_error (w : world) (k : nat) (l : line) : option exn :=
  if fits_int64 (l_qty l) then (if decide (w_stmt w + k ∈ w_faults w) then Some DbError else None)
  else Some OverflowError.

Lemma item_insert_error_step w w' k l :
  w_stmt w' = S (w_stmt w) -> w_faults w' = w_faults w ->
  item_insert_error w' k l = item_insert_error w (S k) l.
Proof. intros Hs Hf. unfold item_insert_error. by rewrite Hs, Hf, Nat.add_succ_comm. Qed.

(** The INSERT loop when its statement [k] raises [e], the first [k]
    lines binding and running: those [k] item rows are committed and
    stay. *)
Lemma insert_items_raise oid ls w k l e :
  ls !! k = Some l -> clear_for k w -> qty_fit (take k ls) -> item_insert_error w k l = Some e ->
  exists w', insert_items oid ls w = (w', Raise e) /\
    w_db w' = set_order_items (ins_items oid (take k ls) (order_items (w_db w))) (w_db w) /\
    w_sent w' = w_sent w.
Proof.
  revert w k. induction ls as [|l0 ls IH]; intros w k Hk Hc Hq He; [done|].
  destruct k as [|k]; cbn [insert_items].
  - injection Hk as ->. unfold item_insert_error in He. rewrite Nat.add_0_r in He.
    destruct (fits_int64 (l_qty l)) eqn:Hfit.
    + case_decide; [|done]. injection He as <-.
      rewrite (est_bind_raise _ _ _ (tick w) DbError)
        by (rewrite exec_with_fits by (cbn; by rewrite Hfit); by apply exec_fault).
      exists (tick w). simpl. by rewrite set_order_items_id.
    + injection He as <-. rewrite (est_bind_raise _ _ _ (tick w) OverflowError)
        by (apply exec_with_overflow; cbn; by rewrite Hfit).
      exists (tick w). simpl. by rewrite set_order_items_id.
  - cbn [take] in Hq. apply Forall_cons in Hq as [Hl0 Hq].
    erewrite est_bind_run by (rewrite exec_with_fits by (cbn; by rewrite Hl0);
                              apply exec_run; [apply (clear_for_head _ _ Hc) | reflexivity]).
    match goal with |- context [insert_items oid ls ?w1] =>
      destruct (IH w1 k) as (w' & E & Hdb & Hs);
        [done | by eapply clear_for_step | done | by rewrite (item_insert_error_step w) |] end.
    exists w'. by rewrite E, Hdb, Hs.
Qed.

(** A notice the channel was asked to send: recipient and content. *)
Definition msg_of (a : attempt) : string * notice := (at_chat a, at_notice a).

Definition buyer_notices (oid : nat) (buyer : option user_row) (ls : list line) (total : Z)
  : list (string * notice) :=
  match buyer with
  | Some b =>
      if truthy_str (u_telegram_id b) then
        [(default ""%string (u_telegram_id b),
          NOrderCreated oid (map (fun l => (l_name l, l_qty l)) (take 3 ls))
            (if Nat.ltb 3 (length ls) then length ls - 3 else 0) total)]
      else []
  | None => []
  end.

Definition owner_notices (uid oid : nat) (os : owners) : list (string * notice) :=
  map (fun e : nat * (option string * list owner_line) =>
         (default ""%string e.2.1, NProductsBought oid e.2.2 (sumZ (fun ol : owner_line => ol.2) e.2.2)))
      (List.filter (fun e : nat * (option string * list owner_line) =>
                      truthy_str e.2.1 && negb (Nat.eqb e.1 uid)) os).

(** The notification phases never raise, leave the database alone and
    append exactly the notices above to the log. *)
Lemma notify_buyer_run oid b ls total w :
  exists w' new, notify_buyer oid b ls total w = (w', Ret tt) /\ w_db w' = w_db w /\
    w_stmt w' = w_stmt w /\ env_same w w' /\ w_sent w' = w_sent w ++ new /\
    map msg_of new = buyer_notices oid b ls total.
Proof.
  unfold notify_buyer, buyer_notices. destruct b as [b|]; [destruct (truthy_str _)|].
  - edestruct (send_bind (A:=unit)) as [ok ->]. eexists _, [_]. by repeat split.
  - exists w, []. by rewrite app_nil_r.
  - exists w, []. by rewrite app_nil_r.
Qed.

Lemma notify_owners_run uid oid os w :
  exists w' new, notify_owners uid oid os w = (w', Ret tt) /\ w_db w' = w_db w /\
    w_stmt w' = w_stmt w /\ env_same w w' /\ w_sent w' = w_sent w ++ new /\
    map msg_of new = owner_notices uid oid os.
Proof.
  revert w. induction os as [|[k [tg ols]] os IH]; intros w; simpl.
  - exists w, []. by rewrite app_nil_r.
  - unfold owner_notices; simpl. destruct (truthy_str tg && negb (Nat.eqb k uid)).
    + rewrite est_bind_assoc. edestruct (send_bind (A:=unit)) as [ok ->].
      rewrite est_bind_ret.
      match goal with |- context [notify_owners uid oid os ?w1] =>
        destruct (IH w1) as (w' & new & E & Hdb & Hst & Henv & Hs & Hm) end.
      eexists w', (_ :: new). rewrite E. simpl in *. rewrite Hs, <- app_assoc, Hm.
      destruct Henv as (?&?&?&?). by repeat split.
    + rewrite est_bind_ret. apply IH.
Qed.

Lemma iter_tick n w :
  w_db (Nat.iter n tick w) = w_db w /\ w_stmt (Nat.iter n tick w) = w_stmt w + n /\
  w_sent (Nat.iter n tick w) = w_sent w /\ env_same w (Nat.iter n tick w).
Proof.
  unfold env_same. induction n as [|n IH]; simpl; [repeat split; lia|].
  destruct IH as (?&?&?&?&?&?&?). repeat split; try congruence. lia.
Qed.

Definition new_order_row (uid : nat) (total ts : Z) : order_row :=
  {| o_user_id := uid; o_total_amount := total; o_status := "new"; o_created_at := ts |}.

(** The run of [create_order] up to the order INSERT, when every item
    resolves and no fault hits these statements. *)
Lemma create_order_prefix uid its ls w :
  its <> [] -> clear_for (S (length its)) w -> lines_of (w_db w) its = Some ls ->
  create_order uid (Some its) w =
    after_insert uid (S (seq (orders (w_db w)))) (sumZ line_total ls) ls (foldl group_step [] ls)
      (set_db (set_orders (tbl_insert (new_order_row uid (sumZ line_total ls) (w_now w))
                                      (orders (w_db w))).2 (w_db w))
              (tick (Nat.iter (length its) tick w))).
Proof.
  intros Hne Hc Hl. destruct its as [|it its']; [done|]. unfold create_order.
  rewrite (est_bind_run _ _ _ _ _ (resolve_items_spec _ _ _ _ _ _ (clear_for_le _ _ _ (Nat.le_succ_diag_r _) Hc) Hl)).
  cbv beta iota. rewrite Z.add_0_l, app_nil_l.
  destruct (iter_tick (length (it :: its')) w) as (Hdb & Hst & _ & Hnow & Hf & _).
  erewrite est_bind_run by reflexivity. rewrite Hnow.
  erewrite est_bind_run; [reflexivity|]. apply exec_run.
  - rewrite Hst, Hf. apply Hc. lia.
  - rewrite Hdb. reflexivity.
Qed.

(** After the order row: when item INSERT number [k] raises, the handler
    raises with the order row and [k] item rows committed. *)
Lemma after_insert_raise uid oid total ls os w k l e :
  ls !! k = Some l -> clear_for k w -> qty_fit (take k ls) -> item_insert_error w k l = Some e ->
  exists w', after_insert uid oid total ls os w = (w', Raise e) /\
    w_db w' = set_order_items (ins_items oid (take k ls) (order_items (w_db w))) (w_db w).
Proof.
  intros Hk Hc Hq He. destruct (insert_items_raise oid ls w k l e Hk Hc Hq He) as (w' & E & Hdb & _).
  exists w'. unfold after_insert. by rewrite (est_bind_raise _ _ _ _ _ E).
Qed.

(** After the order row, with no faults: the items are written, the
    buyer and the owners are notified, and the reply is built from the
    items read back. *)
Lemma after_insert_ok uid oid total ls os w :
  qty_fit ls -> w_faults w = [] ->
  let d1 := set_order_items (ins_items oid ls (order_items (w_db w))) (w_db w) in
  exists w' new,
    after_insert uid oid total ls os w =
      (w', Ret (Reply 201 {| ov_id := oid; ov_total_amount := total; ov_status := "new";
                             ov_created_at := w_now w;
                             ov_items := map item_view_of (items_of_order oid d1) |})) /\
    w_db w' = d1 /\ w_sent w' = w_sent w ++ new /\
    map msg_of new = buyer_notices oid (user_by_id uid d1) ls total ++ owner_notices uid oid os.
Proof.
  intros Hq Hf d1. unfold after_insert.
  destruct (insert_items_ok oid ls w Hq (clear_for_nil _ _ Hf)) as (w1 & E1 & Hdb1 & Hs1 & _ & Hn1 & Hf1 & _).
  rewrite (est_bind_run _ _ _ _ _ E1).
  erewrite est_bind_run by (apply query_run; rewrite Hf1; apply no_faults_clear, Hf).
  rewrite Hdb1.
  destruct (notify_buyer_run oid (user_by_id uid d1) ls total (tick w1))
    as (w2 & new1 & E2 & Hdb2 & Hst2 & (Hn2 & Hf2 & _) & Hs2 & Hm2).
  rewrite (est_bind_run _ _ _ _ _ E2).
  destruct (notify_owners_run uid oid os w2)
    as (w3 & new2 & E3 & Hdb3 & Hst3 & (Hn3 & Hf3 & _) & Hs3 & Hm3).
  rewrite (est_bind_run _ _ _ _ _ E3).
  erewrite est_bind_run by (apply query_run; rewrite Hf3, Hf2; simpl; rewrite Hf1;
                            apply no_faults_clear, Hf).
  rewrite Hdb3, Hdb2. simpl. rewrite Hdb1.
  exists (tick w3), (new1 ++ new2). rewrite est_bind_run with (s' := tick w3) (a := w_now w);
    [| unfold now; simpl; rewrite Hn3, Hn2; simpl; by rewrite Hn1].
  repeat split.
  - simpl. rewrite Hdb3, Hdb2. simpl. by rewrite Hdb1.
  - simpl. rewrite Hs3, Hs2. simpl. by rewrite Hs1, app_assoc.
  - by rewrite map_app, Hm2, Hm3.
Qed.
End OrderProofs.

(** ** The item table after the INSERT loop *)

Lemma ins_items_select oid ls t :
  map snd (tbl_select (fun _ i => Nat.eqb (oi_order_id i) oid) (ins_items oid ls t)) =
  map snd (tbl_select (fun _ i => Nat.eqb (oi_order_id i) oid) t) ++ map (item_of oid) ls.
Proof.
  revert t. induction ls as [|l ls IH]; intros t; [simpl; by rewrite app_nil_r|].
  change (ins_items oid (l :: ls) t) with (ins_items oid ls (tbl_insert (item_of oid l) t).2).
  rewrite IH, tbl_select_insert. cbn [item_of oi_order_id]. rewrite Nat.eqb_refl, map_app, <- app_assoc.
  done.
Qed.

Lemma ins_items_wf oid ls t : tbl_wf t -> tbl_wf (ins_items oid ls t).
Proof. revert t. induction ls as [|l ls IH]; intros t Ht; simpl; [done|]. by apply IH, tbl_insert_wf. Qed.

Lemma ins_items_take_select oid ls k t :
  map snd (tbl_select (fun _ i => Nat.eqb (oi_order_id i) oid) (ins_items oid (take k ls) t)) =
  map snd (tbl_select (fun _ i => Nat.eqb (oi_order_id i) oid) t) ++ map (item_of oid) (take k ls).
Proof. apply ins_items_select. Qed.

(** No item row refers to an order rowid above the counter, so a fresh
    order has no items yet. *)
Lemma select_fresh_order (t : table item_row) s oid :
  Forall (fun kr : nat * item_row => oi_order_id kr.2 <= s) (rows t) -> s < oid ->
  tbl_select (fun _ i => Nat.eqb (oi_order_id i) oid) t = [].
Proof.
  unfold tbl_select. induction (rows t) as [|kr l IH]; intros Hf Hlt; simpl; [done|].
  inversion Hf; subst. destruct (Nat.eqb_spec (oi_order_id kr.2) oid); [lia|]. by apply IH.
Qed.

Lemma lines_of_products d its ls :
  lines_of d its = Some ls ->
  Forall (fun l => exists p, tbl_get (l_product_id l) (products d) = Some p /\ p_name p = l_name l) ls.
Proof.
  revert ls. induction its as [|it its IH]; intros ls Hl; simpl in Hl; [by injection Hl as <-|].
  destruct (line_of d it) as [l|] eqn:El; [|done].
  destruct (lines_of d its) as [ls'|]; [|done]. injection Hl as <-. constructor; [|by apply IH].
  unfold line_of, product_with_owner in El. destruct (_ && _); [|done].
  destruct (tbl_get _ (products d)) as [p|] eqn:Ep; [|done].
  destruct (tbl_get _ (users d)); [|done]. injection El as <-. by exists p.
Qed.

Lemma items_of_order_lines oid ls d :
  map snd (tbl_select (fun _ i => Nat.eqb (oi_order_id i) oid) (order_items d)) = map (item_of oid) ls ->
  Forall (fun l => exists p, tbl_get (l_product_id l) (products d) = Some p /\ p_name p = l_name l) ls ->
  items_of_order oid d = map (fun l => (item_of oid l, l_name l)) ls.
Proof.
  unfold items_of_order. generalize (tbl_select (fun _ i => Nat.eqb (oi_order_id i) oid) (order_items d)).
  intros sel. revert sel. induction ls as [|l ls IH]; intros [|kr sel] Hs Hp; simpl in *; try done.
  injection Hs as Hkr Hs. inversion Hp as [|? ? (p & Ep & En) Hp']; subst.
  rewrite Hkr. simpl. rewrite Ep, En. f_equal. by apply IH.
Qed.

(** The view of a stored line in a reply. *)
Definition line_view (l : line) : item_view :=
  {| iv_product_name := l_name l; iv_quantity := l_qty l; iv_price := l_price l;
     iv_total := (l_qty l * l_price l)%Z |}.

Section OrderTheorems.
Context `{NotificationChannel}.

(** C1. [create_order] on items that all resolve, with no failing
    statement: it replies 201 with the total [Σ price × qty] over the
    products as they are at call time; it stores one order row with that
    total, status ["new"], the buyer and the time; the order's item rows
    are exactly one per line with the price copied at call time; the
    reply lists every line. *)
Theorem create_order_total uid its ls w :
  w_faults w = [] -> order_db_inv (w_db w) -> its <> [] -> lines_of (w_db w) its = Some ls -> qty_fit ls ->
  exists w' v,
    create_order uid (Some its) w = (w', Ret (Reply 201 v)) /\
    ov_total_amount v = sumZ line_total ls /\ ov_status v = "new" /\
    tbl_get (ov_id v) (orders (w_db w')) = Some (new_order_row uid (sumZ line_total ls) (w_now w)) /\
    map snd (tbl_select (fun _ i => Nat.eqb (oi_order_id i) (ov_id v)) (order_items (w_db w'))) =
      map (item_of (ov_id v)) ls /\
    ov_items v = map line_view ls.
Proof.
  intros Hf (Hwf & Href & _) Hne Hl Hq.
  rewrite (create_order_prefix uid its ls w Hne (clear_for_nil _ _ Hf) Hl).
  set (w2 := set_db _ _).
  destruct (after_insert_ok uid (S (seq (orders (w_db w)))) (sumZ line_total ls) ls
              (foldl group_step [] ls) w2) as (w' & new & E & Hdb & _); [exact Hq| |].
  { subst w2; simpl. destruct (iter_tick (length its) w) as (_ & _ & _ & _ & Hf' & _). by rewrite Hf'. }
  rewrite E. eexists _, _. split; [reflexivity|]. simpl. rewrite Hdb. simpl.
  assert (Hsel : map snd (tbl_select (fun _ i => Nat.eqb (oi_order_id i) (S (seq (orders (w_db w)))))
                   (ins_items (S (seq (orders (w_db w)))) ls (order_items (w_db w2)))) =
                 map (item_of (S (seq (orders (w_db w))))) ls).
  { rewrite ins_items_select. simpl. destruct Hwf as (_ & _ & Ho & _).
    rewrite (select_fresh_order _ (seq (orders (w_db w)))); [done | apply Href | lia]. }
  repeat split; [| exact Hsel |].
  - apply tbl_get_insert_eq. apply Hwf.
  - rewrite (items_of_order_lines _ ls); [| exact Hsel | by apply lines_of_products in Hl].
    rewrite map_map. apply map_ext. intros l. reflexivity.
Qed.

(** The item INSERT [k] raises, whatever the cause: the reply is 500, and
    the order row and the first [k] item rows stay committed. *)
Lemma create_order_item_raise uid its ls w k l e :
  order_db_inv (w_db w) -> its <> [] -> lines_of (w_db w) its = Some ls ->
  clear_for (length its + 1 + k) w -> ls !! k = Some l -> qty_fit (take k ls) ->
  item_insert_error w (length its + 1 + k) l = Some e ->
  let oid := S (seq (orders (w_db w))) in
  let r := serve (create_order uid (Some its)) w in
  r.2 = ErrorReply 500 "Internal Server Error" /\
  tbl_get oid (orders (w_db r.1)) = Some (new_order_row uid (sumZ line_total ls) (w_now w)) /\
  count_items oid (w_db r.1) = k.
Proof.
  intros (Hwf & Href & _) Hne Hl Hc Hk Hq He oid r. subst oid r. unfold serve.
  rewrite (create_order_prefix uid its ls w Hne); [| eapply clear_for_le; [|exact Hc]; lia | done].
  set (w2 := set_db _ _).
  destruct (iter_tick (length its) w) as (_ & Hst & _ & _ & Hf' & _).
  destruct (after_insert_raise uid (S (seq (orders (w_db w)))) (sumZ line_total ls) ls (foldl group_step [] ls)
              w2 k l e) as (w' & E & Hdb); [done | | done | |].
  { intros i Hi. subst w2; simpl in *. rewrite Hf', Hst in *. apply Hc. lia. }
  { rewrite <- He. unfold item_insert_error. subst w2; simpl. rewrite Hf', Hst.
    by replace (S (w_stmt w + length its + k)) with (w_stmt w + (length its + 1 + k)) by lia. }
  rewrite E. simpl. rewrite Hdb. simpl. repeat split.
  - apply tbl_get_insert_eq. apply Hwf.
  - unfold count_items. simpl. rewrite <- (length_map snd), ins_items_take_select.
    destruct Hwf as (_ & _ & Ho & _).
    rewrite (select_fresh_order _ (seq (orders (w_db w)))); [| apply Href | lia].
    simpl. rewrite length_map, length_take. apply lookup_lt_Some in Hk. lia.
Qed.

(** C3. [create_order] is not atomic: when the INSERT of item [k] (from
    0) raises, Flask replies 500 but the order row and the first [k] item
    rows stay committed, so an order with [k < length ls] items (none
    when [k = 0]) persists, against the all-or-nothing contract.  The
    statement index of that INSERT is [length its] SELECTs, one order
    INSERT, then [k] item INSERTs after the start. *)
Theorem create_order_partial_commit uid its ls w k :
  w_faults w = [w_stmt w + length its + 1 + k] -> order_db_inv (w_db w) -> its <> [] ->
  lines_of (w_db w) its = Some ls -> k < length ls -> qty_fit ls ->
  let oid := S (seq (orders (w_db w))) in
  let r := serve (create_order uid (Some its)) w in
  r.2 = ErrorReply 500 "Internal Server Error" /\
  tbl_get oid (orders (w_db r.1)) = Some (new_order_row uid (sumZ line_total ls) (w_now w)) /\
  count_items oid (w_db r.1) = k.
Proof.
  intros Hf Hinv Hne Hl Hk Hq. destruct (lookup_lt_is_Some_2 ls k Hk) as [l Hlk].
  apply (create_order_item_raise uid its ls w k l DbError); try done.
  - intros i Hi. rewrite Hf, list_elem_of_singleton. lia.
  - by apply Forall_take.
  - unfold item_insert_error. rewrite (Forall_lookup_1 _ _ _ _ Hq Hlk).
    rewrite decide_True; [done|]. rewrite Hf, list_elem_of_singleton. lia.
Qed.

(** C10. The quantities of [create_order] meet two bounds after the
    truthiness check of app.py:347.  A quantity a double can hold but
    outside [-2^63, 2^63 - 1] is priced, the order row is inserted, and
    the INSERT of that item raises [OverflowError] when its [qty] is
    bound as an SQLite [INTEGER] (database.py:87): the reply is 500 and
    the order row stays committed with only the items before it.  A
    quantity of magnitude [2^1024 - 2^970] or more already raises
    [OverflowError] at [product['price'] * item['qty']] (app.py:359):
    the reply is 500 and nothing has been written. *)
Theorem create_order_qty_overflow uid its w :
  w_faults w = [] -> order_db_inv (w_db w) -> its <> [] ->
  (forall ls k l, lines_of (w_db w) its = Some ls ->
     ls !! k = Some l -> qty_fit (take k ls) -> (l_qty l < int64_min \/ int64_max < l_qty l)%Z ->
     let oid := S (seq (orders (w_db w))) in
     let r := serve (create_order uid (Some its)) w in
     r.2 = ErrorReply 500 "Internal Server Error" /\
     tbl_get oid (orders (w_db r.1)) = Some (new_order_row uid (sumZ line_total ls) (w_now w)) /\
     count_items oid (w_db r.1) = k) /\
  (forall k it ls1 p u, lines_of (w_db w) (take k its) = Some ls1 -> its !! k = Some it ->
     truthy_nat (req_product_id it) && truthy_Z (req_qty it) = true ->
     product_with_owner (default 0 (req_product_id it)) (w_db w) = Some (p, u) ->
     fits_double (default 0%Z (req_qty it)) = false ->
     let r := serve (create_order uid (Some its)) w in
     r.2 = ErrorReply 500 "Internal Server Error" /\ w_db r.1 = w_db w).
Proof.
  intros Hf Hinv Hne. split.
  - intros ls k l Hl Hk Hq Hout.
    apply (create_order_item_raise uid its ls w k l OverflowError); try done.
    + by apply clear_for_nil.
    + unfold item_insert_error, fits_int64.
      destruct Hout as [Hlt|Hgt]; [rewrite (proj2 (Z.leb_gt _ _) Hlt) | rewrite (proj2 (Z.leb_gt _ _) Hgt), andb_false_r];
        reflexivity.
  - intros k it ls1 p u Hl Hk Hv Hp Hd. cbv zeta. destruct its as [|it0 its']; [done|].
    unfold serve, create_order.
    rewrite (est_bind_raise _ _ _ _ _ (resolve_items_overflow _ k it ls1 p u _ _ _ w (clear_for_nil _ _ Hf) Hl Hk Hv Hp Hd)).
    split; [done|]. apply iter_tick.
Qed.

Lemma after_insert_post uid oid total ls os :
  est_post (fun r => exists v, r = Reply 201 v) (after_insert uid oid total ls os).
Proof. unfold after_insert. est_post_auto. Qed.

(** C2. Every error reply of [create_order] (a missing item list, an item
    without [product_id] or [qty], a product that does not exist) comes
    before any write: the database and the notification log are as
    they were.  No partial order is left by a rejected request. *)
Theorem create_order_rejects_without_writing uid items w w' code msg :
  create_order uid items w = (w', Ret (ErrorReply code msg)) ->
  w_db w' = w_db w /\ w_sent w' = w_sent w.
Proof.
  unfold create_order. destruct items as [[|it its]|]; try by intros [= <-].
  destruct (resolve_items (it :: its) 0%Z [] [] w) as [w1 [[r|[[total ls] os]]|e]] eqn:E1;
    pose proof (resolve_items_ro (it :: its) 0%Z [] [] w) as Hro; rewrite E1 in Hro; simpl in Hro.
  - rewrite (est_bind_run _ _ _ _ _ E1). cbv beta iota. unfold mret, est_ret. cbv beta.
    intros Heq. injection Heq as <- _. exact Hro.
  - rewrite (est_bind_run _ _ _ _ _ E1). cbv beta iota. intros Hr.
    assert (Hp : est_post (fun r => exists v, r = Reply 201 v)
                   (now ≫= fun ts => exec (insert_order uid total "new" ts) ≫= fun oid =>
                    after_insert uid oid total ls os)).
    { apply est_post_bind. intros ts. apply est_post_bind. intros oid. apply after_insert_post. }
    destruct (Hp _ _ _ Hr) as [v Hv]. discriminate.
  - by rewrite (est_bind_raise _ _ _ _ _ E1).
Qed.
End OrderTheorems.

(** ** The invariant [order_db_inv] *)

Lemma insert_order_keeps d uid total s ts oid d' :
  order_db_inv d -> s ∈ allowed_statuses -> insert_order uid total s ts d = Some (oid, d') ->
  order_db_inv d' /\ oid <= seq (orders d').
Proof.
  intros (Hwf & Href & Hst) Hs [= <- <-]. split; [|simpl; lia].
  split; [apply db_wf_set_orders; [done | apply tbl_insert_wf, Hwf]|]. simpl. split.
  - eapply Forall_impl; [exact Href|]. simpl; lia.
  - apply Forall_app; split; [done|]. constructor; [exact Hs | constructor].
Qed.

Lemma insert_item_keeps oid pid qty price d a d' :
  order_db_inv d /\ oid <= seq (orders d) -> insert_item oid pid qty price d = Some (a, d') ->
  order_db_inv d' /\ oid <= seq (orders d').
Proof.
  intros [(Hwf & Href & Hst) Hle] [= <- <-]. split; [split; [|split]|]; simpl; try done.
  - apply db_wf_set_order_items; [done | apply tbl_insert_wf, Hwf].
  - apply Forall_app; split; [done|]. by repeat constructor.
Qed.

Section InvariantProofs.
Context `{NotificationChannel}.

Lemma insert_items_inv oid ls :
  est_pres (inv_kept (fun d => order_db_inv d /\ oid <= seq (orders d))) (insert_items oid ls).
Proof.
  induction ls as [|l ls IH]; simpl; est_pres_auto.
  apply exec_with_pres; [apply tick_inv_kept|].
  apply exec_inv_kept. intros. by eapply insert_item_keeps.
Qed.

Lemma notify_owners_inv I uid oid os : est_pres (inv_kept I) (notify_owners uid oid os).
Proof. induction os as [|[k [tg ols]] os IH]; simpl; est_pres_auto. Qed.

Lemma after_insert_inv uid oid total ls os :
  est_pres (inv_kept (fun d => order_db_inv d /\ oid <= seq (orders d))) (after_insert uid oid total ls os).
Proof.
  unfold after_insert. est_pres_auto; [apply insert_items_inv | unfold notify_buyer | apply notify_owners_inv].
  est_pres_auto.
Qed.

(** C4. [create_order] keeps the database invariant whatever happens,
    statement faults included: tables stay well-formed, item rows refer
    to order rowids handed out, statuses stay in [allowed_statuses]. *)
Theorem create_order_inv uid its : est_pres (inv_kept order_db_inv) (create_order uid its).
Proof.
  intros w HI. unfold create_order. destruct its as [[|it its]|]; [done| |done].
  destruct (resolve_items (it :: its) 0%Z [] [] w) as [w1 [[r|[[total ls] os]]|e]] eqn:E1;
    pose proof (proj1 (resolve_items_ro (it :: its) 0%Z [] [] w)) as Hdb1; rewrite E1 in Hdb1;
    simpl in Hdb1; [by rewrite (est_bind_run _ _ _ _ _ E1); simpl; rewrite Hdb1 | |
                    by rewrite (est_bind_raise _ _ _ _ _ E1); simpl; rewrite Hdb1].
  rewrite (est_bind_run _ _ _ _ _ E1). cbv beta iota.
  erewrite est_bind_run by reflexivity.
  destruct (exec (insert_order uid total "new" (w_now w1)) w1) as [w2 [oid|e]] eqn:E2.
  - rewrite (est_bind_run _ _ _ _ _ E2). apply exec_ret_inv in E2.
    apply (after_insert_inv uid oid total ls os w2). eapply insert_order_keeps; [|by left|exact E2].
    by rewrite Hdb1.
  - rewrite (est_bind_raise _ _ _ _ _ E2). simpl. apply exec_raise_inv in E2. by rewrite E2, Hdb1.
Qed.
End InvariantProofs.

(** ** The owner grouping of [create_order] against its reference

    [product_owners] is filled line by line (app.py:371-381); the
    reference groups the lines by owner directly: the distinct owners in
    order of first appearance, each with the chat id of its first line and
    all its lines. *)

Fixpoint first_occ (seen : list nat) (l : list nat) : list nat :=
  match l with
  | [] => []
  | x :: l' => if bool_decide (x ∈ seen) then first_occ seen l' else x :: first_occ (x :: seen) l'
  end.

Definition owner_group (ls : list line) (k : nat) : option string * list owner_line :=
  (match List.find (fun l => Nat.eqb (l_owner_id l) k) ls with Some l => l_owner_tg l | None => None end,
   map owner_line_of (List.filter (fun l => Nat.eqb (l_owner_id l) k) ls)).

Definition group_spec (ls : list line) : owners :=
  map (fun k => (k, owner_group ls k)) (first_occ [] (map l_owner_id ls)).

Lemma first_occ_snoc seen xs x :
  first_occ seen (xs ++ [x]) =
  first_occ seen xs ++ (if bool_decide (x ∈ seen \/ x ∈ xs) then [] else [x]).
Proof.
  revert seen. induction xs as [|y xs IH]; intros seen; simpl.
  - repeat case_bool_decide; first [done | exfalso; set_solver].
  - case_bool_decide as Hy; rewrite IH; simpl; f_equal; [|f_equal];
      repeat case_bool_decide; first [done | exfalso; set_solver].
Qed.

Lemma first_occ_elem seen xs x : x ∈ first_occ seen xs <-> x ∈ xs /\ x ∉ seen.
Proof.
  revert seen. induction xs as [|y xs IH]; intros seen; simpl; [set_solver|].
  case_bool_decide as Hy.
  - rewrite IH, elem_of_cons. split; [intros [? ?]; auto | intros [[-> | ?] ?]; [done | auto]].
  - rewrite elem_of_cons, IH. clear IH. split.
    + intros [-> | [Hx Hn]].
      * split; [apply elem_of_cons; by left | done].
      * split; [apply elem_of_cons; by right|]. intros Hs. apply Hn, elem_of_cons. by right.
    + intros [Hx Hn]. apply elem_of_cons in Hx as [-> | Hx]; [by left|].
      destruct (decide (x = y)) as [->|Hne]; [by left|].
      right. split; [done|]. intros Hs. by apply elem_of_cons in Hs as [-> | Hs].
Qed.

Lemma first_occ_nodup seen xs : NoDup (first_occ seen xs).
Proof.
  revert seen. induction xs as [|y xs IH]; intros seen; simpl; [constructor|].
  case_bool_decide; [done|]. constructor; [|done]. rewrite first_occ_elem. set_solver.
Qed.

Lemma add_owner_line_map (keys : list nat) (g : nat -> option string * list owner_line) k tg ol :
  NoDup keys ->
  add_owner_line k tg ol (map (fun k' => (k', g k')) keys) =
  if bool_decide (k ∈ keys)
  then map (fun k' => (k', if Nat.eqb k' k then ((g k').1, (g k').2 ++ [ol]) else g k')) keys
  else map (fun k' => (k', g k')) keys ++ [(k, (tg, [ol]))].
Proof.
  induction keys as [|k' keys IH]; intros Hnd; simpl; [done|].
  inversion Hnd as [|? ? Hnin Hnd']; subst. destruct (g k') as [tg' ls'] eqn:Eg.
  destruct (Nat.eqb_spec k' k) as [->|Hne].
  - rewrite bool_decide_eq_true_2 by set_solver. simpl. f_equal.
    apply map_ext_in. intros k'' Hin. destruct (Nat.eqb_spec k'' k); [|done].
    subst. exfalso. apply Hnin. by apply list_elem_of_In.
  - rewrite IH by done. case_bool_decide as H1; case_bool_decide as H2; set_solver + H1 H2 Hne || done.
Qed.

Lemma find_owner_none ls k :
  List.find (fun l => Nat.eqb (l_owner_id l) k) ls = None <-> k ∉ map l_owner_id ls.
Proof.
  induction ls as [|l ls IH]; simpl; [split; [intros _; apply not_elem_of_nil | done]|].
  rewrite elem_of_cons. destruct (Nat.eqb_spec (l_owner_id l) k) as [<-|Hne].
  - split; [done | intros Hn; exfalso; apply Hn; by left].
  - rewrite IH. split; [intros Hn [?|?]; auto | auto].
Qed.

Lemma owner_group_snoc ls l k :
  owner_group (ls ++ [l]) k =
  if Nat.eqb (l_owner_id l) k
  then (if bool_decide (k ∈ map l_owner_id ls) then (owner_group ls k).1 else l_owner_tg l,
        (owner_group ls k).2 ++ [owner_line_of l])
  else owner_group ls k.
Proof.
  unfold owner_group. rewrite List.filter_app, map_app. simpl.
  assert (Hf : List.find (fun l => Nat.eqb (l_owner_id l) k) (ls ++ [l]) =
               match List.find (fun l => Nat.eqb (l_owner_id l) k) ls with
               | Some y => Some y
               | None => if Nat.eqb (l_owner_id l) k then Some l else None
               end).
  { induction ls as [|l' ls IHl]; simpl; [done|]. by destruct (Nat.eqb (l_owner_id l') k). }
  rewrite Hf. destruct (Nat.eqb (l_owner_id l) k); simpl;
    [| by destruct (List.find _ ls); rewrite app_nil_r].
  case_bool_decide as Hin.
  - destruct (List.find _ ls) eqn:E; [done|]. by apply find_owner_none in E.
  - apply find_owner_none in Hin as ->. done.
Qed.

Lemma group_spec_snoc ls l : group_step (group_spec ls) l = group_spec (ls ++ [l]).
Proof.
  unfold group_step, group_spec. rewrite map_app. simpl. rewrite first_occ_snoc.
  rewrite add_owner_line_map by apply first_occ_nodup.
  assert (Hmem : forall k, k ∈ first_occ [] (map l_owner_id ls) <-> k ∈ map l_owner_id ls).
  { intros k. rewrite first_occ_elem. split; [by intros [? _] | intros ?; split; [done | apply not_elem_of_nil]]. }
  case_bool_decide as Hin; case_bool_decide as Hin'.
  - rewrite app_nil_r. apply map_ext_in. intros k Hk. apply list_elem_of_In, Hmem in Hk.
    rewrite owner_group_snoc, bool_decide_eq_true_2 by done.
    destruct (Nat.eqb_spec k (l_owner_id l)) as [->|Hne];
      [by rewrite Nat.eqb_refl | by destruct (Nat.eqb_spec (l_owner_id l) k); [congruence|]].
  - exfalso. apply Hin'. right. by apply Hmem.
  - exfalso. apply Hin, Hmem. destruct Hin' as [H0|H0]; [by apply not_elem_of_nil in H0 | done].
  - rewrite map_app. simpl. f_equal.
    + apply map_ext_in. intros k Hk. apply list_elem_of_In, Hmem in Hk. rewrite owner_group_snoc.
      destruct (Nat.eqb_spec (l_owner_id l) k) as [<-|]; [|done]. exfalso. apply Hin. by apply Hmem.
    + rewrite owner_group_snoc, Nat.eqb_refl, bool_decide_eq_false_2 by (by rewrite <- Hmem).
      assert (Hn : l_owner_id l ∉ map l_owner_id ls) by (intros ?; by apply Hin, Hmem).
      unfold owner_group; simpl. clear -Hn. induction ls as [|l' ls IHl]; simpl in *; [done|].
      rewrite elem_of_cons in Hn. destruct (Nat.eqb_spec (l_owner_id l') (l_owner_id l));
        [exfalso; apply Hn; by left|].
      apply IHl. intros ?; apply Hn; by right.
Qed.

(** C8. The dict grouping computes the reference grouping: one entry per
    distinct owner, in order of first appearance, with all that owner's
    lines; so [create_order] sends each owner one notice whose revenue is
    the sum of that owner's line totals. *)
Theorem owners_grouping ls : foldl group_step [] ls = group_spec ls.
Proof.
  induction ls as [|l ls IH] using rev_ind; [done|].
  rewrite foldl_app, IH. apply group_spec_snoc.
Qed.

Section OrderNotices.
Context `{NotificationChannel}.

(** C9. The notifications of a successful [create_order]: first the
    buyer's notice (when the buyer has a chat id), then one notice per
    distinct owner other than the buyer with a chat id, in order of first
    appearance, each with all that owner's lines and their revenue.  A
    failed push changes nothing else: the reply is still 201. *)
Theorem create_order_notifications uid its ls w :
  w_faults w = [] -> order_db_inv (w_db w) -> its <> [] -> lines_of (w_db w) its = Some ls -> qty_fit ls ->
  exists w' v new,
    create_order uid (Some its) w = (w', Ret (Reply 201 v)) /\ w_sent w' = w_sent w ++ new /\
    map msg_of new =
      buyer_notices (ov_id v) (user_by_id uid (w_db w)) ls (sumZ line_total ls) ++
      owner_notices uid (ov_id v) (group_spec ls).
Proof.
  intros Hf _ Hne Hl Hq.
  rewrite (create_order_prefix uid its ls w Hne (clear_for_nil _ _ Hf) Hl).
  set (w2 := set_db _ _).
  destruct (after_insert_ok uid (S (seq (orders (w_db w)))) (sumZ line_total ls) ls
              (foldl group_step [] ls) w2) as (w' & new & E & _ & Hs & Hm); [exact Hq| |].
  { subst w2; simpl. destruct (iter_tick (length its) w) as (_ & _ & _ & _ & Hf' & _). by rewrite Hf'. }
  rewrite E. eexists _, _, new. split; [reflexivity|]. split.
  - rewrite Hs. subst w2. simpl. by destruct (iter_tick (length its) w) as (_ & _ & -> & _).
  - rewrite Hm, owners_grouping. reflexivity.
Qed.
End OrderNotices.

(** ** Reading and updating one order *)

Lemma order_of_user_Some oid uid d o :
  order_of_user oid uid d = Some o -> tbl_get oid (orders d) = Some o /\ o_user_id o = uid.
Proof.
  unfold order_of_user. destruct (tbl_get oid (orders d)) as [o'|]; [|done].
  destruct (Nat.eqb_spec (o_user_id o') uid); [by intros [= <-] | done].
Qed.

Lemma order_of_user_other oid uid d o :
  tbl_get oid (orders d) = Some o -> o_user_id o <> uid -> order_of_user oid uid d = None.
Proof. intros Ho Hne. unfold order_of_user. rewrite Ho. by destruct (Nat.eqb_spec (o_user_id o) uid). Qed.

Lemma order_of_user_missing oid uid d : tbl_get oid (orders d) = None -> order_of_user oid uid d = None.
Proof. intros Ho. unfold order_of_user. by rewrite Ho. Qed.

(** The status notice [update_order] sends for the order of user [uid]. *)
Definition status_notices (uid oid : nat) (s old : string) (d : db) : list (string * notice) :=
  match tbl_get uid (users d) with
  | Some u => if truthy_str (u_telegram_id u)
              then [(default ""%string (u_telegram_id u), NStatusChanged oid s old)] else []
  | None => []
  end.

Section OrderAccess.
Context `{NotificationChannel}.

(** C5. Existence and ownership are checked by one query: for an order
    of another user, [get_order] and [update_order] behave exactly as
    for an order id that does not exist (same reply, same world), and
    without a failing statement that reply is 404 with nothing written. *)
Theorem order_not_owned_same_as_missing uid oid oid' o data w :
  tbl_get oid (orders (w_db w)) = Some o -> o_user_id o <> uid ->
  tbl_get oid' (orders (w_db w)) = None ->
  get_order uid oid w = get_order uid oid' w /\
  update_order uid oid data w = update_order uid oid' data w /\
  (w_stmt w ∉ w_faults w -> get_order uid oid w = (tick w, Ret (ErrorReply 404 "Order not found"))).
Proof.
  intros Ho Hne Hmiss.
  pose proof (order_of_user_other _ _ _ _ Ho Hne) as H1.
  pose proof (order_of_user_missing oid' uid _ Hmiss) as H2.
  split; [|split].
  - unfold get_order. unfold query, mbind, est_bind. case_decide; [done|]. by rewrite H1, H2.
  - unfold update_order. unfold query, mbind, est_bind. case_decide; [done|]. by rewrite H1, H2.
  - intros Hf. unfold get_order. rewrite (est_bind_run _ _ _ _ _ (query_run _ _ Hf)). by rewrite H1.
Qed.

(** C6. [update_order] with a status outside [allowed_statuses] (say
    ["shipped"]) on the user's own order replies 400 [Invalid status]
    after the ownership SELECT alone: the status is unchanged and nothing
    is sent. *)
Theorem update_order_invalid_status uid oid o s w :
  w_faults w = [] -> order_of_user oid uid (w_db w) = Some o -> s ∉ allowed_statuses ->
  update_order uid oid (Some (Some s)) w = (tick w, Ret (ErrorReply 400 "Invalid status")).
Proof.
  intros Hf Ho Hs. unfold update_order.
  rewrite (est_bind_run _ _ _ _ _ (query_run _ _ (no_faults_clear _ _ Hf))), Ho.
  cbv beta iota. unfold change_status. rewrite bool_decide_eq_false_2 by done. reflexivity.
Qed.

Lemma change_status_valid oid old s w :
  w_faults w = [] -> s ∈ allowed_statuses ->
  let d1 := set_orders (tbl_update (fun k _ => Nat.eqb k oid) (with_status s) (orders (w_db w))) (w_db w) in
  exists w1 new, change_status oid old (Some (Some s)) w = (w1, Ret None) /\
    w_db w1 = d1 /\ w_faults w1 = [] /\ w_sent w1 = w_sent w ++ new /\
    map msg_of new = match buyer_chat_of_order oid d1 with
                     | Some tg => if truthy_str tg then [(default ""%string tg, NStatusChanged oid s old)] else []
                     | None => []
                     end.
Proof.
  intros Hf Hs d1. unfold change_status. rewrite bool_decide_eq_true_2 by done.
  erewrite est_bind_run by (apply exec_run; [by apply no_faults_clear | reflexivity]).
  erewrite est_bind_run by (apply query_run; simpl; by apply no_faults_clear). simpl.
  fold d1. destruct (buyer_chat_of_order oid d1) as [tg|]; [destruct (truthy_str tg)|].
  - edestruct (send_bind (A:=option (reply order_view))) as [ok ->]. eexists _, [_]. by repeat split.
  - exists (tick (set_db d1 (tick w))), []. by rewrite app_nil_r.
  - exists (tick (set_db d1 (tick w))), []. by rewrite app_nil_r.
Qed.

(** C7. [update_order] with an allowed status on the user's own order,
    whatever its current status (there is no transition table): the
    stored status becomes the new one, the reply carries it, and exactly
    the status notice (new and previous status) goes to the buyer when
    the buyer has a chat id. *)
Theorem update_order_valid_status uid oid o s w :
  w_faults w = [] -> db_wf (w_db w) -> order_of_user oid uid (w_db w) = Some o -> s ∈ allowed_statuses ->
  exists w' v new,
    update_order uid oid (Some (Some s)) w = (w', Ret (Reply 200 v)) /\
    ov_status v = s /\ ov_total_amount v = o_total_amount o /\
    tbl_get oid (orders (w_db w')) = Some (with_status s o) /\
    w_sent w' = w_sent w ++ new /\ map msg_of new = status_notices uid oid s (o_status o) (w_db w).
Proof.
  intros Hf Hwf Ho Hs. pose proof (order_of_user_Some _ _ _ _ Ho) as [Hget Huid].
  unfold update_order.
  rewrite (est_bind_run _ _ _ _ _ (query_run _ _ (no_faults_clear _ _ Hf))), Ho. cbv beta iota.
  destruct (change_status_valid oid (o_status o) s (tick w) Hf Hs) as (w1 & new & E & Hdb & Hf1 & Hs1 & Hm).
  rewrite (est_bind_run _ _ _ _ _ E). cbv beta iota.
  assert (Hget1 : tbl_get oid (orders (w_db w1)) = Some (with_status s o)).
  { rewrite Hdb. simpl. rewrite tbl_get_update, Hget. by rewrite Nat.eqb_refl. }
  rewrite (est_bind_run _ _ _ _ _ (query_run _ _ (no_faults_clear _ _ Hf1))), Hget1.
  eexists _, _, new. split; [reflexivity|]. simpl. repeat split; [exact Hget1 | exact Hs1 |].
  rewrite Hm. unfold buyer_chat_of_order, status_notices. rewrite <- Hdb, Hget1, Hdb. simpl.
  rewrite Huid. by destruct (tbl_get uid (users (w_db w))).
Qed.
End OrderAccess.
