(* ===== verification/Linking.v ===== *)
(** * Account linking: [generate_telegram_token] and [link_telegram]
      (app.py:650-724)

    Issuing deletes every token row of the user, inserts the new token
    (the [UNIQUE] constraint on [token] refuses a duplicate) with an
    expiry 30 minutes ahead, and pushes the code to the user's chat when
    one is linked.  Redeeming looks up an unused, unexpired row for the
    token, sets the owner's [telegram_id], marks the row used and
    confirms to the chat.  The random token of [secrets.token_hex(16)] is
    an argument of the handler.  Times are seconds; the [datetime] values
    the code stores compare in the same order. *)

From S2P Require Import Prelude Store Notify Orders.

(** [timedelta(minutes=30)]. *)
Definition link_token_ttl : Z := 1800.

Definition new_token_row (uid : nat) (tok : string) (exp : Z) : token_row :=
  {| t_user_id := uid; t_token := tok; t_expires_at := exp; t_is_used := false |}.

(** [DELETE FROM telegram_link_tokens WHERE user_id = ?] (app.py:653-656). *)
Definition tokens_deleted (uid : nat) (d : db) : db :=
  set_tokens (tbl_delete (fun _ r => Nat.eqb (t_user_id r) uid) (tokens d)) d.

Definition delete_tokens_of (uid : nat) (d : db) : option (unit * db) :=
  Some (tt, tokens_deleted uid d).

(** Some row already holds [tok]: the [UNIQUE] index refuses the insert. *)
Definition token_taken (tok : string) (d : db) : bool :=
  existsb (fun kr => String.eqb (t_token kr.2) tok) (rows (tokens d)).

(** [INSERT INTO telegram_link_tokens (user_id, token, expires_at)]
    (app.py:661-664); [is_used] takes its default 0. *)
Definition insert_token (uid : nat) (tok : string) (exp : Z) (d : db) : option (nat * db) :=
  if token_taken tok d then None
  else let (id, t) := tbl_insert (new_token_row uid tok exp) (tokens d) in Some (id, set_tokens t d).

(** [SELECT * FROM telegram_link_tokens WHERE token = ? AND is_used = 0
    AND expires_at > ?] with [fetch_one] (app.py:689-693). *)
Definition valid_token (tok : string) (t : Z) (d : db) : option (nat * token_row) :=
  tbl_find (fun _ r => String.eqb (t_token r) tok && negb (t_is_used r) && Z.ltb t (t_expires_at r))
    (tokens d).

Definition with_telegram_id (tg : string) (u : user_row) : user_row :=
  {| u_username := u_username u; u_email := u_email u; u_first_name := u_first_name u;
     u_last_name := u_last_name u; u_password_hash := u_password_hash u; u_theme := u_theme u;
     u_telegram_id := Some tg; u_created_at := u_created_at u |}.

(** [UPDATE users SET telegram_id = ? WHERE id = ?] (app.py:707-710). *)
Definition set_telegram_id (uid : nat) (tg : string) (d : db) : option (unit * db) :=
  Some (tt, set_users (tbl_update (fun k _ => Nat.eqb k uid) (with_telegram_id tg) (users d)) d).

Definition use_token (r : token_row) : token_row :=
  {| t_user_id := t_user_id r; t_token := t_token r; t_expires_at := t_expires_at r; t_is_used := true |}.

(** [UPDATE telegram_link_tokens SET is_used = 1 WHERE id = ?] (app.py:712-715). *)
Definition mark_used (id : nat) (d : db) : option (unit * db) :=
  Some (tt, set_tokens (tbl_update (fun k _ => Nat.eqb k id) use_token (tokens d)) d).

(** [SELECT * FROM users WHERE telegram_id = ?] with [fetch_one]
    (app.py:733-737, also 550-554, 633-637, 797-801): the first user in
    rowid order holding the chat id (the [idx_users_telegram_id] index
    orders equal keys by rowid as well). *)
Definition user_by_telegram (tg : string) (d : db) : option (nat * user_row) :=
  tbl_find (fun _ u => bool_decide (u_telegram_id u = Some tg)) (users d).

(** The writes of [generate_telegram_token] as separate statements: each
    [execute_query] commits on its own connection, so the statements of
    two requests served at once can interleave. *)
Inductive issue_stmt := IDelete (uid : nat) | IInsert (uid : nat) (tok : string) (exp : Z).

Definition run_issue_stmt (s : issue_stmt) (d : db) : option db :=
  match s with
  | IDelete uid => snd <$> delete_tokens_of uid d
  | IInsert uid tok exp => snd <$> insert_token uid tok exp d
  end.

Fixpoint run_schedule (ss : list issue_stmt) (d : db) : option db :=
  match ss with
  | [] => Some d
  | s :: ss' => run_issue_stmt s d ≫= run_schedule ss'
  end.

(** The writes of one request issuing [tok] for [uid], in program order. *)
Definition issue_stmts (uid : nat) (tok : string) (exp : Z) : list issue_stmt :=
  [IDelete uid; IInsert uid tok exp].

(** The schedules of two requests: merges that keep each one's order. *)
Inductive interleaving {A} : list A -> list A -> list A -> Prop :=
  | il_nil : interleaving [] [] []
  | il_left x l1 l2 l : interleaving l1 l2 l -> interleaving (x :: l1) l2 (x :: l)
  | il_right x l1 l2 l : interleaving l1 l2 l -> interleaving l1 (x :: l2) (x :: l).

(** The JSON of [generate_telegram_token]: the token and its expiry. *)
Record token_grant := { tg_token : string; tg_expires_at : Z }.

Section Handlers.
Context `{NotificationChannel}.

(** ** [generate_telegram_token] (app.py:650-679) *)
Definition generate_telegram_token (uid : nat) (tok : string) : M (reply token_grant) :=
  exec (delete_tokens_of uid) ;;
  t ← now;
  let exp := (t + link_token_ttl)%Z in
  _ ← exec (insert_token uid tok exp);
  user ← query (user_by_id uid);
  match user with
  | Some u =>
      if truthy_str (u_telegram_id u) then
        _ ← send (default EmptyString (u_telegram_id u)) (NLinkCode tok);
        mret (Reply 200 {| tg_token := tok; tg_expires_at := exp |})
      else mret (Reply 200 {| tg_token := tok; tg_expires_at := exp |})
  | None => mret (Reply 200 {| tg_token := tok; tg_expires_at := exp |})
  end.

(** ** [link_telegram] (app.py:681-724): the query parameters [token] and
    [telegram_id]; the reply carries [user_email]. *)
Definition link_telegram (token telegram_id : option string) : M (reply string) :=
  if negb (truthy_str token) || negb (truthy_str telegram_id) then
    mret (ErrorReply 400 "Token and telegram_id required")
  else
    let tok := default EmptyString token in
    let tg := default EmptyString telegram_id in
    t ← now;
    rec ← query (valid_token tok t);
    match rec with
    | None => mret (ErrorReply 400 "Invalid or expired token")
    | Some (id, r) =>
        user ← query (user_by_id (t_user_id r));
        match user with
        | None => mret (ErrorReply 404 "User not found")
        | Some u =>
            exec (set_telegram_id (t_user_id r) tg) ;;
            exec (mark_used id) ;;
            _ ← send tg (NLinked (u_email u));
            mret (Reply 200 (u_email u))
        end
    end.
End Handlers.

(** ** The token table after each statement *)

(** The [UNIQUE] index on [token]: no two rows hold the same token. *)
Definition tokens_unique (d : db) : Prop := NoDup (map (fun kr => t_token kr.2) (rows (tokens d))).

#[export] Instance tokens_unique_dec d : Decision (tokens_unique d).
Proof. unfold tokens_unique. apply _. Defined.

Definition link_db_inv (d : db) : Prop := db_wf d /\ tokens_unique d.

Definition link_db_invb (d : db) : bool := db_wfb d && bool_decide (tokens_unique d).

Lemma link_db_invb_sound d : link_db_invb d = true -> link_db_inv d.
Proof.
  unfold link_db_invb. intros [Hwf Hu]%andb_prop. split; [by apply db_wfb_sound | by apply (bool_decide_eq_true_1 (tokens_unique d))].
Qed.

(** The token rows of a user, and those that [valid_token] would accept
    at time [t]: the user's active tokens. *)
Definition tokens_of (uid : nat) (d : db) : list (nat * token_row) :=
  tbl_select (fun _ r => Nat.eqb (t_user_id r) uid) (tokens d).

Definition active_tokens (uid : nat) (t : Z) (d : db) : list (nat * token_row) :=
  tbl_select (fun _ r => Nat.eqb (t_user_id r) uid && negb (t_is_used r) && Z.ltb t (t_expires_at r))
    (tokens d).

(** The database after the DELETE and the INSERT of an issue. *)
Definition issued_db (uid : nat) (tok : string) (exp : Z) (d : db) : db :=
  let d1 := tokens_deleted uid d in set_tokens (tbl_insert (new_token_row uid tok exp) (tokens d1)).2 d1.

(** The database after the two UPDATEs of a redemption. *)
Definition linked_db (id uid : nat) (tg : string) (d : db) : db :=
  let d1 := set_users (tbl_update (fun k _ => Nat.eqb k uid) (with_telegram_id tg) (users d)) d in
  set_tokens (tbl_update (fun k _ => Nat.eqb k id) use_token (tokens d1)) d1.

Lemma token_taken_false tok d :
  token_taken tok d = false <-> forall k r, (k, r) ∈ rows (tokens d) -> t_token r <> tok.
Proof.
  unfold token_taken. rewrite <- Bool.not_true_iff_false, existsb_exists. split.
  - intros Hn k r Hin Heq. apply Hn. exists (k, r). rewrite <- list_elem_of_In. split; [done|].
    by apply String.eqb_eq.
  - intros Hall ([k r] & Hin & Heq). apply list_elem_of_In in Hin. apply (Hall k r Hin).
    by apply String.eqb_eq.
Qed.

(** [valid_token] finds nothing exactly when every row holding the token
    is used or expired: an unknown token is the case with no such row. *)
Lemma valid_token_None tok t d :
  valid_token tok t d = None <->
  forall k r, (k, r) ∈ rows (tokens d) -> t_token r = tok -> t_is_used r = true \/ (t_expires_at r <= t)%Z.
Proof.
  unfold valid_token. rewrite tbl_find_None. split; intros Hall k r Hin; specialize (Hall k r Hin).
  - intros <-. rewrite String.eqb_refl in Hall. simpl in Hall.
    destruct (t_is_used r); [by left|]. right. simpl in Hall. by apply Z.ltb_ge.
  - destruct (String.eqb_spec (t_token r) tok) as [Heq|]; [|done]. simpl.
    destruct (Hall Heq) as [->|Hle]; [done|]. rewrite (proj2 (Z.ltb_ge _ _) Hle). apply andb_false_r.
Qed.

Lemma valid_token_Some tok t d id r :
  valid_token tok t d = Some (id, r) ->
  (id, r) ∈ rows (tokens d) /\ t_token r = tok /\ t_is_used r = false /\ (t < t_expires_at r)%Z.
Proof.
  intros (Hin & HP)%tbl_find_Some. apply andb_prop in HP as [HP Ht]. apply andb_prop in HP as [Htok Hu].
  apply String.eqb_eq in Htok. apply Z.ltb_lt in Ht. apply negb_true_iff in Hu. done.
Qed.

Lemma tokens_deleted_elem uid d k r :
  (k, r) ∈ rows (tokens (tokens_deleted uid d)) <-> (k, r) ∈ rows (tokens d) /\ t_user_id r <> uid.
Proof. unfold tokens_deleted. cbn [tokens set_tokens]. rewrite tbl_delete_elem. by rewrite Nat.eqb_neq. Qed.

Lemma token_taken_deleted tok uid d :
  token_taken tok d = false -> token_taken tok (tokens_deleted uid d) = false.
Proof.
  rewrite !token_taken_false. intros Hall k r Hin. apply tokens_deleted_elem in Hin as [Hin _].
  by apply (Hall k r).
Qed.

Lemma insert_token_fresh uid tok exp d :
  token_taken tok d = false ->
  insert_token uid tok exp (tokens_deleted uid d) = Some (S (seq (tokens d)), issued_db uid tok exp d).
Proof. intros Hf. unfold insert_token. by rewrite token_taken_deleted. Qed.

Lemma issued_db_elem uid tok exp d k r :
  (k, r) ∈ rows (tokens (issued_db uid tok exp d)) <->
  ((k, r) ∈ rows (tokens d) /\ t_user_id r <> uid) \/ (k, r) = (S (seq (tokens d)), new_token_row uid tok exp).
Proof. unfold issued_db. cbn [tokens set_tokens]. by rewrite tbl_insert_elem, tokens_deleted_elem. Qed.

Lemma user_by_id_issued uid' uid tok exp d : user_by_id uid' (issued_db uid tok exp d) = user_by_id uid' d.
Proof. reflexivity. Qed.

(** The notice an issue pushes: the code, to the user's chat if linked. *)
Definition link_code_notices (uid : nat) (tok : string) (d : db) : list (string * notice) :=
  match user_by_id uid d with
  | Some u => if truthy_str (u_telegram_id u) then [(default EmptyString (u_telegram_id u), NLinkCode tok)] else []
  | None => []
  end.

(** ** The handlers on a database that accepts their statements *)

Section LinkRuns.
Context `{NotificationChannel}.

Lemma generate_run uid tok w :
  w_faults w = [] -> token_taken tok (w_db w) = false ->
  exists w' new,
    generate_telegram_token uid tok w =
      (w', Ret (Reply 200 {| tg_token := tok; tg_expires_at := (w_now w + link_token_ttl)%Z |})) /\
    w_db w' = issued_db uid tok (w_now w + link_token_ttl) (w_db w) /\
    w_faults w' = [] /\ w_now w' = w_now w /\
    w_sent w' = w_sent w ++ new /\ map msg_of new = link_code_notices uid tok (w_db w).
Proof.
  intros Hf Ht. unfold generate_telegram_token.
  erewrite est_bind_run by (apply exec_run; [by apply no_faults_clear | reflexivity]).
  erewrite est_bind_run by reflexivity. cbv beta.
  erewrite est_bind_run by (apply exec_run; [by apply no_faults_clear | apply insert_token_fresh, Ht]).
  erewrite est_bind_run by (apply query_run; simpl; by apply no_faults_clear).
  cbn [w_db tick set_db]. rewrite user_by_id_issued. unfold link_code_notices.
  destruct (user_by_id uid (w_db w)) as [u|]; [destruct (truthy_str (u_telegram_id u))|].
  - edestruct (send_bind (A:=reply token_grant)) as [ok ->]. eexists _, [_]. by repeat split.
  - eexists _, []. rewrite app_nil_r. by repeat split.
  - eexists _, []. rewrite app_nil_r. by repeat split.
Qed.

(** With both parameters present and the token SELECT not failing, a
    token that [valid_token] does not find gets the 400 reply after that
    SELECT alone. *)
Lemma link_invalid tok tg w :
  tok <> EmptyString -> tg <> EmptyString -> w_stmt w ∉ w_faults w ->
  valid_token tok (w_now w) (w_db w) = None ->
  link_telegram (Some tok) (Some tg) w = (tick w, Ret (ErrorReply 400 "Invalid or expired token")).
Proof.
  intros Htok Htg Hf Hv. unfold link_telegram. rewrite !truthy_str_Some by done. cbn [negb orb default].
  erewrite est_bind_run by reflexivity.
  rewrite (est_bind_run _ _ _ _ _ (query_run _ _ Hf)). cbv beta zeta. cbv [default from_option Datatypes.id]. by rewrite Hv.
Qed.

Lemma link_run tok tg w id r u :
  tok <> EmptyString -> tg <> EmptyString -> w_faults w = [] ->
  valid_token tok (w_now w) (w_db w) = Some (id, r) -> user_by_id (t_user_id r) (w_db w) = Some u ->
  exists w' ok,
    link_telegram (Some tok) (Some tg) w = (w', Ret (Reply 200 (u_email u))) /\
    w_db w' = linked_db id (t_user_id r) tg (w_db w) /\ w_faults w' = [] /\ w_now w' = w_now w /\
    w_sent w' = w_sent w ++ [{| at_chat := tg; at_notice := NLinked (u_email u); at_ok := ok |}].
Proof.
  intros Htok Htg Hf Hv Hu. unfold link_telegram. rewrite !truthy_str_Some by done. cbn [negb orb default].
  erewrite est_bind_run by reflexivity.
  rewrite (est_bind_run _ _ _ _ _ (query_run _ _ (no_faults_clear _ _ Hf))). cbv beta zeta. cbv [default from_option Datatypes.id].
  rewrite Hv. cbv beta iota.
  erewrite est_bind_run by (apply query_run; simpl; by apply no_faults_clear).
  cbn [w_db tick]. rewrite Hu. cbv beta iota.
  erewrite est_bind_run by (apply exec_run; [simpl; by apply no_faults_clear | reflexivity]).
  erewrite est_bind_run by (apply exec_run; [simpl; by apply no_faults_clear | reflexivity]).
  edestruct (send_bind (A:=reply string)) as [ok ->]. eexists _, ok. by repeat split.
Qed.

Lemma link_no_user tok tg w id r :
  tok <> EmptyString -> tg <> EmptyString -> w_faults w = [] ->
  valid_token tok (w_now w) (w_db w) = Some (id, r) -> user_by_id (t_user_id r) (w_db w) = None ->
  link_telegram (Some tok) (Some tg) w = (tick (tick w), Ret (ErrorReply 404 "User not found")).
Proof.
  intros Htok Htg Hf Hv Hu. unfold link_telegram. rewrite !truthy_str_Some by done. cbn [negb orb default].
  erewrite est_bind_run by reflexivity.
  rewrite (est_bind_run _ _ _ _ _ (query_run _ _ (no_faults_clear _ _ Hf))). cbv beta zeta.
  cbv [default from_option Datatypes.id]. rewrite Hv. cbv beta iota.
  erewrite est_bind_run by (apply query_run; simpl; by apply no_faults_clear).
  cbn [w_db tick]. by rewrite Hu.
Qed.
End LinkRuns.

(** ** The tables after a redemption and after an issue *)

Lemma linked_users id uid tg d v :
  tbl_get v (users (linked_db id uid tg d)) =
  if Nat.eqb v uid then with_telegram_id tg <$> tbl_get v (users d) else tbl_get v (users d).
Proof.
  cbn [linked_db users set_tokens set_users]. rewrite tbl_get_update.
  destruct (tbl_get v (users d)); simpl; by destruct (Nat.eqb v uid).
Qed.

Lemma linked_token id uid tg d : tbl_get id (tokens (linked_db id uid tg d)) = use_token <$> tbl_get id (tokens d).
Proof.
  cbn [linked_db tokens set_tokens set_users]. rewrite tbl_get_update.
  destruct (tbl_get id (tokens d)); simpl; by rewrite ?Nat.eqb_refl.
Qed.

(** Once its row is marked used, a token is dead at every time: the
    [UNIQUE] index leaves no other row with the same token. *)
Lemma linked_token_dead tok t0 t id r uid tg d :
  tokens_unique d -> valid_token tok t0 d = Some (id, r) -> valid_token tok t (linked_db id uid tg d) = None.
Proof.
  intros Hu (Hin & Htok & _)%valid_token_Some. apply valid_token_None. intros k r' Hk Htok'.
  cbn [linked_db tokens set_tokens set_users] in Hk. apply tbl_update_elem in Hk as (r0 & Hk & ->).
  destruct (Nat.eqb_spec k id) as [->|Hne]; [by left|].
  assert ((k, r0) = (id, r)) as [= ->] by (apply (NoDup_map_elem_eq _ _ _ _ Hu Hk Hin); simpl; congruence).
  done.
Qed.

Lemma token_taken_issued s uid tok exp d :
  token_taken s d = false -> s <> tok -> token_taken s (issued_db uid tok exp d) = false.
Proof.
  rewrite !token_taken_false. intros Hall Hne k r [[Hin _]|[= -> ->]]%issued_db_elem; [by apply (Hall k r)|].
  simpl. congruence.
Qed.

Lemma tokens_of_issued uid tok exp d :
  tokens_of uid (issued_db uid tok exp d) = [(S (seq (tokens d)), new_token_row uid tok exp)].
Proof.
  unfold tokens_of, issued_db. cbn [tokens set_tokens]. rewrite tbl_select_insert.
  unfold tokens_deleted. cbn [tokens set_tokens]. rewrite tbl_select_delete_all by done.
  simpl. by rewrite Nat.eqb_refl.
Qed.

Lemma tokens_of_issued_other uid uid' tok exp d :
  uid' <> uid -> tokens_of uid' (issued_db uid tok exp d) = tokens_of uid' d.
Proof.
  intros Hne. unfold tokens_of, issued_db. cbn [tokens set_tokens]. rewrite tbl_select_insert.
  simpl. rewrite (proj2 (Nat.eqb_neq uid uid')) by congruence. rewrite app_nil_r.
  unfold tokens_deleted. cbn [tokens set_tokens]. apply tbl_select_delete_disj.
  intros k r ->%Nat.eqb_eq. by apply Nat.eqb_neq.
Qed.

Lemma active_tokens_issued uid tok exp t d :
  active_tokens uid t (issued_db uid tok exp d) =
  if Z.ltb t exp then [(S (seq (tokens d)), new_token_row uid tok exp)] else [].
Proof.
  unfold active_tokens, issued_db. cbn [tokens set_tokens]. rewrite tbl_select_insert.
  unfold tokens_deleted. cbn [tokens set_tokens].
  rewrite tbl_select_delete_all by (intros k r [[H _]%andb_prop _]%andb_prop; exact H).
  simpl. rewrite Nat.eqb_refl. by destruct (Z.ltb t exp).
Qed.

Lemma valid_token_issued uid tok exp t d :
  token_taken tok d = false -> (t < exp)%Z ->
  valid_token tok t (issued_db uid tok exp d) = Some (S (seq (tokens d)), new_token_row uid tok exp).
Proof.
  intros Hf Ht. unfold valid_token, issued_db. cbn [tokens set_tokens]. rewrite tbl_find_insert.
  assert (valid_token tok t (tokens_deleted uid d) = None) as Hn.
  { apply valid_token_None. intros k r Hin Htok. exfalso.
    apply tokens_deleted_elem in Hin as [Hin _]. by apply ((proj1 (token_taken_false tok d)) Hf k r). }
  unfold valid_token in Hn. rewrite Hn. simpl. rewrite String.eqb_refl. by rewrite (proj2 (Z.ltb_lt _ _) Ht).
Qed.

(** ** The invariant [link_db_inv], statement by statement *)

Lemma delete_tokens_keeps uid d a d' :
  link_db_inv d -> delete_tokens_of uid d = Some (a, d') -> link_db_inv d'.
Proof.
  intros [Hwf Hu] [= <- <-]. split; [apply db_wf_set_tokens; [done | apply tbl_delete_wf, Hwf]|].
  apply NoDup_map_filter, Hu.
Qed.

Lemma insert_token_keeps uid tok exp d a d' :
  link_db_inv d -> insert_token uid tok exp d = Some (a, d') -> link_db_inv d'.
Proof.
  intros [Hwf Hu]. unfold insert_token. destruct (token_taken tok d) eqn:Ht; [done|].
  intros [= <- <-]. split; [apply db_wf_set_tokens; [done | apply tbl_insert_wf, Hwf]|].
  unfold tokens_unique. cbn [tokens set_tokens rows tbl_insert snd]. rewrite map_app.
  apply NoDup_app. split; [done|]. split; [|apply NoDup_singleton].
  intros s (kr & -> & Hin)%list_elem_of_fmap Heq%list_elem_of_singleton. destruct kr as [k r].
  by apply (proj1 (token_taken_false tok d) Ht k r).
Qed.

Lemma set_telegram_id_keeps uid tg d a d' :
  link_db_inv d -> set_telegram_id uid tg d = Some (a, d') -> link_db_inv d'.
Proof.
  intros [Hwf Hu] [= <- <-]. split; [apply db_wf_set_users; [done | apply tbl_update_wf, Hwf] | exact Hu].
Qed.

Lemma mark_used_keeps id d a d' : link_db_inv d -> mark_used id d = Some (a, d') -> link_db_inv d'.
Proof.
  intros [Hwf Hu] [= <- <-]. split; [apply db_wf_set_tokens; [done | apply tbl_update_wf, Hwf]|].
  unfold tokens_unique. cbn [tokens set_tokens rows tbl_update]. rewrite map_map.
  erewrite map_ext; [exact Hu|]. intros [k r]. simpl. by destruct (Nat.eqb k id).
Qed.

#[export] Hint Resolve delete_tokens_keeps insert_token_keeps set_telegram_id_keeps mark_used_keeps : osys.

(** ** At most one unused token per user

    [generate_telegram_token] deletes the user's tokens before it
    inserts the new one, and [link_telegram] only marks tokens used: a
    user never holds two unused tokens.  The DELETE is what keeps this,
    not a constraint of the schema. *)

Definition pending_users (d : db) : list nat :=
  map (fun kr => t_user_id kr.2) (List.filter (fun kr => negb (t_is_used kr.2)) (rows (tokens d))).

Definition one_pending (d : db) : Prop := NoDup (pending_users d).

Definition link_inv (d : db) : Prop := link_db_inv d /\ one_pending d.

Lemma pending_deleted uid d :
  pending_users (tokens_deleted uid d) = List.filter (fun k => negb (Nat.eqb k uid)) (pending_users d).
Proof.
  unfold pending_users, tokens_deleted. cbn [tokens set_tokens tbl_delete rows].
  induction (rows (tokens d)) as [|[k r] l IH]; [done|]. simpl.
  destruct (t_user_id r =? uid) eqn:E, (t_is_used r) eqn:U; simpl; rewrite ?E, ?U; simpl; by rewrite IH.
Qed.

Lemma pending_inserted uid tok exp d id d' :
  insert_token uid tok exp d = Some (id, d') -> pending_users d' = pending_users d ++ [uid].
Proof.
  unfold insert_token. destruct (token_taken tok d); [done|]. intros [= <- <-].
  unfold pending_users. cbn [tokens set_tokens tbl_insert rows snd]. by rewrite List.filter_app, map_app.
Qed.

Lemma pending_used id d : pending_users (set_tokens (tbl_update (fun k _ => Nat.eqb k id) use_token (tokens d)) d)
  `sublist_of` pending_users d.
Proof.
  unfold pending_users. cbn [tokens set_tokens tbl_update rows].
  induction (rows (tokens d)) as [|[k r] l IH]; [done|]. simpl.
  destruct (k =? id), (t_is_used r) eqn:U; simpl; rewrite ?U; simpl;
    first [apply sublist_skip, IH | apply sublist_cons, IH | exact IH].
Qed.

Lemma delete_tokens_one uid d a d' :
  one_pending d -> delete_tokens_of uid d = Some (a, d') -> one_pending d' /\ uid ∉ pending_users d'.
Proof.
  intros Hn [= <- <-]. unfold one_pending. rewrite pending_deleted. split; [apply NoDup_ListNoDup, List.NoDup_filter, NoDup_ListNoDup, Hn|].
  intros Hin%list_elem_of_In. apply List.filter_In in Hin as [_ Hk]. rewrite Nat.eqb_refl in Hk. discriminate.
Qed.

Lemma insert_token_one uid tok exp d a d' :
  one_pending d -> uid ∉ pending_users d -> insert_token uid tok exp d = Some (a, d') -> one_pending d'.
Proof.
  intros Hn Hu Hq. unfold one_pending. rewrite (pending_inserted _ _ _ _ _ _ Hq).
  apply NoDup_app. split; [done | split; [|apply NoDup_singleton]]. by intros x Hx ->%list_elem_of_singleton.
Qed.

Lemma link_inv_mark_used id d a d' : link_inv d -> mark_used id d = Some (a, d') -> link_inv d'.
Proof.
  intros [Hl Hn] Hq. split; [by eapply mark_used_keeps|]. injection Hq as <- <-.
  unfold one_pending. eapply sublist_NoDup; [exact Hn | apply pending_used].
Qed.

Lemma link_inv_set_telegram_id uid tg d a d' : link_inv d -> set_telegram_id uid tg d = Some (a, d') -> link_inv d'.
Proof. intros [Hl Hn] Hq. split; [by eapply set_telegram_id_keeps|]. by injection Hq as <- <-. Qed.

Section LinkInvariant.
Context `{NotificationChannel}.

(** C15. Both linking handlers keep [link_inv] whatever happens,
    statement faults and refused inserts included: the tables stay
    well-formed, no two token rows hold the same token, and no user
    holds two unused tokens.  Issuing keeps the last part only because
    its DELETE of the user's tokens comes before the INSERT; two issues
    for one user interleaved break it (C17). *)
Theorem link_handlers_inv uid tok token telegram_id :
  est_pres (inv_kept link_inv) (generate_telegram_token uid tok) /\
  est_pres (inv_kept link_inv) (link_telegram token telegram_id).
Proof.
  split.
  - intros w [Hl Hn]. unfold generate_telegram_token.
    destruct (exec (delete_tokens_of uid) w) as [w1 [[]|e]] eqn:E1;
      [|rewrite (est_bind_raise _ _ _ _ _ E1); cbn; by rewrite (exec_raise_inv _ _ _ _ E1)].
    rewrite (est_bind_run _ _ _ _ _ E1). apply exec_ret_inv in E1.
    destruct (delete_tokens_one _ _ _ _ Hn E1) as [Hn1 Hu1].
    pose proof (delete_tokens_keeps _ _ _ _ Hl E1) as Hl1.
    erewrite est_bind_run by reflexivity. cbv zeta.
    match goal with |- context [exec (insert_token ?u ?t ?x)] => destruct (exec (insert_token u t x) w1) as [w2 [id|e]] eqn:E2 end;
      [|rewrite (est_bind_raise _ _ _ _ _ E2); cbn; rewrite (exec_raise_inv _ _ _ _ E2); by split].
    rewrite (est_bind_run _ _ _ _ _ E2). apply exec_ret_inv in E2.
    assert (Hw2 : link_inv (w_db w2)) by (split; [by eapply insert_token_keeps | by eapply insert_token_one]).
    match goal with |- link_inv (w_db (?m w2).1) =>
      assert (Hm : est_pres (inv_kept link_inv) m) by est_pres_auto end.
    exact (Hm w2 Hw2).
  - unfold link_telegram. destruct (_ || _); [est_pres_auto|]. cbv zeta.
    est_pres_auto; apply exec_inv_kept; intros ???; [apply link_inv_set_telegram_id | apply link_inv_mark_used].
Qed.
End LinkInvariant.

(** ** What issuing and redeeming guarantee *)

Lemma run_issue_delete uid d : run_issue_stmt (IDelete uid) d = Some (tokens_deleted uid d).
Proof. reflexivity. Qed.

Lemma run_issue_insert uid tok exp d :
  token_taken tok d = false ->
  run_issue_stmt (IInsert uid tok exp) (tokens_deleted uid d) = Some (issued_db uid tok exp d).
Proof. intros Hf. simpl. by rewrite insert_token_fresh. Qed.

Section LinkTheorems.
Context `{NotificationChannel}.

(** C11. Issuing a fresh token for [uid] (no failing statement) replies
    with the token and an expiry 30 minutes ahead, and leaves exactly one
    token row for [uid]: the new one, unused, which [link_telegram]
    accepts; the token rows of every other user and every other table
    are unchanged; the code is pushed to the user's chat exactly when one
    is linked. *)
Theorem generate_token_single uid tok w :
  w_faults w = [] -> token_taken tok (w_db w) = false ->
  let exp := (w_now w + link_token_ttl)%Z in
  let id := S (seq (tokens (w_db w))) in
  exists w' new,
    generate_telegram_token uid tok w = (w', Ret (Reply 200 {| tg_token := tok; tg_expires_at := exp |})) /\
    tokens_of uid (w_db w') = [(id, new_token_row uid tok exp)] /\
    valid_token tok (w_now w) (w_db w') = Some (id, new_token_row uid tok exp) /\
    (forall uid', uid' <> uid -> tokens_of uid' (w_db w') = tokens_of uid' (w_db w)) /\
    w_db w' = set_tokens (tokens (w_db w')) (w_db w) /\
    w_sent w' = w_sent w ++ new /\ map msg_of new = link_code_notices uid tok (w_db w).
Proof.
  intros Hf Ht exp id. destruct (generate_run uid tok w Hf Ht) as (w' & new & E & Hdb & _ & _ & Hs & Hm).
  exists w', new. rewrite Hdb. split; [exact E|]. split; [apply tokens_of_issued|]. split.
  { apply valid_token_issued; [done | unfold exp, link_token_ttl; lia]. }
  split; [|split; [reflexivity | done]].
  intros uid' Hne. by apply tokens_of_issued_other.
Qed.

(** C12. Issuing twice for the same user leaves one active token, the
    second; the first, although not expired, is then refused by
    [link_telegram] with the 400 reply. *)
Theorem reissue_invalidates_first uid t1 t2 tg w :
  w_faults w = [] -> t1 <> t2 -> t1 <> EmptyString -> tg <> EmptyString ->
  token_taken t1 (w_db w) = false -> token_taken t2 (w_db w) = false ->
  exists w1 w2 g1 g2,
    generate_telegram_token uid t1 w = (w1, Ret (Reply 200 g1)) /\
    generate_telegram_token uid t2 w1 = (w2, Ret (Reply 200 g2)) /\
    active_tokens uid (w_now w) (w_db w2) =
      [(S (seq (tokens (w_db w1))), new_token_row uid t2 (tg_expires_at g2))] /\
    link_telegram (Some t1) (Some tg) w2 = (tick w2, Ret (ErrorReply 400 "Invalid or expired token")).
Proof.
  intros Hf Hne Ht1 Htg Hf1 Hf2.
  destruct (generate_run uid t1 w Hf Hf1) as (w1 & n1 & E1 & Hdb1 & Hff1 & Hn1 & _).
  assert (Hf2' : token_taken t2 (w_db w1) = false) by (rewrite Hdb1; apply token_taken_issued; congruence).
  destruct (generate_run uid t2 w1 Hff1 Hf2') as (w2 & n2 & E2 & Hdb2 & Hff2 & Hn2 & _).
  eexists w1, w2, _, _. split; [exact E1|]. split; [exact E2|]. split.
  - rewrite Hdb2, active_tokens_issued, Hn1. simpl.
    by rewrite (proj2 (Z.ltb_lt _ _)) by (unfold link_token_ttl; lia).
  - apply link_invalid; [done | done | rewrite Hff2; apply not_elem_of_nil |].
    apply valid_token_None. intros k r Hin Htok. exfalso.
    rewrite Hdb2 in Hin. apply issued_db_elem in Hin as [[Hin Hu]|[= -> ->]]; [|simpl in Htok; congruence].
    rewrite Hdb1 in Hin. apply issued_db_elem in Hin as [[Hin _]|[= -> ->]]; [|by destruct Hu].
    by apply (proj1 (token_taken_false t1 (w_db w)) Hf1 k r).
Qed.

(** C13. A token that is unknown, already used or expired (every row
    holding it is used or has [expires_at <= now]) gets one and the same
    reply, 400 [Invalid or expired token], after the token SELECT alone:
    nothing is written and nothing is sent. *)
Theorem link_rejects_dead_token tok tg w :
  tok <> EmptyString -> tg <> EmptyString -> w_stmt w ∉ w_faults w ->
  (forall k r, (k, r) ∈ rows (tokens (w_db w)) -> t_token r = tok ->
     t_is_used r = true \/ (t_expires_at r <= w_now w)%Z) ->
  link_telegram (Some tok) (Some tg) w = (tick w, Ret (ErrorReply 400 "Invalid or expired token")).
Proof. intros Htok Htg Hf Hdead. apply link_invalid; [done..|]. by apply valid_token_None. Qed.

(** C14. Redeeming a valid token of an existing user replies 200 with
    the user's email, sets that user's [telegram_id] to the chat id and
    leaves every other user as it was, marks the token row used, and
    sends the confirmation to the chat. *)
Theorem link_success tok tg w id r u :
  tok <> EmptyString -> tg <> EmptyString -> w_faults w = [] -> db_wf (w_db w) ->
  valid_token tok (w_now w) (w_db w) = Some (id, r) -> user_by_id (t_user_id r) (w_db w) = Some u ->
  exists w' ok,
    link_telegram (Some tok) (Some tg) w = (w', Ret (Reply 200 (u_email u))) /\
    user_by_id (t_user_id r) (w_db w') = Some (with_telegram_id tg u) /\
    (forall v, v <> t_user_id r -> user_by_id v (w_db w') = user_by_id v (w_db w)) /\
    tbl_get id (tokens (w_db w')) = Some (use_token r) /\
    w_sent w' = w_sent w ++ [{| at_chat := tg; at_notice := NLinked (u_email u); at_ok := ok |}].
Proof.
  intros Htok Htg Hf Hwf Hv Hu.
  destruct (link_run tok tg w id r u Htok Htg Hf Hv Hu) as (w' & ok & E & Hdb & _ & _ & Hs).
  exists w', ok. unfold user_by_id in *. rewrite Hdb. split; [exact E|]. split; [|split; [|split]].
  - by rewrite linked_users, Nat.eqb_refl, Hu.
  - intros v Hne. rewrite linked_users. by rewrite (proj2 (Nat.eqb_neq v _) Hne).
  - rewrite linked_token. apply valid_token_Some in Hv as (Hin & _).
    by rewrite (tbl_get_elem _ _ _ (proj2 (proj2 (proj2 (proj2 Hwf)))) Hin).
  - exact Hs.
Qed.

(** A token is redeemed at most once: after a successful
    redemption it is dead at every time, and redeeming it again, for any
    chat id, gets the 400 reply. *)
Theorem link_token_one_time tok tg tg' w w' e :
  tok <> EmptyString -> tg <> EmptyString -> tg' <> EmptyString -> w_faults w = [] ->
  tokens_unique (w_db w) ->
  link_telegram (Some tok) (Some tg) w = (w', Ret (Reply 200 e)) ->
  (forall t, valid_token tok t (w_db w') = None) /\
  link_telegram (Some tok) (Some tg') w' = (tick w', Ret (ErrorReply 400 "Invalid or expired token")).
Proof.
  intros Htok Htg Htg' Hf Huq E.
  destruct (valid_token tok (w_now w) (w_db w)) as [[id r]|] eqn:Hv;
    [|by rewrite (link_invalid _ _ _ Htok Htg (no_faults_clear _ _ Hf) Hv) in E].
  destruct (user_by_id (t_user_id r) (w_db w)) as [u|] eqn:Hu;
    [|by rewrite (link_no_user _ _ _ _ _ Htok Htg Hf Hv Hu) in E].
  destruct (link_run tok tg w id r u Htok Htg Hf Hv Hu) as (w1 & ok & E1 & Hdb & Hf1 & _ & _).
  rewrite E1 in E. injection E as <- _.
  assert (Hdead : forall t, valid_token tok t (w_db w1) = None)
    by (intros t; rewrite Hdb; by eapply linked_token_dead).
  split; [exact Hdead|]. apply link_invalid; [done | done | rewrite Hf1; apply not_elem_of_nil | apply Hdead].
Qed.

(** C18. [link_telegram] does not check that the chat id is free: when
    another user [v] already holds it, the redemption still succeeds and
    both users hold the chat id; when [v] has the smaller rowid, the
    [telegram_id] lookup of the bot endpoints keeps resolving the chat to
    [v], so the account just linked is never reached from the chat. *)
Theorem link_chat_collision tok tg w id r u v uv :
  tok <> EmptyString -> tg <> EmptyString -> w_faults w = [] -> db_wf (w_db w) ->
  valid_token tok (w_now w) (w_db w) = Some (id, r) -> user_by_id (t_user_id r) (w_db w) = Some u ->
  user_by_telegram tg (w_db w) = Some (v, uv) -> v < t_user_id r ->
  exists w',
    link_telegram (Some tok) (Some tg) w = (w', Ret (Reply 200 (u_email u))) /\
    user_by_id (t_user_id r) (w_db w') = Some (with_telegram_id tg u) /\
    user_by_id v (w_db w') = Some uv /\ u_telegram_id uv = Some tg /\
    user_by_telegram tg (w_db w') = Some (v, uv).
Proof.
  intros Htok Htg Hf Hwf Hv Hu Hby Hlt.
  destruct (link_run tok tg w id r u Htok Htg Hf Hv Hu) as (w' & ok & E & Hdb & _).
  apply tbl_find_Some in Hby as Hby'. destruct Hby' as [Hin Htgv]. apply bool_decide_eq_true_1 in Htgv.
  exists w'. unfold user_by_id, user_by_telegram in *. rewrite Hdb. split; [exact E|].
  split; [by rewrite linked_users, Nat.eqb_refl, Hu|]. split; [|split; [exact Htgv|]].
  - rewrite linked_users, (proj2 (Nat.eqb_neq v _)) by lia. apply tbl_get_elem; [apply Hwf | exact Hin].
  - cbn [linked_db users set_tokens set_users]. apply tbl_find_update_after; [apply Hwf | exact Hby |].
    intros k' r' ->%Nat.eqb_eq. exact Hlt.
Qed.
End LinkTheorems.

(** C17. Issuing is not atomic: two requests issuing tokens for the same
    user at once can run their statements as DELETE, DELETE, INSERT,
    INSERT, and then the user holds two active tokens, where the
    specification requires at most one. *)
Theorem issue_race_two_active uid t1 t2 e1 e2 t d :
  t1 <> t2 -> token_taken t1 d = false -> token_taken t2 d = false -> (t < e1)%Z -> (t < e2)%Z ->
  let sched := [IDelete uid; IDelete uid; IInsert uid t1 e1; IInsert uid t2 e2] in
  interleaving (issue_stmts uid t1 e1) (issue_stmts uid t2 e2) sched /\
  exists d', run_schedule sched d = Some d' /\
    active_tokens uid t d' =
      [(S (seq (tokens d)), new_token_row uid t1 e1); (S (S (seq (tokens d))), new_token_row uid t2 e2)].
Proof.
  intros Hne H1 H2 He1 He2 sched. split; [repeat constructor|].
  pose (d3 := issued_db uid t1 e1 (tokens_deleted uid d)).
  assert (Ht2 : token_taken t2 d3 = false)
    by (apply token_taken_issued; [by apply token_taken_deleted | congruence]).
  exists (set_tokens (tbl_insert (new_token_row uid t2 e2) (tokens d3)).2 d3). split.
  - cbn [run_schedule sched]. rewrite run_issue_delete. cbn [mbind option_bind].
    rewrite run_issue_delete. cbn [mbind option_bind].
    rewrite (run_issue_insert _ _ _ _ (token_taken_deleted _ _ _ H1)). cbn [mbind option_bind].
    fold d3. cbn [run_issue_stmt]. unfold insert_token. rewrite Ht2. reflexivity.
  - unfold active_tokens. cbn [tokens set_tokens]. rewrite tbl_select_insert. fold (active_tokens uid t d3).
    unfold d3. rewrite active_tokens_issued. simpl. rewrite Nat.eqb_refl.
    by rewrite (proj2 (Z.ltb_lt _ _) He1), (proj2 (Z.ltb_lt _ _) He2).
Qed.
