(* ===== verification/Telegram.v ===== *)
(** * The Telegram entry points (app.py:539-836)

    The endpoints the bot calls with a chat id instead of a bearer token:
    [create_telegram_order], [get_telegram_products],
    [get_telegram_user_info] and [get_telegram_orders].  Each resolves the
    user with [user_by_telegram] ([Linking.v]), the first user in rowid
    order holding the chat id.  [create_telegram_order] runs inside
    [try ... except Exception], which turns any exception into a 500 reply
    carrying [str(e)]; it takes the order total from the request and
    creates one new product per item (the quirk the specification
    records). *)

From stdpp Require Import pretty.
From S2P Require Import Prelude Store Notify Orders Linking.

(** ** Request data *)

(** An element of [data['items']]: each field [None] when the key is
    missing; [description] is [Some None] for an explicit [null]. *)
Record tg_item := {
  ti_product_name : option string;
  ti_quantity : option Z;
  ti_price : option Z;
  ti_description : option (option string)
}.

(** The JSON body: [tr_items] is [None] when the key is missing or is not
    a list.  [tr_total_amount] is [None] when the key is missing; a JSON
    [null] there, which the code passes on to the NOT NULL column (a
    500), is not distinguished from a missing key. *)
Record tg_order_req := {
  tr_telegram_id : option string;
  tr_items : option (list tg_item);
  tr_total_amount : option Z
}.

(** One line the handler inserted: name, quantity, price. *)
Definition tg_line := (string * Z * Z)%type.

(** The 201 reply: [order_id], [total_amount], [created_at] and the
    items with [total = quantity * price] ([status] is always ["new"]). *)
Record tg_order_reply := {
  tor_order_id : nat;
  tor_total_amount : Z;
  tor_created_at : Z;
  tor_items : list (string * Z * Z * Z)
}.

(** [str(e)] of the exceptions the handler can meet: a [KeyError] prints
    the quoted key; the text of an [sqlite3] error is not modelled. *)
Definition exn_str (e : exn) : string :=
  match e with
  | DbError => "database error"
  | KeyError k => "'" +:+ k +:+ "'"
  | TypeError => "'NoneType' object is not subscriptable"
  | ValueError => "invalid literal"
  | AttributeError => "'NoneType' object has no attribute"
  | OverflowError => "Python int too large to convert to SQLite INTEGER"
  end.

(** The default description of an item (app.py:576). *)
Definition telegram_item_description (oid : nat) : string :=
  "Товар из заказа Telegram #" +:+ pretty oid.

(** [INSERT INTO products (name, price, description, created_by)]
    (app.py:574-578); [created_at] takes [CURRENT_TIMESTAMP]. *)
Definition insert_product (name : string) (price : Z) (desc : option string) (uid : nat) (ts : Z)
  (d : db) : option (nat * db) :=
  let '(id, t) := tbl_insert {| p_name := name; p_price := price; p_description := desc;
                                p_created_by := uid; p_created_at := ts |} (products d) in
  Some (id, set_products t d).

(** [SELECT * FROM products WHERE created_by = ? ORDER BY created_at DESC]
    (app.py:642-646). *)
Definition products_of_user (uid : nat) (d : db) : list (nat * product_row) :=
  sort_desc (fun kr : nat * product_row => p_created_at kr.2)
    (tbl_select (fun _ p => Nat.eqb (p_created_by p) uid) (products d)).

(** [SELECT * FROM orders WHERE user_id = ? ORDER BY created_at DESC]
    (app.py:806-810). *)
Definition orders_of_user_desc (uid : nat) (d : db) : list (nat * order_row) :=
  sort_desc (fun kr : nat * order_row => o_created_at kr.2)
    (tbl_select (fun _ o => Nat.eqb (o_user_id o) uid) (orders d)).

(** [SELECT * FROM orders WHERE user_id = ?] without an order (app.py:742-746). *)
Definition all_orders_of_user (uid : nat) (d : db) : list (nat * order_row) :=
  tbl_select (fun _ o => Nat.eqb (o_user_id o) uid) (orders d).

(** An item of [get_telegram_orders] (app.py:824-831): name, quantity,
    price, [qty * price]. *)
Definition tg_item_view (x : item_row * string) : string * Z * Z * Z :=
  (x.2, oi_qty x.1, oi_price x.1, (oi_qty x.1 * oi_price x.1)%Z).

Definition tg_line_view (l : tg_line) : string * Z * Z * Z :=
  (l.1.1, l.1.2, l.2, (l.1.2 * l.2)%Z).

(** An order of [get_telegram_orders] and [get_telegram_user_info]: its
    row with its items. *)
Definition tg_order := (nat * order_row * list (string * Z * Z * Z))%type.

(** The JSON of [get_telegram_user_info] (app.py:782-788). *)
Record tg_user_info := {
  ui_email : string;
  ui_first_name : string;
  ui_last_name : string;
  ui_total_all_orders : Z;
  ui_orders : list tg_order
}.

Section Handlers.
Context `{NotificationChannel}.

(** The loop of app.py:573-585: for each item, the product INSERT (its
    arguments [item['product_name']], [item['price']], [item.get(...)]
    evaluated in that order) and the item INSERT ([item['quantity']]).
    It returns the lines it inserted. *)
Fixpoint insert_tg_items (uid oid : nat) (its : list tg_item) : M (list tg_line) :=
  match its with
  | [] => mret []
  | it :: its' =>
      match ti_product_name it with
      | None => throw (KeyError "product_name")
      | Some name =>
          match ti_price it with
          | None => throw (KeyError "price")
          | Some price =>
              ts ← now;
              pid ← exec (insert_product name price
                            (default (Some (telegram_item_description oid)) (ti_description it)) uid ts);
              match ti_quantity it with
              | None => throw (KeyError "quantity")
              | Some q =>
                  exec_with [q] (insert_item oid pid q price) ;;
                  rest ← insert_tg_items uid oid its';
                  mret ((name, q, price) :: rest)
              end
          end
      end
  end.

Definition items_required (its : option (list tg_item)) : bool :=
  match its with Some (_ :: _) => true | _ => false end.

(** After the loop (app.py:589-620): the order and its items are read
    back, the buyer is notified, the reply is built from the request's
    lines ([order_details['created_at']] raises on a missing row). *)
Definition tg_order_done (u : user_row) (oid : nat) (total : Z) (ls : list tg_line)
  : M (reply tg_order_reply) :=
  od ← query (fun d => tbl_get oid (orders d));
  _ ← query (items_of_order oid);
  (if truthy_str (u_telegram_id u) then
     _ ← send (default EmptyString (u_telegram_id u)) (NTelegramOrderCreated oid ls total); mret ()
   else mret ()) ;;
  match od with
  | None => throw TypeError
  | Some o => mret (Reply 201 {| tor_order_id := oid; tor_total_amount := total;
                                tor_created_at := o_created_at o;
                                tor_items := map tg_line_view ls |})
  end.

(** The body of the [try] (app.py:542-620). *)
Definition create_telegram_order_body (data : option tg_order_req) : M (reply tg_order_reply) :=
  match data with
  | Some req =>
      if truthy_str (tr_telegram_id req) && items_required (tr_items req) then
        user ← query (user_by_telegram (default EmptyString (tr_telegram_id req)));
        match user with
        | None => mret (ErrorReply 404 "User not found")
        | Some (uid, u) =>
            let total := default 0%Z (tr_total_amount req) in
            ts ← now;
            oid ← exec (insert_order uid total "new" ts);
            ls ← insert_tg_items uid oid (default [] (tr_items req));
            tg_order_done u oid total ls
        end
      else mret (ErrorReply 400 "telegram_id and items array required")
  | None => mret (ErrorReply 400 "telegram_id and items array required")
  end.

(** ** [create_telegram_order] (app.py:539-624) *)
Definition create_telegram_order (data : option tg_order_req) : M (reply tg_order_reply) :=
  catch (create_telegram_order_body data)
    (fun e => mret (ErrorReply 500 ("Internal server error: " +:+ exn_str e))).

(** ** [get_telegram_products] (app.py:626-648) *)
Definition get_telegram_products (telegram_id : option string) : M (reply (list (nat * product_row))) :=
  if truthy_str telegram_id then
    user ← query (user_by_telegram (default EmptyString telegram_id));
    match user with
    | None => mret (ErrorReply 404 "User not found")
    | Some (uid, _) => ps ← query (products_of_user uid); mret (Reply 200 (rows_to_dict_list ps))
    end
  else mret (ErrorReply 400 "telegram_id required").

(** The loop over the orders (app.py:813-834 and 759-780): one item
    SELECT per order. *)
Fixpoint orders_with_items (os : list (nat * order_row)) : M (list tg_order) :=
  match os with
  | [] => mret []
  | (oid, o) :: os' =>
      its ← query (items_of_order oid);
      rest ← orders_with_items os';
      mret ((oid, o, map tg_item_view its) :: rest)
  end.

(** ** [get_telegram_user_info] (app.py:726-788): the sum over all the
    user's orders, and the three newest orders with their items. *)
Definition get_telegram_user_info (telegram_id : option string) : M (reply tg_user_info) :=
  if truthy_str telegram_id then
    user ← query (user_by_telegram (default EmptyString telegram_id));
    match user with
    | None => mret (ErrorReply 404 "User not found")
    | Some (uid, u) =>
        all ← query (all_orders_of_user uid);
        let total := sumZ (fun kr : nat * order_row => o_total_amount kr.2) all in
        os ← query (fun d => take 3 (orders_of_user_desc uid d));
        ows ← orders_with_items os;
        mret (Reply 200 {| ui_email := u_email u; ui_first_name := u_first_name u;
                           ui_last_name := u_last_name u; ui_total_all_orders := total;
                           ui_orders := ows |})
    end
  else mret (ErrorReply 400 "telegram_id required").

(** ** [get_telegram_orders] (app.py:790-836) *)
Definition get_telegram_orders (telegram_id : option string) : M (reply (list tg_order)) :=
  if truthy_str telegram_id then
    user ← query (user_by_telegram (default EmptyString telegram_id));
    match user with
    | None => mret (ErrorReply 404 "User not found")
    | Some (uid, _) =>
        os ← query (orders_of_user_desc uid);
        ows ← orders_with_items os;
        mret (Reply 200 ows)
    end
  else mret (ErrorReply 400 "telegram_id required").
End Handlers.

(** ** The item loop *)

(** The lines of items that carry the three keys the loop reads. *)
Fixpoint tg_lines (its : list tg_item) : option (list tg_line) :=
  match its with
  | [] => Some []
  | it :: its' =>
      match ti_product_name it, ti_price it, ti_quantity it with
      | Some n, Some p, Some q => (fun rest => (n, q, p) :: rest) <$> tg_lines its'
      | _, _, _ => None
      end
  end.

(** The products a user created. *)
Definition user_products_count (uid : nat) (d : db) : nat :=
  length (tbl_select (fun _ p => Nat.eqb (p_created_by p) uid) (products d)).

(** Every quantity binds as a SQLite [INTEGER]. *)
Definition tg_qty_fit (ls : list tg_line) : Prop := Forall (fun l : tg_line => fits_int64 l.1.2 = true) ls.

(** What the loop leaves as it was. *)
Definition tg_frame (w w' : world) : Prop :=
  w_faults w' = w_faults w /\ w_now w' = w_now w /\ w_sent w' = w_sent w /\
  users (w_db w') = users (w_db w) /\ orders (w_db w') = orders (w_db w).

#[export] Instance tg_frame_preorder : PreOrder tg_frame.
Proof.
  split; [by intros w | intros w1 w2 w3 (?&?&?&?&?) (?&?&?&?&?); repeat split; congruence].
Qed.

Section ItemLoop.
Context `{NotificationChannel}.

(** One complete item: a new product of [uid] and one item row of [oid]. *)
Lemma insert_tg_items_step uid oid it its n p q w :
  w_faults w = [] -> db_wf (w_db w) ->
  ti_product_name it = Some n -> ti_price it = Some p -> ti_quantity it = Some q -> fits_int64 q = true ->
  exists w2,
    insert_tg_items uid oid (it :: its) w =
      (rest ← insert_tg_items uid oid its; mret ((n, q, p) :: rest)) w2 /\
    w_faults w2 = [] /\ db_wf (w_db w2) /\ tg_frame w w2 /\
    count_items oid (w_db w2) = S (count_items oid (w_db w)) /\
    user_products_count uid (w_db w2) = S (user_products_count uid (w_db w)).
Proof.
  intros Hf Hwf Hn Hp Hq Hfit. cbn [insert_tg_items]. rewrite Hn, Hp.
  erewrite est_bind_run by reflexivity.
  erewrite est_bind_run by (apply exec_run; [by apply no_faults_clear | reflexivity]). rewrite Hq.
  erewrite est_bind_run by (rewrite exec_with_fits by (cbn; by rewrite Hfit);
                            apply exec_run; [simpl; by apply no_faults_clear | reflexivity]).
  eexists. split; [reflexivity|]. split; [done|]. split.
  { destruct Hwf as (Hu & Hp' & Ho & Hi & Ht).
    refine (conj _ (conj _ (conj _ (conj _ _)))); simpl; try done; by apply tbl_insert_wf. }
  split; [unfold tg_frame; simpl; by repeat split|].
  unfold count_items, user_products_count, tbl_select. simpl.
  rewrite !List.filter_app, !length_app. simpl. rewrite !Nat.eqb_refl. simpl. lia.
Qed.

(** A prefix of complete items runs to the end and returns its lines;
    the loop then goes on with the rest. *)
Lemma insert_tg_items_app uid oid its1 its2 ls1 w :
  w_faults w = [] -> db_wf (w_db w) -> tg_lines its1 = Some ls1 -> tg_qty_fit ls1 ->
  exists w',
    insert_tg_items uid oid (its1 ++ its2) w =
      (rest ← insert_tg_items uid oid its2; mret (ls1 ++ rest)) w' /\
    w_faults w' = [] /\ db_wf (w_db w') /\ tg_frame w w' /\
    count_items oid (w_db w') = count_items oid (w_db w) + length ls1 /\
    user_products_count uid (w_db w') = user_products_count uid (w_db w) + length ls1.
Proof.
  revert w ls1. induction its1 as [|it its1 IH]; intros w ls1 Hf Hwf Hl Hfit.
  - injection Hl as <-. exists w. split; [by rewrite est_bind_mret_r|].
    do 3 (split; [done || reflexivity|]). simpl. lia.
  - cbn [tg_lines] in Hl.
    destruct (ti_product_name it) as [n|] eqn:Hn, (ti_price it) as [p|] eqn:Hp,
      (ti_quantity it) as [q|] eqn:Hq; try done.
    destruct (tg_lines its1) as [ls1'|] eqn:Hl'; [|done]. injection Hl as <-.
    apply Forall_cons in Hfit as [Hq1 Hfit].
    destruct (insert_tg_items_step uid oid it (its1 ++ its2) n p q w Hf Hwf Hn Hp Hq Hq1)
      as (w2 & E2 & Hf2 & Hwf2 & Hfr2 & Hc2 & Hp2).
    destruct (IH w2 ls1' Hf2 Hwf2 eq_refl Hfit) as (w' & E' & Hf' & Hwf' & Hfr' & Hc' & Hp').
    exists w'. rewrite <- app_comm_cons, E2. split.
    + rewrite (est_bind_same _ _ _ _ _ E'), est_bind_assoc. apply est_bind_ext. by intros a s'.
    + split; [done|]. split; [done|]. split; [by etrans|]. simpl. lia.
Qed.

Lemma insert_tg_items_ok uid oid its ls w :
  w_faults w = [] -> db_wf (w_db w) -> tg_lines its = Some ls -> tg_qty_fit ls ->
  exists w',
    insert_tg_items uid oid its w = (w', Ret ls) /\
    w_faults w' = [] /\ db_wf (w_db w') /\ tg_frame w w' /\
    count_items oid (w_db w') = count_items oid (w_db w) + length ls /\
    user_products_count uid (w_db w') = user_products_count uid (w_db w) + length ls.
Proof.
  intros Hf Hwf Hl Hfit. destruct (insert_tg_items_app uid oid its [] ls w Hf Hwf Hl Hfit) as (w' & E & Hrest).
  exists w'. rewrite app_nil_r in E. rewrite E. split; [|exact Hrest].
  unfold mbind, est_bind, mret, est_ret. simpl. by rewrite app_nil_r.
Qed.

(** An item without [quantity]: its product row is inserted, then
    [item['quantity']] raises. *)
Lemma insert_tg_items_no_qty uid oid it its n p w :
  w_faults w = [] -> ti_product_name it = Some n -> ti_price it = Some p -> ti_quantity it = None ->
  exists w',
    insert_tg_items uid oid (it :: its) w = (w', Raise (KeyError "quantity")) /\
    tg_frame w w' /\ order_items (w_db w') = order_items (w_db w) /\
    user_products_count uid (w_db w') = S (user_products_count uid (w_db w)).
Proof.
  intros Hf Hn Hp Hq. cbn [insert_tg_items]. rewrite Hn, Hp.
  erewrite est_bind_run by reflexivity.
  erewrite est_bind_run by (apply exec_run; [by apply no_faults_clear | reflexivity]). rewrite Hq.
  eexists. split; [reflexivity|]. split; [unfold tg_frame; simpl; by repeat split|]. split; [reflexivity|].
  unfold user_products_count, tbl_select. simpl. rewrite List.filter_app, length_app. simpl.
  rewrite Nat.eqb_refl. simpl. lia.
Qed.
End ItemLoop.

(** ** [create_telegram_order] on a request it accepts *)

Section CreateRuns.
Context `{NotificationChannel}.

(** Up to the item loop: the chat id resolves, the order row is inserted
    with the request's total under a fresh rowid that no item row uses. *)
Lemma create_telegram_order_prefix req tg its uid u w :
  w_faults w = [] -> order_db_inv (w_db w) -> tr_telegram_id req = Some tg -> tg <> EmptyString ->
  tr_items req = Some its -> its <> [] -> user_by_telegram tg (w_db w) = Some (uid, u) ->
  let total := default 0%Z (tr_total_amount req) in
  let oid := S (seq (orders (w_db w))) in
  exists w1,
    create_telegram_order_body (Some req) w = (ls ← insert_tg_items uid oid its; tg_order_done u oid total ls) w1 /\
    w_faults w1 = [] /\ db_wf (w_db w1) /\ w_now w1 = w_now w /\ w_sent w1 = w_sent w /\
    tbl_get oid (orders (w_db w1)) = Some (new_order_row uid total (w_now w)) /\
    count_items oid (w_db w1) = 0 /\ user_products_count uid (w_db w1) = user_products_count uid (w_db w).
Proof.
  intros Hf [Hwf [Href _]] Htg Hne Hits Hnil Hu total oid.
  unfold create_telegram_order_body. rewrite Htg, Hits, truthy_str_Some by done.
  destruct its as [|it its']; [done|]. cbn [items_required andb].
  change (default EmptyString (Some tg)) with tg.
  rewrite (est_bind_run _ _ _ _ _ (query_run _ _ (no_faults_clear _ _ Hf))), Hu. cbv beta iota zeta.
  erewrite est_bind_run by reflexivity.
  erewrite est_bind_run by (apply exec_run; [simpl; by apply no_faults_clear | reflexivity]).
  pose proof Hwf as (_ & _ & Ho & _).
  eexists. split; [reflexivity|]. split; [done|].
  split; [exact (db_wf_set_orders _ _ Hwf (tbl_insert_wf (orders (w_db w)) (new_order_row uid total (w_now w)) Ho))|].
  split; [done|]. split; [done|].
  split; [exact (tbl_get_insert_eq (orders (w_db w)) (new_order_row uid total (w_now w)) Ho)|].
  split; [|done]. unfold count_items. simpl.
  rewrite (select_fresh_order _ (seq (orders (w_db w))) oid Href); [done | unfold oid; lia].
Qed.

Lemma tg_order_done_run u oid total ls o w :
  w_faults w = [] -> tbl_get oid (orders (w_db w)) = Some o ->
  exists w' new,
    tg_order_done u oid total ls w =
      (w', Ret (Reply 201 {| tor_order_id := oid; tor_total_amount := total; tor_created_at := o_created_at o;
                            tor_items := map tg_line_view ls |})) /\
    w_db w' = w_db w /\ w_sent w' = w_sent w ++ new /\
    map msg_of new = if truthy_str (u_telegram_id u)
                     then [(default EmptyString (u_telegram_id u), NTelegramOrderCreated oid ls total)] else [].
Proof.
  intros Hf Ho. unfold tg_order_done.
  rewrite (est_bind_run _ _ _ _ _ (query_run _ _ (no_faults_clear _ _ Hf))), Ho.
  erewrite est_bind_run by (apply query_run; simpl; by apply no_faults_clear).
  destruct (truthy_str (u_telegram_id u)).
  - rewrite est_bind_assoc. edestruct (send_bind (A:=reply tg_order_reply)) as [ok ->].
    eexists _, [_]. by repeat split.
  - eexists _, []. rewrite app_nil_r. by repeat split.
Qed.
End CreateRuns.

Section CreateTheorems.
Context `{NotificationChannel}.

(** C19. On a request whose chat id resolves to a user and whose items
    all carry [product_name], [price] and [quantity] (no failing
    statement), [create_telegram_order] replies 201 with the order id,
    the total taken from the request as it is (0 when absent, never
    recomputed from the items), and one line per item with
    [quantity * price]; it stores the order row with that total, one item
    row per item, one new product of the buyer per item, and sends the
    buyer one notice listing the items. *)
Theorem create_telegram_order_success req tg its ls uid u w :
  w_faults w = [] -> order_db_inv (w_db w) -> tr_telegram_id req = Some tg -> tg <> EmptyString ->
  tr_items req = Some its -> its <> [] -> tg_lines its = Some ls -> tg_qty_fit ls ->
  user_by_telegram tg (w_db w) = Some (uid, u) ->
  let total := default 0%Z (tr_total_amount req) in
  let oid := S (seq (orders (w_db w))) in
  exists w' new,
    create_telegram_order (Some req) w =
      (w', Ret (Reply 201 {| tor_order_id := oid; tor_total_amount := total; tor_created_at := w_now w;
                            tor_items := map tg_line_view ls |})) /\
    tbl_get oid (orders (w_db w')) = Some (new_order_row uid total (w_now w)) /\
    count_items oid (w_db w') = length ls /\
    user_products_count uid (w_db w') = user_products_count uid (w_db w) + length ls /\
    w_sent w' = w_sent w ++ new /\ map msg_of new = [(tg, NTelegramOrderCreated oid ls total)].
Proof.
  intros Hf Hinv Htg Hne Hits Hnil Hl Hfit Hu total oid.
  pose proof (tbl_find_Some _ _ _ _ Hu) as [_ Hutg%bool_decide_eq_true_1].
  destruct (create_telegram_order_prefix req tg its uid u w Hf Hinv Htg Hne Hits Hnil Hu)
    as (w1 & E1 & Hf1 & Hwf1 & Hnow1 & Hs1 & Hget1 & Hc1 & Hp1).
  destruct (insert_tg_items_ok uid oid its ls w1 Hf1 Hwf1 Hl Hfit)
    as (w2 & E2 & Hf2 & _ & (_ & _ & Hs2 & _ & Ho2) & Hc2 & Hp2).
  destruct (tg_order_done_run u oid total ls _ w2 Hf2 (eq_trans (f_equal (tbl_get oid) Ho2) Hget1))
    as (w3 & new & E3 & Hdb3 & Hs3 & Hm3).
  exists w3, new. split.
  { apply catch_run. rewrite E1. by rewrite (est_bind_run _ _ _ _ _ E2). }
  rewrite Hdb3. split; [by rewrite Ho2|]. unfold oid in *. split; [lia|]. split; [lia|].
  split; [by rewrite Hs3, Hs2, Hs1|]. rewrite Hm3, Hutg, truthy_str_Some by done. reflexivity.
Qed.

(** A request whose chat id no user holds gets the 404 reply after
    the user SELECT alone: no order, product or item row is written and
    nothing is sent. *)
Theorem create_telegram_order_unknown_chat req tg w :
  tr_telegram_id req = Some tg -> tg <> EmptyString -> items_required (tr_items req) = true ->
  w_stmt w ∉ w_faults w -> user_by_telegram tg (w_db w) = None ->
  create_telegram_order (Some req) w = (tick w, Ret (ErrorReply 404 "User not found")).
Proof.
  intros Htg Hne Hits Hf Hu. apply catch_run. unfold create_telegram_order_body.
  rewrite Htg, Hits, truthy_str_Some by done. cbn [andb]. change (default EmptyString (Some tg)) with tg.
  by rewrite (est_bind_run _ _ _ _ _ (query_run _ _ Hf)), Hu.
Qed.

(** The order row and each item's rows are committed one statement
    at a time: when an item lacks [quantity], the order row stays with
    the item rows of the items before it, the product of that item has
    already been created, and the reply is 500 with the text of the
    [KeyError]. *)
Theorem create_telegram_order_partial req tg its1 bad its2 ls1 n p uid u w :
  w_faults w = [] -> order_db_inv (w_db w) -> tr_telegram_id req = Some tg -> tg <> EmptyString ->
  tr_items req = Some (its1 ++ bad :: its2) -> tg_lines its1 = Some ls1 -> tg_qty_fit ls1 ->
  ti_product_name bad = Some n -> ti_price bad = Some p -> ti_quantity bad = None ->
  user_by_telegram tg (w_db w) = Some (uid, u) ->
  let oid := S (seq (orders (w_db w))) in
  exists w',
    create_telegram_order (Some req) w = (w', Ret (ErrorReply 500 "Internal server error: 'quantity'")) /\
    tbl_get oid (orders (w_db w')) = Some (new_order_row uid (default 0%Z (tr_total_amount req)) (w_now w)) /\
    count_items oid (w_db w') = length ls1 /\
    user_products_count uid (w_db w') = user_products_count uid (w_db w) + S (length ls1) /\
    w_sent w' = w_sent w.
Proof.
  intros Hf Hinv Htg Hne Hits Hl Hfit Hn Hp Hq Hu oid.
  assert (Hnil : its1 ++ bad :: its2 <> []) by (destruct its1; discriminate).
  destruct (create_telegram_order_prefix req tg _ uid u w Hf Hinv Htg Hne Hits Hnil Hu)
    as (w1 & E1 & Hf1 & Hwf1 & _ & Hs1 & Hget1 & Hc1 & Hp1).
  destruct (insert_tg_items_app uid oid its1 (bad :: its2) ls1 w1 Hf1 Hwf1 Hl Hfit)
    as (w2 & E2 & Hf2 & _ & (_ & _ & Hs2 & _ & Ho2) & Hc2 & Hp2).
  destruct (insert_tg_items_no_qty uid oid bad its2 n p w2 Hf2 Hn Hp Hq)
    as (w3 & E3 & (_ & _ & Hs3 & _ & Ho3) & Hi3 & Hp3).
  exists w3. split.
  { assert (Eb : create_telegram_order_body (Some req) w = (w3, Raise (KeyError "quantity"))).
    { rewrite E1. apply est_bind_raise. etrans; [exact E2|]. apply est_bind_raise. exact E3. }
    unfold create_telegram_order. by rewrite (catch_raise _ _ _ _ _ Eb). }
  split; [by rewrite Ho3, Ho2|]. unfold oid in *.
  split; [unfold count_items in *; rewrite Hi3; lia|].
  split; [lia | by rewrite Hs3, Hs2, Hs1].
Qed.
End CreateTheorems.

(** ** The read endpoints *)

(** An order with the items the join returns for it. *)
Definition tg_order_of (d : db) (kr : nat * order_row) : tg_order :=
  (kr.1, kr.2, map tg_item_view (items_of_order kr.1 d)).

Section ReadRuns.
Context `{NotificationChannel}.

Lemma orders_with_items_run os w :
  w_faults w = [] ->
  exists w', orders_with_items os w = (w', Ret (map (tg_order_of (w_db w)) os)) /\
             w_db w' = w_db w /\ w_sent w' = w_sent w /\ w_faults w' = [].
Proof.
  revert w. induction os as [|[oid o] os IH]; intros w Hf; simpl.
  - by exists w.
  - rewrite (est_bind_run _ _ _ _ _ (query_run _ _ (no_faults_clear _ _ Hf))).
    destruct (IH (tick w) Hf) as (w' & E & Hdb & Hs & Hf').
    rewrite (est_bind_run _ _ _ _ _ E). exists w'. by repeat split.
Qed.

(** The chat id resolves: the endpoints read the user it names. *)
Lemma tg_user_run {A} tg uid u (k : option (nat * user_row) -> M A) w :
  tg <> EmptyString -> w_faults w = [] -> user_by_telegram tg (w_db w) = Some (uid, u) ->
  (user ← query (user_by_telegram (default EmptyString (Some tg))); k user) w = k (Some (uid, u)) (tick w).
Proof. intros Hne Hf Hu. change (default EmptyString (Some tg)) with tg. apply est_bind_run. by rewrite query_run, Hu by (by apply no_faults_clear). Qed.
End ReadRuns.

Section ReadTheorems.
Context `{NotificationChannel}.

(** For a chat id that resolves to user [uid], [get_telegram_orders]
    replies 200 with the user's orders, each with the items the join
    returns and [quantity * price] per item, newest first (ties in rowid
    order), exactly the user's orders; it writes and sends nothing. *)
Theorem get_telegram_orders_newest_first tg uid u w :
  tg <> EmptyString -> w_faults w = [] -> user_by_telegram tg (w_db w) = Some (uid, u) ->
  exists w',
    get_telegram_orders (Some tg) w =
      (w', Ret (Reply 200 (map (tg_order_of (w_db w)) (orders_of_user_desc uid (w_db w))))) /\
    w_db w' = w_db w /\ w_sent w' = w_sent w /\
    orders_of_user_desc uid (w_db w) ≡ₚ all_orders_of_user uid (w_db w) /\
    Sorted (fun a b => o_created_at b.2 <= o_created_at a.2)%Z (orders_of_user_desc uid (w_db w)).
Proof.
  intros Hne Hf Hu. unfold get_telegram_orders. rewrite truthy_str_Some by done. cbv iota.
  rewrite (tg_user_run tg uid u _ w Hne Hf Hu). cbv beta iota.
  rewrite (est_bind_run _ _ _ _ _ (query_run _ _ (no_faults_clear (tick w) _ Hf))).
  destruct (orders_with_items_run (orders_of_user_desc uid (w_db w)) (tick (tick w)) Hf)
    as (w' & E & Hdb & Hs & _).
  rewrite (est_bind_run _ _ _ _ _ E). exists w'. split; [done|]. split; [done|]. split; [done|].
  split; [apply sort_desc_perm | apply sort_desc_sorted].
Qed.

(** [get_telegram_user_info] reports [total_all_orders] over all the
    user's orders but lists only the three newest ([LIMIT 3]): its
    [orders] are the first three of what [get_telegram_orders] returns,
    so there are [min 3 n] of them for a user with [n] orders. *)
Theorem get_telegram_user_info_three tg uid u w :
  tg <> EmptyString -> w_faults w = [] -> user_by_telegram tg (w_db w) = Some (uid, u) ->
  exists w' info,
    get_telegram_user_info (Some tg) w = (w', Ret (Reply 200 info)) /\
    ui_email info = u_email u /\
    ui_total_all_orders info = sumZ (fun kr : nat * order_row => o_total_amount kr.2) (all_orders_of_user uid (w_db w)) /\
    ui_orders info = take 3 (map (tg_order_of (w_db w)) (orders_of_user_desc uid (w_db w))) /\
    length (ui_orders info) = Nat.min 3 (length (all_orders_of_user uid (w_db w))) /\
    w_db w' = w_db w /\ w_sent w' = w_sent w.
Proof.
  intros Hne Hf Hu. unfold get_telegram_user_info. rewrite truthy_str_Some by done. cbv iota.
  rewrite (tg_user_run tg uid u _ w Hne Hf Hu). cbv beta iota.
  rewrite (est_bind_run _ _ _ _ _ (query_run _ _ (no_faults_clear (tick w) _ Hf))). cbv beta zeta.
  rewrite (est_bind_run _ _ _ _ _ (query_run _ _ (no_faults_clear (tick (tick w)) _ Hf))).
  destruct (orders_with_items_run (take 3 (orders_of_user_desc uid (w_db w))) (tick (tick (tick w))) Hf)
    as (w' & E & Hdb & Hs & _).
  rewrite (est_bind_run _ _ _ _ _ E). eexists _, _. split; [reflexivity|]. simpl.
  split; [done|]. split; [done|]. split; [by rewrite <- (fmap_take (tg_order_of (w_db w)))|].
  split; [|done]. rewrite length_map, length_take.
  unfold orders_of_user_desc, all_orders_of_user. by rewrite (Permutation_length (sort_desc_perm _ _)).
Qed.
End ReadTheorems.
