(* ===== verification/BotText.v ===== *)
(** * Python text functions used by the bot ([src/tg_bot/bot.py])

    Strings are byte strings (UTF-8).  The bot relies on the built-ins
    [str.strip], [str.split], [str.lower], [str.startswith], [int()] and
    [float()] applied to user text; they are written out here for ASCII
    whitespace and decimal digits, Latin and Cyrillic case.  [float()]
    yields a [pyfloat]: an exact rational (rounding to a double is not
    modelled), an infinity or NaN.  The bot's test [price <= 0] then
    behaves as in Python for NaN and the infinities, and for any text
    whose value a double holds without underflow or overflow.  Python
    rounds ['1e-400'] to [0.0] and ['1e400'] to [inf], which the exact
    rationals do not.  [int()] accepts ASCII digits only: Python also
    takes other Unicode decimal digits.  [str.startswith],
    [str.split(' ')] and [str.partition] serve [auth.py] as well (the
    [Authorization] header); the facts on splitting at the end are what
    its proofs use. *)

From Stdlib Require Import QArith Ascii.
From S2P Require Import Prelude.

Open Scope list_scope.

(** ** Characters *)

Definition byte_of (c : ascii) : nat := Ascii.nat_of_ascii c.

(** [str.isspace] on one ASCII character: space, \t \n \v \f \r and the
    separators \x1c-\x1f. *)
Definition py_isspace (c : ascii) : bool :=
  let n := byte_of c in (Nat.eqb n 32 || ((9 <=? n) && (n <=? 13)) || ((28 <=? n) && (n <=? 31)))%nat.

Definition digit_val (c : ascii) : option Z :=
  let n := byte_of c in if ((48 <=? n) && (n <=? 57))%nat then Some (Z.of_nat (n - 48)) else None.

Definition is_digit (c : ascii) : bool := match digit_val c with Some _ => true | None => false end.

(** ** [str.strip], [str.split], [str.startswith] *)

Fixpoint drop_space (l : list ascii) : list ascii :=
  match l with
  | c :: l' => if py_isspace c then drop_space l' else l
  | [] => []
  end.

Definition py_strip_l (l : list ascii) : list ascii := rev (drop_space (rev (drop_space l))).

Definition py_strip (s : string) : string := String.string_of_list_ascii (py_strip_l (String.list_ascii_of_string s)).

(** [s.split()]: the maximal runs of non-whitespace characters. *)
Fixpoint split_ws_aux (l : list ascii) (cur : list ascii) : list (list ascii) :=
  match l with
  | [] => match cur with [] => [] | _ => [rev cur] end
  | c :: l' =>
      if py_isspace c then
        match cur with [] => split_ws_aux l' [] | _ => rev cur :: split_ws_aux l' [] end
      else split_ws_aux l' (c :: cur)
  end.

Definition py_split (s : string) : list string :=
  map String.string_of_list_ascii (split_ws_aux (String.list_ascii_of_string s) []).

(** [s.split(sep)] for a one-character separator: empty fields kept. *)
Fixpoint split_on_aux (sep : ascii) (l : list ascii) (cur : list ascii) : list (list ascii) :=
  match l with
  | [] => [rev cur]
  | c :: l' => if Ascii.eqb c sep then rev cur :: split_on_aux sep l' [] else split_on_aux sep l' (c :: cur)
  end.

Definition py_split_on (sep : ascii) (s : string) : list string :=
  map String.string_of_list_ascii (split_on_aux sep (String.list_ascii_of_string s) []).

Fixpoint prefix_of (p l : list ascii) : bool :=
  match p, l with
  | [], _ => true
  | c :: p', d :: l' => Ascii.eqb c d && prefix_of p' l'
  | _ :: _, [] => false
  end.

Definition py_startswith (s p : string) : bool := prefix_of (String.list_ascii_of_string p) (String.list_ascii_of_string s).

(** [s.partition(sep)] without the separator: the text before the first
    [sep] and the text after it ([s] and nothing when [sep] is absent). *)
Fixpoint partition_at (sep : ascii) (l : list ascii) : list ascii * list ascii :=
  match l with
  | [] => ([], [])
  | c :: l' => if Ascii.eqb c sep then ([], l') else let '(a, b) := partition_at sep l' in (c :: a, b)
  end.

(** ** [str.lower] on ASCII and Cyrillic

    A-Z; the two-byte Cyrillic capitals: U+0410-U+041F (D0 90-9F) to
    U+0430-U+043F (D0 B0-BF), U+0420-U+042F (D0 A0-AF) to U+0440-U+044F
    (D1 80-8F), U+0400-U+040F (D0 80-8F) to U+0450-U+045F (D1 90-9F).
    Other characters are left as they are. *)
Fixpoint lower_l (l : list ascii) : list ascii :=
  match l with
  | [] => []
  | c :: l' =>
      let n := byte_of c in
      if ((65 <=? n) && (n <=? 90))%nat then Ascii.ascii_of_nat (n + 32) :: lower_l l'
      else if Nat.eqb n 208 then
        match l' with
        | c2 :: l'' =>
            let m := byte_of c2 in
            if ((144 <=? m) && (m <=? 159))%nat then c :: Ascii.ascii_of_nat (m + 32) :: lower_l l''
            else if ((160 <=? m) && (m <=? 175))%nat then Ascii.ascii_of_nat 209 :: Ascii.ascii_of_nat (m - 32) :: lower_l l''
            else if ((128 <=? m) && (m <=? 143))%nat then Ascii.ascii_of_nat 209 :: Ascii.ascii_of_nat (m + 16) :: lower_l l''
            else c :: c2 :: lower_l l''
        | [] => [c]
        end
      else c :: lower_l l'
  end.

Definition py_lower (s : string) : string := String.string_of_list_ascii (lower_l (String.list_ascii_of_string s)).

(** ** [int()] *)

(** A digit part: digits, an underscore allowed only between two digits.
    Returns the digits read (most significant first) and the rest. *)
Fixpoint digitpart (l : list ascii) (acc : list Z) : list Z * list ascii :=
  match l with
  | c :: l' =>
      match digit_val c with
      | Some v => digitpart l' (v :: acc)
      | None =>
          match acc, l' with
          | _ :: _, c2 :: _ => if Ascii.eqb c "_"%char && is_digit c2 then digitpart l' acc else (rev acc, l)
          | _, _ => (rev acc, l)
          end
      end
  | [] => (rev acc, [])
  end.

Definition digits_value (ds : list Z) : Z := fold_left (fun n d => 10 * n + d)%Z ds 0%Z.

Definition sign_of (l : list ascii) : Z * list ascii :=
  match l with
  | c :: l' => if Ascii.eqb c "-"%char then (-1, l')%Z else if Ascii.eqb c "+"%char then (1, l')%Z else (1, l)%Z
  | [] => (1%Z, [])
  end.

(** [int(s)] for a [str]: [None] where Python raises [ValueError]. *)
Definition parse_int (s : string) : option Z :=
  let '(sg, l) := sign_of (py_strip_l (String.list_ascii_of_string s)) in
  match digitpart l [] with
  | ((_ :: _) as ds, []) => Some (sg * digits_value ds)%Z
  | _ => None
  end.

(** ** [float()] *)

Inductive pyfloat := PFin (q : Q) | PInf (neg : bool) | PNaN.

(** [x <= 0]: false for NaN, as every comparison with NaN. *)
Definition pf_le0 (x : pyfloat) : bool :=
  match x with PFin q => Qle_bool q 0 | PInf neg => neg | PNaN => false end.

(** [x * y] on floats (IEEE signs; [inf * 0] is NaN). *)
Definition pf_mul (x y : pyfloat) : pyfloat :=
  match x, y with
  | PNaN, _ | _, PNaN => PNaN
  | PFin a, PFin b => PFin (a * b)
  | PInf n, PFin b | PFin b, PInf n => if Qeq_bool b 0 then PNaN else PInf (xorb n (negb (Qle_bool 0 b)))
  | PInf n, PInf m => PInf (xorb n m)
  end.

(** [x + y] on floats ([inf + -inf] is NaN). *)
Definition pf_add (x y : pyfloat) : pyfloat :=
  match x, y with
  | PNaN, _ | _, PNaN => PNaN
  | PFin a, PFin b => PFin (a + b)
  | PInf n, PFin _ | PFin _, PInf n => PInf n
  | PInf n, PInf m => if Bool.eqb n m then PInf n else PNaN
  end.

Definition pf_neg (x : pyfloat) : pyfloat :=
  match x with PFin q => PFin (- q) | PInf neg => PInf (negb neg) | PNaN => PNaN end.

Definition lower_ascii_l (l : list ascii) : list ascii := lower_l l.

(** The exponent part [(e|E) [sign] digitpart]. *)
Definition exponent (l : list ascii) : option Z :=
  match l with
  | [] => Some 0%Z
  | c :: l' =>
      if Ascii.eqb c "e"%char || Ascii.eqb c "E"%char then
        let '(sg, l'') := sign_of l' in
        match digitpart l'' [] with
        | ((_ :: _) as ds, []) => Some (sg * digits_value ds)%Z
        | _ => None
        end
      else None
  end.

(** [m * 10^e] as a rational. *)
Definition scale10 (m e : Z) : Q :=
  if Z.leb 0 e then inject_Z (m * 10 ^ e) else Qmake m (Z.to_pos (10 ^ (- e))).

(** [number [exponent]] where [number ::= [digitpart] "." digitpart |
    digitpart ["."]]. *)
Definition parse_decimal (l : list ascii) : option Q :=
  let '(ip, l1) := digitpart l [] in
  let '(fp, l2, dot) :=
    match l1 with
    | c :: l1' => if Ascii.eqb c "."%char then let '(fp, l2) := digitpart l1' [] in (fp, l2, true)
                  else ([], l1, false)
    | [] => ([], [], false)
    end in
  if (match ip, fp with [], [] => true | _, _ => false end) then None
  else
    match exponent l2 with
    | Some e => Some (scale10 (digits_value (ip ++ fp)) (e - Z.of_nat (length fp)))
    | None => None
    end.

(** [float(s)] for a [str]: [None] where Python raises [ValueError]. *)
Definition parse_float (s : string) : option pyfloat :=
  let '(sg, l) := sign_of (py_strip_l (String.list_ascii_of_string s)) in
  let lw := String.string_of_list_ascii (lower_ascii_l l) in
  let signed x := if Z.ltb sg 0 then pf_neg x else x in
  if String.eqb lw "inf" || String.eqb lw "infinity" then Some (signed (PInf false))
  else if String.eqb lw "nan" then Some PNaN
  else (fun q => signed (PFin q)) <$> parse_decimal l.

(** ** Facts on splitting *)

Lemma list_ascii_of_string_app s1 s2 :
  String.list_ascii_of_string (s1 +:+ s2) = String.list_ascii_of_string s1 ++ String.list_ascii_of_string s2.
Proof. induction s1 as [|c s1 IH]; simpl; [done | by rewrite IH]. Qed.

Lemma split_on_none sep l cur :
  Forall (fun c => Ascii.eqb c sep = false) l -> split_on_aux sep l cur = [rev cur ++ l].
Proof.
  revert cur. induction l as [|c l IH]; intros cur Hl; simpl; [by rewrite app_nil_r|].
  inversion Hl as [|? ? Hc Hl']; subst. rewrite Hc, IH by done. simpl. by rewrite <- app_assoc.
Qed.
