(* ===== verification/Auth.v ===== *)
(** * Configuration and authentication: [src/back/config.py], [src/back/auth.py]

    [get_config] reads the environment once, when the modules are
    imported: the signing key of the access tokens, the token lifetime
    (24 hours), the CORS origins and the debug flag.  [auth.py] hashes
    passwords with bcrypt, issues access tokens (JWT, HS256, carrying
    [user_id], [exp] and [iat]) and checks them in the decorator
    [jwt_required], which every authenticated route of [app.py] goes
    through.

    bcrypt and PyJWT are libraries: they are the typeclasses
    [PasswordHasher] and [JwtCodec], each with the law the code relies on
    (a password checks against its own hash; a token decodes, with the key
    it was signed with, to the payload it was made from).  The salt of
    [bcrypt.gensalt()] is an argument.  PyJWT's checks of the registered
    claims are written out: a token is expired from its [exp] second on,
    and not yet valid while [iat] is in the future; a payload without
    [exp] never expires. *)

From Stdlib Require Import Ascii.
From S2P Require Import Prelude Store BotText.

(** ** Configuration (config.py) *)

(** [os.environ]. *)
Definition env_vars := string -> option string.

(** [os.environ.get(k) or d]: an empty value falls back to [d] too. *)
Definition env_or (env : env_vars) (k d : string) : string :=
  match env k with Some v => if String.eqb v "" then d else v | None => d end.

(** [os.environ.get(k, d)]. *)
Definition env_get (env : env_vars) (k d : string) : string := default d (env k).

Inductive config_class := DevelopmentConfig | ProductionConfig.

Record config := {
  SECRET_KEY : string;
  JWT_SECRET_KEY : string;
  DATABASE_PATH : string;
  JWT_ACCESS_TOKEN_EXPIRES : Z;   (** seconds *)
  CORS_ORIGINS : list string;
  DEBUG : bool;
  TESTING : bool
}.

Definition default_jwt_secret_key : string := "jwt-dev-secret-change-in-production".

(** The attributes of [Config] and of its two subclasses (config.py:4-20). *)
Definition config_of (env : env_vars) (c : config_class) : config := {|
  SECRET_KEY := env_or env "SECRET_KEY" "dev-secret-key-change-in-production";
  JWT_SECRET_KEY := env_or env "JWT_SECRET_KEY" default_jwt_secret_key;
  DATABASE_PATH := env_or env "DATABASE_PATH" "app.db";
  JWT_ACCESS_TOKEN_EXPIRES := 24 * 3600;
  CORS_ORIGINS := py_split_on ","%char (env_get env "CORS_ORIGINS" "http://localhost:3000");
  DEBUG := match c with DevelopmentConfig => true | ProductionConfig => false end;
  TESTING := false
|}.

(** [config_dict] (config.py:22-26). *)
Definition config_dict (name : string) : option config_class :=
  if String.eqb name "development" then Some DevelopmentConfig
  else if String.eqb name "production" then Some ProductionConfig
  else if String.eqb name "default" then Some DevelopmentConfig
  else None.

(** [get_config] (config.py:28-38); the printing is left out. *)
Definition get_config (env : env_vars) : config :=
  config_of env (default DevelopmentConfig (config_dict (env_get env "FLASK_ENV" "development"))).

(** ** The libraries *)

(** bcrypt: [hashpw(password, salt)] and [checkpw(password, hashed)],
    which raises ([None]) on a malformed hash.  A hash is a 60-character
    text, never empty. *)
Class PasswordHasher := {
  hashpw : string -> string -> string;
  checkpw : string -> string -> option bool;
  checkpw_hashpw pw salt : checkpw pw (hashpw pw salt) = Some true;
  hashpw_not_empty pw salt : hashpw pw salt <> ""%string
}.

(** The payload of an access token; a claim absent from the JSON is
    [None]. *)
Record jwt_payload := { jp_user_id : option nat; jp_exp : option Z; jp_iat : option Z }.

(** PyJWT with HS256: [encode(payload, key)] and the signature check of
    [decode(token, key)] ([None]: [InvalidTokenError], a malformed token or
    a wrong signature).  A token is a base64url text: it is not empty and
    has no space. *)
Class JwtCodec := {
  jwt_encode : string -> jwt_payload -> string;
  jwt_decode : string -> string -> option jwt_payload;
  jwt_decode_encode k p : jwt_decode k (jwt_encode k p) = Some p;
  jwt_no_space k p : Forall (fun c => Ascii.eqb c " "%char = false) (String.list_ascii_of_string (jwt_encode k p));
  jwt_not_empty k p : jwt_encode k p <> ""%string
}.

(** ** auth.py *)

Section Auth.
Context `{PasswordHasher} `{JwtCodec}.

(** [hash_pswd] (auth.py:8-12), with the salt [bcrypt.gensalt()] drew. *)
Definition hash_pswd (salt password : string) : string := hashpw password salt.

(** [check_pswd] (auth.py:14-24). *)
Definition check_pswd (hashed_password password : string) : bool :=
  if String.eqb hashed_password "" || String.eqb password "" then false
  else match checkpw password hashed_password with Some b => b | None => false end.

(** The payload of [create_access_token] (auth.py:26-33) at time [now]. *)
Definition access_payload (cfg : config) (user_id : nat) (now : Z) : jwt_payload :=
  {| jp_user_id := Some user_id; jp_exp := Some (now + JWT_ACCESS_TOKEN_EXPIRES cfg)%Z; jp_iat := Some now |}.

Definition create_access_token (cfg : config) (user_id : nat) (now : Z) : string :=
  jwt_encode (JWT_SECRET_KEY cfg) (access_payload cfg user_id now).

(** PyJWT's checks of [exp] and [iat] at time [now]. *)
Definition jwt_time_ok (p : jwt_payload) (now : Z) : bool :=
  match jp_exp p with Some e => Z.ltb now e | None => true end &&
  match jp_iat p with Some i => Z.leb i now | None => true end.

(** [verify_access_token] (auth.py:35-41): [None] for a token PyJWT
    refuses; [payload['user_id']] raises [KeyError] when the claim is
    absent, which the [except] does not catch. *)
Definition verify_access_token (cfg : config) (token : string) (now : Z) : outcome (option nat) :=
  match jwt_decode (JWT_SECRET_KEY cfg) token with
  | None => Ret None
  | Some p =>
      if jwt_time_ok p now then
        match jp_user_id p with Some uid => Ret (Some uid) | None => Raise (KeyError "user_id") end
      else Ret None
  end.

(** The token of the [Authorization] header (auth.py:52-54): the second
    field of [auth_header.split(' ')] when the header starts with
    ["Bearer "]. *)
Definition bearer_token (auth_header : option string) : option string :=
  match auth_header with
  | Some h => if py_startswith h "Bearer " then nth_error (py_split_on " "%char h) 1 else None
  | None => None
  end.

(** [jwt_required] (auth.py:43-65) around a handler [f] of the user id it
    puts in [request.user_id]: the check reads the clock and nothing else. *)
Definition jwt_required {A} (cfg : config) (auth_header : option string) (f : nat -> M (reply A)) : M (reply A) :=
  match bearer_token auth_header with
  | Some token =>
      if String.eqb token "" then mret (ErrorReply 401 "Token is missing")
      else
        t ← now;
        match verify_access_token cfg token t with
        | Ret (Some uid) => f uid
        | Ret None => mret (ErrorReply 401 "Invalid token")
        | Raise e => throw e
        end
  | None => mret (ErrorReply 401 "Token is missing")
  end.

(** A token without an [exp] claim, signed with the key the code ships
    with. *)
Definition forged_token (uid : nat) : string :=
  jwt_encode default_jwt_secret_key {| jp_user_id := Some uid; jp_exp := None; jp_iat := None |}.

End Auth.

(** ** Facts *)

Lemma prefix_of_app p l : prefix_of p (p ++ l) = true.
Proof. induction p as [|c p IH]; simpl; [done|]. by rewrite Ascii.eqb_refl, IH. Qed.

Lemma py_startswith_app p s : py_startswith (p +:+ s) p = true.
Proof. unfold py_startswith. rewrite list_ascii_of_string_app. apply prefix_of_app. Qed.

Section AuthFacts.
Context `{PasswordHasher} `{JwtCodec}.

(** A password checks against the hash [reg] stored for it. *)
Lemma check_pswd_hash salt pw : pw <> ""%string -> check_pswd (hash_pswd salt pw) pw = true.
Proof.
  intros Hpw. unfold check_pswd, hash_pswd.
  rewrite (proj2 (String.eqb_neq _ _) (hashpw_not_empty pw salt)), (proj2 (String.eqb_neq _ _) Hpw).
  by rewrite checkpw_hashpw.
Qed.

(** ["Bearer " + token] carries [token] when the token has no space. *)
Lemma bearer_token_of tok :
  Forall (fun c => Ascii.eqb c " "%char = false) (String.list_ascii_of_string tok) ->
  bearer_token (Some ("Bearer " +:+ tok)) = Some tok.
Proof.
  intros Hs. unfold bearer_token. rewrite py_startswith_app.
  unfold py_split_on. rewrite list_ascii_of_string_app. cbn. rewrite split_on_none by done.
  simpl. by rewrite String.string_of_list_ascii_of_string.
Qed.

Lemma bearer_token_jwt k p : bearer_token (Some ("Bearer " +:+ jwt_encode k p)) = Some (jwt_encode k p).
Proof. apply bearer_token_of, jwt_no_space. Qed.

Lemma verify_access_token_create cfg uid t0 t :
  verify_access_token cfg (create_access_token cfg uid t0) t =
  Ret (if (t0 <=? t)%Z && (t <? t0 + JWT_ACCESS_TOKEN_EXPIRES cfg)%Z then Some uid else None).
Proof.
  unfold verify_access_token, create_access_token. rewrite jwt_decode_encode.
  unfold jwt_time_ok, access_payload; cbn [jp_exp jp_iat jp_user_id].
  by rewrite andb_comm; destruct (_ && _).
Qed.

(** The check of [jwt_required] once it has a non-empty token. *)
Lemma jwt_required_token {A} cfg tok (f : nat -> M (reply A)) w :
  bearer_token (Some ("Bearer " +:+ tok)) = Some tok -> tok <> ""%string ->
  jwt_required cfg (Some ("Bearer " +:+ tok)) f w =
  match verify_access_token cfg tok (w_now w) with
  | Ret (Some uid) => f uid w
  | Ret None => (w, Ret (ErrorReply 401 "Invalid token"))
  | Raise e => (w, Raise e)
  end.
Proof.
  intros Hb Hne. unfold jwt_required. rewrite Hb, (proj2 (String.eqb_neq _ _) Hne).
  rewrite est_bind_run with (s' := w) (a := w_now w) by reflexivity.
  by destruct (verify_access_token cfg tok (w_now w)) as [[uid|]|e].
Qed.

(** C32. An access token made by [create_access_token] at time [t0] and
    sent as ["Bearer " + token] lets [jwt_required] run the handler as
    its user exactly from [t0] up to (not including) [t0] plus
    [JWT_ACCESS_TOKEN_EXPIRES] (24 hours); before and after, the request
    gets the 401 "Invalid token" reply and nothing runs. *)
Theorem access_token_lifetime {A} cfg uid t0 (f : nat -> M (reply A)) w :
  jwt_required cfg (Some ("Bearer " +:+ create_access_token cfg uid t0)) f w =
  if (t0 <=? w_now w)%Z && (w_now w <? t0 + JWT_ACCESS_TOKEN_EXPIRES cfg)%Z then f uid w
  else (w, Ret (ErrorReply 401 "Invalid token")).
Proof.
  rewrite jwt_required_token by (apply bearer_token_jwt || apply jwt_not_empty).
  rewrite verify_access_token_create. by destruct (_ && _).
Qed.

Lemma get_config_jwt_key env : env "JWT_SECRET_KEY" = None -> JWT_SECRET_KEY (get_config env) = default_jwt_secret_key.
Proof. intros He. unfold get_config, config_of, env_or. cbn [JWT_SECRET_KEY]. by rewrite He. Qed.

(** C33. When [JWT_SECRET_KEY] is not set in the environment, the tokens
    are signed with the key written in config.py (config.py:6), in the
    production configuration too.  Anyone can then sign a token for any
    user id, without an expiry: [jwt_required] accepts it at any time and
    runs the handler as that user. *)
Theorem default_secret_forgery {A} env uid (f : nat -> M (reply A)) w :
  env "JWT_SECRET_KEY" = None ->
  jwt_required (get_config env) (Some ("Bearer " +:+ forged_token uid)) f w = f uid w.
Proof.
  intros He. unfold forged_token.
  rewrite jwt_required_token by (apply bearer_token_jwt || apply jwt_not_empty).
  unfold verify_access_token. rewrite get_config_jwt_key, jwt_decode_encode by done. reflexivity.
Qed.

End AuthFacts.
