(* ===== verification/Accounts.v ===== *)
(** * Accounts: [reg], [login], [get_profile], [update_profile],
      [delete_account] (app.py:65-218)

    Each handler is written statement by statement in the monad [M] of
    [Store.v], like the order workflow.  Registration and login hash and
    check passwords and issue access tokens through [Auth.v]; the three
    [/api/auth/me] routes take the user id that [jwt_required] yields.
    The JSON body is a record of its fields, [None] for a key that is
    absent or [null]; for [update_profile], where the code asks whether a
    key is present ([field in data]), a field is [option (option string)]:
    absent, or present with a text or [null]. *)

From S2P Require Import Prelude Store Auth Linking.

(** ** Request and reply data *)

Record reg_req := {
  rr_username : option string;
  rr_email : option string;
  rr_password : option string;
  rr_first_name : option string;
  rr_last_name : option string
}.

(** [required_fields] with their values, in the order of the loop
    (app.py:69). *)
Definition reg_fields (r : reg_req) : list (string * option string) :=
  [("username", rr_username r); ("email", rr_email r); ("password", rr_password r);
   ("first_name", rr_first_name r); ("last_name", rr_last_name r)]%string.

(** The field the loop of app.py:70-72 stops at: the first one missing or
    empty; without a body, the first of them. *)
Definition missing_field (data : option reg_req) : option string :=
  match data with
  | None => Some "username"%string
  | Some r => fst <$> List.find (fun kv => negb (truthy_str kv.2)) (reg_fields r)
  end.

Record login_req := { lg_login : option string; lg_password : option string }.

(** The [user] object of the replies; [uv_created_at] only in those of
    [/api/auth/me]. *)
Record user_view := {
  uv_id : nat;
  uv_username : string;
  uv_email : string;
  uv_first_name : string;
  uv_last_name : string;
  uv_theme : string;
  uv_telegram_linked : bool;
  uv_created_at : option Z
}.

Record auth_reply := { ar_access_token : string; ar_user : user_view }.

(** [user['theme'] or 'light']. *)
Definition theme_or_light (t : option string) : string :=
  match t with Some s => if String.eqb s "" then "light" else s | None => "light" end.

(** The [user] object built from a row (app.py:125-133, 148-157). *)
Definition view_of (id : nat) (u : user_row) (created : option Z) : user_view := {|
  uv_id := id; uv_username := u_username u; uv_email := u_email u;
  uv_first_name := u_first_name u; uv_last_name := u_last_name u;
  uv_theme := theme_or_light (u_theme u);
  uv_telegram_linked := match u_telegram_id u with Some _ => true | None => false end;
  uv_created_at := created
|}.

(** The keys of the body of [update_profile] among [allowed_fields]. *)
Inductive profile_field := PFirstName | PLastName | PTheme.

Record profile_update := {
  up_first_name : option (option string);
  up_last_name : option (option string);
  up_theme : option (option string);
  up_other_keys : list string    (** the keys outside [allowed_fields] *)
}.

(** [not data]: the dict is empty. *)
Definition update_is_empty (u : profile_update) : bool :=
  match up_first_name u, up_last_name u, up_theme u, up_other_keys u with
  | None, None, None, [] => true
  | _, _, _, _ => false
  end.

(** The loop of app.py:171-174: the allowed fields present, in order,
    with their values. *)
Definition profile_fields (u : profile_update) : list (profile_field * option string) :=
  omap (fun fv => (fun v => (fv.1, v)) <$> fv.2)
       [(PFirstName, up_first_name u); (PLastName, up_last_name u); (PTheme, up_theme u)].

(** ** Statements *)

(** [SELECT ... FROM users WHERE email = ? OR username = ?] with
    [fetch_one] (app.py:74-78, 112-116): the first row in scan order. *)
Definition user_by_login (email username : string) (d : db) : option (nat * user_row) :=
  tbl_find (fun _ u => String.eqb (u_email u) email || String.eqb (u_username u) username) (users d).

(** A row holds the username or the email: the [UNIQUE] constraints of
    [users] (database.py:19-20) refuse the insert. *)
Definition user_taken (username email : string) (d : db) : bool :=
  existsb (fun kr => String.eqb (u_username kr.2) username || String.eqb (u_email kr.2) email) (rows (users d)).

Definition new_user_row (username email first_name last_name password_hash : string) (ts : Z) : user_row := {|
  u_username := username; u_email := email; u_first_name := first_name; u_last_name := last_name;
  u_password_hash := password_hash; u_theme := Some "light"%string; u_telegram_id := None; u_created_at := ts
|}.

(** [INSERT INTO users (username, email, first_name, last_name,
    password_hash)] with [lastrowid] (app.py:83-87); [theme] and
    [created_at] take their defaults. *)
Definition insert_user (username email first_name last_name password_hash : string) (ts : Z) (d : db)
  : option (nat * db) :=
  if user_taken username email d then None
  else let '(id, t) := tbl_insert (new_user_row username email first_name last_name password_hash ts) (users d) in
       Some (id, set_users t d).

(** [SELECT * FROM users WHERE id = ?]. *)
Definition user_row_of (uid : nat) (d : db) : option user_row := tbl_get uid (users d).

(** One [field = ?] of the UPDATE; [NULL] in a [NOT NULL] column is refused. *)
Definition set_profile_field (u : user_row) (fv : profile_field * option string) : option user_row :=
  match fv with
  | (PFirstName, Some v) =>
      Some {| u_username := u_username u; u_email := u_email u; u_first_name := v; u_last_name := u_last_name u;
              u_password_hash := u_password_hash u; u_theme := u_theme u; u_telegram_id := u_telegram_id u;
              u_created_at := u_created_at u |}
  | (PLastName, Some v) =>
      Some {| u_username := u_username u; u_email := u_email u; u_first_name := u_first_name u; u_last_name := v;
              u_password_hash := u_password_hash u; u_theme := u_theme u; u_telegram_id := u_telegram_id u;
              u_created_at := u_created_at u |}
  | (PTheme, v) =>
      Some {| u_username := u_username u; u_email := u_email u; u_first_name := u_first_name u;
              u_last_name := u_last_name u; u_password_hash := u_password_hash u; u_theme := v;
              u_telegram_id := u_telegram_id u; u_created_at := u_created_at u |}
  | (_, None) => None
  end.

Fixpoint set_profile_fields (fs : list (profile_field * option string)) (u : user_row) : option user_row :=
  match fs with
  | [] => Some u
  | fv :: fs' => set_profile_field u fv ≫= set_profile_fields fs'
  end.

(** [UPDATE users SET ... WHERE id = ?] (app.py:181-184): refused when the
    row it changes would break a [NOT NULL]; no row, no change. *)
Definition update_user_fields (uid : nat) (fs : list (profile_field * option string)) (d : db) : option (unit * db) :=
  match tbl_get uid (users d) with
  | Some u =>
      match set_profile_fields fs u with
      | Some u' => Some (tt, set_users (tbl_update (fun k _ => Nat.eqb k uid) (fun _ => u') (users d)) d)
      | None => None
      end
  | None => Some (tt, d)
  end.

(** The order of [order_id] belongs to [uid]. *)
Definition order_owned_by (uid oid : nat) (d : db) : bool :=
  match tbl_get oid (orders d) with Some o => Nat.eqb (o_user_id o) uid | None => false end.

(** The four other DELETEs of [delete_account] (app.py:210-213). *)
Definition delete_items_of_orders (uid : nat) (d : db) : option (unit * db) :=
  Some (tt, set_order_items (tbl_delete (fun _ i => order_owned_by uid (oi_order_id i) d) (order_items d)) d).

Definition delete_orders_of (uid : nat) (d : db) : option (unit * db) :=
  Some (tt, set_orders (tbl_delete (fun _ o => Nat.eqb (o_user_id o) uid) (orders d)) d).

Definition delete_products_of (uid : nat) (d : db) : option (unit * db) :=
  Some (tt, set_products (tbl_delete (fun _ p => Nat.eqb (p_created_by p) uid) (products d)) d).

Definition delete_user_row (uid : nat) (d : db) : option (unit * db) :=
  Some (tt, set_users (tbl_delete (fun k _ => Nat.eqb k uid) (users d)) d).

(** ** Handlers *)

Section Handlers.
Context `{PasswordHasher} `{JwtCodec} (cfg : config).

(** [reg] (app.py:65-103), with the salt [hash_pswd] draws. *)
Definition reg (data : option reg_req) (salt : string) : M (reply auth_reply) :=
  match data, missing_field data with
  | Some r, None =>
      let username := default "" (rr_username r) in
      let email := default "" (rr_email r) in
      existing_user ← query (user_by_login email username);
      match existing_user with
      | Some _ => mret (ErrorReply 400 "Email or username already registered")
      | None =>
          ts ← now;
          user_id ← exec (insert_user username email (default "" (rr_first_name r)) (default "" (rr_last_name r))
                                      (hash_pswd salt (default "" (rr_password r))) ts);
          t ← now;
          mret (Reply 201 {| ar_access_token := create_access_token cfg user_id t;
                             ar_user := {| uv_id := user_id; uv_username := username; uv_email := email;
                                           uv_first_name := default "" (rr_first_name r);
                                           uv_last_name := default "" (rr_last_name r);
                                           uv_theme := "light"; uv_telegram_linked := false;
                                           uv_created_at := None |} |})
      end
  | _, f => mret (ErrorReply 400 ("Field " +:+ default "username" f +:+ " is required"))
  end%string.

(** [login] (app.py:105-134). *)
Definition login (data : option login_req) : M (reply auth_reply) :=
  match data with
  | Some {| lg_login := Some l; lg_password := Some p |} =>
      if String.eqb l "" || String.eqb p "" then mret (ErrorReply 400 "Login and password required")
      else
        user ← query (user_by_login l l);
        match user with
        | Some (id, u) =>
            if check_pswd (u_password_hash u) p then
              t ← now;
              mret (Reply 200 {| ar_access_token := create_access_token cfg id t; ar_user := view_of id u None |})
            else mret (ErrorReply 401 "Invalid credentials")
        | None => mret (ErrorReply 401 "Invalid credentials")
        end
  | _ => mret (ErrorReply 400 "Login and password required")
  end%string.

(** [get_profile] (app.py:136-157). *)
Definition get_profile (uid : nat) : M (reply user_view) :=
  user ← query (user_row_of uid);
  match user with
  | Some u => mret (Reply 200 (view_of uid u (Some (u_created_at u))))
  | None => mret (ErrorReply 404 "User not found")
  end.

(** [update_profile] (app.py:159-201): [user['id']] on [None] (the row
    is gone) raises [TypeError]. *)
Definition update_profile (uid : nat) (data : option profile_update) : M (reply user_view) :=
  match data with
  | Some u =>
      if update_is_empty u then mret (ErrorReply 400 "No data provided")
      else
        match profile_fields u with
        | [] => mret (ErrorReply 400 "No valid fields to update")
        | fs =>
            exec (update_user_fields uid fs);;
            user ← query (user_row_of uid);
            match user with
            | Some r => mret (Reply 200 (view_of uid r (Some (u_created_at r))))
            | None => throw TypeError
            end
        end
  | None => mret (ErrorReply 400 "No data provided")
  end.

(** [delete_account] (app.py:203-218): five DELETEs, each committed on its
    own, in a [try] that turns any exception into a 500 reply. *)
Definition delete_account (uid : nat) : M (reply string) :=
  catch (exec (delete_tokens_of uid);;
         exec (delete_items_of_orders uid);;
         exec (delete_orders_of uid);;
         exec (delete_products_of uid);;
         exec (delete_user_row uid);;
         mret (Reply 200 "Account deleted successfully"))
        (fun _ => mret (ErrorReply 500 "Failed to delete account")).

End Handlers.

(** The database after the first four DELETEs of [delete_account]:
    tokens, the items of the user's orders, the orders, the products. *)
Definition account_data_deleted (uid : nat) (d : db) : db :=
  let d1 := tokens_deleted uid d in
  let d2 := set_order_items (tbl_delete (fun _ i => order_owned_by uid (oi_order_id i) d1) (order_items d1)) d1 in
  let d3 := set_orders (tbl_delete (fun _ o => Nat.eqb (o_user_id o) uid) (orders d2)) d2 in
  set_products (tbl_delete (fun _ p => Nat.eqb (p_created_by p) uid) (products d3)) d3.

(** ** Registration and login *)

Lemma truthy_str_true o : truthy_str o = true -> exists s, o = Some s /\ s <> ""%string.
Proof. destruct o as [s|]; simpl; [|done]. intros H. exists s. split; [done|]. by case_bool_decide. Qed.

(** The checks of app.py:70-72 pass: every field is a non-empty text. *)
Lemma missing_field_None r :
  missing_field (Some r) = None ->
  exists un e p fn ln, r = {| rr_username := Some un; rr_email := Some e; rr_password := Some p;
                              rr_first_name := Some fn; rr_last_name := Some ln |} /\
    un <> ""%string /\ e <> ""%string /\ p <> ""%string /\ fn <> ""%string /\ ln <> ""%string.
Proof.
  unfold missing_field. intros Hm. apply fmap_None in Hm.
  pose proof (fun kv Hin => find_none _ _ Hm kv Hin) as Hn. unfold reg_fields in Hn.
  destruct r as [un e p fn ln]; simpl in Hn.
  destruct (truthy_str_true un) as (un' & -> & ?); [apply negb_false_iff, (Hn ("username", un)); tauto|].
  destruct (truthy_str_true e) as (e' & -> & ?); [apply negb_false_iff, (Hn ("email", e)); tauto|].
  destruct (truthy_str_true p) as (p' & -> & ?); [apply negb_false_iff, (Hn ("password", p)); tauto|].
  destruct (truthy_str_true fn) as (fn' & -> & ?); [apply negb_false_iff, (Hn ("first_name", fn)); tauto|].
  destruct (truthy_str_true ln) as (ln' & -> & ?); [apply negb_false_iff, (Hn ("last_name", ln)); tauto|].
  by eexists _, _, _, _, _.
Qed.

Section AccountRuns.
Context `{PasswordHasher} `{JwtCodec} (cfg : config).

(** What a successful registration did: both checks passed, no statement
    raised, and the new row is the last of [users]. *)
Lemma reg_ok r salt w w1 v :
  reg cfg (Some r) salt w = (w1, Ret (Reply 201 v)) ->
  exists un e p fn ln,
    r = {| rr_username := Some un; rr_email := Some e; rr_password := Some p;
           rr_first_name := Some fn; rr_last_name := Some ln |} /\
    e <> ""%string /\ p <> ""%string /\
    user_by_login e un (w_db w) = None /\
    w_db w1 = set_users (tbl_insert (new_user_row un e fn ln (hash_pswd salt p) (w_now w)) (users (w_db w))).2 (w_db w) /\
    w_now w1 = w_now w /\ w_faults w1 = w_faults w /\
    ar_user v = view_of (S (seq (users (w_db w)))) (new_user_row un e fn ln (hash_pswd salt p) (w_now w)) None.
Proof.
  intros Hr. unfold reg in Hr. destruct (missing_field (Some r)) eqn:Hm; [by injection Hr|].
  destruct (missing_field_None r Hm) as (un & e & p & fn & ln & -> & Hun & He & Hp & Hfn & Hln).
  cbn [rr_username rr_email rr_password rr_first_name rr_last_name default] in Hr.
  est_unfold. unfold query in Hr. case_decide; [done|]. unfold now, exec, insert_user in Hr.
  repeat (case_match; simplify_eq/=; try done). eexists _, _, _, _, _. by repeat split.
Qed.


(** [reg]'s lookup ([WHERE email = ? OR username = ?], app.py:74-78)
    finds a row exactly when the [UNIQUE] columns would refuse the
    insert. *)
Lemma user_by_login_taken un em d : user_by_login em un d = None <-> user_taken un em d = false.
Proof.
  unfold user_by_login, user_taken. rewrite tbl_find_None. split.
  - intros Hn. apply Bool.not_true_iff_false. intros ([k u] & Hin & Hp)%existsb_exists.
    specialize (Hn k u (proj2 (list_elem_of_In _ _) Hin)). cbn in Hp. rewrite orb_comm in Hp. congruence.
  - intros Ht k u Hin. destruct (_ || _) eqn:E; [|done]. exfalso.
    refine (Bool.eq_true_false_abs _ (proj2 (existsb_exists _ _) _) Ht).
    exists (k, u). split; [by apply list_elem_of_In | cbn; by rewrite orb_comm].
Qed.

(** C16. [reg]'s check for an existing user (app.py:74-81) tests the
    same rows as the [UNIQUE] constraints on [username] and [email]
    (database.py:19-20), so registration never meets an
    [IntegrityError].  With no statement failing and every field
    given, [reg] always replies: 400 "Email or username already
    registered" without a write when a row holds the username or the
    email, and otherwise 201 with the new row inserted. *)
Theorem reg_duplicate_check r salt w :
  w_faults w = [] -> missing_field (Some r) = None ->
  let un := default "" (rr_username r) in
  let em := default "" (rr_email r) in
  exists w' rep, reg cfg (Some r) salt w = (w', Ret rep) /\
    (user_taken un em (w_db w) = true ->
       rep = ErrorReply 400 "Email or username already registered" /\ w_db w' = w_db w) /\
    (user_taken un em (w_db w) = false ->
       (exists v, rep = Reply 201 v) /\
       exists id, insert_user un em (default "" (rr_first_name r)) (default "" (rr_last_name r))
                    (hash_pswd salt (default "" (rr_password r))) (w_now w) (w_db w) = Some (id, w_db w')).
Proof.
  intros Hf Hm. cbv zeta. unfold reg. rewrite Hm. cbv iota beta zeta.
  assert (Hq : w_stmt w ∉ w_faults w) by (rewrite Hf; apply not_elem_of_nil).
  rewrite (est_bind_run _ _ _ _ _ (query_run _ w Hq)).
  destruct (user_by_login _ _ (w_db w)) as [[k u]|] eqn:Eu.
  - assert (Ht : user_taken (default "" (rr_username r)) (default "" (rr_email r)) (w_db w) = true).
    { destruct (user_taken _ _ _) eqn:T; [done|]. apply user_by_login_taken in T. congruence. }
    eexists _, _. split; [reflexivity|]. split; [done | intros; congruence].
  - apply user_by_login_taken in Eu.
    rewrite (est_bind_run _ _ _ _ _ (eq_refl : now (tick w) = (tick w, Ret (w_now w)))).
    match goal with |- context [exec ?q] =>
      destruct (q (w_db w)) as [[id d']|] eqn:Ei end.
    + eexists _, _. split.
      * erewrite est_bind_run; [reflexivity|]. apply exec_run; [|exact Ei].
        change (w_faults (tick w)) with (w_faults w). rewrite Hf. apply not_elem_of_nil.
      * split; [intros; congruence|]. intros _. split; [eexists; reflexivity|]. exists id. reflexivity.
    + exfalso. unfold insert_user in Ei. rewrite Eu in Ei. by destruct (tbl_insert _ _).
Qed.


(** C34. Registration and login compose: after [reg] succeeds, logging in
    with the registered email and password (the next statement not
    failing) returns 200 with the same [user] object and an access token
    for the new user id.  The hypothesis that no earlier user has the new
    email as its username is needed: [login] looks the text up in both
    columns (see [login_username_shadowed]). *)
Theorem reg_then_login r salt w w1 v :
  reg cfg (Some r) salt w = (w1, Ret (Reply 201 v)) ->
  (forall k u, (k, u) ∈ rows (users (w_db w)) -> rr_email r <> Some (u_username u)) ->
  w_stmt w1 ∉ w_faults w1 ->
  login cfg (Some {| lg_login := rr_email r; lg_password := rr_password r |}) w1 =
  (tick w1, Ret (Reply 200 {| ar_access_token := create_access_token cfg (uv_id (ar_user v)) (w_now w1);
                              ar_user := ar_user v |})).
Proof.
  intros Hr Hu Hf. destruct (reg_ok r salt w w1 v Hr) as (un & e & p & fn & ln & -> & He & Hp & Hq & Hdb & _ & _ & Hv).
  cbn [rr_email rr_password login]. rewrite (proj2 (String.eqb_neq _ _) He), (proj2 (String.eqb_neq _ _) Hp).
  cbn [orb]. est_unfold. rewrite (query_run _ _ Hf). unfold user_by_login. rewrite Hdb. cbn [users set_users].
  rewrite tbl_find_insert.
  replace (tbl_find _ (users (w_db w))) with (@None (nat * user_row)).
  2:{ symmetry. apply tbl_find_None. intros k u Hin. apply orb_false_intro.
      - unfold user_by_login in Hq. pose proof (proj1 (tbl_find_None _ _) Hq k u Hin) as Hk.
        by apply orb_false_iff in Hk as [-> _].
      - apply String.eqb_neq. intros Heq. apply (Hu k u Hin). by rewrite Heq. }
  cbn [tbl_insert fst new_user_row u_email]. rewrite String.eqb_refl. cbn [orb u_password_hash].
  cbn [u_password_hash new_user_row]. rewrite check_pswd_hash by done. rewrite Hv. reflexivity.
Qed.

(** The matching row [login] finds comes first in scan order. *)
Lemma user_by_login_first l d k u k' u' :
  tbl_wf (users d) -> user_by_login l l d = Some (k, u) -> (k', u') ∈ rows (users d) ->
  (String.eqb (u_email u') l || String.eqb (u_username u') l) = true -> k <= k'.
Proof. intros Hwf Hf Hin HP. by eapply (tbl_find_first _ _ _ _ _ _ Hwf Hf Hin). Qed.

(** C35. [reg] checks a new email against the emails and a new username
    against the usernames only (app.py:74-78), so a user [b] may take as
    username the email of an earlier user [a].  [login] then looks the
    text up in both columns and takes the first row (app.py:112-116):
    whatever password is given, logging in with [b]'s username never
    authenticates [b]. *)
Theorem login_username_shadowed w ka a kb b p w' rep :
  tbl_wf (users (w_db w)) -> (ka, a) ∈ rows (users (w_db w)) -> ka < kb ->
  u_email a = u_username b ->
  login cfg (Some {| lg_login := Some (u_username b); lg_password := Some p |}) w = (w', Ret rep) ->
  forall v, rep = Reply 200 v -> uv_id (ar_user v) <> kb.
Proof.
  intros Hwf Ha Hlt Heq Hl v -> Hid. cbn [login] in Hl.
  destruct (String.eqb (u_username b) "" || String.eqb p "")%string; [by simplify_eq/=|].
  est_unfold. unfold query in Hl. case_decide; [done|].
  destruct (user_by_login _ _ (w_db w)) as [[k u]|] eqn:Hf; [|by simplify_eq/=].
  assert (k <= ka). { eapply user_by_login_first; [done..|]. by rewrite Heq, String.eqb_refl. }
  destruct (check_pswd _ _); simplify_eq/=. lia.
Qed.

End AccountRuns.

(** ** Deleting an account *)

Section DeleteRuns.
Context `{PasswordHasher} `{JwtCodec}.

(** The first four statements ran: the fifth, the DELETE of the user row,
    decides the reply. *)
Lemma delete_account_four uid w :
  (forall i, i < 4 -> w_stmt w + i ∉ w_faults w) ->
  exists w4, w_db w4 = account_data_deleted uid (w_db w) /\ w_stmt w4 = w_stmt w + 4 /\
    w_faults w4 = w_faults w /\
    delete_account uid w =
    catch (exec (delete_user_row uid);; mret (Reply 200 "Account deleted successfully"))
          (fun _ => mret (ErrorReply 500 "Failed to delete account")) w4.
Proof.
  intros Hf. pose proof (Hf 0 ltac:(lia)) as F0. pose proof (Hf 1 ltac:(lia)) as F1.
  pose proof (Hf 2 ltac:(lia)) as F2. pose proof (Hf 3 ltac:(lia)) as F3.
  rewrite Nat.add_0_r in F0. replace (w_stmt w + 1) with (S (w_stmt w)) in F1 by lia.
  replace (w_stmt w + 2) with (S (S (w_stmt w))) in F2 by lia.
  replace (w_stmt w + 3) with (S (S (S (w_stmt w)))) in F3 by lia.
  eexists. split; [|split; [|split]]; [| | |].
  4:{ unfold delete_account, catch. est_unfold. unfold exec at 1 2 3 4. cbn -[decide].
      rewrite decide_False by done. cbn -[decide]. rewrite decide_False by done. cbn -[decide].
      rewrite decide_False by done. cbn -[decide]. rewrite decide_False by done. reflexivity. }
  all: cbn; try reflexivity; lia.
Qed.

(** The last DELETE on the database the first four left. *)
Lemma delete_account_last uid w4 :
  w_stmt w4 ∉ w_faults w4 ->
  catch (exec (delete_user_row uid);; mret (Reply 200 "Account deleted successfully"))
        (fun _ => mret (ErrorReply 500 "Failed to delete account")) w4 =
  (set_db (set_users (tbl_delete (fun k _ => Nat.eqb k uid) (users (w_db w4))) (w_db w4)) (tick w4),
   Ret (Reply 200 "Account deleted successfully")).
Proof. intros Hf. unfold catch. est_unfold. unfold exec. by rewrite decide_False. Qed.

(** C36. [delete_account] (app.py:203-218) with no failing statement
    removes the user row, its link tokens, its orders, the items of those
    orders and its products; every row of another user stays, and so do
    all the items of other users' orders, those that bought the deleted
    user's products included. *)
Theorem delete_account_cascade uid w :
  db_wf (w_db w) -> (forall i, i < 5 -> w_stmt w + i ∉ w_faults w) ->
  let d := w_db w in
  let d' := w_db (delete_account uid w).1 in
  (delete_account uid w).2 = Ret (Reply 200 "Account deleted successfully") /\
  user_row_of uid d' = None /\
  tbl_select (fun _ t => Nat.eqb (t_user_id t) uid) (tokens d') = [] /\
  tbl_select (fun _ o => Nat.eqb (o_user_id o) uid) (orders d') = [] /\
  tbl_select (fun _ p => Nat.eqb (p_created_by p) uid) (products d') = [] /\
  tbl_select (fun _ i => order_owned_by uid (oi_order_id i) d) (order_items d') = [] /\
  (forall k, k <> uid -> tbl_get k (users d') = tbl_get k (users d)) /\
  tbl_select (fun _ t => negb (Nat.eqb (t_user_id t) uid)) (tokens d') =
    tbl_select (fun _ t => negb (Nat.eqb (t_user_id t) uid)) (tokens d) /\
  tbl_select (fun _ o => negb (Nat.eqb (o_user_id o) uid)) (orders d') =
    tbl_select (fun _ o => negb (Nat.eqb (o_user_id o) uid)) (orders d) /\
  tbl_select (fun _ p => negb (Nat.eqb (p_created_by p) uid)) (products d') =
    tbl_select (fun _ p => negb (Nat.eqb (p_created_by p) uid)) (products d) /\
  tbl_select (fun _ i => negb (order_owned_by uid (oi_order_id i) d)) (order_items d') =
    tbl_select (fun _ i => negb (order_owned_by uid (oi_order_id i) d)) (order_items d).
Proof.
  intros Hwf Hf. cbv zeta.
  destruct (delete_account_four uid w) as (w4 & Hd & Hs & Hf4 & ->); [intros i Hi; apply Hf; lia|].
  rewrite delete_account_last by (rewrite Hs, Hf4; apply Hf; lia).
  cbn [fst snd w_db set_db]. rewrite Hd. unfold account_data_deleted, tokens_deleted, user_row_of.
  cbn [users products orders order_items tokens set_users set_products set_orders set_order_items set_tokens].
  destruct Hwf as (Hu & _).
  repeat split; first
    [ apply tbl_select_delete_all; intros k r Hk; exact Hk
    | apply tbl_select_delete_disj; intros k r Hk; by apply negb_true_iff in Hk
    | idtac ].
  - rewrite tbl_get_delete by done. destruct (tbl_get uid _); [|done].
    by rewrite Nat.eqb_refl.
  - intros k Hk. rewrite tbl_get_delete by done. destruct (tbl_get k _); [|done].
    by rewrite (proj2 (Nat.eqb_neq k uid) Hk).
Qed.

(** C37. The five DELETEs of [delete_account] are committed one by one
    (database.py:81-104).  When the last one, that of the user row, raises,
    the reply is 500 "Failed to delete account" but the first four stay
    committed: the account still exists, with its password, while its
    link tokens, orders and products are gone. *)
Theorem delete_account_partial uid w :
  (forall i, i < 4 -> w_stmt w + i ∉ w_faults w) -> w_stmt w + 4 ∈ w_faults w ->
  let d' := w_db (delete_account uid w).1 in
  (delete_account uid w).2 = Ret (ErrorReply 500 "Failed to delete account") /\
  user_row_of uid d' = user_row_of uid (w_db w) /\
  tbl_select (fun _ t => Nat.eqb (t_user_id t) uid) (tokens d') = [] /\
  tbl_select (fun _ o => Nat.eqb (o_user_id o) uid) (orders d') = [] /\
  tbl_select (fun _ p => Nat.eqb (p_created_by p) uid) (products d') = [].
Proof.
  intros Hf H4. cbv zeta.
  destruct (delete_account_four uid w) as (w4 & Hd & Hs & Hf4 & ->); [done|].
  unfold catch. est_unfold. rewrite exec_fault by (by rewrite Hs, Hf4).
  cbn [fst snd w_db tick]. rewrite Hd. unfold account_data_deleted, tokens_deleted, user_row_of.
  cbn [users products orders order_items tokens set_users set_products set_orders set_order_items set_tokens].
  repeat split; apply tbl_select_delete_all; intros k r Hk; exact Hk.
Qed.

End DeleteRuns.
