(* ===== verification/Catalog.v ===== *)
(** * The product catalog: [create_product], [get_products],
      [get_all_products], [update_product], [delete_product]
      (app.py:220-332)

    The handlers take the user id that [jwt_required] yields and the
    parsed JSON body, and run statement by statement in the monad [M],
    over any [NotificationChannel] ([create_product] notifies the owner).
    A price is a JSON number, modelled as [Z] like every amount of the
    backend; [float()] of it is the same amount.  For [update_product],
    whose code asks whether a key is present, a field is
    [option (option _)]: absent, or present with a value or [null]. *)

From S2P Require Import Prelude Store Notify Orders Telegram.

(** ** Request and reply data *)

(** The body of [create_product]: [description] absent is [None] (the
    code's [data.get('description', '')] makes it the empty text), [null]
    is [Some None]. *)
Record product_req := {
  pr_name : option string;
  pr_price : option Z;
  pr_description : option (option string)
}.

Definition req_description (r : product_req) : option string :=
  match pr_description r with None => Some ""%string | Some d => d end.

(** The reply of [create_product] (app.py:245-251). *)
Record product_view := {
  pv_id : nat; pv_name : string; pv_price : Z; pv_description : option string; pv_created_by : nat
}.

Record product_update := {
  pu_name : option (option string);
  pu_price : option (option Z);
  pu_description : option (option string)
}.

(** One [field = ?] of the UPDATE of [update_product]. *)
Inductive product_change := ChName (v : option string) | ChPrice (v : Z) | ChDescription (v : option string).

(** ** Statements *)

(** [SELECT * FROM products WHERE id = ? AND created_by = ?] with
    [fetch_one] (app.py:281-285, 318-322). *)
Definition owned_product (pid uid : nat) (d : db) : option product_row :=
  match tbl_get pid (products d) with
  | Some p => if Nat.eqb (p_created_by p) uid then Some p else None
  | None => None
  end.

(** [SELECT p.*, u.email as owner_email FROM products p JOIN users u ON
    p.created_by = u.id ORDER BY p.created_at DESC] (app.py:267-272). *)
Definition all_products_with_owner (d : db) : list (nat * product_row * string) :=
  sort_desc (fun x : nat * product_row * string => p_created_at x.1.2)
    (omap (fun kr : nat * product_row => (fun u => (kr, u_email u)) <$> tbl_get (p_created_by kr.2) (users d))
          (rows (products d))).

(** One change on a row; [NULL] in the [NOT NULL] column [name] is refused. *)
Definition apply_change (p : product_row) (c : product_change) : option product_row :=
  match c with
  | ChName (Some v) => Some {| p_name := v; p_price := p_price p; p_description := p_description p;
                               p_created_by := p_created_by p; p_created_at := p_created_at p |}
  | ChName None => None
  | ChPrice v => Some {| p_name := p_name p; p_price := v; p_description := p_description p;
                         p_created_by := p_created_by p; p_created_at := p_created_at p |}
  | ChDescription v => Some {| p_name := p_name p; p_price := p_price p; p_description := v;
                               p_created_by := p_created_by p; p_created_at := p_created_at p |}
  end.

Fixpoint apply_changes (cs : list product_change) (p : product_row) : option product_row :=
  match cs with
  | [] => Some p
  | c :: cs' => apply_change p c ≫= apply_changes cs'
  end.

(** [UPDATE products SET ... WHERE id = ? AND created_by = ?]
    (app.py:308-311). *)
Definition update_product_row (pid uid : nat) (cs : list product_change) (d : db) : option (unit * db) :=
  match owned_product pid uid d with
  | Some p =>
      match apply_changes cs p with
      | Some p' => Some (tt, set_products (tbl_update (fun k r => Nat.eqb k pid && Nat.eqb (p_created_by r) uid)
                                                      (fun _ => p') (products d)) d)
      | None => None
      end
  | None => Some (tt, d)
  end.

(** [DELETE FROM products WHERE id = ? AND created_by = ?] (app.py:327-330). *)
Definition delete_product_row (pid uid : nat) (d : db) : option (unit * db) :=
  Some (tt, set_products (tbl_delete (fun k r => Nat.eqb k pid && Nat.eqb (p_created_by r) uid) (products d)) d).

(** The changes of app.py:293-301, in order; [float(None)] raises
    [TypeError]. *)
Definition product_changes (u : product_update) : outcome (list product_change) :=
  let name := ChName <$> pu_name u in
  let description := ChDescription <$> pu_description u in
  match pu_price u with
  | Some None => Raise TypeError
  | Some (Some p) => Ret (omap id [name; Some (ChPrice p); description])
  | None => Ret (omap id [name; None; description])
  end.

(** The row [create_product] inserts. *)
Definition new_product_row (name : string) (price : Z) (desc : option string) (uid : nat) (ts : Z) : product_row :=
  {| p_name := name; p_price := price; p_description := desc; p_created_by := uid; p_created_at := ts |}.

(** ** Handlers *)

Section Handlers.
Context `{NotificationChannel}.

(** [create_product] (app.py:220-251). *)
Definition create_product (uid : nat) (data : option product_req) : M (reply product_view) :=
  match data with
  | Some r =>
      if truthy_str (pr_name r) && truthy_Z (pr_price r) then
        let name := default "" (pr_name r) in
        let price := default 0%Z (pr_price r) in
        ts ← now;
        product_id ← exec (insert_product name price (req_description r) uid ts);
        user ← query (user_by_id uid);
        (match user with
         | Some u =>
             if truthy_str (u_telegram_id u) then
               _ ← send (default "" (u_telegram_id u)) (NProductCreated name price); mret tt
             else mret tt
         | None => mret tt
         end);;
        mret (Reply 201 {| pv_id := product_id; pv_name := name; pv_price := price;
                           pv_description := req_description r; pv_created_by := uid |})
      else mret (ErrorReply 400 "Name and price required")
  | None => mret (ErrorReply 400 "Name and price required")
  end%string.

(** [get_products] (app.py:253-262). *)
Definition get_products (uid : nat) : M (reply (list (nat * product_row))) :=
  products ← query (products_of_user uid); mret (Reply 200 (rows_to_dict_list products)).

(** [get_all_products] (app.py:264-274). *)
Definition get_all_products : M (reply (list (nat * product_row * string))) :=
  products ← query all_products_with_owner; mret (Reply 200 (rows_to_dict_list products)).

(** [update_product] (app.py:276-313): a body [null] raises [TypeError]
    at ['name' in data]. *)
Definition update_product (uid pid : nat) (data : option product_update) : M (reply string) :=
  product ← query (owned_product pid uid);
  match product with
  | None => mret (ErrorReply 404 "Product not found")
  | Some _ =>
      match data with
      | None => throw TypeError
      | Some u =>
          match product_changes u with
          | Raise e => throw e
          | Ret [] => mret (ErrorReply 400 "No fields to update")
          | Ret cs => exec (update_product_row pid uid cs);; mret (Reply 200 "Product updated successfully")
          end
      end
  end.

(** [delete_product] (app.py:315-332). *)
Definition delete_product (uid pid : nat) : M (reply string) :=
  product ← query (owned_product pid uid);
  match product with
  | None => mret (ErrorReply 404 "Product not found")
  | Some _ => exec (delete_product_row pid uid);; mret (Reply 200 "Product deleted successfully")
  end.

End Handlers.

(** ** The order history is not the catalog's to change *)

(** The two tables an order's history lives in are unchanged. *)
Definition history_same (w w' : world) : Prop :=
  orders (w_db w') = orders (w_db w) /\ order_items (w_db w') = order_items (w_db w).

#[export] Instance history_same_preorder : PreOrder history_same.
Proof. split; [by intros w | intros w1 w2 w3 [H1 H2] [H3 H4]; split; congruence]. Qed.

Lemma query_history {A} (f : db -> A) : est_pres history_same (query f).
Proof. intros w. unfold history_same. by rewrite (proj1 (query_db f w)). Qed.

Lemma now_history : est_pres history_same now.
Proof. by intros w. Qed.

(** A statement that writes [products] only. *)
Lemma exec_history {A} (q : db -> option (A * db)) :
  (forall d a d', q d = Some (a, d') -> orders d' = orders d /\ order_items d' = order_items d) ->
  est_pres history_same (exec q).
Proof.
  intros Hq w. unfold exec, history_same. case_decide; [done|].
  destruct (q (w_db w)) as [[a d']|] eqn:E; [|done]. simpl. by apply (Hq _ _ _ E).
Qed.

Lemma send_history `{NotificationChannel} chat n : est_pres history_same (send chat n).
Proof. intros w. unfold history_same. by rewrite send_db. Qed.

#[export] Hint Resolve query_history now_history send_history : osys.
#[export] Hint Extern 2 (est_pres history_same (exec _)) =>
  apply exec_history; intros ? ? ?; unfold insert_product, update_product_row, delete_product_row;
  repeat case_match; intros; simplify_eq/=; done : osys.

Section CatalogTheorems.
Context `{NotificationChannel}.

Lemma create_product_history uid c : est_pres history_same (create_product uid c).
Proof. unfold create_product. est_pres_auto. Qed.

Lemma update_product_history uid pid u : est_pres history_same (update_product uid pid u).
Proof. unfold update_product. est_pres_auto. Qed.

Lemma delete_product_history uid pid : est_pres history_same (delete_product uid pid).
Proof. unfold delete_product. est_pres_auto. Qed.

(** C38. None of the catalog's handlers touches [orders] or
    [order_items], whatever the request and whatever statement fails:
    creating, updating (its price included) or deleting a product never
    changes a stored order total or the unit price an item was bought at
    (the snapshot the spec asks for). *)
Theorem catalog_keeps_order_history uid pid c u w :
  history_same w (create_product uid c w).1 /\ history_same w (update_product uid pid u w).1 /\
  history_same w (delete_product uid pid w).1.
Proof.
  split; [apply create_product_history | split; [apply update_product_history | apply delete_product_history]].
Qed.

(** A product is changed and deleted by its owner only: for a
    product id that does not exist or belongs to another user, both
    [update_product] and [delete_product] answer 404 after their SELECT
    and write nothing. *)
Theorem product_owner_only uid pid u w :
  owned_product pid uid (w_db w) = None -> w_stmt w ∉ w_faults w ->
  update_product uid pid u w = (tick w, Ret (ErrorReply 404 "Product not found")) /\
  delete_product uid pid w = (tick w, Ret (ErrorReply 404 "Product not found")).
Proof.
  intros Ho Hf. unfold update_product, delete_product.
  rewrite !(est_bind_run _ _ _ _ _ (query_run _ _ Hf)), Ho. done.
Qed.

(** [get_order] (app.py:450-480) on an order of its user, its two
    SELECTs running. *)
Lemma get_order_ok uid oid o w :
  w_stmt w ∉ w_faults w -> S (w_stmt w) ∉ w_faults w -> order_of_user oid uid (w_db w) = Some o ->
  get_order uid oid w =
  (tick (tick w), Ret (Reply 200 {| ov_id := oid; ov_total_amount := o_total_amount o; ov_status := o_status o;
                                    ov_created_at := o_created_at o;
                                    ov_items := map item_view_of (items_of_order oid (w_db w)) |})).
Proof.
  intros Hf1 Hf2 Ho. unfold get_order. rewrite (est_bind_run _ _ _ _ _ (query_run _ _ Hf1)), Ho.
  cbv beta iota. by rewrite (est_bind_run _ _ _ _ _ (query_run _ (tick w) Hf2)).
Qed.

(** The inner join of [items_of_order] loses the items of a deleted
    product and only those. *)
Lemma items_of_order_delete_product oid pid uid d :
  tbl_wf (products d) -> owned_product pid uid d <> None ->
  items_of_order oid (set_products (tbl_delete (fun k r => Nat.eqb k pid && Nat.eqb (p_created_by r) uid)
                                               (products d)) d) =
  List.filter (fun x => negb (Nat.eqb (oi_product_id x.1) pid)) (items_of_order oid d).
Proof.
  intros Hwf Ho. unfold items_of_order. cbn [products order_items set_products].
  induction (tbl_select _ (order_items d)) as [|[k i] l IH]; [done|]. cbn [omap list_omap fst snd].
  rewrite tbl_get_delete by done. rewrite IH. unfold owned_product in Ho.
  destruct (Nat.eqb_spec (oi_product_id i) pid) as [Heq|Hne].
  - rewrite Heq. destruct (tbl_get pid (products d)) as [p|]; [|done].
    destruct (Nat.eqb (p_created_by p) uid) eqn:Hc; [|done]. simpl. by rewrite Heq, Nat.eqb_refl.
  - destruct (tbl_get (oi_product_id i) (products d)) as [p|]; [|done].
    simpl. rewrite (proj2 (Nat.eqb_neq _ _) Hne). done.
Qed.

(** C39. Deleting a product (app.py:327-330) leaves the [order_items]
    rows that bought it, but [get_order] joins them with [products]
    (app.py:462-467): the buyer's order, of another user, keeps its total
    while the items bought from that product disappear from it.  The
    spec says that historical orders must never change when a product
    changes. *)
Theorem delete_product_rewrites_history uid pid buyer oid o w :
  db_wf (w_db w) -> w_faults w = [] -> owned_product pid uid (w_db w) <> None ->
  order_of_user oid buyer (w_db w) = Some o ->
  exists v v',
    (get_order buyer oid w).2 = Ret (Reply 200 v) /\
    (get_order buyer oid (delete_product uid pid w).1).2 = Ret (Reply 200 v') /\
    ov_total_amount v' = ov_total_amount v /\
    ov_items v = map item_view_of (items_of_order oid (w_db w)) /\
    ov_items v' = map item_view_of (List.filter (fun x => negb (Nat.eqb (oi_product_id x.1) pid))
                                                (items_of_order oid (w_db w))).
Proof.
  intros (_ & Hwf & _) Hf Hown Ho.
  destruct (owned_product pid uid (w_db w)) as [p|] eqn:Hp; [|done].
  assert (Hrun : delete_product uid pid w =
    (set_db (set_products (tbl_delete (fun k r => Nat.eqb k pid && Nat.eqb (p_created_by r) uid) (products (w_db w)))
                          (w_db w)) (tick (tick w)), Ret (Reply 200 "Product deleted successfully"))).
  { unfold delete_product. rewrite (est_bind_run _ _ _ _ _ (query_run _ _ (no_faults_clear _ _ Hf))), Hp.
    cbv beta iota. by rewrite (est_bind_run _ _ _ _ _ (exec_run _ (tick w) tt _ (no_faults_clear (tick w) _ Hf) eq_refl)). }
  rewrite Hrun. cbn [fst].
  rewrite (get_order_ok buyer oid o w) by (try rewrite Hf; auto using not_elem_of_nil).
  rewrite (get_order_ok buyer oid o) by (cbn; try rewrite Hf; auto using not_elem_of_nil).
  cbn [w_db set_db]. rewrite items_of_order_delete_product by (done || congruence).
  by eexists _, _.
Qed.

(** A request with a name and a non-zero price, no statement failing:
    the product is the last row of [products], the reply carries it. *)
Lemma create_product_ok uid r name price w :
  pr_name r = Some name -> pr_price r = Some price -> name <> ""%string -> price <> 0%Z -> w_faults w = [] ->
  exists w', create_product uid (Some r) w =
    (w', Ret (Reply 201 {| pv_id := S (seq (products (w_db w))); pv_name := name; pv_price := price;
                           pv_description := req_description r; pv_created_by := uid |})) /\
    products (w_db w') = (tbl_insert (new_product_row name price (req_description r) uid (w_now w)) (products (w_db w))).2.
Proof.
  intros Hn Hp Hne Hz Hf. unfold create_product. rewrite Hn, Hp.
  rewrite truthy_str_Some by done. cbn [truthy_Z]. rewrite (proj2 (Z.eqb_neq _ _) Hz). cbn [negb andb default].
  rewrite est_bind_run with (s' := w) (a := w_now w) by reflexivity.
  rewrite (est_bind_run _ _ _ _ _ (exec_run _ w _ _ (no_faults_clear _ _ Hf) eq_refl)).
  set (w1 := set_db _ (tick w)).
  rewrite (est_bind_run _ _ _ _ _ (query_run _ w1 (no_faults_clear w1 _ Hf))).
  est_unfold. destruct (user_by_id uid (w_db w1)) as [u|]; [destruct (truthy_str (u_telegram_id u))|].
  - match goal with |- context [send ?c ?n (tick w1)] => destruct (send_spec c n (tick w1)) as [ok ->] end.
    eexists. split; reflexivity.
  - eexists. split; reflexivity.
  - eexists. split; reflexivity.
Qed.

(** C40. [create_product] requires a truthy price ([not data.get('price')],
    app.py:225): it rejects the price 0 with 400, but a negative price
    passes and is stored as the product's price.  The spec says a price
    is at least 0 and that non-positive input is [InvalidInput]. *)
Theorem create_product_price_check uid name desc z w :
  name <> ""%string -> w_faults w = [] -> tbl_wf (products (w_db w)) -> (z < 0)%Z ->
  (create_product uid (Some {| pr_name := Some name; pr_price := Some 0%Z; pr_description := desc |}) w).2 =
    Ret (ErrorReply 400 "Name and price required") /\
  exists v w', create_product uid (Some {| pr_name := Some name; pr_price := Some z; pr_description := desc |}) w =
    (w', Ret (Reply 201 v)) /\ pv_price v = z /\
    tbl_get (pv_id v) (products (w_db w')) = Some (new_product_row name z (pv_description v) uid (w_now w)).
Proof.
  intros Hn Hf Hwf Hz. split.
  - unfold create_product. cbn [pr_name pr_price truthy_Z]. by rewrite truthy_str_Some.
  - destruct (create_product_ok uid {| pr_name := Some name; pr_price := Some z; pr_description := desc |}
                name z w) as (w' & Hrun & Hp); [done | done | done | lia | done |].
    eexists _, w'. split; [exact Hrun|]. split; [done|]. cbn [pv_id pv_description]. rewrite Hp.
    apply (tbl_get_insert_eq _ _ Hwf).
Qed.

End CatalogTheorems.
