(* ===== verification/Schema.v ===== *)
(** * The schema of database.py and the handlers that write [users] and
      [telegram_link_tokens]

    [init_db] (database.py:13-79) creates the five tables with
    [CREATE TABLE IF NOT EXISTS] and seven indexes: on a fresh file it
    yields the empty database, on an existing one it changes nothing (an
    index changes how rows are found, not which).  The schema's typing
    constraints beyond the shapes of [Store.v] are the [UNIQUE] columns
    [users.username], [users.email] (database.py:19-20) and
    [telegram_link_tokens.token] (database.py:61).  [schema_inv] is the
    typing invariant of a database: well-formed tables and those three
    columns without duplicates.  The statements keep it on their own (a
    duplicating write is refused), so every handler keeps it
    ([schema_kept]).  What the code adds, [reg]'s check before its
    INSERT, is the theorem [Accounts.reg_duplicate_check]. *)

From S2P Require Import Prelude Store Notify Linking Auth Accounts.

(** ** [init_db] *)

Definition empty_db : db :=
  {| users := empty_table; products := empty_table; orders := empty_table;
     order_items := empty_table; tokens := empty_table |}.

(** [init_db] on the file at [DATABASE_PATH]: [None] when there is no
    database yet. *)
Definition init_db (existing : option db) : db := default empty_db existing.

(** ** The typing invariant *)

Definition users_unique (d : db) : Prop :=
  NoDup (map (fun kr => u_username kr.2) (rows (users d))) /\
  NoDup (map (fun kr => u_email kr.2) (rows (users d))).

Definition schema_inv (d : db) : Prop := link_db_inv d /\ users_unique d.

#[export] Instance users_unique_dec d : Decision (users_unique d).
Proof. unfold users_unique. apply _. Defined.

(** The invariant as a test, to check it of a concrete database. *)
Definition schema_invb (d : db) : bool := link_db_invb d && bool_decide (users_unique d).

Lemma schema_invb_sound d : schema_invb d = true -> schema_inv d.
Proof. intros [Hl Hu]%andb_prop. split; [by apply link_db_invb_sound | by apply bool_decide_eq_true_1 in Hu]. Qed.

Section KeyFacts.

(** An UPDATE that keeps username and email on the rows it changes. *)
Lemma users_unique_update P f d :
  (forall k u, (k, u) ∈ rows (users d) -> P k u = true ->
     u_username (f u) = u_username u /\ u_email (f u) = u_email u) ->
  users_unique d -> users_unique (set_users (tbl_update P f (users d)) d).
Proof.
  intros Hf [Hn He]. unfold users_unique; cbn [users set_users tbl_update rows]. rewrite !map_map.
  split; [erewrite map_ext_in; [exact Hn|] | erewrite map_ext_in; [exact He|]];
    intros [k u] Hin; cbn; destruct (P k u) eqn:HP; cbn; try done;
    apply (Hf k u); [by apply list_elem_of_In | done | by apply list_elem_of_In | done].
Qed.

Lemma users_unique_delete P d : users_unique d -> users_unique (set_users (tbl_delete P (users d)) d).
Proof. intros [Hn He]. split; by apply NoDup_map_filter. Qed.

Lemma users_unique_same d d' : users d' = users d -> users_unique d -> users_unique d'.
Proof. unfold users_unique. by intros ->. Qed.

Lemma set_profile_field_keys u fv u' : set_profile_field u fv = Some u' ->
  u_username u' = u_username u /\ u_email u' = u_email u.
Proof. destruct fv as [[] [v|]]; cbn; by intros [= <-]. Qed.

Lemma set_profile_fields_keys fs u u' : set_profile_fields fs u = Some u' ->
  u_username u' = u_username u /\ u_email u' = u_email u.
Proof.
  revert u. induction fs as [|fv fs IH]; intros u; cbn; [by intros [= <-]|].
  destruct (set_profile_field u fv) as [u1|] eqn:E; [|done]. cbn. intros Hu.
  destruct (IH u1 Hu) as [-> ->]. by apply set_profile_field_keys in E.
Qed.

End KeyFacts.

(** The tables [CREATE TABLE] makes on a fresh file have the invariant. *)
Lemma empty_db_schema : schema_inv empty_db.
Proof. split; [split|]; [repeat split; constructor | constructor | split; constructor]. Qed.

(** ** Statement by statement *)

Section Statements.
Implicit Types d : db.

Lemma insert_user_schema un em fn ln ph ts d a d' :
  schema_inv d -> insert_user un em fn ln ph ts d = Some (a, d') -> schema_inv d'.
Proof.
  intros [[Hwf Ht] [Hn He]]. unfold insert_user.
  destruct (user_taken un em d) eqn:Htk; [done|]. intros [= <- <-].
  unfold user_taken in Htk.
  assert (Hfresh : forall k u, (k, u) ∈ rows (users d) -> u_username u <> un /\ u_email u <> em).
  { intros k u Hin.
    destruct (String.eqb (u_username u) un || String.eqb (u_email u) em) eqn:E.
    - exfalso. refine (Bool.eq_true_false_abs _ (proj2 (existsb_exists _ _) _) Htk).
      exists (k, u). split; [by apply list_elem_of_In | exact E].
    - apply orb_false_iff in E as [H1 H2]. by split; apply String.eqb_neq. }
  split; [split|].
  - apply db_wf_set_users; [done | apply tbl_insert_wf, Hwf].
  - exact Ht.
  - unfold users_unique; cbn [users set_users tbl_insert rows snd]. rewrite !map_app.
    split; apply NoDup_app; (split; [done | split; [|apply NoDup_singleton]]);
      intros s (kr & -> & Hin)%list_elem_of_fmap Heq%list_elem_of_singleton; destruct kr as [k u];
      destruct (Hfresh k u Hin); cbn in Heq; congruence.
Qed.

Lemma update_user_fields_schema uid fs d a d' :
  schema_inv d -> update_user_fields uid fs d = Some (a, d') -> schema_inv d'.
Proof.
  intros [[Hwf Ht] Hu]. unfold update_user_fields.
  destruct (tbl_get uid (users d)) as [u|] eqn:Hget; [|by intros [= <- <-]].
  destruct (set_profile_fields fs u) as [u'|] eqn:E; [|done]. intros [= <- <-].
  apply set_profile_fields_keys in E as [E1 E2].
  split; [split|].
  - apply db_wf_set_users; [done | apply tbl_update_wf, Hwf].
  - exact Ht.
  - apply users_unique_update; [|done]. intros k v Hin Hk%Nat.eqb_eq. subst k.
    rewrite (tbl_get_elem _ _ _ (proj1 Hwf) Hin) in Hget. injection Hget as ->. done.
Qed.

Lemma set_telegram_id_schema uid tg d a d' :
  schema_inv d -> set_telegram_id uid tg d = Some (a, d') -> schema_inv d'.
Proof.
  intros [Hl Hu] Hq. split; [by eapply set_telegram_id_keeps|].
  injection Hq as <- <-. by apply users_unique_update.
Qed.

(** The statements that leave [users] as it is. *)
Lemma schema_users_same {A} (q : db -> option (A * db)) d a d' :
  (link_db_inv d -> q d = Some (a, d') -> link_db_inv d') -> (q d = Some (a, d') -> users d' = users d) ->
  schema_inv d -> q d = Some (a, d') -> schema_inv d'.
Proof. intros Hl Hus [Hi Hu] Hq. split; [by apply Hl | apply (users_unique_same d); auto]. Qed.

Lemma insert_token_schema uid tok exp d a d' :
  schema_inv d -> insert_token uid tok exp d = Some (a, d') -> schema_inv d'.
Proof.
  apply schema_users_same; [apply insert_token_keeps|].
  unfold insert_token. destruct (token_taken tok d); [done|]. by intros [= <- <-].
Qed.

Lemma mark_used_schema id d a d' : schema_inv d -> mark_used id d = Some (a, d') -> schema_inv d'.
Proof. apply schema_users_same; [apply mark_used_keeps | by intros [= <- <-]]. Qed.

Lemma delete_tokens_of_schema uid d a d' :
  schema_inv d -> delete_tokens_of uid d = Some (a, d') -> schema_inv d'.
Proof. intros [Hl Hu] Hq. split; [by eapply delete_tokens_keeps|]. by injection Hq as <- <-. Qed.

Lemma delete_items_of_orders_schema uid d a d' :
  schema_inv d -> delete_items_of_orders uid d = Some (a, d') -> schema_inv d'.
Proof. intros [[Hwf Ht] Hu] [= <- <-]. split; [split|]; [apply db_wf_set_order_items; [done | apply tbl_delete_wf, Hwf] | done | done]. Qed.

Lemma delete_orders_of_schema uid d a d' :
  schema_inv d -> delete_orders_of uid d = Some (a, d') -> schema_inv d'.
Proof. intros [[Hwf Ht] Hu] [= <- <-]. split; [split|]; [apply db_wf_set_orders; [done | apply tbl_delete_wf, Hwf] | done | done]. Qed.

Lemma delete_products_of_schema uid d a d' :
  schema_inv d -> delete_products_of uid d = Some (a, d') -> schema_inv d'.
Proof. intros [[Hwf Ht] Hu] [= <- <-]. split; [split|]; [apply db_wf_set_products; [done | apply tbl_delete_wf, Hwf] | done | done]. Qed.

Lemma delete_user_row_schema uid d a d' :
  schema_inv d -> delete_user_row uid d = Some (a, d') -> schema_inv d'.
Proof.
  intros [[Hwf Ht] Hu] [= <- <-]. split; [split|]; [apply db_wf_set_users; [done | apply tbl_delete_wf, Hwf] | done |].
  by apply users_unique_delete.
Qed.

End Statements.

(** A statement keeps [schema_inv] in the world, whether it commits,
    is refused or fails: the statement lemma is chosen by the statement's
    head, so that no two statements are unified with each other. *)
Ltac schema_leaf :=
  apply exec_inv_kept; intros ???;
  lazymatch goal with
  | |- _ -> insert_user _ _ _ _ _ _ _ = _ -> _ => apply insert_user_schema
  | |- _ -> update_user_fields _ _ _ = _ -> _ => apply update_user_fields_schema
  | |- _ -> set_telegram_id _ _ _ = _ -> _ => apply set_telegram_id_schema
  | |- _ -> insert_token _ _ _ _ = _ -> _ => apply insert_token_schema
  | |- _ -> mark_used _ _ = _ -> _ => apply mark_used_schema
  | |- _ -> delete_tokens_of _ _ = _ -> _ => apply delete_tokens_of_schema
  | |- _ -> delete_items_of_orders _ _ = _ -> _ => apply delete_items_of_orders_schema
  | |- _ -> delete_orders_of _ _ = _ -> _ => apply delete_orders_of_schema
  | |- _ -> delete_products_of _ _ = _ -> _ => apply delete_products_of_schema
  | |- _ -> delete_user_row _ _ = _ -> _ => apply delete_user_row_schema
  end.

(** The walk of [est_pres_auto] with the statements closed by
    [schema_leaf] before the generic hints are tried. *)
Ltac schema_auto := repeat (est_pres_step || schema_leaf || solve [eauto with osys]).

(** ** The handlers *)

Section Handlers.
Context `{PasswordHasher} `{JwtCodec} (cfg : config) `{NotificationChannel}.

(** Every handler that writes [users] or [telegram_link_tokens] keeps
    [schema_inv] in every run.  This follows from the statements alone:
    a write that would duplicate a [UNIQUE] value is refused. *)
Lemma schema_kept :
  (forall data salt, est_pres (inv_kept schema_inv) (reg cfg data salt)) /\
  (forall uid data, est_pres (inv_kept schema_inv) (update_profile uid data)) /\
  (forall uid, est_pres (inv_kept schema_inv) (delete_account uid)) /\
  (forall uid tok, est_pres (inv_kept schema_inv) (generate_telegram_token uid tok)) /\
  (forall token tg, est_pres (inv_kept schema_inv) (link_telegram token tg)).
Proof.
  split_and!.
  - intros data salt. unfold reg. schema_auto.
  - intros uid data. unfold update_profile. schema_auto.
  - intros uid. unfold delete_account. schema_auto.
  - intros uid tok. unfold generate_telegram_token. cbv zeta. schema_auto.
  - intros token tg. unfold link_telegram. cbv zeta. schema_auto.
Qed.

End Handlers.
