(* ===== verification/Pagination.v ===== *)
(** * Pagination of the order list in the bot (bot.py:79-105)

    [split_orders_into_pages] cuts the list the backend returns into
    slices [orders[i:i + 3]] for [i in range(0, len(orders), 3)];
    [create_pagination_keyboard] builds the row of buttons: previous page,
    the current-page indicator, next page.  The buttons carry callback data
    [orders_page_<n>] written with [str(n)], which the pagination handler
    ([Bot.v]) reads back with [int(data.split("_")[2])]. *)

From Stdlib Require Import Ascii.
From S2P Require Import Prelude BotText.

(** ** [range] and slices *)

Fixpoint range_from (fuel i stop step : nat) : list nat :=
  match fuel with
  | 0 => []
  | S f => if i <? stop then i :: range_from f (i + step) stop step else []
  end.

(** [range(start, stop, step)] for [step >= 1]: [stop - start] is enough
    fuel since every step advances by at least one. *)
Definition py_range (start stop step : nat) : list nat := range_from (stop - start) start stop step.

(** [l[i:j]]. *)
Definition py_slice {A} (l : list A) (i j : nat) : list A := take (j - i) (drop i l).

(** [split_orders_into_pages] (bot.py:97-105). *)
Definition split_orders_into_pages {A} (orders : list A) (orders_per_page : nat) : list (list A) :=
  match orders with
  | [] => []
  | _ => map (fun i => py_slice orders i (i + orders_per_page)) (py_range 0 (length orders) orders_per_page)
  end.

(** ** [str(n)] for a natural number *)

Fixpoint digits_rev (fuel n : nat) : list ascii :=
  match fuel with
  | 0 => []
  | S f => Ascii.ascii_of_nat (48 + n mod 10) :: (if n <? 10 then [] else digits_rev f (n / 10))
  end.

Definition py_str_nat (n : nat) : string := String.string_of_list_ascii (rev (digits_rev (S n) n)).

(** ** The keyboard (bot.py:79-95) *)

Inductive button :=
  | BPrev (target : nat)                 (** "⬅️ Назад", [orders_page_{page-1}] *)
  | BCurrent (page total_pages : nat)    (** "{page}/{total_pages}", [current_page] *)
  | BNext (target : nat).                (** "Вперед ➡️", [orders_page_{page+1}] *)

Definition button_data (b : button) : string :=
  match b with
  | BPrev n | BNext n => "orders_page_" +:+ py_str_nat n
  | BCurrent _ _ => "current_page"
  end.

Definition create_pagination_keyboard (page total_pages : nat) : list (list button) :=
  if 1 <? total_pages then
    [(if 1 <? page then [BPrev (page - 1)] else []) ++ [BCurrent page total_pages] ++
     (if page <? total_pages then [BNext (page + 1)] else [])]
  else [].

(** ** The pages *)

Lemma range_from_spec fuel i stop step :
  1 <= step -> stop - i <= fuel ->
  range_from fuel i stop step = map (fun k => i + k * step) (seq 0 ((stop - i + step - 1) / step)).
Proof.
  intros Hs. revert i. induction fuel as [|f IH]; intros i Hf; simpl.
  - assert (stop - i = 0) as E by lia. rewrite E. replace ((0 + step - 1) / step) with 0; [done|].
    symmetry. apply Nat.div_small. lia.
  - destruct (Nat.ltb_spec i stop) as [Hlt|Hge].
    + rewrite IH by lia.
      assert ((stop - i + step - 1) / step = S ((stop - (i + step) + step - 1) / step)) as ->.
      { destruct (Nat.le_gt_cases stop (i + step)).
        - replace (stop - (i + step)) with 0 by lia. rewrite (Nat.div_small (0 + step - 1) step) by lia.
          symmetry. apply Nat.div_unique with (stop - i - 1); lia.
        - replace (stop - i + step - 1) with ((stop - (i + step) + step - 1) + 1 * step) by lia.
          rewrite Nat.div_add by lia. lia. }
      cbn [seq map]. f_equal; [lia|]. rewrite <- seq_shift, map_map. apply map_ext. intros k. lia.
    + replace (stop - i) with 0 by lia. by rewrite Nat.div_small by lia.
Qed.

(** Extra fuel does not change [digits_rev]: with more fuel than the
    number, the loop ends on its own test [n < 10]. *)
Lemma digits_rev_fuel f g n : n < f -> n < g -> digits_rev f n = digits_rev g n.
Proof.
  revert g n. induction f as [|f IH]; intros [|g] n Hf Hg; try lia. cbn [digits_rev].
  destruct (Nat.ltb_spec n 10); [done|]. f_equal. apply IH; apply Nat.Div0.div_lt_upper_bound; lia.
Qed.

(** The fuel of [py_range] and [py_str_nat] is enough: the loops of the
    pagination code stop on their own conditions.  [range(i, stop,
    step)] with [step >= 1] gives the same list with any fuel of at
    least [stop - i], after [ceil((stop - i) / step)] iterations, and
    [str(n)] gives the same digits with any fuel above [n]. *)
Lemma pagination_fuel_enough :
  (forall i stop step f, 1 <= step -> stop - i <= f ->
     range_from f i stop step = py_range i stop step /\
     length (py_range i stop step) = (stop - i + step - 1) / step) /\
  (forall n f, n < f -> py_str_nat n = String.string_of_list_ascii (rev (digits_rev f n))).
Proof.
  split.
  - intros i stop step f Hs Hf. unfold py_range.
    rewrite !range_from_spec by lia. split; [done|]. by rewrite length_map, length_seq.
  - intros n f Hf. unfold py_str_nat. by rewrite (digits_rev_fuel (S n) f n) by lia.
Qed.

Lemma py_range_spec stop step :
  1 <= step -> py_range 0 stop step = map (fun k => k * step) (seq 0 ((stop + step - 1) / step)).
Proof. intros Hs. unfold py_range. rewrite range_from_spec by lia. rewrite Nat.sub_0_r. done. Qed.

(** The slices at [0, n, 2n, ...] of [l], [k] of them. *)
Fixpoint chunks {A} (k n : nat) (l : list A) : list (list A) :=
  match k with
  | 0 => []
  | S k' => take n l :: chunks k' n (drop n l)
  end.

Lemma slices_chunks {A} (l : list A) n k i :
  map (fun j => py_slice l (i * n + j * n) (i * n + j * n + n)) (seq 0 k) = chunks k n (drop (i * n) l).
Proof.
  revert i. induction k as [|k IH]; intros i; [done|]. cbn [seq map chunks]. f_equal.
  - unfold py_slice. f_equal; [lia | f_equal; lia].
  - rewrite <- seq_shift, map_map. rewrite drop_drop.
    replace (i * n + n) with (S i * n) by lia. rewrite <- IH. apply map_ext. intros j. f_equal; lia.
Qed.

Lemma split_pages_chunks {A} (l : list A) n :
  1 <= n -> split_orders_into_pages l n = chunks ((length l + n - 1) / n) n l.
Proof.
  intros Hn. destruct l as [|x l'].
  - simpl. by rewrite Nat.div_small by lia.
  - unfold split_orders_into_pages. rewrite py_range_spec by done. rewrite map_map.
    etrans; [|apply (slices_chunks (x :: l') n _ 0)]. apply map_ext. intros j. f_equal; lia.
Qed.

Lemma concat_chunks {A} (l : list A) n k : length l <= k * n -> concat (chunks k n l) = l.
Proof.
  revert l. induction k as [|k IH]; intros l Hl; simpl.
  - destruct l; [done | simpl in Hl; lia].
  - rewrite IH by (rewrite length_drop; lia). apply take_drop.
Qed.

Lemma chunks_length {A} (l : list A) n k : length (chunks k n l) = k.
Proof. revert l. induction k; intros l; simpl; auto. Qed.

Lemma chunks_sizes {A} (l : list A) n k :
  (k - 1) * n < length l <= k * n ->
  Forall (fun p => 1 <= length p <= n) (chunks k n l).
Proof.
  revert l. induction k as [|k IH]; intros l Hl; simpl; [constructor|]. constructor.
  - rewrite length_take. lia.
  - destruct k as [|k']; [constructor|]. apply IH. rewrite length_drop. lia.
Qed.

Lemma ceil_div_bounds len n :
  1 <= n -> 1 <= len -> let k := (len + n - 1) / n in (k - 1) * n < len <= k * n.
Proof.
  intros Hn Hl k. pose proof (Nat.div_mod (len + n - 1) n ltac:(lia)) as Hd.
  pose proof (Nat.mod_upper_bound (len + n - 1) n ltac:(lia)) as Hm. fold k in Hd, Hm.
  split; [|nia]. destruct k as [|k']; [nia|]. replace (S k' - 1) with k' by lia. nia.
Qed.

(** ** Reading the page number back *)

(** [int(callback.data.split("_")[2])] (bot.py:629): [None] where Python
    raises ([IndexError] or [ValueError]). *)
Definition page_of_callback (data : string) : option Z :=
  match nth_error (py_split_on "_"%char data) 2 with Some s => parse_int s | None => None end.

Definition digit_vals (l : list ascii) : list Z := map (fun c => Z.of_nat (byte_of c - 48)) l.

Lemma is_digit_byte c : is_digit c = true -> 48 <= byte_of c <= 57.
Proof.
  unfold is_digit, digit_val. cbv zeta.
  destruct ((48 <=? byte_of c) && (byte_of c <=? 57)) eqn:E; [|done]. intros _.
  apply andb_prop in E as [E1 E2]. apply Nat.leb_le in E1, E2. lia.
Qed.

Lemma digit_char_byte d : d < 10 -> byte_of (Ascii.ascii_of_nat (48 + d)) = 48 + d.
Proof. intros Hd. unfold byte_of. apply Ascii.nat_ascii_embedding. lia. Qed.

Lemma digit_char_is_digit d : d < 10 -> is_digit (Ascii.ascii_of_nat (48 + d)) = true.
Proof.
  intros Hd. unfold is_digit, digit_val. cbv zeta. rewrite digit_char_byte by done.
  replace ((48 <=? 48 + d) && (48 + d <=? 57)) with true; [done|].
  symmetry. apply andb_true_intro; split; apply Nat.leb_le; lia.
Qed.

(** A digit is neither whitespace nor any other character the parsers
    look for. *)
Lemma digit_not_space c : is_digit c = true -> py_isspace c = false.
Proof.
  intros Hd%is_digit_byte. unfold py_isspace. cbv zeta.
  destruct (Nat.eqb_spec (byte_of c) 32); [lia|].
  destruct (Nat.leb_spec 9 (byte_of c)), (Nat.leb_spec (byte_of c) 13),
    (Nat.leb_spec 28 (byte_of c)), (Nat.leb_spec (byte_of c) 31); simpl; first [reflexivity | lia].
Qed.

Lemma digit_not_char c d : is_digit c = true -> is_digit d = false -> Ascii.eqb c d = false.
Proof. intros Hc Hd. destruct (Ascii.eqb_spec c d) as [->|]; [congruence | done]. Qed.

Lemma digitpart_digits l acc :
  Forall (fun c => is_digit c = true) l -> digitpart l acc = (rev acc ++ digit_vals l, []).
Proof.
  revert acc. induction l as [|c l IH]; intros acc Hl; simpl; [by rewrite app_nil_r|].
  inversion Hl as [|? ? Hc Hl']; subst. pose proof Hc as Hb%is_digit_byte.
  unfold digit_val at 1. cbv zeta.
  replace ((48 <=? byte_of c) && (byte_of c <=? 57)) with true
    by (symmetry; apply andb_true_intro; split; apply Nat.leb_le; lia).
  rewrite IH by done. simpl. by rewrite <- app_assoc.
Qed.

Lemma drop_space_digits l : Forall (fun c => is_digit c = true) l -> drop_space l = l.
Proof. intros Hl. destruct Hl as [|c l Hc _]; [done|]. simpl. by rewrite digit_not_space. Qed.

Lemma strip_digits l : Forall (fun c => is_digit c = true) l -> py_strip_l l = l.
Proof.
  intros Hl. unfold py_strip_l. rewrite (drop_space_digits l Hl).
  rewrite drop_space_digits by (by apply Forall_rev). apply rev_involutive.
Qed.

Lemma digits_rev_S f n :
  digits_rev (S f) n = Ascii.ascii_of_nat (48 + n mod 10) :: (if n <? 10 then [] else digits_rev f (n / 10)).
Proof. reflexivity. Qed.

Lemma str_digits f n :
  n < S f ->
  Forall (fun c => is_digit c = true) (rev (digits_rev (S f) n)) /\ rev (digits_rev (S f) n) <> [] /\
  digits_value (digit_vals (rev (digits_rev (S f) n))) = Z.of_nat n.
Proof.
  assert (Hc : forall n, is_digit (Ascii.ascii_of_nat (48 + n mod 10)) = true)
    by (intros m; apply digit_char_is_digit, Nat.mod_upper_bound; lia).
  assert (Hb : forall n, byte_of (Ascii.ascii_of_nat (48 + n mod 10)) = 48 + n mod 10)
    by (intros m; apply digit_char_byte, Nat.mod_upper_bound; lia).
  revert n. induction f as [|f IH]; intros n Hn.
  - assert (n = 0) as -> by lia. vm_compute. split; [repeat constructor | split; [discriminate | reflexivity]].
  - rewrite digits_rev_S. destruct (Nat.ltb_spec n 10) as [Hlt|Hge]; cbn [rev app].
    + split; [repeat constructor; apply Hc|]. split; [discriminate|].
      unfold digit_vals, digits_value. cbn [map fold_left]. rewrite Hb, Nat.mod_small by lia. lia.
    + destruct (IH (n / 10) ltac:(apply Nat.Div0.div_lt_upper_bound; lia)) as (Hd & _ & Hv).
      split; [apply Forall_app; split; [done | repeat constructor; apply Hc]|].
      split; [intros [_ Hnil]%app_eq_nil; discriminate|].
      unfold digit_vals, digits_value in *. rewrite map_app, fold_left_app, Hv. cbn [map fold_left].
      rewrite Hb. pose proof (Nat.div_mod n 10 ltac:(lia)). lia.
Qed.

(** [int(str(n)) == n]. *)
Lemma parse_int_str n : parse_int (py_str_nat n) = Some (Z.of_nat n).
Proof.
  destruct (str_digits n n (Nat.lt_succ_diag_r n)) as (Hd & Hne & Hv).
  unfold parse_int, py_str_nat. rewrite String.list_ascii_of_string_of_list_ascii, strip_digits by done.
  destruct (rev (digits_rev (S n) n)) as [|c l] eqn:E; [done|].
  inversion Hd as [|? ? Hc _]; subst.
  assert (Hm : Ascii.eqb c "-"%char = false) by (by apply digit_not_char).
  assert (Hp : Ascii.eqb c "+"%char = false) by (by apply digit_not_char).
  cbn [sign_of]. rewrite Hm, Hp. rewrite digitpart_digits by done.
  destruct (digit_vals (c :: l)) as [|z zs] eqn:Ed; [discriminate|].
  cbn [rev app]. by rewrite Hv, Z.mul_1_l.
Qed.



Lemma str_nat_digits k : Forall (fun c => is_digit c = true) (String.list_ascii_of_string (py_str_nat k)).
Proof.
  unfold py_str_nat. rewrite String.list_ascii_of_string_of_list_ascii.
  by destruct (str_digits k k (Nat.lt_succ_diag_r k)) as (Hd & _ & _).
Qed.

(** ** Properties *)

(** C20. [split_orders_into_pages orders n] (bot.py:97-105), for a page
    size [n >= 1], loses and duplicates no order: its pages concatenate
    back to [orders]; there are [ceil(len(orders) / n)] pages, and each
    holds between one and [n] orders (no empty page, also for an empty
    list, which gives no page at all). *)
Theorem split_orders_into_pages_spec {A} (orders : list A) n :
  1 <= n ->
  concat (split_orders_into_pages orders n) = orders /\
  length (split_orders_into_pages orders n) = (length orders + n - 1) / n /\
  Forall (fun p => 1 <= length p <= n) (split_orders_into_pages orders n).
Proof.
  intros Hn. rewrite split_pages_chunks by done. split; [|split].
  - apply concat_chunks. destruct orders as [|x l]; [simpl; lia|].
    apply (ceil_div_bounds (length (x :: l)) n Hn); simpl; lia.
  - apply chunks_length.
  - destruct orders as [|x l]; [by rewrite Nat.div_small by (simpl; lia)|].
    apply chunks_sizes, ceil_div_bounds; simpl; lia.
Qed.

(** C21. The page number written into a button's callback data
    ([f"orders_page_{n}"], bot.py:86/91) is the one the pagination
    handler reads back with [int(callback.data.split("_")[2])]
    (bot.py:629): [str] and [int] round-trip and the decimal digits never
    contain the separator. *)
Theorem page_of_callback_roundtrip k :
  page_of_callback ("orders_page_" +:+ py_str_nat k) = Some (Z.of_nat k).
Proof.
  unfold page_of_callback, py_split_on. rewrite list_ascii_of_string_app.
  pose proof (str_nat_digits k) as Hd.
  assert (Hs : Forall (fun c => Ascii.eqb c "_"%char = false) (String.list_ascii_of_string (py_str_nat k))).
  { eapply Forall_impl; [exact Hd|]. intros c Hc. by apply digit_not_char. }
  remember (String.list_ascii_of_string (py_str_nat k)) as ds eqn:E.
  cbn [String.list_ascii_of_string app split_on_aux Ascii.eqb rev]. simpl.
  rewrite split_on_none by done. simpl. rewrite E, String.string_of_list_ascii_of_string.
  apply parse_int_str.
Qed.

Lemma button_data_nav b k :
  b = BPrev k \/ b = BNext k -> page_of_callback (button_data b) = Some (Z.of_nat k).
Proof. intros [-> | ->]; apply page_of_callback_roundtrip. Qed.

(** C22. For a page [1 <= page <= total_pages], the keyboard
    [create_pagination_keyboard] (bot.py:79-95) is empty exactly when
    there is a single page; otherwise every button is the current-page
    indicator or leads, through its callback data as the pagination
    handler parses it, to an existing neighbouring page. *)
Theorem pagination_keyboard_navigation page total_pages :
  1 <= page <= total_pages ->
  (create_pagination_keyboard page total_pages = [] <-> total_pages <= 1) /\
  forall b, b ∈ concat (create_pagination_keyboard page total_pages) ->
    b = BCurrent page total_pages \/
    exists k, page_of_callback (button_data b) = Some (Z.of_nat k) /\ 1 <= k <= total_pages /\
              (k + 1 = page \/ k = page + 1).
Proof.
  intros Hp. unfold create_pagination_keyboard.
  destruct (Nat.ltb_spec 1 total_pages) as [Ht|Ht]; [split; [split; [done | lia]|] | split; [done | set_solver]].
  intros b Hb. rewrite concat_cons, concat_nil, app_nil_r in Hb.
  destruct (Nat.ltb_spec 1 page), (Nat.ltb_spec page total_pages);
    repeat (rewrite elem_of_app in Hb || rewrite elem_of_cons in Hb); rewrite ?elem_of_nil in Hb;
    repeat match type of Hb with _ \/ _ => destruct Hb as [Hb|Hb] end; try done; subst; auto;
    right; eexists; (split; [apply button_data_nav; eauto|]); lia.
Qed.
