(* ===== verification/BotApi.v ===== *)
(** * The bot's values and its channel to the backend (bot.py:1-77)

    The bot handles JSON values the backend returns and Python dicts of
    its own (the FSM data of [state.update_data]).  They are [json] values
    here, dicts as association lists in insertion order as Python keeps
    them.  The Python operations the handlers apply to them ([d.get(k)],
    [d[k]], [k in d], truthiness, [*], [+], [len], slicing) are written
    out with the error each raises on a value of the wrong type.

    [make_api_request] (bot.py:47-77) is [api_result]: a reply of status
    200 (GET) or 200/201 (POST) yields its JSON body, anything else
    (another status, a body that is not JSON, a connection failure)
    yields [None].  The backend is reached through the [BackendApi]
    interface: a state [B] and an [api_call] that answers a request and
    moves to a new state. *)

From Stdlib Require Import QArith Ascii.
From S2P Require Import Prelude BotText.

(** ** JSON values *)

Inductive json :=
  | JNull
  | JBool (b : bool)
  | JInt (z : Z)
  | JFloat (x : pyfloat)
  | JStr (s : string)
  | JList (l : list json)
  | JObj (kv : list (string * json)).

Fixpoint assoc_get {A} (k : string) (kv : list (string * A)) : option A :=
  match kv with
  | [] => None
  | (k', v) :: kv' => if String.eqb k k' then Some v else assoc_get k kv'
  end.

(** [d[k] = v]: in place when [k] is a key, appended otherwise. *)
Fixpoint assoc_set {A} (k : string) (v : A) (kv : list (string * A)) : list (string * A) :=
  match kv with
  | [] => [(k, v)]
  | (k', v') :: kv' => if String.eqb k k' then (k', v) :: kv' else (k', v') :: assoc_set k v kv'
  end.

(** [bool(x)]: NaN is true, as every non-zero float. *)
Definition py_truthy (j : json) : bool :=
  match j with
  | JNull => false
  | JBool b => b
  | JInt z => negb (Z.eqb z 0)
  | JFloat (PFin q) => negb (Qeq_bool q 0)
  | JFloat _ => true
  | JStr s => negb (String.eqb s "")
  | JList l => negb (bool_decide (l = []))
  | JObj kv => negb (bool_decide (kv = []))
  end.

(** [x.get(k, default)]: only dicts have [get]. *)
Definition py_get (j : json) (k : string) (default : json) : outcome json :=
  match j with
  | JObj kv => Ret (from_option id default (assoc_get k kv))
  | _ => Raise AttributeError
  end.

(** [x[k]] for a string key. *)
Definition py_subscript (j : json) (k : string) : outcome json :=
  match j with
  | JObj kv => match assoc_get k kv with Some v => Ret v | None => Raise (KeyError k) end
  | _ => Raise TypeError
  end.

Fixpoint infix_of (p l : list ascii) : bool :=
  prefix_of p l || match l with [] => false | _ :: l' => infix_of p l' end.

(** [k in x] for a string [k]: a key of a dict, an element of a list, a
    substring of a string; other values are not iterable. *)
Definition py_contains (k : string) (j : json) : outcome bool :=
  match j with
  | JObj kv => Ret (bool_decide (is_Some (assoc_get k kv)))
  | JList l => Ret (existsb (fun x => match x with JStr s => String.eqb s k | _ => false end) l)
  | JStr s => Ret (infix_of (String.list_ascii_of_string k) (String.list_ascii_of_string s))
  | _ => Raise TypeError
  end.

(** [for x in j]: the elements of a list, the keys of a dict, the
    characters of a string. *)
Definition py_iter (j : json) : outcome (list json) :=
  match j with
  | JList l => Ret l
  | JObj kv => Ret (map (fun kv => JStr kv.1) kv)
  | JStr s => Ret (map (fun c => JStr (String.String c EmptyString)) (String.list_ascii_of_string s))
  | _ => Raise TypeError
  end.

(** [x == n] for an [int] [n]. *)
Definition py_eq_int (j : json) (n : Z) : bool :=
  match j with
  | JBool b => Z.eqb (Z.b2z b) n
  | JInt z => Z.eqb z n
  | JFloat (PFin q) => Qeq_bool q (inject_Z n)
  | _ => false
  end.

(** [len(x)]. *)
Definition py_len (j : json) : outcome nat :=
  match j with
  | JObj kv => Ret (length kv)
  | JList l => Ret (length l)
  | JStr s => Ret (String.length s)
  | _ => Raise TypeError
  end.

(** [x[:n]] on a list or a string. *)
Definition py_take (j : json) (n : nat) : outcome json :=
  match j with
  | JList l => Ret (JList (take n l))
  | JStr s => Ret (JStr (String.substring 0 n s))
  | _ => Raise TypeError
  end.

(** ** Arithmetic on JSON numbers ([bool] is an [int]) *)

Inductive pynum := NInt (z : Z) | NFloat (x : pyfloat).

Definition as_num (j : json) : option pynum :=
  match j with
  | JBool b => Some (NInt (Z.b2z b))
  | JInt z => Some (NInt z)
  | JFloat x => Some (NFloat x)
  | _ => None
  end.

Definition to_float (n : pynum) : pyfloat :=
  match n with NInt z => PFin (inject_Z z) | NFloat x => x end.

Definition num_op (fi : Z -> Z -> Z) (ff : pyfloat -> pyfloat -> pyfloat) (a b : pynum) : json :=
  match a, b with
  | NInt x, NInt y => JInt (fi x y)
  | _, _ => JFloat (ff (to_float a) (to_float b))
  end.

(** [s * n] for a sequence: [n] copies, none when [n <= 0]. *)
Definition py_repeat {A} (l : list A) (n : Z) : list A := concat (repeat l (Z.to_nat n)).

Definition as_int (j : json) : option Z :=
  match as_num j with Some (NInt z) => Some z | _ => None end.

Definition seq_repeat (j : json) (n : Z) : option json :=
  match j with
  | JStr s => Some (JStr (String.string_of_list_ascii (py_repeat (String.list_ascii_of_string s) n)))
  | JList l => Some (JList (py_repeat l n))
  | _ => None
  end.

(** [a * b]: two numbers, or a sequence and an [int] in either order. *)
Definition json_mul (a b : json) : outcome json :=
  match as_num a, as_num b with
  | Some x, Some y => Ret (num_op Z.mul pf_mul x y)
  | _, _ =>
      match as_int b ≫= seq_repeat a, as_int a ≫= seq_repeat b with
      | Some r, _ | None, Some r => Ret r
      | None, None => Raise TypeError
      end
  end.

(** [a + b] on numbers (the bot only adds amounts). *)
Definition json_add (a b : json) : outcome json :=
  match as_num a, as_num b with
  | Some x, Some y => Ret (num_op Z.add pf_add x y)
  | _, _ => Raise TypeError
  end.

(** ** Requests and replies *)

Inductive http_method := GET | POST.

Record api_req := {
  rq_method : http_method;
  rq_path : string;                  (** the URL below [API_URL] *)
  rq_params : list (string * json);  (** the query string of a GET *)
  rq_body : option json              (** the JSON body of a POST *)
}.

(** What comes back: a status and a body, which is [None] when it does
    not parse as JSON, or a failure of the connection (refused, timeout,
    any other exception of aiohttp). *)
Inductive response := HttpReply (status : Z) (body : option json) | ConnFailure.

(** [make_api_request] (bot.py:47-77), once the request is answered.
    Its [None] is [JNull], which is also what a body [null] parses to:
    the handlers cannot tell the two apart either. *)
Definition api_result (m : http_method) (r : response) : json :=
  match r with
  | HttpReply status body =>
      let ok := match m with GET => Z.eqb status 200 | POST => Z.eqb status 200 || Z.eqb status 201 end in
      if ok then from_option id JNull body else JNull
  | ConnFailure => JNull
  end.

(** The backend as the bot sees it. *)
Class BackendApi (B : Type) := api_call : B -> api_req -> B * response.

(** ** Computations that raise *)

Section Lift.
Context {S : Type}.

Definition lift {A} (o : outcome A) : EST S A := fun s => (s, o).

Fixpoint est_mapM {A B} (f : A -> EST S B) (l : list A) : EST S (list B) :=
  match l with
  | [] => mret []
  | x :: l' => y ← f x; ys ← est_mapM f l'; mret (y :: ys)
  end.

(** [x[k]] and [x.get(k, d)] inside a handler. *)
Definition subscript (j : json) (k : string) : EST S json := lift (py_subscript j k).
Definition get_or (j : json) (k : string) (d : json) : EST S json := lift (py_get j k d).
End Lift.
