(* ===== verification/Bot.v ===== *)
(** * The conversation engine of the bot (bot.py:33-46, 107-727)

    [bot_state] is what the running bot keeps: the aiogram FSM storage
    (one [fsm_entry], a state of [CreateOrderStates] and a data dict, per
    user), the module dicts [user_pages] and [user_products], the state of
    the backend it talks to, the requests it sent and the actions it took
    (messages sent, messages edited, callback answers).  Each handler of
    bot.py is a computation of [BotM] in the order of its statements;
    what the user reads is a [bot_reply] carrying the values the f-string
    interpolates, not the text.  [dispatch] is aiogram's routing: the
    handlers in the order of registration, the first whose filters pass.
    An exception a handler raises ends the update, its effects so far
    kept. *)

From Stdlib Require Import QArith Ascii.
From stdpp Require Import gmap.
From S2P Require Import Prelude BotText Pagination BotApi.

(** ** States and updates *)

Inductive fsm_state :=
  | choosing_product_type
  | waiting_for_product_name
  | waiting_for_quantity
  | waiting_for_price
  | waiting_for_description
  | waiting_for_confirmation
  | selecting_existing_product.

#[export] Instance fsm_state_eq_dec : EqDecision fsm_state.
Proof. solve_decision. Defined.

(** The dict of [state.get_data()]. *)
Definition fsm_data := list (string * json).

Record fsm_entry := { fe_state : option fsm_state; fe_data : fsm_data }.

Definition fsm_empty : fsm_entry := {| fe_state := None; fe_data := [] |}.

(** [user_pages[telegram_id]] (bot.py:609-614). *)
Record pages_entry := {
  pe_orders_pages : list json;
  pe_current_page : Z;
  pe_total_pages : nat;
  pe_total_orders : nat
}.

(** A private chat: the chat is the user. *)
Record message := { m_from : Z; m_first_name : string; m_text : option string }.
Record callback := { cb_from : Z; cb_data : option string }.

Inductive update := UMessage (m : message) | UCallback (c : callback).

(** ** What the user is shown *)

(** One order of [format_orders_page] (bot.py:114-127). *)
Record order_card := {
  oc_id : json; oc_total : json; oc_emoji : string; oc_status : json; oc_date : json;
  oc_items : option (list (json * json * json * json))   (** name, quantity, price, total *)
}.

(** One order of the profile (bot.py:703-711). *)
Record profile_line := {
  pl_id : json; pl_total : json; pl_emoji : string; pl_status : json;
  pl_items : option (list (json * json) * option nat)    (** two items, how many more *)
}.

Inductive bot_reply :=
  | RWelcome (first_name : string)
  | RHelp
  | RLinkUsage
  | RLinked (user_email : json)
  | RLinkFailed (error_msg : json)
  | RCreateNotLinked
  | RChooseType
  | RNoProducts
  | RProductList (products : list (json * json * json))   (** name, price, id *)
  | RProductChosen (name price : json)
  | RAskName
  | RAskQuantity (name : json)
  | RQuantityNotPositive
  | RQuantityNotInt
  | RAskPrice (name : json) (quantity : Z)
  | RPriceNotPositive
  | RPriceNotNumber
  | RAskDescription (name quantity : json) (price : pyfloat)
  | RConfirm (name quantity price : json) (description : option json) (total : json)
  | ROrderCreated (order_id name quantity price : json) (description : option json) (total : json)
  | ROrderFailed (error_msg : json)
  | ROrderCanceled
  | ROrdersConnError
  | RProfileConnError
  | RNotLinked
  | RNoOrders
  | ROrdersPage (cards : option (list order_card)) (page : Z) (total_pages total_orders : nat)
                (keyboard : list (list button))
  | RProfile (email first_name last_name : json) (orders_count : nat) (total_all : json)
             (recent : option (list profile_line))
  | ROnlyCommands.

Inductive action :=
  | Send (chat : Z) (r : bot_reply)              (** [message.answer] *)
  | Edit (chat : Z) (r : bot_reply)              (** [callback.message.edit_text] *)
  | Toast (chat : Z) (text : option string). (** [callback.answer] *)

(** ** Rendering *)

Definition status_key (st : json) : outcome (option string) :=
  match st with
  | JList _ | JObj _ => Raise TypeError   (** unhashable *)
  | JStr s => Ret (Some s)
  | _ => Ret None
  end.

(** [get_status_emoji] (bot.py:134-142). *)
Definition get_status_emoji (st : json) : outcome string :=
  match status_key st with
  | Ret (Some "new") => Ret "🆕"
  | Ret (Some "in_progress") => Ret "🔄"
  | Ret (Some "completed") => Ret "✅"
  | Ret (Some "canceled") => Ret "❌"
  | Ret _ => Ret "📦"
  | Raise e => Raise e
  end%string.

(** [format_status] (bot.py:144-152). *)
Definition format_status (st : json) : outcome json :=
  match status_key st with
  | Ret (Some "new") => Ret (JStr "Новый")
  | Ret (Some "in_progress") => Ret (JStr "В процессе")
  | Ret (Some "completed") => Ret (JStr "Завершен")
  | Ret (Some "canceled") => Ret (JStr "Отменен")
  | Ret _ => Ret st
  | Raise e => Raise e
  end%string.

Section Render.
Context {S : Type}.

Definition card_item (item : json) : EST S (json * json * json * json) :=
  name ← subscript item "product_name"; q ← subscript item "quantity";
  p ← subscript item "price"; _ ← subscript item "quantity"; t ← subscript item "total";
  mret (name, q, p, t).

Definition order_card_of (order : json) : EST S order_card :=
  oid ← subscript order "id";
  total ← subscript order "total_amount";
  st ← subscript order "status"; emoji ← lift (get_status_emoji st);
  st' ← subscript order "status"; stt ← lift (format_status st');
  created ← subscript order "created_at"; date ← lift (py_take created 10);
  its ← get_or order "items" JNull;
  rows ← (if py_truthy its then
            its' ← subscript order "items"; l ← lift (py_iter its'); r ← est_mapM card_item l; mret (Some r)
          else mret None);
  mret {| oc_id := oid; oc_total := total; oc_emoji := emoji; oc_status := stt; oc_date := date;
          oc_items := rows |}.

(** [format_orders_page] (bot.py:107-132): [None] for the empty page. *)
Definition format_orders_page (orders : json) : EST S (option (list order_card)) :=
  if py_truthy orders then l ← lift (py_iter orders); r ← est_mapM order_card_of l; mret (Some r)
  else mret None.

Definition profile_item (item : json) : EST S (json * json) :=
  name ← subscript item "product_name"; q ← subscript item "quantity"; mret (name, q).

Definition profile_line_of (order : json) : EST S profile_line :=
  oid ← subscript order "id"; total ← subscript order "total_amount";
  st ← subscript order "status"; emoji ← lift (get_status_emoji st);
  st' ← subscript order "status"; stt ← lift (format_status st');
  its ← get_or order "items" JNull;
  rows ← (if py_truthy its then
            its' ← subscript order "items"; first ← lift (py_take its' 2); l ← lift (py_iter first);
            shown ← est_mapM profile_item l;
            its'' ← subscript order "items"; n ← lift (py_len its'');
            mret (Some (shown, if 2 <? n then Some (n - 2) else None))
          else mret None);
  mret {| pl_id := oid; pl_total := total; pl_emoji := emoji; pl_status := stt; pl_items := rows |}.

(** [sum(order['total_amount'] for order in all_orders)]. *)
Fixpoint sum_amounts (acc : json) (orders : list json) : EST S json :=
  match orders with
  | [] => mret acc
  | o :: l => a ← subscript o "total_amount"; acc' ← lift (json_add acc a); sum_amounts acc' l
  end.
End Render.

(** [split_orders_into_pages(orders_data, 3)] on the JSON value the
    backend returned: slices of a list, or of a string; any other value
    reaches [orders[i:i + 3]] (a dict) or [len(orders)] and raises. *)
Definition json_pages (orders : json) : outcome (list json) :=
  match orders with
  | JList l => Ret (JList <$> split_orders_into_pages l 3)
  | JStr s => Ret ((fun cs => JStr (String.string_of_list_ascii cs)) <$>
                   split_orders_into_pages (String.list_ascii_of_string s) 3)
  | _ => Raise TypeError
  end.

(** ** The bot's state and its primitive effects *)

Section Bot.
Context `{BackendApi B}.

Record bot_state := mk_bot {
  bs_backend : B;
  bs_fsm : gmap Z fsm_entry;          (** aiogram's [MemoryStorage] *)
  bs_user_pages : gmap Z pages_entry; (** [user_pages] (bot.py:35) *)
  bs_user_products : gmap Z json;     (** [user_products] (bot.py:36) *)
  bs_calls : list api_req;            (** the requests sent, oldest first *)
  bs_out : list action                (** what the bot did, oldest first *)
}.

Notation BotM := (EST bot_state).

Definition set_fsm (f : gmap Z fsm_entry) (s : bot_state) : bot_state :=
  mk_bot (bs_backend s) f (bs_user_pages s) (bs_user_products s) (bs_calls s) (bs_out s).
Definition set_user_pages (p : gmap Z pages_entry) (s : bot_state) : bot_state :=
  mk_bot (bs_backend s) (bs_fsm s) p (bs_user_products s) (bs_calls s) (bs_out s).
Definition set_user_products (p : gmap Z json) (s : bot_state) : bot_state :=
  mk_bot (bs_backend s) (bs_fsm s) (bs_user_pages s) p (bs_calls s) (bs_out s).

Definition emit (a : action) : BotM unit :=
  fun s => (mk_bot (bs_backend s) (bs_fsm s) (bs_user_pages s) (bs_user_products s) (bs_calls s)
                   (bs_out s ++ [a]), Ret ()).

Definition answer (m : message) (r : bot_reply) : BotM unit := emit (Send (m_from m) r).
Definition edit_text (c : callback) (r : bot_reply) : BotM unit := emit (Edit (cb_from c) r).
Definition cb_answer (c : callback) (t : option string) : BotM unit := emit (Toast (cb_from c) t).

(** [await make_api_request(...)]: the backend answers and moves on. *)
Definition api_request (rq : api_req) : BotM json :=
  fun s => let '(b', resp) := api_call (bs_backend s) rq in
           (mk_bot b' (bs_fsm s) (bs_user_pages s) (bs_user_products s) (bs_calls s ++ [rq]) (bs_out s),
            Ret (api_result (rq_method rq) resp)).

Definition api_get (path : string) (params : list (string * json)) : BotM json :=
  api_request {| rq_method := GET; rq_path := path; rq_params := params; rq_body := None |}.

Definition fsm_of (s : bot_state) (uid : Z) : fsm_entry := default fsm_empty (bs_fsm s !! uid).

Definition read {A} (f : bot_state -> A) : BotM A := fun s => (s, Ret (f s)).

Definition modify (f : bot_state -> bot_state) : BotM unit := fun s => (f s, Ret ()).

(** [FSMContext]: [get_state], [set_state] (the data is kept),
    [get_data] (a copy), [update_data] (a [dict.update]) and [clear]. *)
Definition get_state (uid : Z) : BotM (option fsm_state) := read (fun s => fe_state (fsm_of s uid)).

Definition set_state (uid : Z) (st : option fsm_state) : BotM unit :=
  modify (fun s => set_fsm (<[uid := {| fe_state := st; fe_data := fe_data (fsm_of s uid) |}]> (bs_fsm s)) s).

Definition get_data (uid : Z) : BotM fsm_data := read (fun s => fe_data (fsm_of s uid)).

(** [dict.update(kvs)]. *)
Definition data_update (d : fsm_data) (kvs : list (string * json)) : fsm_data :=
  foldl (fun d kv => assoc_set kv.1 kv.2 d) d kvs.

Definition update_data (uid : Z) (kvs : list (string * json)) : BotM unit :=
  modify (fun s => let e := fsm_of s uid in
    set_fsm (<[uid := {| fe_state := fe_state e; fe_data := data_update (fe_data e) kvs |}]> (bs_fsm s)) s).

Definition clear_state (uid : Z) : BotM unit :=
  modify (fun s => set_fsm (<[uid := fsm_empty]> (bs_fsm s)) s).

Definition data_get (d : fsm_data) (k : string) : BotM json := subscript (JObj d) k.

Definition text_json (t : option string) : json := from_option JStr JNull t.

(** [message.text] where the code calls a method on it or converts it:
    [None] (a photo, a sticker) raises [e]. *)
Definition text_or (e : exn) (m : message) : BotM string :=
  match m_text m with Some t => mret t | None => throw e end.

Definition tg_param (uid : Z) : list (string * json) := [("telegram_id", JInt uid)].

(** ** Commands *)

(** [cmd_start] (bot.py:154-173), [cmd_help] (bot.py:175-195). *)
Definition cmd_start (m : message) : BotM unit := answer m (RWelcome (m_first_name m)).
Definition cmd_help (m : message) : BotM unit := answer m RHelp.

(** [data and data.get('success')]. *)
Definition succeeded (data : json) : BotM bool :=
  if py_truthy data then ok ← get_or data "success" JNull; mret (py_truthy ok) else mret false.

(** The error shown when a request did not succeed: the backend's
    [error] if there is a body, the connection message otherwise. *)
Definition error_msg (data : json) : BotM json :=
  if py_truthy data then get_or data "error" (JStr "Неизвестная ошибка")
  else mret (JStr "Ошибка соединения с сервером").

(** [cmd_link] (bot.py:197-233). *)
Definition cmd_link (m : message) : BotM unit :=
  text ← text_or AttributeError m;
  match py_split text with
  | _ :: token :: _ =>
      data ← api_get "/link-telegram" [("token", JStr token); ("telegram_id", JInt (m_from m))];
      ok ← succeeded data;
      if (ok : bool) then (email ← subscript data "user_email"; answer m (RLinked email))
      else (err ← error_msg data; answer m (RLinkFailed err))
  | _ => answer m RLinkUsage
  end.

(** [cmd_create_order] (bot.py:235-275). *)
Definition cmd_create_order (m : message) : BotM unit :=
  let uid := m_from m in
  user_data ← api_get "/api/telegram/user-info" (tg_param uid);
  not_linked ← (if py_truthy user_data then lift (py_contains "error" user_data) else mret true);
  if (not_linked : bool) then answer m RCreateNotLinked
  else
    products_data ← api_get "/api/telegram/products" (tg_param uid);
    modify (fun s => set_user_products (<[uid := if py_truthy products_data then products_data else JList []]>
                                          (bs_user_products s)) s);;
    answer m RChooseType;;
    set_state uid (Some choosing_product_type).

(** ** Choosing the product *)

Definition user_products_of (uid : Z) : BotM json :=
  read (fun s => default (JList []) (bs_user_products s !! uid)).

Definition product_button (p : json) : BotM (json * json * json) :=
  name ← subscript p "name"; price ← subscript p "price"; pid ← subscript p "id"; mret (name, price, pid).

(** [process_select_existing] (bot.py:277-312). *)
Definition process_select_existing (c : callback) : BotM unit :=
  let uid := cb_from c in
  products ← user_products_of uid;
  if negb (py_truthy products) then
    edit_text c RNoProducts;; set_state uid (Some choosing_product_type)
  else
    first ← lift (py_take products 10); l ← lift (py_iter first);
    buttons ← est_mapM product_button l;
    edit_text c (RProductList buttons);;
    set_state uid (Some selecting_existing_product).

(** The first product whose [id] equals [pid] (bot.py:323-326); a
    product without an [id] raises [KeyError]. *)
Fixpoint find_product (pid : Z) (l : list json) : outcome (option json) :=
  match l with
  | [] => Ret None
  | p :: l' =>
      match py_subscript p "id" with
      | Ret i => if py_eq_int i pid then Ret (Some p) else find_product pid l'
      | Raise e => Raise e
      end
  end.

(** [int(s)] inside a handler. *)
Definition int_of (s : string) : BotM Z :=
  match parse_int s with Some z => mret z | None => throw ValueError end.

(** [process_product_selection] (bot.py:314-344).  The filter checked the
    prefix [product_], so [split("_")[1]] exists. *)
Definition process_product_selection (c : callback) : BotM unit :=
  let uid := cb_from c in
  data ← lift (match cb_data c with Some d => Ret d | None => Raise AttributeError end);
  product_id ← int_of (default EmptyString (nth_error (py_split_on "_"%char data) 1));
  products ← user_products_of uid;
  l ← lift (py_iter products);
  selected ← lift (find_product product_id l);
  match selected with
  | None => cb_answer c (Some "Товар не найден")
  | Some p =>
      name ← subscript p "name"; price ← subscript p "price"; desc ← get_or p "description" (JStr "");
      update_data uid [("product_name", name); ("price", price); ("description", desc);
                       ("is_existing_product", JBool true)];;
      name' ← subscript p "name"; price' ← subscript p "price";
      edit_text c (RProductChosen name' price');;
      set_state uid (Some waiting_for_quantity)
  end.

(** [process_back_to_choice] (bot.py:346-364). *)
Definition process_back_to_choice (c : callback) : BotM unit :=
  edit_text c RChooseType;; set_state (cb_from c) (Some choosing_product_type).

(** [process_create_new] (bot.py:366-374). *)
Definition process_create_new (c : callback) : BotM unit :=
  edit_text c RAskName;; set_state (cb_from c) (Some waiting_for_product_name).

(** ** Entering the order *)

(** [process_product_name] (bot.py:376-386): [message.text] is stored as
    it is, [None] included. *)
Definition process_product_name (m : message) : BotM unit :=
  let uid := m_from m in
  update_data uid [("product_name", text_json (m_text m)); ("is_existing_product", JBool false)];;
  answer m (RAskQuantity (text_json (m_text m)));;
  set_state uid (Some waiting_for_quantity).

(** [process_quantity] (bot.py:388-437).  [int(None)] raises a
    [TypeError], which the [except ValueError] does not catch. *)
Definition process_quantity (m : message) : BotM unit :=
  let uid := m_from m in
  text ← text_or TypeError m;
  match parse_int text with
  | None => answer m RQuantityNotInt
  | Some quantity =>
      if Z.leb quantity 0 then answer m RQuantityNotPositive
      else
        data ← get_data uid;
        existing ← get_or (JObj data) "is_existing_product" JNull;
        if py_truthy existing then
          price ← data_get data "price";
          total_amount ← lift (json_mul price (JInt quantity));
          update_data uid [("quantity", JInt quantity); ("total_amount", total_amount)];;
          name ← data_get data "product_name";
          answer m (RConfirm name (JInt quantity) price None total_amount);;
          set_state uid (Some waiting_for_confirmation)
        else
          update_data uid [("quantity", JInt quantity)];;
          name ← data_get data "product_name";
          answer m (RAskPrice name quantity);;
          set_state uid (Some waiting_for_price)
  end.

(** [process_price] (bot.py:439-465): [price <= 0] is false for NaN. *)
Definition process_price (m : message) : BotM unit :=
  let uid := m_from m in
  text ← text_or TypeError m;
  match parse_float text with
  | None => answer m RPriceNotNumber
  | Some price =>
      if pf_le0 price then answer m RPriceNotPositive
      else
        data ← get_data uid;
        name ← data_get data "product_name";
        quantity ← data_get data "quantity";
        total_amount ← lift (json_mul (JFloat price) quantity);
        update_data uid [("price", JFloat price); ("total_amount", total_amount)];;
        answer m (RAskDescription name quantity price);;
        set_state uid (Some waiting_for_description)
  end.

(** [process_description] (bot.py:467-503). *)
Definition process_description (m : message) : BotM unit :=
  let uid := m_from m in
  text ← text_or AttributeError m;
  let description := if String.eqb (py_lower text) "нет" then EmptyString else text in
  update_data uid [("description", JStr description)];;
  data ← get_data uid;
  name ← data_get data "product_name";
  quantity ← data_get data "quantity";
  price ← data_get data "price";
  total_amount ← data_get data "total_amount";
  answer m (RConfirm name quantity price
              (if String.eqb description EmptyString then None else Some (JStr description)) total_amount);;
  set_state uid (Some waiting_for_confirmation).

(** ** Confirming *)

(** The body of the create-order request (bot.py:510-524): one item,
    with a [description] when the data's one is truthy. *)
Definition order_payload (uid : Z) (data : fsm_data) : BotM json :=
  name ← data_get data "product_name"; quantity ← data_get data "quantity";
  price ← data_get data "price"; total ← data_get data "total_amount";
  total_amount ← data_get data "total_amount";
  desc ← get_or (JObj data) "description" JNull;
  extra ← (if py_truthy desc then d ← data_get data "description"; mret [("description", d)] else mret []);
  mret (JObj [("telegram_id", JInt uid);
              ("items", JList [JObj ([("product_name", name); ("quantity", quantity); ("price", price);
                                      ("total", total)] ++ extra)]);
              ("total_amount", total_amount)]).

Definition create_order_req (body : json) : api_req :=
  {| rq_method := POST; rq_path := "/api/telegram/create-order"; rq_params := []; rq_body := Some body |}.

(** The part of [process_order_confirmation] before its request is
    answered (bot.py:508-534): read the data, send the order. *)
Definition confirm_send (c : callback) : BotM (fsm_data * json) :=
  let uid := cb_from c in
  data ← get_data uid;
  body ← order_payload uid data;
  response ← api_request (create_order_req body);
  mret (data, response).

(** The part after the answer (bot.py:538-563): report, then [state.clear()]. *)
Definition confirm_finish (c : callback) (data : fsm_data) (response : json) : BotM unit :=
  ok ← succeeded response;
  (if (ok : bool) then
     order_id ← get_or response "order_id" (JStr "N/A");
     name ← data_get data "product_name"; quantity ← data_get data "quantity";
     price ← data_get data "price";
     desc ← get_or (JObj data) "description" JNull;
     shown ← (if py_truthy desc then d ← data_get data "description"; mret (Some d) else mret None);
     total ← data_get data "total_amount";
     edit_text c (ROrderCreated order_id name quantity price shown total)
   else err ← error_msg response; edit_text c (ROrderFailed err));;
  clear_state (cb_from c).

(** [process_order_confirmation] (bot.py:505-563). *)
Definition process_order_confirmation (c : callback) : BotM unit :=
  '(data, response) ← confirm_send c; confirm_finish c data response.

(** [process_order_cancellation] (bot.py:565-572). *)
Definition process_order_cancellation (c : callback) : BotM unit :=
  edit_text c ROrderCanceled;; clear_state (cb_from c).

(** ** Orders and profile *)

(** [cmd_orders] (bot.py:574-623).  The second [if not orders_data]
    (bot.py:600) is the first one again: an empty list already took the
    connection-error branch. *)
Definition cmd_orders (m : message) : BotM unit :=
  let uid := m_from m in
  orders_data ← api_get "/api/telegram/orders" (tg_param uid);
  if negb (py_truthy orders_data) then answer m ROrdersConnError
  else
    is_error ← (match orders_data with JObj _ => lift (py_contains "error" orders_data) | _ => mret false end);
    if (is_error : bool) then answer m RNotLinked
    else if negb (py_truthy orders_data) then answer m RNoOrders
    else
      orders_pages ← lift (json_pages orders_data);
      total_orders ← lift (py_len orders_data);
      let total_pages := length orders_pages in
      modify (fun s => set_user_pages (<[uid := {| pe_orders_pages := orders_pages; pe_current_page := 1;
                                                    pe_total_pages := total_pages;
                                                    pe_total_orders := total_orders |}]> (bs_user_pages s)) s);;
      cards ← format_orders_page (default JNull (head orders_pages));
      answer m (ROrdersPage cards 1 total_pages total_orders (create_pagination_keyboard 1 total_pages)).

(** [process_orders_pagination] (bot.py:625-651).  The filter checked the
    prefix [orders_page_], so [split("_")[2]] exists. *)
Definition process_orders_pagination (c : callback) : BotM unit :=
  let uid := cb_from c in
  data ← lift (match cb_data c with Some d => Ret d | None => Raise AttributeError end);
  page ← int_of (default EmptyString (nth_error (py_split_on "_"%char data) 2));
  entry ← read (fun s => bs_user_pages s !! uid);
  match entry with
  | None => cb_answer c (Some "Данные устарели. Используйте /orders для обновления.")
  | Some e =>
      if Z.ltb page 1 || Z.ltb (Z.of_nat (pe_total_pages e)) page then cb_answer c (Some "Неверная страница")
      else
        modify (fun s => set_user_pages (<[uid := {| pe_orders_pages := pe_orders_pages e; pe_current_page := page;
                                                      pe_total_pages := pe_total_pages e;
                                                      pe_total_orders := pe_total_orders e |}]> (bs_user_pages s)) s);;
        cards ← format_orders_page (default JNull (nth_error (pe_orders_pages e) (Z.to_nat (page - 1))));
        edit_text c (ROrdersPage cards page (pe_total_pages e) (pe_total_orders e)
                       (create_pagination_keyboard (Z.to_nat page) (pe_total_pages e)));;
        cb_answer c None
  end.

(** [process_current_page] (bot.py:653-656). *)
Definition process_current_page (c : callback) : BotM unit := cb_answer c (Some "Это текущая страница").

(** [cmd_profile] (bot.py:658-718). *)
Definition cmd_profile (m : message) : BotM unit :=
  let uid := m_from m in
  user_data ← api_get "/api/telegram/user-info" (tg_param uid);
  if negb (py_truthy user_data) then answer m RProfileConnError
  else
    is_error ← lift (py_contains "error" user_data);
    if (is_error : bool) then answer m RNotLinked
    else
      all_orders ← api_get "/api/telegram/orders" (tg_param uid);
      total_all ← (match all_orders with
                   | JObj _ => mret (JInt 0)
                   | _ => if py_truthy all_orders then l ← lift (py_iter all_orders); sum_amounts (JInt 0) l
                          else mret (JInt 0)
                   end);
      orders ← get_or user_data "orders" (JList []);
      email ← subscript user_data "email"; first_name ← subscript user_data "first_name";
      last_name ← subscript user_data "last_name"; count ← lift (py_len orders);
      recent ← (if py_truthy orders then
                  first ← lift (py_take orders 3); l ← lift (py_iter first);
                  r ← est_mapM profile_line_of l; mret (Some r)
                else mret None);
      answer m (RProfile email first_name last_name count total_all recent).

(** [handle_text] (bot.py:720-727). *)
Definition handle_text (m : message) : BotM unit := answer m ROnlyCommands.

(** ** Routing *)

Context (bot_username : string).

(** aiogram's [Command(name)] filter on [message.text]: the first word
    is ["/" + name], possibly followed by ["@" + the bot's username]
    compared without case.  aiogram also reads a photo's [caption] when
    there is no text; the model reads the text only. *)
Definition command_is (name : string) (t : option string) : bool :=
  match t with
  | None => false
  | Some text =>
      match py_split text with
      | full :: _ =>
          match String.list_ascii_of_string full with
          | c :: rest =>
              let '(cmd, mention) := partition_at "@"%char rest in
              Ascii.eqb c "/"%char && String.eqb (String.string_of_list_ascii cmd) name &&
              (match mention with
               | [] => true
               | _ => String.eqb (py_lower (String.string_of_list_ascii mention)) (py_lower bot_username)
               end)
          | [] => false
          end
      | [] => false
      end
  end.

(** [F.text & ~F.text.startswith('/')]. *)
Definition plain_text (t : option string) : bool :=
  match t with Some s => negb (String.eqb s EmptyString) && negb (py_startswith s "/") | None => false end.

(** The message handlers in the order bot.py registers them: the four
    state handlers come before [/orders] and [/profile]. *)
Definition route_message (st : option fsm_state) (m : message) : BotM unit :=
  if command_is "start" (m_text m) then cmd_start m
  else if command_is "help" (m_text m) then cmd_help m
  else if command_is "link" (m_text m) then cmd_link m
  else if command_is "create_order" (m_text m) then cmd_create_order m
  else match st with
  | Some waiting_for_product_name => process_product_name m
  | Some waiting_for_quantity => process_quantity m
  | Some waiting_for_price => process_price m
  | Some waiting_for_description => process_description m
  | _ =>
      if command_is "orders" (m_text m) then cmd_orders m
      else if command_is "profile" (m_text m) then cmd_profile m
      else if plain_text (m_text m) then handle_text m
      else mret ()
  end.

Definition in_state (st : option fsm_state) (s : fsm_state) : bool := bool_decide (st = Some s).

(** The callback handlers in the order of registration. *)
Definition route_callback (st : option fsm_state) (c : callback) : BotM unit :=
  match cb_data c with
  | None => mret ()
  | Some d =>
      if String.eqb d "select_existing" && in_state st choosing_product_type then process_select_existing c
      else if py_startswith d "product_" && in_state st selecting_existing_product then process_product_selection c
      else if String.eqb d "back_to_choice" && in_state st selecting_existing_product then process_back_to_choice c
      else if String.eqb d "create_new" && in_state st choosing_product_type then process_create_new c
      else if String.eqb d "confirm_order" && in_state st waiting_for_confirmation then process_order_confirmation c
      else if String.eqb d "cancel_order" && in_state st waiting_for_confirmation then process_order_cancellation c
      else if py_startswith d "orders_page_" then process_orders_pagination c
      else if String.eqb d "current_page" then process_current_page c
      else mret ()
  end.

Definition update_user (u : update) : Z := match u with UMessage m => m_from m | UCallback c => cb_from c end.

(** The dispatcher: the user's state, then the first matching handler. *)
Definition dispatch (u : update) : BotM unit :=
  st ← get_state (update_user u);
  match u with UMessage m => route_message st m | UCallback c => route_callback st c end.

(** One update handled to its end; an exception is logged by aiogram
    and what the handler did before it stays. *)
Definition bot_step (u : update) (s : bot_state) : bot_state := (dispatch u s).1.

(** The updates handled one after the other, each to its end before
    the next is dispatched: the schedule of a user who waits for each
    reply.  aiogram may also interleave the tasks of overlapping updates
    at their [await]s; [BotRace.v] models that. *)
Definition run_updates (us : list update) (s : bot_state) : bot_state := foldl (fun s u => bot_step u s) s us.

End Bot.

Arguments bot_state B : clear implicits.
