(* ===== verification/BotFlow.v ===== *)
(** * The order conversation of the bot: its invariant and its routing

    [entry_inv] is what the data dict of a user holds in each state of
    [CreateOrderStates] that reads it: from the price question on, a
    positive integer [quantity]; from the description question on, a
    [price] and a [total_amount] that is [price * quantity]; at the
    confirmation, a [product_name] too.  [bot_step_inv] shows every update
    keeps it, whatever the backend answers and wherever a handler raises,
    so the order the bot sends on confirmation is always consistent
    ([confirm_sends_consistent_order]).  The other theorems are about the
    input checks of the conversation and about the routing of
    [dispatch]. *)

From Stdlib Require Import QArith Ascii.
From stdpp Require Import gmap.
From S2P Require Import Prelude BotText Pagination BotApi Bot.

(** ** Handlers that only render *)

Section PureRender.
Context {S : Type} (R : relation S) `{!PreOrder R}.

Lemma est_pres_lift {A} (o : outcome A) : est_pres R (lift o).
Proof. intros s. simpl. reflexivity. Qed.

Lemma est_pres_mapM {A C} (f : A -> EST S C) l : (forall a, est_pres R (f a)) -> est_pres R (est_mapM f l).
Proof. intros Hf. induction l as [|a l IH]; simpl; est_pres_auto; apply est_pres_lift. Qed.

Lemma est_pres_subscript j k : est_pres R (subscript j k).
Proof. apply est_pres_lift; typeclasses eauto. Qed.

Lemma est_pres_get_or j k d : est_pres R (get_or j k d).
Proof. apply est_pres_lift; typeclasses eauto. Qed.
End PureRender.

#[export] Hint Extern 1 (PreOrder _) => typeclasses eauto : osys.
#[export] Hint Extern 1 (est_pres _ (lift _)) => apply est_pres_lift : osys.
#[export] Hint Extern 1 (est_pres _ (subscript _ _)) => apply est_pres_subscript : osys.
#[export] Hint Extern 1 (est_pres _ (get_or _ _ _)) => apply est_pres_get_or : osys.

Section PureRender2.
Context {S : Type} (R : relation S) `{!PreOrder R}.

Lemma format_orders_page_pres orders : est_pres R (@format_orders_page S orders).
Proof.
  unfold format_orders_page. est_pres_auto. apply est_pres_mapM; [done|]. intros o.
  unfold order_card_of. est_pres_auto. apply est_pres_mapM; [done|]. intros i. unfold card_item. est_pres_auto.
Qed.

Lemma profile_line_pres o : est_pres R (@profile_line_of S o).
Proof.
  unfold profile_line_of. est_pres_auto. apply est_pres_mapM; [done|]. intros i. unfold profile_item. est_pres_auto.
Qed.

Lemma sum_amounts_pres acc l : est_pres R (@sum_amounts S acc l).
Proof. revert acc. induction l as [|o l IH]; intros acc; simpl; est_pres_auto. Qed.
End PureRender2.

#[export] Hint Extern 1 (est_pres _ (format_orders_page _)) => apply format_orders_page_pres : osys.
#[export] Hint Extern 1 (est_pres _ (profile_line_of _)) => apply profile_line_pres : osys.
#[export] Hint Extern 1 (est_pres _ (sum_amounts _ _)) => apply sum_amounts_pres : osys.

(** ** The invariant *)

Section Flow.
Context `{BackendApi B}.
Notation state := (bot_state B).
Implicit Types s : state.

Definition total_ok (d : fsm_data) : Prop :=
  exists q price total, assoc_get "quantity" d = Some (JInt q) /\ (0 < q)%Z /\
    assoc_get "price" d = Some price /\ assoc_get "total_amount" d = Some total /\
    json_mul price (JInt q) = Ret total.

Definition entry_inv (e : fsm_entry) : Prop :=
  match fe_state e with
  | Some waiting_for_price => exists q, assoc_get "quantity" (fe_data e) = Some (JInt q) /\ (0 < q)%Z
  | Some waiting_for_description => total_ok (fe_data e)
  | Some waiting_for_confirmation => total_ok (fe_data e) /\ is_Some (assoc_get "product_name" (fe_data e))
  | _ => True
  end.

Definition bot_inv (s : state) : Prop := map_Forall (fun _ e => entry_inv e) (bs_fsm s).

(** The states whose entry the invariant leaves free. *)
Definition free_state (st : option fsm_state) : bool :=
  match st with
  | Some waiting_for_price | Some waiting_for_description | Some waiting_for_confirmation => false
  | _ => true
  end.

Lemma entry_inv_free e : free_state (fe_state e) = true -> entry_inv e.
Proof. destruct e as [[[]|] d]; done. Qed.

Definition inv_rel : relation state := fun s s' => bot_inv s -> bot_inv s'.

#[export] Instance inv_rel_preorder : PreOrder inv_rel.
Proof. split; [intros s Hi; exact Hi | intros s1 s2 s3 H12 H23 Hi; auto]. Qed.

(** All entries but [uid]'s. *)
Definition others_inv (uid : Z) (s : state) : Prop :=
  map_Forall (fun _ e => entry_inv e) (delete uid (bs_fsm s)).

Lemma fsm_of_lookup s uid : bot_inv s -> entry_inv (fsm_of s uid).
Proof. intros Hi. unfold fsm_of. destruct (bs_fsm s !! uid) as [e|] eqn:E; [exact (Hi _ _ E) | done]. Qed.

Lemma others_of_inv uid s : bot_inv s -> others_inv uid s.
Proof. apply map_Forall_delete. Qed.

Lemma others_put uid e s : others_inv uid (set_fsm (<[uid := e]> (bs_fsm s)) s) <-> others_inv uid s.
Proof. unfold others_inv. cbn. by rewrite delete_insert_eq. Qed.

Lemma inv_of_others uid s : others_inv uid s -> entry_inv (fsm_of s uid) -> bot_inv s.
Proof.
  intros Ho He k e Hk. destruct (decide (k = uid)) as [->|Hne].
  - unfold fsm_of in He. by rewrite Hk in He.
  - apply (Ho k). by rewrite lookup_delete_ne.
Qed.

Lemma fsm_of_put uid e s : fsm_of (set_fsm (<[uid := e]> (bs_fsm s)) s) uid = e.
Proof. unfold fsm_of. cbn. by rewrite lookup_insert_eq. Qed.

Lemma bot_inv_put uid e s : bot_inv s -> entry_inv e -> bot_inv (set_fsm (<[uid := e]> (bs_fsm s)) s).
Proof. intros Hi He. by apply map_Forall_insert_2. Qed.

(** ** Statements that keep it *)

Lemma emit_pres a : est_pres inv_rel (emit a).
Proof. by intros s Hi. Qed.

Lemma answer_pres m r : est_pres inv_rel (answer m r).
Proof. apply emit_pres. Qed.

Lemma edit_text_pres c r : est_pres inv_rel (edit_text c r).
Proof. apply emit_pres. Qed.

Lemma cb_answer_pres c t : est_pres inv_rel (cb_answer c t).
Proof. apply emit_pres. Qed.

Lemma api_request_pres rq : est_pres inv_rel (api_request rq).
Proof. intros s Hi. unfold api_request. by destruct (api_call (bs_backend s) rq). Qed.

Lemma api_get_pres p ps : est_pres inv_rel (api_get p ps).
Proof. apply api_request_pres. Qed.

Lemma read_pres {A} (f : state -> A) : est_pres inv_rel (read f).
Proof. by intros s. Qed.

Lemma modify_frame (f : state -> state) : (forall s, bs_fsm (f s) = bs_fsm s) -> est_pres inv_rel (modify f).
Proof. intros Hf s Hi. unfold bot_inv. simpl. by rewrite Hf. Qed.

Lemma set_state_pres uid st : free_state st = true -> est_pres inv_rel (set_state uid st).
Proof. intros Hst s Hi. apply bot_inv_put; [done|]. by apply entry_inv_free. Qed.

Lemma clear_state_pres uid : est_pres inv_rel (clear_state uid).
Proof. intros s Hi. by apply bot_inv_put. Qed.

Lemma get_state_pres uid : est_pres inv_rel (get_state uid).
Proof. apply read_pres. Qed.

Lemma get_data_pres uid : est_pres inv_rel (get_data uid).
Proof. apply read_pres. Qed.

Lemma succeeded_pres d : est_pres inv_rel (succeeded d).
Proof. unfold succeeded. est_pres_auto. Qed.

Lemma error_msg_pres d : est_pres inv_rel (error_msg d).
Proof. unfold error_msg. est_pres_auto. Qed.

Lemma text_or_pres e m : est_pres inv_rel (text_or e m).
Proof. unfold text_or. est_pres_auto. Qed.

Lemma int_of_pres t : est_pres inv_rel (int_of t).
Proof. unfold int_of. est_pres_auto. Qed.

Lemma data_get_pres d k : est_pres inv_rel (data_get d k).
Proof. apply est_pres_lift; typeclasses eauto. Qed.

End Flow.

#[export] Hint Resolve emit_pres answer_pres edit_text_pres cb_answer_pres api_request_pres api_get_pres
  read_pres clear_state_pres get_state_pres get_data_pres succeeded_pres error_msg_pres text_or_pres
  int_of_pres data_get_pres : osys.
#[export] Hint Extern 2 (est_pres _ (modify _)) => apply modify_frame; intros; reflexivity : osys.
#[export] Hint Extern 2 (est_pres _ (set_state _ _)) => apply set_state_pres; reflexivity : osys.
#[export] Hint Extern 2 (est_pres _ (est_mapM _ _)) => apply est_pres_mapM; intros; cbv beta; est_pres_auto : osys.

Lemma assoc_get_set {A} k k' (v : A) d :
  assoc_get k (assoc_set k' v d) = if String.eqb k k' then Some v else assoc_get k d.
Proof.
  induction d as [|[k1 v1] d IH]; simpl.
  - by destruct (String.eqb k k').
  - destruct (String.eqb_spec k' k1) as [->|Hne]; simpl.
    + by destruct (String.eqb k k1).
    + destruct (String.eqb k k1) eqn:E1; [|by rewrite IH].
      apply String.eqb_eq in E1 as ->. by destruct (String.eqb_spec k1 k').
Qed.

(** Evaluate a handler on a symbolic state down to its final states,
    one per path through it. *)
Ltac handler_eval :=
  unfold answer, edit_text, cb_answer, emit, get_data, read, get_or, lift, data_get, subscript,
    update_data, data_update, modify, set_state, fsm_of, text_or, int_of, user_products_of in *;
  est_unfold;
  repeat (cbn -[insert lookup assoc_set assoc_get json_mul parse_int parse_float py_truthy py_lower
                String.eqb find_product py_split_on py_iter]; try case_match);
  simplify_eq.

(** Close the invariant on each final state: the other users' entries
    are untouched, and the entry of this one is checked against what the
    path established. *)
Ltac entry_close :=
  unfold entry_inv; cbn [fe_state fe_data];
  repeat match goal with H : fe_state _ = Some _ |- _ => rewrite H end;
  first
    [ exact I
    | unfold total_ok;
      repeat match goal with H : (_ <=? _)%Z = false |- _ => apply Z.leb_gt in H end;
      repeat first [split | eexists]; rewrite ?assoc_get_set; cbn -[assoc_get json_mul];
      first [reflexivity | eassumption | lia] ].

Ltac inv_close Hi :=
  repeat match goal with H : context [<[?i:=?x]> ?mm !! ?i] |- _ => rewrite lookup_insert_eq in H end;
  cbn [default from_option Datatypes.id fe_data fe_state] in *;
  repeat match goal with H : context [assoc_get _ (assoc_set _ _ _)] |- _ =>
    rewrite assoc_get_set in H; cbn -[assoc_get assoc_set json_mul] in H end;
  repeat match goal with H1 : ?x = Some ?a, H2 : ?x = Some ?b |- _ => rewrite H1 in H2; simplify_eq end;
  unfold bot_inv, set_fsm; cbn [bs_fsm]; rewrite ?lookup_insert_eq; cbn [default from_option Datatypes.id fe_data fe_state];
  rewrite ?insert_insert_eq;
  first [exact Hi | apply map_Forall_insert_2; [entry_close | exact Hi]].

Section Conv.
Context `{BackendApi B}.
Notation state := (bot_state B).
Implicit Types s : state.

Lemma process_product_name_inv m s : bot_inv s -> bot_inv (process_product_name m s).1.
Proof. intros Hi. unfold process_product_name. handler_eval. all: inv_close Hi. Qed.

Lemma process_quantity_inv m s :
  fe_state (fsm_of s (m_from m)) = Some waiting_for_quantity -> bot_inv s -> bot_inv (process_quantity m s).1.
Proof. intros Hst Hi. unfold process_quantity. handler_eval. all: inv_close Hi. Qed.

Lemma process_price_inv m s :
  fe_state (fsm_of s (m_from m)) = Some waiting_for_price -> bot_inv s -> bot_inv (process_price m s).1.
Proof.
  intros Hst Hi. pose proof (fsm_of_lookup s (m_from m) Hi) as He. unfold entry_inv in He. rewrite Hst in He.
  destruct He as (q & Hq & Hpos). unfold process_price. handler_eval. all: inv_close Hi.
Qed.

Lemma process_description_inv m s :
  fe_state (fsm_of s (m_from m)) = Some waiting_for_description -> bot_inv s -> bot_inv (process_description m s).1.
Proof.
  intros Hst Hi. pose proof (fsm_of_lookup s (m_from m) Hi) as He. unfold entry_inv in He. rewrite Hst in He.
  destruct He as (q & price & total & Hq & Hpos & Hp & Ht & Hm). unfold process_description. handler_eval.
  all: inv_close Hi.
Qed.

Lemma process_product_selection_inv c s :
  fe_state (fsm_of s (cb_from c)) = Some selecting_existing_product -> bot_inv s ->
  bot_inv (process_product_selection c s).1.
Proof. intros Hst Hi. unfold process_product_selection. handler_eval. all: inv_close Hi. Qed.

(** The handlers that write no data. *)
Lemma cmd_link_pres m : est_pres inv_rel (cmd_link m).
Proof. unfold cmd_link. est_pres_auto. Qed.

Lemma cmd_create_order_pres m : est_pres inv_rel (cmd_create_order m).
Proof. unfold cmd_create_order. est_pres_auto. Qed.

Lemma process_select_existing_pres c : est_pres (inv_rel (B:=B)) (process_select_existing c).
Proof. unfold process_select_existing, product_button. est_pres_auto. Qed.

Lemma process_order_confirmation_pres c : est_pres inv_rel (process_order_confirmation c).
Proof. unfold process_order_confirmation, confirm_send, confirm_finish, order_payload. est_pres_auto. Qed.

Lemma cmd_orders_pres m : est_pres inv_rel (cmd_orders m).
Proof. unfold cmd_orders. cbv zeta. est_pres_auto. Qed.

Lemma process_orders_pagination_pres c : est_pres (inv_rel (B:=B)) (process_orders_pagination c).
Proof. unfold process_orders_pagination. est_pres_auto. Qed.

Lemma cmd_profile_pres m : est_pres inv_rel (cmd_profile m).
Proof. unfold cmd_profile. est_pres_auto. Qed.

Lemma small_handlers_pres m c :
  est_pres (inv_rel (B:=B)) (cmd_start m) /\ est_pres (inv_rel (B:=B)) (cmd_help m) /\ est_pres (inv_rel (B:=B)) (handle_text m) /\
  est_pres (inv_rel (B:=B)) (process_back_to_choice c) /\ est_pres (inv_rel (B:=B)) (process_create_new c) /\
  est_pres (inv_rel (B:=B)) (process_order_cancellation c) /\ est_pres (inv_rel (B:=B)) (process_current_page c).
Proof.
  unfold cmd_start, cmd_help, handle_text, process_back_to_choice, process_create_new,
    process_order_cancellation, process_current_page.
  repeat split; est_pres_auto.
Qed.

(** Every handler [route_message] may pick keeps the invariant. *)
Lemma route_message_inv bot_username m s :
  bot_inv s -> bot_inv (route_message bot_username (fe_state (fsm_of s (m_from m))) m s).1.
Proof.
  intros Hi. destruct (small_handlers_pres m {| cb_from := 0; cb_data := None |}) as (Hs & Hh & Ht & _).
  unfold route_message.
  repeat match goal with |- context [if ?b then _ else _] => destruct b end;
    try solve [ apply Hs, Hi | apply Hh, Hi | apply Ht, Hi | apply cmd_link_pres, Hi
              | apply cmd_create_order_pres, Hi | apply cmd_orders_pres, Hi | apply cmd_profile_pres, Hi | exact Hi ].
  all: destruct (fe_state (fsm_of s (m_from m))) as [[]|] eqn:Hst;
    try solve [ apply process_product_name_inv, Hi | by apply process_quantity_inv
              | by apply process_price_inv | by apply process_description_inv ].
  all: repeat match goal with |- context [if ?b then _ else _] => destruct b end;
    solve [ apply Ht, Hi | apply cmd_orders_pres, Hi | apply cmd_profile_pres, Hi | exact Hi ].
Qed.

Lemma route_callback_inv c s :
  bot_inv s -> bot_inv (route_callback (fe_state (fsm_of s (cb_from c))) c s).1.
Proof.
  intros Hi. destruct (small_handlers_pres {| m_from := 0; m_first_name := EmptyString; m_text := None |} c)
    as (_ & _ & _ & Hb & Hn & Hc & Hp).
  unfold route_callback. destruct (cb_data c) as [d|]; [|exact Hi].
  unfold in_state.
  repeat match goal with |- context [if ?b then _ else _] => destruct b eqn:? end;
    try solve [ apply Hb, Hi | apply Hn, Hi | apply Hc, Hi | apply Hp, Hi | apply process_select_existing_pres, Hi
              | apply process_order_confirmation_pres, Hi | apply process_orders_pagination_pres, Hi | exact Hi ].
  apply process_product_selection_inv; [|exact Hi].
  repeat match goal with H : (_ && _) = true |- _ => apply andb_prop in H as [? ?] end.
  match goal with Hb : bool_decide (_ = Some selecting_existing_product) = true |- _ => apply bool_decide_eq_true in Hb; exact Hb end.
Qed.
End Conv.

Section Run.
Context `{BackendApi B} (bot_username : string).
Notation state := (bot_state B).
Implicit Types s : state.

Lemma bot_step_inv_step u s : bot_inv s -> bot_inv (bot_step bot_username u s).
Proof.
  intros Hi. unfold bot_step, dispatch.
  rewrite (est_bind_run _ _ s s (fe_state (fsm_of s (update_user u)))) by reflexivity.
  destruct u as [m|c]; cbn [update_user]; [apply route_message_inv | apply route_callback_inv]; exact Hi.
Qed.

Lemma run_updates_inv us s : bot_inv s -> bot_inv (run_updates bot_username us s).
Proof.
  unfold run_updates. revert s. induction us as [|u us IH]; intros s Hi; simpl; [done|].
  apply IH, bot_step_inv_step, Hi.
Qed.

Lemma dispatch_state u s : dispatch bot_username u s = match u with
  | UMessage m => route_message bot_username (fe_state (fsm_of s (m_from m))) m s
  | UCallback c => route_callback (fe_state (fsm_of s (cb_from c))) c s end.
Proof. unfold dispatch. rewrite (est_bind_run _ _ s s (fe_state (fsm_of s (update_user u)))) by done. by destruct u. Qed.

Definition confirm_cb (uid : Z) : callback := {| cb_from := uid; cb_data := Some "confirm_order" |}.

Lemma dispatch_confirm uid s :
  fe_state (fsm_of s uid) = Some waiting_for_confirmation ->
  dispatch bot_username (UCallback (confirm_cb uid)) s = process_order_confirmation (confirm_cb uid) s.
Proof.
  intros Hst. rewrite dispatch_state. cbn [cb_from confirm_cb]. rewrite Hst. reflexivity.
Qed.

(** The body [confirm_send] builds from data that holds the four keys. *)
Lemma order_payload_run uid d s name q price total :
  assoc_get "product_name" d = Some name -> assoc_get "quantity" d = Some (JInt q) ->
  assoc_get "price" d = Some price -> assoc_get "total_amount" d = Some total ->
  exists extra, order_payload uid d s =
    (s, Ret (JObj [("telegram_id", JInt uid);
                   ("items", JList [JObj ([("product_name", name); ("quantity", JInt q); ("price", price);
                                           ("total", total)] ++ extra)]);
                   ("total_amount", total)])).
Proof.
  intros Hn Hq Hp Ht. unfold order_payload, data_get, get_or, subscript, lift. est_unfold. cbn.
  rewrite Hn, Hq, Hp, Ht. cbn. destruct (assoc_get "description" d) as [dsc|]; cbn; [destruct (py_truthy dsc); cbn|]; eexists; reflexivity.
Qed.

Definition calls_rel : relation state := fun s s' => bs_calls s' = bs_calls s.

#[local] Instance calls_rel_preorder : PreOrder calls_rel.
Proof. split; [intros s; done | intros s1 s2 s3 H12 H23; unfold calls_rel in *; congruence]. Qed.

(** Reporting the answer and clearing the state send nothing. *)
Lemma confirm_finish_calls c d r s : bs_calls (confirm_finish c d r s).1 = bs_calls s.
Proof.
  enough (Hp : est_pres calls_rel (confirm_finish c d r)) by apply Hp.
  assert (He : forall a, est_pres calls_rel (emit a)) by (intros a s'; done).
  unfold confirm_finish, succeeded, error_msg, edit_text, clear_state, modify, data_get.
  est_pres_auto; try apply He; try (intros s'; done).
Qed.

(** C23. When each update is handled to its end before the next one is
    dispatched ([run_updates]: a user who waits for each reply), every
    state the bot reaches from a fresh start (no conversation stored),
    whatever the updates and whatever the backend answers, keeps
    [entry_inv] for every user.  Once the price is asked the quantity is
    a positive integer, and once the description or the confirmation is
    asked [total_amount] is [price * quantity] (bot.py:388-503).
    aiogram also runs overlapping updates concurrently, and
    [BotRace.concurrent_total_mismatch] shows that this breaks the
    invariant. *)
Theorem bot_reachable_inv us s : bs_fsm s = ∅ -> bot_inv (run_updates bot_username us s).
Proof. intros He. apply run_updates_inv. unfold bot_inv. rewrite He. apply map_Forall_empty. Qed.

(** An order body as [confirm_send] builds it from a consistent entry:
    one item, a positive integer quantity, [total = price * quantity]
    sent as the item's [total] and as the order's [total_amount]. *)
Definition consistent_order (uid : Z) (body : json) : Prop :=
  exists name q price total extra, (0 < q)%Z /\ json_mul price (JInt q) = Ret total /\
    body = JObj [("telegram_id", JInt uid);
                 ("items", JList [JObj ([("product_name", name); ("quantity", JInt q); ("price", price);
                                         ("total", total)] ++ extra)]);
                 ("total_amount", total)].

(** The first half of the confirmation: one POST, nothing else changed
    but the backend. *)
Lemma confirm_send_run s uid :
  bot_inv s -> fe_state (fsm_of s uid) = Some waiting_for_confirmation ->
  exists body r s1, consistent_order uid body /\
    confirm_send (confirm_cb uid) s = (s1, Ret (fe_data (fsm_of s uid), r)) /\
    bs_fsm s1 = bs_fsm s /\ bs_calls s1 = bs_calls s ++ [create_order_req body] /\ bs_out s1 = bs_out s.
Proof.
  intros Hi Hst. pose proof (fsm_of_lookup s uid Hi) as He. unfold entry_inv in He. rewrite Hst in He.
  destruct He as ((q & price & total & Hq & Hpos & Hp & Ht & Hm) & [name Hn]).
  destruct (order_payload_run uid (fe_data (fsm_of s uid)) s name q price total) as [extra Hpay]; [done..|].
  unfold confirm_send. cbn [cb_from confirm_cb].
  rewrite (est_bind_run (get_data uid) _ s s (fe_data (fsm_of s uid))) by done.
  rewrite (est_bind_run _ _ s s _ Hpay).
  unfold api_request. est_unfold.
  match goal with |- context [api_call (bs_backend s) ?rq] => destruct (api_call (bs_backend s) rq) as [b' r] end.
  eexists _, _, _. split; [by exists name, q, price, total, extra|]. split; [reflexivity|]. done.
Qed.

(** C24. In the sequential schedule, from a fresh start and after any
    updates with any backend answers, pressing "Подтвердить" in the
    confirmation state sends exactly one request, the create-order POST
    (bot.py:510-534).  Its single item carries a positive integer
    quantity and a [total] equal to [price * quantity], also sent as the
    order's [total_amount]. *)
Theorem confirm_sends_consistent_order us s uid :
  bs_fsm s = ∅ ->
  let s' := run_updates bot_username us s in
  fe_state (fsm_of s' uid) = Some waiting_for_confirmation ->
  exists body, consistent_order uid body /\
    bs_calls (bot_step bot_username (UCallback (confirm_cb uid)) s') = bs_calls s' ++ [create_order_req body].
Proof.
  intros He s' Hst.
  assert (Hi : bot_inv s') by (apply run_updates_inv; unfold bot_inv; rewrite He; apply map_Forall_empty).
  destruct (confirm_send_run s' uid Hi Hst) as (body & r & s1 & Hok & Hrun & _ & Hc & _).
  exists body. split; [done|]. unfold bot_step. rewrite dispatch_confirm by done.
  unfold process_order_confirmation. rewrite (est_bind_run _ _ s' s1 _ Hrun). by rewrite confirm_finish_calls.
Qed.

Definition msg (uid : Z) (fn t : string) : message := {| m_from := uid; m_first_name := fn; m_text := Some t |}.

(** A text the four commands registered before the state handlers do not
    take. *)
Definition no_command (t : string) : bool :=
  negb (command_is bot_username "start" (Some t) || command_is bot_username "help" (Some t) ||
        command_is bot_username "link" (Some t) || command_is bot_username "create_order" (Some t)).

Lemma route_no_command st m t :
  m_text m = Some t -> no_command t = true ->
  route_message bot_username st m =
  match st with
  | Some waiting_for_product_name => process_product_name m
  | Some waiting_for_quantity => process_quantity m
  | Some waiting_for_price => process_price m
  | Some waiting_for_description => process_description m
  | _ =>
      if command_is bot_username "orders" (m_text m) then cmd_orders m
      else if command_is bot_username "profile" (m_text m) then cmd_profile m
      else if plain_text (m_text m) then handle_text m
      else mret ()
  end.
Proof.
  intros Ht Hn. unfold no_command in Hn. unfold route_message. rewrite Ht.
  destruct (command_is bot_username "start" (Some t)), (command_is bot_username "help" (Some t)),
    (command_is bot_username "link" (Some t)), (command_is bot_username "create_order" (Some t)); done.
Qed.

(** The answer of [process_quantity] to a text it rejects. *)
Definition quantity_rejected (t : string) : option bot_reply :=
  match parse_int t with
  | None => Some RQuantityNotInt
  | Some q => if Z.leb q 0 then Some RQuantityNotPositive else None
  end.

Lemma quantity_reject_step s uid fn t r :
  fe_state (fsm_of s uid) = Some waiting_for_quantity -> no_command t = true -> quantity_rejected t = Some r ->
  bot_step bot_username (UMessage (msg uid fn t)) s = (emit (Send uid r) s).1.
Proof.
  intros Hst Hn Hr. unfold bot_step. rewrite dispatch_state. cbn [m_from msg].
  rewrite (route_no_command _ _ t) by done. rewrite Hst. unfold process_quantity, text_or. cbn [m_text msg].
  rewrite est_bind_ret. unfold quantity_rejected in Hr.
  destruct (parse_int t) as [q|]; [destruct (Z.leb q 0)|]; by simplify_eq.
Qed.

(** C26. In the quantity state, a text that is not a positive integer
    ([int()] fails, or the number is [<= 0]) is answered with the retry
    message and changes nothing else: no request, the same state and
    data (bot.py:390-397).  By induction, any number of such retries in
    a row leaves the conversation where it was. *)
Theorem quantity_retry ts s uid fn :
  fe_state (fsm_of s uid) = Some waiting_for_quantity ->
  Forall (fun t => no_command t = true /\ is_Some (quantity_rejected t)) ts ->
  let s' := run_updates bot_username (map (fun t => UMessage (msg uid fn t)) ts) s in
  bs_fsm s' = bs_fsm s /\ bs_calls s' = bs_calls s /\ bs_backend s' = bs_backend s /\
  bs_out s' = bs_out s ++ map (fun t => Send uid (default RQuantityNotInt (quantity_rejected t))) ts.
Proof.
  revert s. induction ts as [|t ts IH]; intros s Hst Hts; cbn -[bot_step]; [by rewrite app_nil_r|].
  apply Forall_cons in Hts as [[Hn [r Hr]] Hts].
  rewrite (quantity_reject_step s uid fn t r) by done.
  destruct (IH (emit (Send uid r) s).1) as (Hf & Hc & Hb & Ho); [done | done |].
  unfold run_updates in *. rewrite Hf, Hc, Hb, Ho. cbn. rewrite Hr, <- app_assoc. done.
Qed.

Lemma json_mul_nan q : json_mul (JFloat PNaN) (JInt q) = Ret (JFloat PNaN).
Proof. reflexivity. Qed.

Lemma parse_float_nan : parse_float "nan" = Some PNaN.
Proof. vm_compute. reflexivity. Qed.

(** Put the hypotheses and the goal of a handler run in normal form:
    same lookups identified, inserted entries read back, dict updates
    resolved key by key. *)
Ltac run_simpl :=
  repeat match goal with H1 : ?x = Some ?a, H2 : ?x = Some ?b |- _ => rewrite H1 in H2; simplify_eq end;
  unfold fsm_of, set_fsm in *; cbn [bs_fsm bs_calls bs_out bs_backend] in *;
  rewrite ?lookup_insert_eq in *; cbn [default from_option Datatypes.id fe_data fe_state] in *;
  rewrite ?assoc_get_set in *; cbn -[assoc_get json_mul] in *.


(** C28. The handlers of the order states are registered before
    [/orders] and [/profile] (bot.py:376-467 against 574, 658): while the
    bot waits for a product name, "/orders" is taken as the name; no
    request is sent and the conversation moves on to the quantity.  Out
    of the conversation the same text runs [cmd_orders], which asks the
    backend for the orders. *)
Theorem name_state_swallows_orders s uid fn :
  fe_state (fsm_of s uid) = Some waiting_for_product_name ->
  let s' := bot_step bot_username (UMessage (msg uid fn "/orders")) s in
  bs_calls s' = bs_calls s /\ bs_out s' = bs_out s ++ [Send uid (RAskQuantity (JStr "/orders"))] /\
  fe_state (fsm_of s' uid) = Some waiting_for_quantity /\
  assoc_get "product_name" (fe_data (fsm_of s' uid)) = Some (JStr "/orders").
Proof.
  intros Hst. unfold bot_step. rewrite dispatch_state. cbn [m_from msg].
  rewrite (route_no_command _ _ "/orders") by done. rewrite Hst. unfold process_product_name.
  handler_eval; run_simpl. done.
Qed.

Lemma orders_cmd_outside s uid fn :
  fe_state (fsm_of s uid) = None ->
  bot_step bot_username (UMessage (msg uid fn "/orders")) s = (cmd_orders (msg uid fn "/orders") s).1.
Proof.
  intros Hst. unfold bot_step. rewrite dispatch_state. cbn [m_from msg].
  rewrite (route_no_command _ _ "/orders") by done. by rewrite Hst.
Qed.

Definition get_req (path : string) (uid : Z) : api_req :=
  {| rq_method := GET; rq_path := path; rq_params := tg_param uid; rq_body := None |}.

Lemma api_result_get_error status body : status <> 200%Z -> api_result GET (HttpReply status body) = JNull.
Proof. intros Hs. cbn. by rewrite (proj2 (Z.eqb_neq _ _) Hs). Qed.

(** The request of [cmd_link] (bot.py:213-216): [GET /link-telegram]
    with the code and the chat id as query parameters. *)
Definition link_req (token : string) (uid : Z) : api_req :=
  {| rq_method := GET; rq_path := "/link-telegram";
     rq_params := [("token", JStr token); ("telegram_id", JInt uid)]; rq_body := None |}.

(** C29. [/link] with a code the backend rejects: [link_telegram]
    answers 400 with its reason ("Invalid or expired token"), but
    [make_api_request] turns every status other than 200 into [None]
    (bot.py:53-59), so the user is told the server could not be reached
    (bot.py:226). *)
Theorem link_rejection_shown_as_connection_error s m cmd token rest b' status body :
  m_text m = Some cmd -> py_split cmd = "/link"%string :: token :: rest ->
  api_call (bs_backend s) (link_req token (m_from m)) = (b', HttpReply status body) ->
  status <> 200%Z ->
  bs_out (cmd_link m s).1 = bs_out s ++ [Send (m_from m) (RLinkFailed (JStr "Ошибка соединения с сервером"))].
Proof.
  intros Ht Hsp Hcall Hs. unfold link_req in Hcall. unfold cmd_link, text_or. rewrite Ht, est_bind_ret, Hsp.
  unfold api_get, api_request. est_unfold. rewrite Hcall. cbn -[api_result].
  rewrite api_result_get_error by done. done.
Qed.

(** [/orders] for a chat the backend does not know: the backend
    answers 404 [{"error": "User not found"}] (app.py:804); as any reply
    other than 200 it becomes [None], and the user sees the connection
    error instead of the "not linked" message (bot.py:583-597), which only
    a 200 reply carrying an [error] key could reach. *)
Theorem orders_error_shown_as_connection_error s m b' status body :
  api_call (bs_backend s) (get_req "/api/telegram/orders" (m_from m)) = (b', HttpReply status body) ->
  status <> 200%Z ->
  bs_out (cmd_orders m s).1 = bs_out s ++ [Send (m_from m) ROrdersConnError] /\
  bs_fsm (cmd_orders m s).1 = bs_fsm s.
Proof.
  intros Hcall Hs. unfold cmd_orders, api_get, api_request. cbv zeta. est_unfold. cbv beta.
  unfold get_req in Hcall. rewrite Hcall. cbn -[api_result].
  rewrite api_result_get_error by done. done.
Qed.

(** A linked user without orders: the backend answers 200 with the
    empty list (app.py:836), which is falsy, so the first
    [if not orders_data] shows the connection error; the "no orders yet"
    branch (bot.py:600-606) is unreachable. *)
Theorem orders_empty_shown_as_connection_error s m b' :
  api_call (bs_backend s) (get_req "/api/telegram/orders" (m_from m)) = (b', HttpReply 200 (Some (JList []))) ->
  bs_out (cmd_orders m s).1 = bs_out s ++ [Send (m_from m) ROrdersConnError].
Proof.
  intros Hcall. unfold cmd_orders, api_get, api_request. cbv zeta. est_unfold. cbv beta.
  unfold get_req in Hcall. rewrite Hcall. done.
Qed.

(** C30. aiogram runs each update in its own task, and the state filter
    of [process_order_confirmation] is checked when the update is
    dispatched.  A second tap on "Подтвердить" that arrives while the
    first one waits for the backend is still routed to the confirmation
    (the state is only cleared after the answer, bot.py:563), and it
    sends a second create-order request: the backend receives two
    orders. *)
Theorem double_confirm_two_orders s uid :
  bot_inv s -> fe_state (fsm_of s uid) = Some waiting_for_confirmation ->
  exists s1 s2 d1 d2 r1 r2 body1 body2,
    confirm_send (confirm_cb uid) s = (s1, Ret (d1, r1)) /\
    route_callback (fe_state (fsm_of s1 uid)) (confirm_cb uid) = process_order_confirmation (confirm_cb uid) /\
    confirm_send (confirm_cb uid) s1 = (s2, Ret (d2, r2)) /\
    consistent_order uid body1 /\ consistent_order uid body2 /\
    bs_calls s2 = bs_calls s ++ [create_order_req body1; create_order_req body2].
Proof.
  intros Hi Hst. destruct (confirm_send_run s uid Hi Hst) as (body1 & r1 & s1 & Hok1 & Hrun1 & Hf1 & Hc1 & _).
  assert (Hfsm : forall s', bs_fsm s' = bs_fsm s -> fsm_of s' uid = fsm_of s uid) by (intros s' E; unfold fsm_of; by rewrite E).
  assert (Hi1 : bot_inv s1) by (unfold bot_inv; by rewrite Hf1).
  assert (Hst1 : fe_state (fsm_of s1 uid) = Some waiting_for_confirmation) by by rewrite Hfsm.
  destruct (confirm_send_run s1 uid Hi1 Hst1) as (body2 & r2 & s2 & Hok2 & Hrun2 & _ & Hc2 & _).
  exists s1, s2, (fe_data (fsm_of s uid)), (fe_data (fsm_of s1 uid)), r1, r2, body1, body2.
  split; [exact Hrun1|]. split.
  - rewrite Hst1. reflexivity.
  - split; [exact Hrun2|]. do 2 (split; [done|]). by rewrite Hc2, Hc1, <- app_assoc.
Qed.
End Run.
