(* ===== verification/BotRace.v ===== *)
(** * aiogram's concurrent handling of updates (bot.py:729-735)

    [dp.start_polling(bot)] hands each update to its own asyncio task
    and does not wait for it before taking the next one; aiogram's
    default event isolation does not lock the user's FSM entry.  A
    handler runs without interruption up to its first [await] that
    waits on the network ([message.answer], [callback.message.edit_text],
    [make_api_request]); the [MemoryStorage] calls complete without
    suspending.  [run_updates] ([Bot.v]) is the schedule in which each
    task ends before the next update is dispatched.

    This file models more schedules.  The four handlers of the order
    conversation end with [await message.answer(...)] followed by
    [await state.set_state(...)] (bot.py:381-386, 416-435, 457-465,
    492-503).  Each is split at that [await]: its head, which runs when
    the update is dispatched and returns the [set_state] still to run,
    and that pending step, which runs once the reply has been sent.  The
    equations [*_split] show that head then pending step is the handler.
    [conc_run] runs updates in a chosen order.  Each update is either
    handled whole or, for those four handlers, handled up to the [await].
    The pending steps are resumed in any order, as the replies to
    different messages may come back in any order.  Every run of
    [conc_run] is a schedule the program can take.  Not every schedule
    is a run: a handler can also be suspended at one of its earlier
    [await]s.

    The theorem of the file is that under this concurrency the
    conversation invariant of [BotFlow.v] fails: five quick messages can
    reach the description state with a [total_amount] that is not
    [price * quantity]. *)

From Stdlib Require Import QArith.
From stdpp Require Import gmap.
From S2P Require Import Prelude BotText BotApi Bot BotFlow BotProgress.

Section Race.
Context `{BackendApi B} (bot_username : string).
Notation state := (bot_state B).

(** ** The conversation handlers split at their last [await] *)

(** [process_product_name] (bot.py:376-386) up to its reply. *)
Definition product_name_head (m : message) : EST state (EST state unit) :=
  let uid := m_from m in
  update_data uid [("product_name", text_json (m_text m)); ("is_existing_product", JBool false)];;
  answer m (RAskQuantity (text_json (m_text m)));;
  mret (set_state uid (Some waiting_for_quantity)).

(** [process_quantity] (bot.py:388-437) up to its reply; after a
    rejected text nothing is left to run. *)
Definition quantity_head (m : message) : EST state (EST state unit) :=
  let uid := m_from m in
  text ← text_or TypeError m;
  match parse_int text with
  | None => answer m RQuantityNotInt;; mret (mret ())
  | Some quantity =>
      if Z.leb quantity 0 then answer m RQuantityNotPositive;; mret (mret ())
      else
        data ← get_data uid;
        existing ← get_or (JObj data) "is_existing_product" JNull;
        if py_truthy existing then
          price ← data_get data "price";
          total_amount ← lift (json_mul price (JInt quantity));
          update_data uid [("quantity", JInt quantity); ("total_amount", total_amount)];;
          name ← data_get data "product_name";
          answer m (RConfirm name (JInt quantity) price None total_amount);;
          mret (set_state uid (Some waiting_for_confirmation))
        else
          update_data uid [("quantity", JInt quantity)];;
          name ← data_get data "product_name";
          answer m (RAskPrice name quantity);;
          mret (set_state uid (Some waiting_for_price))
  end.

(** [process_price] (bot.py:439-465) up to its reply. *)
Definition price_head (m : message) : EST state (EST state unit) :=
  let uid := m_from m in
  text ← text_or TypeError m;
  match parse_float text with
  | None => answer m RPriceNotNumber;; mret (mret ())
  | Some price =>
      if pf_le0 price then answer m RPriceNotPositive;; mret (mret ())
      else
        data ← get_data uid;
        name ← data_get data "product_name";
        quantity ← data_get data "quantity";
        total_amount ← lift (json_mul (JFloat price) quantity);
        update_data uid [("price", JFloat price); ("total_amount", total_amount)];;
        answer m (RAskDescription name quantity price);;
        mret (set_state uid (Some waiting_for_description))
  end.

(** [process_description] (bot.py:467-503) up to its reply. *)
Definition description_head (m : message) : EST state (EST state unit) :=
  let uid := m_from m in
  text ← text_or AttributeError m;
  let description := if String.eqb (py_lower text) "нет" then EmptyString else text in
  update_data uid [("description", JStr description)];;
  data ← get_data uid;
  name ← data_get data "product_name";
  quantity ← data_get data "quantity";
  price ← data_get data "price";
  total_amount ← data_get data "total_amount";
  answer m (RConfirm name quantity price
              (if String.eqb description EmptyString then None else Some (JStr description)) total_amount);;
  mret (set_state uid (Some waiting_for_confirmation)).

(** The head of the handler [route_message] picks for [m] in state
    [st], when it is one of the four; [None] for every other handler,
    which [conc_run] only runs whole. *)
Definition split_route (st : option fsm_state) (m : message) : option (EST state (EST state unit)) :=
  if command_is bot_username "start" (m_text m) || command_is bot_username "help" (m_text m) ||
     command_is bot_username "link" (m_text m) || command_is bot_username "create_order" (m_text m)
  then None
  else match st with
  | Some waiting_for_product_name => Some (product_name_head m)
  | Some waiting_for_quantity => Some (quantity_head m)
  | Some waiting_for_price => Some (price_head m)
  | Some waiting_for_description => Some (description_head m)
  | _ => None
  end.

(** ** Runs under concurrent dispatch *)

(** The bot and the steps its tasks still have to run after their
    [await]. *)
Record conc := mk_conc { c_bot : state; c_tasks : list (EST state unit) }.

(** [conc_run c us c']: from [c], the updates [us] are dispatched in
    this order and the pending steps resumed in between, ending in
    [c']. *)
Inductive conc_run : conc -> list update -> conc -> Prop :=
  | run_done c : conc_run c [] c
  | run_whole c u us c' :
      conc_run (mk_conc (bot_step bot_username u (c_bot c)) (c_tasks c)) us c' ->
      conc_run c (u :: us) c'
  | run_split c m us c' h s' k :
      split_route (fe_state (fsm_of (c_bot c) (m_from m))) m = Some h ->
      h (c_bot c) = (s', Ret k) ->
      conc_run (mk_conc s' (c_tasks c ++ [k])) us c' ->
      conc_run c (UMessage m :: us) c'
  | run_resume c i k us c' :
      c_tasks c !! i = Some k ->
      conc_run (mk_conc (k (c_bot c)).1 (delete i (c_tasks c))) us c' ->
      conc_run c us c'.

(** ** The split is the handler *)

Ltac split_eq := intros s; est_unfold; cbn; repeat (case_match; cbn); reflexivity.

Lemma process_product_name_split m s : process_product_name m s = (product_name_head m ≫= fun k => k) s.
Proof. revert s. unfold process_product_name, product_name_head. split_eq. Qed.

Lemma process_quantity_split m s : process_quantity m s = (quantity_head m ≫= fun k => k) s.
Proof. revert s. unfold process_quantity, quantity_head. split_eq. Qed.

Lemma process_price_split m s : process_price m s = (price_head m ≫= fun k => k) s.
Proof. revert s. unfold process_price, price_head. split_eq. Qed.

Lemma process_description_split m s : process_description m s = (description_head m ≫= fun k => k) s.
Proof. revert s. unfold process_description, description_head. split_eq. Qed.

(** Dispatching a head and resuming its pending step at once is
    dispatching the update: [split_route] only picks the handler
    [route_message] runs. *)
Lemma split_route_sound st m h s :
  split_route st m = Some h -> route_message bot_username st m s = (h ≫= fun k => k) s.
Proof.
  unfold split_route, route_message.
  destruct (command_is bot_username "start" (m_text m)), (command_is bot_username "help" (m_text m)),
    (command_is bot_username "link" (m_text m)), (command_is bot_username "create_order" (m_text m));
    try discriminate.
  destruct st as [[]|]; try discriminate; intros [= <-];
    auto using process_product_name_split, process_quantity_split, process_price_split,
      process_description_split.
Qed.

(** [run_updates] is the run that handles every update whole. *)
Lemma run_updates_conc us s :
  conc_run (mk_conc s []) us (mk_conc (run_updates bot_username us s) []).
Proof.
  revert s. induction us as [|u us IH]; intros s; [constructor|].
  apply run_whole. apply IH.
Qed.

End Race.

(** ** The heads and the pending [set_state] on a symbolic state *)

(** The run of a head reaches its reply; the entry read back. *)
Ltac head_close := split; [reflexivity | cbn; by rewrite lookup_insert_eq].

Section Steps.
Context `{BackendApi B} (bot_username : string) (uid : Z) (fn : string).
Notation state := (bot_state B).
Implicit Types s : state.

Lemma split_route_msg st t :
  no_command bot_username t = true ->
  split_route bot_username (Some st) (msg uid fn t) =
    match st return option (EST state (EST state unit)) with
    | waiting_for_product_name => Some (product_name_head (msg uid fn t))
    | waiting_for_quantity => Some (quantity_head (msg uid fn t))
    | waiting_for_price => Some (price_head (msg uid fn t))
    | waiting_for_description => Some (description_head (msg uid fn t))
    | _ => None
    end.
Proof.
  intros Hn. unfold no_command in Hn. unfold split_route. cbn [m_text msg].
  destruct (command_is bot_username "start" (Some t)), (command_is bot_username "help" (Some t)),
    (command_is bot_username "link" (Some t)), (command_is bot_username "create_order" (Some t)); try done.
  all: by destruct st.
Qed.

Lemma set_state_run s st : fsm_of ((set_state uid st) s).1 uid = {| fe_state := st; fe_data := fe_data (fsm_of s uid) |}.
Proof. unfold set_state, modify, fsm_of, set_fsm. cbn. by rewrite lookup_insert_eq. Qed.

Lemma name_head_run s t :
  exists s', product_name_head (msg uid fn t) s = (s', Ret (set_state uid (Some waiting_for_quantity))) /\
    fsm_of s' uid = {| fe_state := fe_state (fsm_of s uid);
                       fe_data := data_update (fe_data (fsm_of s uid))
                                    [("product_name", JStr t); ("is_existing_product", JBool false)] |}.
Proof.
  eexists. split; [reflexivity|]. unfold product_name_head, update_data, answer, emit, modify. est_unfold.
  cbn [m_from msg m_text text_json from_option]. unfold fsm_of, set_fsm. cbn. rewrite !lookup_insert_eq. done.
Qed.

Lemma quantity_head_run s t q nm :
  parse_int t = Some q -> (0 < q)%Z ->
  assoc_get "is_existing_product" (fe_data (fsm_of s uid)) = Some (JBool false) ->
  assoc_get "product_name" (fe_data (fsm_of s uid)) = Some nm ->
  exists s', quantity_head (msg uid fn t) s = (s', Ret (set_state uid (Some waiting_for_price))) /\
    fsm_of s' uid = {| fe_state := fe_state (fsm_of s uid);
                       fe_data := data_update (fe_data (fsm_of s uid)) [("quantity", JInt q)] |}.
Proof.
  intros Hq Hpos He Hnm. unfold quantity_head, text_or. cbn [m_text msg m_from].
  rewrite est_bind_ret, Hq, (proj2 (Z.leb_gt q 0) Hpos). eexists. bot_run. head_close.
Qed.

Lemma price_head_run s t pr q nm :
  parse_float t = Some pr -> pf_le0 pr = false ->
  assoc_get "product_name" (fe_data (fsm_of s uid)) = Some nm ->
  assoc_get "quantity" (fe_data (fsm_of s uid)) = Some (JInt q) ->
  exists s', price_head (msg uid fn t) s = (s', Ret (set_state uid (Some waiting_for_description))) /\
    fsm_of s' uid = {| fe_state := fe_state (fsm_of s uid);
                       fe_data := data_update (fe_data (fsm_of s uid))
                                    [("price", JFloat pr); ("total_amount", JFloat (pf_mul pr (PFin (inject_Z q))))] |}.
Proof.
  intros Hp Hpos Hnm Hq. unfold price_head, text_or. cbn [m_text msg m_from].
  rewrite est_bind_ret, Hp, Hpos. eexists. bot_run; rewrite json_mul_float_int; bot_run. head_close.
Qed.

(** The FSM entry of [uid] along a run, read back through the step
    equations. *)
Ltac race_entry :=
  cbn [c_bot c_tasks m_from msg];
  repeat first [ rewrite set_state_run
               | match goal with E : fsm_of ?x uid = _ |- context [fsm_of ?x uid] => rewrite E end ];
  cbn [fe_state fe_data data_update foldl fst snd].

Ltac race_fact := race_entry; repeat (rewrite assoc_get_set; cbn -[assoc_get assoc_set fsm_of]); reflexivity.

Ltac race_split Hst := race_entry; rewrite ?Hst; rewrite split_route_msg by reflexivity; reflexivity.

(** C25. aiogram runs each update in its own task, and the four
    conversation handlers set the next state only after their reply has
    been sent (bot.py:386, 435, 465).  From the name prompt, five quick
    messages (two names, then 3, 2 and 5) can be scheduled so that the
    late [set_state] of the second name sends the conversation back to
    the quantity prompt after the price was taken.  The conversation
    then reaches the description prompt with quantity 5, price 2 and
    [total_amount] 6 = 2 * 3: the invariant [entry_inv] of [BotFlow.v]
    is broken, and the order the user confirms carries a total that is
    not price times quantity. *)
Theorem concurrent_total_mismatch s :
  fe_state (fsm_of s uid) = Some waiting_for_product_name ->
  exists c, conc_run bot_username (mk_conc s [])
              (map (fun t => UMessage (msg uid fn t)) ["A"; "B"; "3"; "2"; "5"]) c /\
    c_tasks c = [] /\ fe_state (fsm_of (c_bot c) uid) = Some waiting_for_description /\
    ~ entry_inv (fsm_of (c_bot c) uid).
Proof.
  intros Hst.
  destruct (name_head_run s "A") as (s1 & H1 & F1).
  destruct (name_head_run s1 "B") as (s2 & H2 & F2).
  set (s3 := (set_state uid (Some waiting_for_quantity) s2).1).
  assert (F3 := set_state_run s2 (Some waiting_for_quantity)). fold s3 in F3.
  destruct (quantity_head_run s3 "3" 3 (JStr "B")) as (s4 & H4 & F4);
    [reflexivity | lia | race_fact | race_fact |].
  set (s5 := (set_state uid (Some waiting_for_price) s4).1).
  assert (F5 := set_state_run s4 (Some waiting_for_price)). fold s5 in F5.
  destruct (price_head_run s5 "2" (PFin (Qmake 2 1)) 3 (JStr "B")) as (s6 & H6 & F6);
    [vm_compute; reflexivity | reflexivity | race_fact | race_fact |].
  set (s7 := (set_state uid (Some waiting_for_quantity) s6).1).
  assert (F7 := set_state_run s6 (Some waiting_for_quantity)). fold s7 in F7.
  destruct (quantity_head_run s7 "5" 5 (JStr "B")) as (s8 & H8 & F8);
    [reflexivity | lia | race_fact | race_fact |].
  eexists. split.
  { cbn [map].
    eapply run_split; [race_split Hst | exact H1 |]. cbn [c_bot c_tasks app].
    eapply run_split; [race_split Hst | exact H2 |]. cbn [c_bot c_tasks app].
    apply (run_resume _ _ 0 (set_state uid (Some waiting_for_quantity))); [reflexivity|]. cbn [c_bot c_tasks].
    fold s3. cbn [delete list_delete].
    eapply run_split; [race_split Hst | exact H4 |]. cbn [c_bot c_tasks app].
    apply (run_resume _ _ 1 (set_state uid (Some waiting_for_price))); [reflexivity|]. cbn [c_bot c_tasks].
    fold s5. cbn [delete list_delete].
    eapply run_split; [race_split Hst | exact H6 |]. cbn [c_bot c_tasks app].
    apply (run_resume _ _ 0 (set_state uid (Some waiting_for_quantity))); [reflexivity|]. cbn [c_bot c_tasks].
    fold s7. cbn [delete list_delete].
    eapply run_split; [race_split Hst | exact H8 |]. cbn [c_bot c_tasks app].
    apply (run_resume _ _ 1 (set_state uid (Some waiting_for_price))); [reflexivity|]. cbn [c_bot c_tasks delete list_delete].
    apply (run_resume _ _ 0 (set_state uid (Some waiting_for_description))); [reflexivity|].
    cbn [c_bot c_tasks delete list_delete]. apply run_done. }
  cbn [c_bot c_tasks]. split; [reflexivity|].
  split; [race_entry; reflexivity|].
  unfold entry_inv, total_ok. race_entry. intros (q & price & total & Hq & _ & Hp & Ht & Hm).
  repeat (rewrite assoc_get_set in Hq; cbn -[assoc_get assoc_set] in Hq).
  repeat (rewrite assoc_get_set in Hp; cbn -[assoc_get assoc_set] in Hp).
  repeat (rewrite assoc_get_set in Ht; cbn -[assoc_get assoc_set] in Ht).
  by simplify_eq/=.
Qed.

End Steps.
