(* ===== verification/App.v ===== *)
(** * Start-up of the two programs: the module level of [app.py] and
      [bot.py]

    The backend, when [app.py] is imported, builds its configuration with
    [get_config()], hands [CORS_ORIGINS] to flask-cors and runs
    [init_db()] (app.py:12-18); run as a script it serves on
    [0.0.0.0:5000] with Flask's debugger set from [DEBUG]
    (app.py:852-856).  Its route [/] answers a constant description
    (app.py:838-849).  The bot reads [BOT_TOKEN] after [load_dotenv()]
    and exits when it is not set (bot.py:13-28), starts with empty
    [user_pages] and [user_products] and an empty FSM storage
    (bot.py:30-36), and [main] polls the updates and dispatches them in
    order (bot.py:729-735).

    [load_dotenv()] merges the [.env] file into the environment without
    overriding what is set: the [env_vars] given to [bot_boot] is the
    environment after it.  The logging set-up and the [aiogram] [Bot]
    object (its HTTP session) hold no state of the model. *)

From stdpp Require Import gmap.
From S2P Require Import Prelude Store Auth Schema BotText BotApi Bot BotFlow.

(** ** The backend *)

Module Backend.

Record flask_app := mk_app {
  app_config : config;
  app_cors_origins : list string;   (** [CORS(app, origins=...)] *)
  app_db : db                       (** the database after [init_db()] *)
}.

(** The module level of app.py (app.py:12-18), on the database file as
    it is found ([None] when there is none). *)
Definition app_boot (env : env_vars) (existing : option db) : flask_app :=
  let cfg := get_config env in
  mk_app cfg (CORS_ORIGINS cfg) (init_db existing).

Record run_opts := { run_host : string; run_port : nat; run_debug : bool }.

(** [app.run(host='0.0.0.0', port=5000, debug=app.config['DEBUG'])]
    (app.py:852-856). *)
Definition app_run (a : flask_app) : run_opts :=
  {| run_host := "0.0.0.0"; run_port := 5000; run_debug := DEBUG (app_config a) |}.

Record hello_info := { hi_message : string; hi_version : string; hi_endpoints : list (string * string) }.

(** [hello] (app.py:838-849). *)
Definition hello : M (reply hello_info) :=
  mret (Reply 200 {|
    hi_message := "Order System API is running!";
    hi_version := "2.0";
    hi_endpoints := [("auth", "/api/auth/register, /api/auth/login, /api/auth/me");
                     ("products", "/api/products, /api/products/all");
                     ("orders", "/api/orders");
                     ("telegram", "/api/telegram/generate-token, /link-telegram, /api/telegram/create-order, /api/telegram/products")]
  |}).

End Backend.

(** ** The bot *)

Module BotMain.

Definition API_URL : string := "http://localhost:5000".

(** bot.py:13-36: [exit(1)] ([None]) when [BOT_TOKEN] is unset or empty;
    otherwise the bot with its empty dicts and storage. *)
Definition bot_boot {B} (env : env_vars) (backend : B) : option (bot_state B) :=
  if truthy_str (env "BOT_TOKEN") then Some (mk_bot backend ∅ ∅ ∅ [] []) else None.

(** [main] (bot.py:729-735): [dp.start_polling(bot)] dispatches the
    updates it receives, here in the schedule where each is handled to
    its end before the next ([run_updates]); the concurrent schedules are
    those of [BotRace.v]. *)
Definition bot_main `{BackendApi B} (bot_username : string) (env : env_vars) (backend : B)
    (us : list update) : option (bot_state B) :=
  run_updates bot_username us <$> bot_boot env backend.

End BotMain.

(** ** What start-up guarantees *)

Section Startup.
Import Backend BotMain.

(** The backend starts on a database with the schema's invariant: a
    fresh one, or an existing one that had it. *)
Lemma app_boot_schema env existing :
  from_option schema_inv True existing -> schema_inv (app_db (app_boot env existing)).
Proof. destruct existing as [d|]; cbn; [done | intros _; apply empty_db_schema]. Qed.

(** Flask's debugger is on unless [FLASK_ENV] is exactly
    ["production"]: unset, empty-valued or unknown names fall back to
    [DevelopmentConfig]. *)
Lemma app_run_debug env existing :
  run_debug (app_run (app_boot env existing)) =
    negb (String.eqb (env_get env "FLASK_ENV" "development") "production").
Proof.
  unfold app_run, app_boot, get_config, config_dict. cbn.
  destruct (String.eqb _ "development") eqn:E1; [apply String.eqb_eq in E1; by rewrite E1|].
  destruct (String.eqb _ "production"); [done|]. by destruct (String.eqb _ "default").
Qed.

(** The bot exits exactly when [BOT_TOKEN] is unset or empty. *)
Lemma bot_boot_None {B} env (b : B) :
  bot_boot env b = None <-> env "BOT_TOKEN" = None \/ env "BOT_TOKEN" = Some ""%string.
Proof.
  unfold bot_boot, truthy_str. destruct (env "BOT_TOKEN") as [t|]; [|tauto].
  case_bool_decide; subst; split; try tauto; [discriminate|]. intros [|[= ?]]; done.
Qed.

(** Every state the polling loop reaches has the conversation
    invariant of [BotFlow.v]. *)
Lemma bot_main_inv `{BackendApi B} name env (b : B) us s :
  bot_main name env b us = Some s -> bot_inv s.
Proof.
  unfold bot_main, bot_boot. destruct (truthy_str _); [|done]. intros [= <-].
  apply run_updates_inv, map_Forall_empty.
Qed.

End Startup.
