(* ===== verification/BotScenarios.v ===== *)
(** * Concrete conversations of the bot

    A backend that replays recorded answers, the conversations of the
    specification run on the bot model (user 7 orders three "Widget" at
    2.5), and the witnesses that apply each theorem of [Pagination.v],
    [BotFlow.v], [BotProgress.v] and [BotRace.v] with hypotheses at one
    of them. *)

From Stdlib Require Import QArith Ascii.
From stdpp Require Import gmap.
From S2P Require Import Prelude BotText Pagination BotApi Bot BotFlow BotProgress BotRace.

(** The backend answers with the next recorded reply; with none left the
    connection fails. *)
#[export] Instance replay_backend : BackendApi (list response) :=
  fun b _ => match b with r :: b' => (b', r) | [] => ([], ConnFailure) end.

Definition bot0 (answers : list response) : bot_state (list response) := mk_bot answers ∅ ∅ ∅ [] [].

Definition bot_name : string := "bobrshop_bot".

Definition say (t : string) : update := UMessage (msg 7 "Ann" t).
Definition tap (d : string) : update := UCallback {| cb_from := 7; cb_data := Some d |}.

Definition user_info_ok : response :=
  HttpReply 200 (Some (JObj [("email", JStr "ann@example.com"); ("first_name", JStr "Ann");
                             ("last_name", JStr "Lee"); ("orders", JList [])])).
Definition no_products : response := HttpReply 200 (Some (JList [])).

Definition run_from (us : list update) : bot_state (list response) :=
  run_updates bot_name us (bot0 [user_info_ok; no_products]).

Definition at_name := run_from [say "/create_order"; tap "create_new"].
Definition at_quantity := run_from [say "/create_order"; tap "create_new"; say "Widget"].
Definition at_price := run_from [say "/create_order"; tap "create_new"; say "Widget"; say "3"].
Definition at_confirm :=
  run_from [say "/create_order"; tap "create_new"; say "Widget"; say "3"; say "2.5"; say "нет"].

Lemma run_from_inv us : bot_inv (run_from us).
Proof. apply run_updates_inv. apply map_Forall_empty. Qed.

(** ** Pagination *)

Lemma split_orders_into_pages_spec_witness :
  1 <= 3 /\
  concat (split_orders_into_pages [1; 2; 3; 4; 5; 6; 7] 3) = [1; 2; 3; 4; 5; 6; 7] /\
  length (split_orders_into_pages [1; 2; 3; 4; 5; 6; 7] 3) = (7 + 3 - 1) / 3 /\
  Forall (fun p => 1 <= length p <= 3) (split_orders_into_pages [1; 2; 3; 4; 5; 6; 7] 3).
Proof. split; [lia | apply (split_orders_into_pages_spec [1; 2; 3; 4; 5; 6; 7] 3); lia]. Defined.

Lemma pagination_keyboard_navigation_witness :
  1 <= 2 <= 3 /\
  (create_pagination_keyboard 2 3 = [] <-> 3 <= 1) /\
  forall b, b ∈ concat (create_pagination_keyboard 2 3) ->
    b = BCurrent 2 3 \/
    exists k, page_of_callback (button_data b) = Some (Z.of_nat k) /\ 1 <= k <= 3 /\ (k + 1 = 2 \/ k = 2 + 1).
Proof. split; [lia | apply (pagination_keyboard_navigation 2 3); lia]. Defined.

(** ** The conversation *)

Lemma bot_reachable_inv_witness :
  bs_fsm (bot0 [user_info_ok; no_products]) = ∅ /\
  bot_inv (run_updates bot_name [say "/create_order"; tap "create_new"; say "Widget"; say "3"]
             (bot0 [user_info_ok; no_products])).
Proof. split; [reflexivity | apply bot_reachable_inv; reflexivity]. Defined.

Lemma confirm_sends_consistent_order_witness :
  fe_state (fsm_of at_confirm 7) = Some waiting_for_confirmation /\
  exists body, consistent_order 7 body /\
    bs_calls (bot_step bot_name (UCallback (confirm_cb 7)) at_confirm) = bs_calls at_confirm ++ [create_order_req body].
Proof.
  split; [vm_compute; reflexivity|].
  apply (confirm_sends_consistent_order bot_name
           [say "/create_order"; tap "create_new"; say "Widget"; say "3"; say "2.5"; say "нет"]
           (bot0 [user_info_ok; no_products]) 7); [reflexivity | vm_compute; reflexivity].
Defined.

Lemma quantity_retry_witness :
  fe_state (fsm_of at_quantity 7) = Some waiting_for_quantity /\
  let s' := run_updates bot_name (map (fun t => UMessage (msg 7 "Ann" t)) ["abc"; "0"; "-5"]) at_quantity in
  bs_fsm s' = bs_fsm at_quantity /\ bs_calls s' = bs_calls at_quantity /\ bs_backend s' = bs_backend at_quantity /\
  bs_out s' = bs_out at_quantity ++ map (fun t => Send 7 (default RQuantityNotInt (quantity_rejected t))) ["abc"; "0"; "-5"].
Proof.
  split; [vm_compute; reflexivity|].
  apply quantity_retry; [vm_compute; reflexivity|].
  repeat constructor; vm_compute; eauto.
Defined.


Lemma name_state_swallows_orders_witness :
  fe_state (fsm_of at_name 7) = Some waiting_for_product_name /\
  let s' := bot_step bot_name (UMessage (msg 7 "Ann" "/orders")) at_name in
  bs_calls s' = bs_calls at_name /\ bs_out s' = bs_out at_name ++ [Send 7 (RAskQuantity (JStr "/orders"))] /\
  fe_state (fsm_of s' 7) = Some waiting_for_quantity /\
  assoc_get "product_name" (fe_data (fsm_of s' 7)) = Some (JStr "/orders").
Proof. split; [vm_compute; reflexivity | apply name_state_swallows_orders; vm_compute; reflexivity]. Defined.

Definition rejected : response :=
  HttpReply 400 (Some (JObj [("error", JStr "Invalid or expired token")])).

Lemma link_rejection_shown_as_connection_error_witness :
  bs_out (cmd_link (msg 7 "Ann" "/link a1b2c3") (bot0 [rejected])).1 =
    [Send 7 (RLinkFailed (JStr "Ошибка соединения с сервером"))].
Proof.
  apply (link_rejection_shown_as_connection_error (bot0 [rejected]) (msg 7 "Ann" "/link a1b2c3")
           "/link a1b2c3" "a1b2c3" [] [] 400 (Some (JObj [("error", JStr "Invalid or expired token")])));
    [reflexivity | vm_compute; reflexivity | reflexivity | lia].
Defined.

Definition unknown_chat : response := HttpReply 404 (Some (JObj [("error", JStr "User not found")])).

Lemma orders_error_shown_as_connection_error_witness :
  bs_out (cmd_orders (msg 7 "Ann" "/orders") (bot0 [unknown_chat])).1 = [Send 7 ROrdersConnError] /\
  bs_fsm (cmd_orders (msg 7 "Ann" "/orders") (bot0 [unknown_chat])).1 = ∅.
Proof.
  apply (orders_error_shown_as_connection_error (bot0 [unknown_chat]) (msg 7 "Ann" "/orders") []
           404 (Some (JObj [("error", JStr "User not found")]))); [reflexivity | lia].
Defined.

Lemma orders_empty_shown_as_connection_error_witness :
  bs_out (cmd_orders (msg 7 "Ann" "/orders") (bot0 [HttpReply 200 (Some (JList []))])).1 = [Send 7 ROrdersConnError].
Proof.
  apply (orders_empty_shown_as_connection_error (bot0 [HttpReply 200 (Some (JList []))]) (msg 7 "Ann" "/orders") []).
  reflexivity.
Defined.

Lemma double_confirm_two_orders_witness :
  fe_state (fsm_of at_confirm 7) = Some waiting_for_confirmation /\
  exists s1 s2 d1 d2 r1 r2 body1 body2,
    confirm_send (confirm_cb 7) at_confirm = (s1, Ret (d1, r1)) /\
    route_callback (fe_state (fsm_of s1 7)) (confirm_cb 7) = process_order_confirmation (confirm_cb 7) /\
    confirm_send (confirm_cb 7) s1 = (s2, Ret (d2, r2)) /\
    consistent_order 7 body1 /\ consistent_order 7 body2 /\
    bs_calls s2 = bs_calls at_confirm ++ [create_order_req body1; create_order_req body2].
Proof.
  split; [vm_compute; reflexivity|].
  apply double_confirm_two_orders; [apply run_from_inv | vm_compute; reflexivity].
Defined.

(** ** Progress *)

Definition price_2_5 : pyfloat := PFin (Qmake 25 10).


(** ** Concurrent dispatch *)

(** Ann, asked for the name, sends five messages in quick succession. *)
Lemma concurrent_total_mismatch_witness :
  fe_state (fsm_of at_name 7) = Some waiting_for_product_name /\
  exists c, conc_run bot_name (mk_conc at_name []) (map (fun t => UMessage (msg 7 "Ann" t)) ["A"; "B"; "3"; "2"; "5"]) c /\
    c_tasks c = [] /\ fe_state (fsm_of (c_bot c) 7) = Some waiting_for_description /\
    ~ entry_inv (fsm_of (c_bot c) 7).
Proof.
  assert (Hst : fe_state (fsm_of at_name 7) = Some waiting_for_product_name) by (vm_compute; reflexivity).
  split; [exact Hst | exact (concurrent_total_mismatch bot_name 7 "Ann" at_name Hst)].
Defined.
