(* ===== verification/Scenarios.v ===== *)
(** * Concrete scenarios

    The scenarios of the specification run on the model, and the witnesses
    that apply each theorem with hypotheses at one of them: user A (no
    products, chat "100") buys 2 x X (price 10) and 1 x Y (price 5), both
    owned by user B (chat "200"). *)

From S2P Require Import Prelude Store Notify Orders Linking Telegram.

Definition mk_user (name chat : string) : user_row :=
  {| u_username := name; u_email := name; u_first_name := name; u_last_name := name;
     u_password_hash := "hash"; u_theme := None; u_telegram_id := Some chat; u_created_at := 0 |}.

Definition mk_product (name : string) (price : Z) (owner : nat) : product_row :=
  {| p_name := name; p_price := price; p_description := None; p_created_by := owner; p_created_at := 0 |}.

(** Users A (1) and B (2); products X (1) and Y (2) of B; order 1 of B. *)
Definition shop_db : db :=
  {| users := mk_table [(1, mk_user "A" "100"); (2, mk_user "B" "200")] 2;
     products := mk_table [(1, mk_product "X" 10 2); (2, mk_product "Y" 5 2)] 2;
     orders := mk_table [(1, new_order_row 2 15 500)] 1;
     order_items := mk_table [(1, {| oi_order_id := 1; oi_product_id := 2; oi_qty := 3; oi_price := 5 |})] 1;
     tokens := empty_table |}.

Definition world_at (faults : list nat) : world :=
  {| w_db := shop_db; w_now := 1000; w_stmt := 0; w_faults := faults; w_bot_token := true;
     w_net_down := []; w_sent := [] |}.

Definition basket : list item_req :=
  [{| req_product_id := Some 1; req_qty := Some 2%Z |}; {| req_product_id := Some 2; req_qty := Some 1%Z |}].

Definition basket_lines : list line :=
  Eval vm_compute in default [] (lines_of shop_db basket).

Definition bad_basket : list item_req := [{| req_product_id := Some 99; req_qty := Some 1%Z |}].

(** The total of the scenario is 25 and it has one owner, B. *)
Example basket_total : sumZ line_total basket_lines = 25%Z.
Proof. reflexivity. Qed.

(** Every quantity of the scenario binds as a 64-bit [INTEGER]. *)
Ltac fit_tac :=
  match goal with
  | |- qty_fit _ => unfold qty_fit; repeat constructor
  | |- tg_qty_fit _ => unfold tg_qty_fit; repeat constructor
  end.

Lemma create_order_total_witness :
  exists w' v,
    create_order 1 (Some basket) (world_at []) = (w', Ret (Reply 201 v)) /\
    ov_total_amount v = sumZ line_total basket_lines /\ ov_status v = "new" /\
    tbl_get (ov_id v) (orders (w_db w')) = Some (new_order_row 1 (sumZ line_total basket_lines) 1000) /\
    map snd (tbl_select (fun _ i => Nat.eqb (oi_order_id i) (ov_id v)) (order_items (w_db w'))) =
      map (item_of (ov_id v)) basket_lines /\
    ov_items v = map line_view basket_lines.
Proof.
  apply (create_order_total 1 basket basket_lines (world_at [])).
  - reflexivity.
  - apply order_db_invb_sound. vm_compute. reflexivity.
  - discriminate.
  - vm_compute. reflexivity.
  - fit_tac.
Defined.

Lemma create_order_rejects_without_writing_witness :
  w_db (create_order 1 (Some bad_basket) (world_at [])).1 = shop_db /\
  w_sent (create_order 1 (Some bad_basket) (world_at [])).1 = [].
Proof.
  apply (create_order_rejects_without_writing 1 (Some bad_basket) (world_at []) _ 404
           "Product with id not found").
  vm_compute. reflexivity.
Defined.

(** A fault on the second item INSERT (statement 4: two SELECTs, the order
    INSERT, the first item INSERT): order 2 stays with one item. *)
Lemma create_order_partial_commit_witness :
  let w := world_at [4] in
  let r := serve (create_order 1 (Some basket)) w in
  r.2 = ErrorReply 500 "Internal Server Error" /\
  tbl_get 2 (orders (w_db r.1)) = Some (new_order_row 1 (sumZ line_total basket_lines) 1000) /\
  count_items 2 (w_db r.1) = 1.
Proof.
  apply (create_order_partial_commit 1 basket basket_lines (world_at [4]) 1).
  - reflexivity.
  - apply order_db_invb_sound. vm_compute. reflexivity.
  - discriminate.
  - vm_compute. reflexivity.
  - simpl. lia.
  - fit_tac.
Defined.

(** A quantity of [2^63]: the item passes the check and is priced, then
    its INSERT raises [OverflowError]; order 2 stays without items.  A
    quantity of [2^1024] raises already when it is multiplied by the
    price, before any write. *)
Definition big_basket : list item_req := [{| req_product_id := Some 1; req_qty := Some 9223372036854775808%Z |}].

Definition huge_item : item_req := {| req_product_id := Some 1; req_qty := Some (2 ^ 1024)%Z |}.

Definition big_lines : list line := Eval vm_compute in default [] (lines_of shop_db big_basket).

Lemma create_order_qty_overflow_witness :
  (let w := world_at [] in
   let r := serve (create_order 1 (Some big_basket)) w in
   r.2 = ErrorReply 500 "Internal Server Error" /\
   tbl_get 2 (orders (w_db r.1)) = Some (new_order_row 1 (sumZ line_total big_lines) 1000) /\
   count_items 2 (w_db r.1) = 0) /\
  (let r := serve (create_order 1 (Some [huge_item])) (world_at []) in
   r.2 = ErrorReply 500 "Internal Server Error" /\ w_db r.1 = w_db (world_at [])).
Proof.
  assert (Hinv : order_db_inv (w_db (world_at []))) by (apply order_db_invb_sound; vm_compute; reflexivity).
  split.
  - destruct (create_order_qty_overflow 1 big_basket (world_at []) eq_refl Hinv ltac:(discriminate)) as [H _].
    eapply (H big_lines 0).
    + vm_compute. reflexivity.
    + reflexivity.
    + constructor.
    + right. vm_compute. reflexivity.
  - destruct (create_order_qty_overflow 1 [huge_item] (world_at []) eq_refl Hinv ltac:(discriminate)) as [_ H].
    destruct (product_with_owner 1 (w_db (world_at []))) as [[p u]|] eqn:Ep; [|vm_compute in Ep; discriminate Ep].
    apply (H 0 huge_item [] p u).
    + reflexivity.
    + reflexivity.
    + vm_compute. reflexivity.
    + exact Ep.
    + vm_compute. reflexivity.
Defined.

Lemma create_order_notifications_witness :
  exists w' v new,
    create_order 1 (Some basket) (world_at []) = (w', Ret (Reply 201 v)) /\ w_sent w' = [] ++ new /\
    map msg_of new =
      buyer_notices (ov_id v) (user_by_id 1 shop_db) basket_lines (sumZ line_total basket_lines) ++
      owner_notices 1 (ov_id v) (group_spec basket_lines).
Proof.
  apply (create_order_notifications 1 basket basket_lines (world_at [])).
  - reflexivity.
  - apply order_db_invb_sound. vm_compute. reflexivity.
  - discriminate.
  - vm_compute. reflexivity.
  - fit_tac.
Defined.

(** Exactly two notices in the scenario: A's order notice, and one notice
    to B aggregating both lines with revenue 25. *)
Example basket_notices :
  buyer_notices 2 (user_by_id 1 shop_db) basket_lines 25 ++ owner_notices 1 2 (group_spec basket_lines) =
  [("100", NOrderCreated 2 [("X", 2%Z); ("Y", 1%Z)] 0 25);
   ("200", NProductsBought 2 [("X", 2%Z, 10%Z, 20%Z); ("Y", 1%Z, 5%Z, 5%Z)] 25)]%string.
Proof. reflexivity. Qed.

(** Order 1 belongs to B (2); A (1) asks for it, and for the missing 7. *)
Lemma order_not_owned_same_as_missing_witness :
  get_order 1 1 (world_at []) = get_order 1 7 (world_at []) /\
  update_order 1 1 (Some (Some "canceled")) (world_at []) =
    update_order 1 7 (Some (Some "canceled")) (world_at []) /\
  (0 ∉ @nil nat -> get_order 1 1 (world_at []) = (tick (world_at []), Ret (ErrorReply 404 "Order not found"))).
Proof.
  apply (order_not_owned_same_as_missing 1 1 7 (new_order_row 2 15 500) (Some (Some "canceled")) (world_at [])).
  - reflexivity.
  - discriminate.
  - reflexivity.
Defined.

Lemma update_order_invalid_status_witness :
  update_order 2 1 (Some (Some "shipped")) (world_at []) =
    (tick (world_at []), Ret (ErrorReply 400 "Invalid status")).
Proof.
  apply (update_order_invalid_status 2 1 (new_order_row 2 15 500) "shipped" (world_at [])).
  - reflexivity.
  - reflexivity.
  - apply (bool_decide_eq_false_1 ("shipped" ∈ allowed_statuses)). vm_compute. reflexivity.
Defined.

Lemma update_order_valid_status_witness :
  exists w' v new,
    update_order 2 1 (Some (Some "completed")) (world_at []) = (w', Ret (Reply 200 v)) /\
    ov_status v = "completed" /\ ov_total_amount v = 15%Z /\
    tbl_get 1 (orders (w_db w')) = Some (with_status "completed" (new_order_row 2 15 500)) /\
    w_sent w' = [] ++ new /\ map msg_of new = status_notices 2 1 "completed" "new" shop_db.
Proof.
  apply (update_order_valid_status 2 1 (new_order_row 2 15 500) "completed" (world_at [])).
  - reflexivity.
  - apply db_wfb_sound. vm_compute. reflexivity.
  - reflexivity.
  - apply (bool_decide_eq_true_1 ("completed" ∈ allowed_statuses)). vm_compute. reflexivity.
Defined.

(** ** Linking *)

(** Users A, B and C (no chat); tokens: A's used one, C's expired one
    (expiry 900 at time 1000), B's valid one. *)
Definition tok_row (uid : nat) (tok : string) (exp : Z) (used : bool) : token_row :=
  {| t_user_id := uid; t_token := tok; t_expires_at := exp; t_is_used := used |}.

Definition user_c : user_row :=
  {| u_username := "C"; u_email := "C"; u_first_name := "C"; u_last_name := "C";
     u_password_hash := "hash"; u_theme := None; u_telegram_id := None; u_created_at := 0 |}.

Definition link_db : db :=
  {| users := mk_table [(1, mk_user "A" "100"); (2, mk_user "B" "200"); (3, user_c)] 3;
     products := products shop_db; orders := orders shop_db; order_items := order_items shop_db;
     tokens := mk_table [(1, tok_row 1 "used1" 5000 true); (2, tok_row 3 "old3" 900 false);
                         (3, tok_row 2 "fresh2" 2800 false)] 3 |}.

Definition link_world : world :=
  {| w_db := link_db; w_now := 1000; w_stmt := 0; w_faults := []; w_bot_token := true;
     w_net_down := []; w_sent := [] |}.

Lemma generate_token_single_witness :
  exists w' new,
    generate_telegram_token 1 "tokA" (world_at []) =
      (w', Ret (Reply 200 {| tg_token := "tokA"; tg_expires_at := 2800%Z |})) /\
    tokens_of 1 (w_db w') = [(1, new_token_row 1 "tokA" 2800)] /\
    valid_token "tokA" 1000 (w_db w') = Some (1, new_token_row 1 "tokA" 2800) /\
    (forall uid', uid' <> 1 -> tokens_of uid' (w_db w') = tokens_of uid' shop_db) /\
    w_db w' = set_tokens (tokens (w_db w')) shop_db /\
    w_sent w' = [] ++ new /\ map msg_of new = link_code_notices 1 "tokA" shop_db.
Proof. apply (generate_token_single 1 "tokA" (world_at [])); reflexivity. Defined.

Lemma reissue_invalidates_first_witness :
  exists w1 w2 g1 g2,
    generate_telegram_token 1 "tokA" (world_at []) = (w1, Ret (Reply 200 g1)) /\
    generate_telegram_token 1 "tokB" w1 = (w2, Ret (Reply 200 g2)) /\
    active_tokens 1 1000 (w_db w2) = [(S (seq (tokens (w_db w1))), new_token_row 1 "tokB" (tg_expires_at g2))] /\
    link_telegram (Some "tokA") (Some "100") w2 = (tick w2, Ret (ErrorReply 400 "Invalid or expired token")).
Proof.
  apply (reissue_invalidates_first 1 "tokA" "tokB" "100" (world_at [])); try reflexivity; discriminate.
Defined.

(** The used, the expired and the unknown token get the same reply. *)
Lemma link_rejects_dead_token_witness :
  link_telegram (Some "used1") (Some "300") link_world = (tick link_world, Ret (ErrorReply 400 "Invalid or expired token")) /\
  link_telegram (Some "old3") (Some "300") link_world = (tick link_world, Ret (ErrorReply 400 "Invalid or expired token")) /\
  link_telegram (Some "nope") (Some "300") link_world = (tick link_world, Ret (ErrorReply 400 "Invalid or expired token")).
Proof.
  split; [|split]; apply link_rejects_dead_token; try discriminate; try apply not_elem_of_nil;
    intros k r Hin Htok; cbn in Hin;
    repeat (apply elem_of_cons in Hin as [Hin|Hin];
            [injection Hin as -> ->; cbn in *; first [by left | right; lia | discriminate Htok] |]);
    by apply elem_of_nil in Hin.
Defined.

Lemma link_success_witness :
  exists w' ok,
    link_telegram (Some "fresh2") (Some "300") link_world = (w', Ret (Reply 200 "B")) /\
    user_by_id 2 (w_db w') = Some (with_telegram_id "300" (mk_user "B" "200")) /\
    (forall v, v <> 2 -> user_by_id v (w_db w') = user_by_id v link_db) /\
    tbl_get 3 (tokens (w_db w')) = Some (use_token (tok_row 2 "fresh2" 2800 false)) /\
    w_sent w' = [] ++ [{| at_chat := "300"; at_notice := NLinked "B"; at_ok := ok |}].
Proof.
  apply (link_success "fresh2" "300" link_world 3 (tok_row 2 "fresh2" 2800 false) (mk_user "B" "200"));
    try discriminate; try reflexivity.
  apply db_wfb_sound. vm_compute. reflexivity.
Defined.

Lemma link_token_one_time_witness :
  (forall t, valid_token "fresh2" t (w_db (link_telegram (Some "fresh2") (Some "300") link_world).1) = None) /\
  link_telegram (Some "fresh2") (Some "400") (link_telegram (Some "fresh2") (Some "300") link_world).1 =
    (tick (link_telegram (Some "fresh2") (Some "300") link_world).1,
     Ret (ErrorReply 400 "Invalid or expired token")).
Proof.
  apply (link_token_one_time "fresh2" "300" "400" link_world _ "B"); try discriminate; try reflexivity.
  apply (bool_decide_eq_true_1 (tokens_unique link_db)). vm_compute. reflexivity.
Defined.

(** B redeems its token with A's chat id "100": A (rowid 1) keeps it. *)
Lemma link_chat_collision_witness :
  exists w',
    link_telegram (Some "fresh2") (Some "100") link_world = (w', Ret (Reply 200 "B")) /\
    user_by_id 2 (w_db w') = Some (with_telegram_id "100" (mk_user "B" "200")) /\
    user_by_id 1 (w_db w') = Some (mk_user "A" "100") /\ u_telegram_id (mk_user "A" "100") = Some "100" /\
    user_by_telegram "100" (w_db w') = Some (1, mk_user "A" "100").
Proof.
  apply (link_chat_collision "fresh2" "100" link_world 3 (tok_row 2 "fresh2" 2800 false) (mk_user "B" "200") 1);
    try discriminate; try reflexivity; [apply db_wfb_sound; vm_compute; reflexivity | simpl; lia].
Defined.

Lemma issue_race_two_active_witness :
  let sched := [IDelete 1; IDelete 1; IInsert 1 "tokA" 2800; IInsert 1 "tokB" 2800] in
  interleaving (issue_stmts 1 "tokA" 2800) (issue_stmts 1 "tokB" 2800) sched /\
  exists d', run_schedule sched shop_db = Some d' /\
    active_tokens 1 1000 d' = [(1, new_token_row 1 "tokA" 2800); (2, new_token_row 1 "tokB" 2800)].
Proof. apply (issue_race_two_active 1 "tokA" "tokB" 2800 2800 1000 shop_db); try reflexivity; try lia; discriminate. Defined.

(** ** The Telegram entry points *)

(** A's chat "100" orders 2 x Z at 10 and claims a total of 7. *)
Definition item_z : tg_item :=
  {| ti_product_name := Some "Z"; ti_quantity := Some 2%Z; ti_price := Some 10%Z; ti_description := None |}.

Definition item_no_qty : tg_item :=
  {| ti_product_name := Some "W"; ti_quantity := None; ti_price := Some 3%Z; ti_description := None |}.

Definition tg_req (its : list tg_item) : tg_order_req :=
  {| tr_telegram_id := Some "100"; tr_items := Some its; tr_total_amount := Some 7%Z |}.

Lemma create_telegram_order_success_witness :
  exists w' new,
    create_telegram_order (Some (tg_req [item_z])) (world_at []) =
      (w', Ret (Reply 201 {| tor_order_id := 2; tor_total_amount := 7; tor_created_at := 1000;
                            tor_items := [("Z", 2%Z, 10%Z, 20%Z)] |})) /\
    tbl_get 2 (orders (w_db w')) = Some (new_order_row 1 7 1000) /\
    count_items 2 (w_db w') = 1 /\
    user_products_count 1 (w_db w') = user_products_count 1 shop_db + 1 /\
    w_sent w' = [] ++ new /\ map msg_of new = [("100", NTelegramOrderCreated 2 [("Z", 2%Z, 10%Z)] 7)].
Proof.
  apply (create_telegram_order_success (tg_req [item_z]) "100" [item_z] [("Z", 2%Z, 10%Z)] 1
           (mk_user "A" "100") (world_at [])); try reflexivity; try discriminate; try fit_tac.
  apply order_db_invb_sound. vm_compute. reflexivity.
Defined.

Lemma create_telegram_order_unknown_chat_witness :
  create_telegram_order (Some {| tr_telegram_id := Some "999"; tr_items := Some [item_z]; tr_total_amount := None |})
    (world_at []) = (tick (world_at []), Ret (ErrorReply 404 "User not found")).
Proof.
  apply (create_telegram_order_unknown_chat _ "999"); try reflexivity; try discriminate.
  apply not_elem_of_nil.
Defined.

(** The second item has no quantity: order 2 keeps the first item, and
    two products were created. *)
Lemma create_telegram_order_partial_witness :
  exists w',
    create_telegram_order (Some (tg_req [item_z; item_no_qty])) (world_at []) =
      (w', Ret (ErrorReply 500 "Internal server error: 'quantity'")) /\
    tbl_get 2 (orders (w_db w')) = Some (new_order_row 1 7 1000) /\
    count_items 2 (w_db w') = 1 /\
    user_products_count 1 (w_db w') = user_products_count 1 shop_db + 2 /\
    w_sent w' = [].
Proof.
  apply (create_telegram_order_partial (tg_req [item_z; item_no_qty]) "100" [item_z] item_no_qty []
           [("Z", 2%Z, 10%Z)] "W" 3 1 (mk_user "A" "100") (world_at [])); try reflexivity; try discriminate; try fit_tac.
  apply order_db_invb_sound. vm_compute. reflexivity.
Defined.

Lemma get_telegram_orders_newest_first_witness :
  exists w',
    get_telegram_orders (Some "200") (world_at []) =
      (w', Ret (Reply 200 [(1, new_order_row 2 15 500, [("Y", 3%Z, 5%Z, 15%Z)])])) /\
    w_db w' = shop_db /\ w_sent w' = [] /\
    orders_of_user_desc 2 shop_db ≡ₚ all_orders_of_user 2 shop_db /\
    Sorted (fun a b => o_created_at b.2 <= o_created_at a.2)%Z (orders_of_user_desc 2 shop_db).
Proof. apply (get_telegram_orders_newest_first "200" 2 (mk_user "B" "200") (world_at [])); try reflexivity; discriminate. Defined.

Lemma get_telegram_user_info_three_witness :
  exists w' info,
    get_telegram_user_info (Some "200") (world_at []) = (w', Ret (Reply 200 info)) /\
    ui_email info = "B" /\ ui_total_all_orders info = 15%Z /\
    ui_orders info = [(1, new_order_row 2 15 500, [("Y", 3%Z, 5%Z, 15%Z)])] /\
    length (ui_orders info) = 1 /\ w_db w' = shop_db /\ w_sent w' = [].
Proof. apply (get_telegram_user_info_three "200" 2 (mk_user "B" "200") (world_at [])); try reflexivity; discriminate. Defined.
