(* ===== verification/AccountScenarios.v ===== *)
(** * Concrete runs of accounts, authentication and the catalog

    Executable stand-ins for the two libraries (a password "hash" that
    keeps the password, a token that spells out its claims in decimal and
    signs with the length of the key: neither is secure, both satisfy the
    laws of [PasswordHasher] and [JwtCodec]), a shop with two users, and
    the witnesses that apply each theorem of [Auth.v], [Accounts.v],
    [Catalog.v] and [Schema.v] with hypotheses at one of its runs. *)

From Stdlib Require Import Ascii.
From S2P Require Import Prelude Store Notify Orders Linking Telegram BotText Pagination Auth Accounts Catalog Schema.

(** ** A password hasher *)

#[export] Program Instance toy_hasher : PasswordHasher := {
  hashpw := fun pw _ => ("h:" +:+ pw)%string;
  checkpw := fun pw h => Some (String.eqb h ("h:" +:+ pw)%string)
}.
Next Obligation. intros pw salt. simpl. by rewrite String.eqb_refl. Qed.
Next Obligation. intros pw salt. discriminate. Qed.

(** ** A token codec *)

(** A natural number in decimal; nothing for [None]. *)
Definition opt_digits (o : option nat) : list ascii :=
  match o with Some n => String.list_ascii_of_string (py_str_nat n) | None => [] end.

Definition parse_opt (a : list ascii) : option nat :=
  match a with [] => None | _ => Z.to_nat <$> parse_int (String.string_of_list_ascii a) end.

(** An integer as its magnitude and a sign digit. *)
Definition sign_digit (o : option Z) : list ascii :=
  match o with Some z => if Z.ltb z 0 then ["1"%char] else ["0"%char] | None => [] end.

Definition parse_signed (mag sg : list ascii) : option Z :=
  match parse_opt mag, sg with
  | Some m, ["1"%char] => Some (- Z.of_nat m)%Z
  | Some m, _ => Some (Z.of_nat m)
  | None, _ => None
  end.

Definition toy_fields (k : string) (p : jwt_payload) : list ascii :=
  opt_digits (jp_user_id p) ++ "."%char ::
  opt_digits (Z.abs_nat <$> jp_exp p) ++ "."%char :: sign_digit (jp_exp p) ++ "."%char ::
  opt_digits (Z.abs_nat <$> jp_iat p) ++ "."%char :: sign_digit (jp_iat p) ++ "."%char ::
  opt_digits (Some (String.length k)).

Definition toy_encode (k : string) (p : jwt_payload) : string := String.string_of_list_ascii (toy_fields k p).

Definition toy_decode (k : string) (tok : string) : option jwt_payload :=
  let '(u, r1) := partition_at "."%char (String.list_ascii_of_string tok) in
  let '(em, r2) := partition_at "."%char r1 in
  let '(es, r3) := partition_at "."%char r2 in
  let '(im, r4) := partition_at "."%char r3 in
  let '(isg, sg) := partition_at "."%char r4 in
  if bool_decide (sg = opt_digits (Some (String.length k))) then
    Some {| jp_user_id := parse_opt u; jp_exp := parse_signed em es; jp_iat := parse_signed im isg |}
  else None.

Lemma partition_at_app sep a b :
  Forall (fun c => Ascii.eqb c sep = false) a -> partition_at sep (a ++ sep :: b) = (a, b).
Proof.
  induction a as [|c a IH]; intros Ha; simpl; [by rewrite Ascii.eqb_refl|].
  inversion Ha as [|? ? Hc Ha']; subst. rewrite Hc, IH by done. done.
Qed.

Lemma opt_digits_digits o : Forall (fun c => is_digit c = true) (opt_digits o).
Proof. destruct o as [n|]; [apply str_nat_digits | constructor]. Qed.

Lemma sign_digit_digits o : Forall (fun c => is_digit c = true) (sign_digit o).
Proof. unfold sign_digit. destruct o as [z|]; [destruct (Z.ltb z 0)|]; repeat (constructor; [reflexivity|]); constructor. Qed.

Lemma digits_no_char (l : list ascii) d :
  is_digit d = false -> Forall (fun c => is_digit c = true) l -> Forall (fun c => Ascii.eqb c d = false) l.
Proof. intros Hd Hl. eapply Forall_impl; [exact Hl|]. intros c Hc. by apply digit_not_char. Qed.

Lemma parse_opt_digits o : parse_opt (opt_digits o) = o.
Proof.
  destruct o as [n|]; [|done]. unfold parse_opt, opt_digits.
  destruct (str_digits n n (Nat.lt_succ_diag_r n)) as (_ & Hne & _).
  unfold py_str_nat. rewrite String.list_ascii_of_string_of_list_ascii.
  destruct (rev (digits_rev (S n) n)) as [|c l] eqn:E; [done|]. rewrite <- E.
  change (String.string_of_list_ascii (rev (digits_rev (S n) n))) with (py_str_nat n).
  rewrite parse_int_str. simpl. by rewrite Nat2Z.id.
Qed.

Lemma parse_signed_digits o : parse_signed (opt_digits (Z.abs_nat <$> o)) (sign_digit o) = o.
Proof.
  destruct o as [z|]; [|done]. unfold parse_signed. cbn [fmap option_fmap option_map].
  rewrite parse_opt_digits. rewrite Nat2Z.inj_abs_nat. unfold sign_digit.
  destruct (Z.ltb_spec z 0); f_equal; lia.
Qed.

Lemma toy_decode_encode k p : toy_decode k (toy_encode k p) = Some p.
Proof.
  unfold toy_decode, toy_encode, toy_fields. rewrite String.list_ascii_of_string_of_list_ascii.
  assert (Hdot : is_digit "."%char = false) by reflexivity.
  rewrite !partition_at_app by (apply digits_no_char; [done | apply opt_digits_digits || apply sign_digit_digits]).
  rewrite bool_decide_eq_true_2 by done. rewrite parse_opt_digits, !parse_signed_digits. by destruct p.
Qed.

Lemma toy_fields_no_space k p : Forall (fun c => Ascii.eqb c " "%char = false) (toy_fields k p).
Proof.
  assert (Hs : is_digit " "%char = false) by reflexivity.
  unfold toy_fields. repeat (apply Forall_app; split; [apply digits_no_char; [done | apply opt_digits_digits || apply sign_digit_digits]|]; constructor; [reflexivity|]).
  apply digits_no_char; [done | apply opt_digits_digits].
Qed.

#[export] Program Instance toy_jwt : JwtCodec := {
  jwt_encode := toy_encode;
  jwt_decode := toy_decode
}.
Next Obligation. intros k p. apply toy_decode_encode. Qed.
Next Obligation. intros k p. unfold toy_encode. rewrite String.list_ascii_of_string_of_list_ascii. apply toy_fields_no_space. Qed.
Next Obligation.
  intros k p. unfold toy_encode, toy_fields. intros Hn.
  apply (f_equal String.list_ascii_of_string) in Hn. rewrite String.list_ascii_of_string_of_list_ascii in Hn.
  by apply app_eq_nil in Hn as [_ Hn].
Qed.

(** ** A shop: Ann (1, chat "100") bought two lamps of Bob (2) *)

Definition env0 : env_vars := fun _ => None.
Definition cfg0 : config := get_config env0.

Definition mk_account (username email pw : string) (chat : option string) : user_row :=
  {| u_username := username; u_email := email; u_first_name := username; u_last_name := username;
     u_password_hash := hashpw pw ""; u_theme := Some "light"; u_telegram_id := chat; u_created_at := 0 |}.

Definition acc_db : db :=
  {| users := mk_table [(1, mk_account "ann" "ann@x.io" "secret" (Some "100"));
                        (2, mk_account "bob" "bob@x.io" "hunter2" None)] 2;
     products := mk_table [(1, {| p_name := "Lamp"; p_price := 30; p_description := None; p_created_by := 2;
                                  p_created_at := 0 |})] 1;
     orders := mk_table [(1, new_order_row 1 60 500)] 1;
     order_items := mk_table [(1, {| oi_order_id := 1; oi_product_id := 1; oi_qty := 2; oi_price := 30 |})] 1;
     tokens := mk_table [(1, new_token_row 2 "t0k3n" 2000)] 1 |}.

Definition acc_world (faults : list nat) : world :=
  {| w_db := acc_db; w_now := 1000; w_stmt := 0; w_faults := faults; w_bot_token := true;
     w_net_down := []; w_sent := [] |}.

Lemma acc_db_wf : db_wf acc_db.
Proof. apply db_wfb_sound. vm_compute. reflexivity. Qed.

(** The value of a reply, [d] for an error or an exception. *)
Definition reply_value {A} (d : A) (o : outcome (reply A)) : A :=
  match o with Ret (Reply _ v) => v | _ => d end.

Definition no_user : user_view :=
  {| uv_id := 0; uv_username := ""; uv_email := ""; uv_first_name := ""; uv_last_name := "";
     uv_theme := ""; uv_telegram_linked := false; uv_created_at := None |}.

(** Carol registers; Dave registers with Ann's email as his username. *)
Definition carol : reg_req :=
  {| rr_username := Some "carol"; rr_email := Some "carol@x.io"; rr_password := Some "pw3";
     rr_first_name := Some "Carol"; rr_last_name := Some "C" |}.

Definition dave : reg_req :=
  {| rr_username := Some "ann@x.io"; rr_email := Some "dave@x.io"; rr_password := Some "pw4";
     rr_first_name := Some "Dave"; rr_last_name := Some "D" |}.

Definition carol_run := Eval vm_compute in reg cfg0 (Some carol) "salt" (acc_world []).
Definition carol_reply := Eval vm_compute in
  reply_value {| ar_access_token := ""; ar_user := no_user |} carol_run.2.
Definition dave_run := Eval vm_compute in reg cfg0 (Some dave) "salt" (acc_world []).

(** ** Witnesses *)

Ltac not_in_rows :=
  intros ? ? Hin; cbn in Hin; repeat (apply elem_of_cons in Hin as [Hin|Hin]; [injection Hin as -> ->; intros Heq; vm_compute in Heq; discriminate Heq|]);
  apply elem_of_nil in Hin; destruct Hin.

Lemma default_secret_forgery_witness :
  env0 "JWT_SECRET_KEY" = None /\
  jwt_required (get_config env0) (Some ("Bearer " +:+ forged_token 2)) get_profile (acc_world []) =
    get_profile 2 (acc_world []).
Proof. split; [reflexivity | apply (default_secret_forgery env0 2 get_profile (acc_world [])); reflexivity]. Defined.

Lemma reg_then_login_witness :
  reg cfg0 (Some carol) "salt" (acc_world []) = (carol_run.1, Ret (Reply 201 carol_reply)) /\
  (forall k u, (k, u) ∈ rows (users (w_db (acc_world []))) -> rr_email carol <> Some (u_username u)) /\
  (w_stmt carol_run.1 ∉ w_faults carol_run.1) /\
  login cfg0 (Some {| lg_login := rr_email carol; lg_password := rr_password carol |}) carol_run.1 =
    (tick carol_run.1, Ret (Reply 200 {| ar_access_token := create_access_token cfg0 (uv_id (ar_user carol_reply))
                                                                  (w_now carol_run.1);
                                         ar_user := ar_user carol_reply |})).
Proof.
  assert (Hr : reg cfg0 (Some carol) "salt" (acc_world []) = (carol_run.1, Ret (Reply 201 carol_reply)))
    by (vm_compute; reflexivity).
  assert (Hu : forall k u, (k, u) ∈ rows (users (w_db (acc_world []))) -> rr_email carol <> Some (u_username u))
    by not_in_rows.
  assert (Hf : w_stmt carol_run.1 ∉ w_faults carol_run.1).
  { assert (E : w_faults carol_run.1 = []) by (vm_compute; reflexivity). rewrite E. apply not_elem_of_nil. }
  split; [exact Hr | split; [exact Hu | split; [exact Hf | apply (reg_then_login cfg0 carol "salt" _ _ _ Hr Hu Hf)]]].
Defined.

Definition dave_row : user_row := new_user_row "ann@x.io" "dave@x.io" "Dave" "D" (hash_pswd "salt" "pw4") 1000.

Definition ann_login := Eval vm_compute in
  login cfg0 (Some {| lg_login := Some "ann@x.io"; lg_password := Some "secret" |}) dave_run.1.
Definition ann_reply := Eval vm_compute in
  reply_value {| ar_access_token := ""; ar_user := no_user |} ann_login.2.

(** Dave, user 3, logs in with his username "ann@x.io": Ann's row comes
    first, and Ann's password logs in as Ann. *)
Lemma login_username_shadowed_witness :
  tbl_wf (users (w_db dave_run.1)) /\
  (1, mk_account "ann" "ann@x.io" "secret" (Some "100")) ∈ rows (users (w_db dave_run.1)) /\
  1 < 3 /\ u_email (mk_account "ann" "ann@x.io" "secret" (Some "100")) = u_username dave_row /\
  login cfg0 (Some {| lg_login := Some (u_username dave_row); lg_password := Some "secret" |}) dave_run.1 =
    (ann_login.1, Ret (Reply 200 ann_reply)) /\
  forall v, Reply 200 ann_reply = Reply 200 v -> uv_id (ar_user v) <> 3.
Proof.
  assert (Hwf : tbl_wf (users (w_db dave_run.1))) by (apply tbl_wfb_sound; vm_compute; reflexivity).
  assert (Ha : (1, mk_account "ann" "ann@x.io" "secret" (Some "100")) ∈ rows (users (w_db dave_run.1)))
    by (vm_compute; left).
  assert (Hl : login cfg0 (Some {| lg_login := Some (u_username dave_row); lg_password := Some "secret" |}) dave_run.1 =
               (ann_login.1, Ret (Reply 200 ann_reply))) by (vm_compute; reflexivity).
  split; [exact Hwf | split; [exact Ha | split; [lia | split; [reflexivity | split; [exact Hl|]]]]].
  apply (login_username_shadowed cfg0 dave_run.1 1 _ 3 dave_row "secret" _ _ Hwf Ha ltac:(lia) eq_refl Hl).
Defined.

(** Bob (2) deletes his account: his token, his lamp and his row go; Ann's
    order 1, which bought two lamps, keeps its item row. *)
Lemma delete_account_cascade_witness :
  db_wf (w_db (acc_world [])) /\ (forall i, i < 5 -> w_stmt (acc_world []) + i ∉ w_faults (acc_world [])) /\
  let d := w_db (acc_world []) in
  let d' := w_db (delete_account 2 (acc_world [])).1 in
  (delete_account 2 (acc_world [])).2 = Ret (Reply 200 "Account deleted successfully") /\
  user_row_of 2 d' = None /\
  tbl_select (fun _ t => Nat.eqb (t_user_id t) 2) (tokens d') = [] /\
  tbl_select (fun _ o => Nat.eqb (o_user_id o) 2) (orders d') = [] /\
  tbl_select (fun _ p => Nat.eqb (p_created_by p) 2) (products d') = [] /\
  tbl_select (fun _ i => order_owned_by 2 (oi_order_id i) d) (order_items d') = [] /\
  (forall k, k <> 2 -> tbl_get k (users d') = tbl_get k (users d)) /\
  tbl_select (fun _ t => negb (Nat.eqb (t_user_id t) 2)) (tokens d') =
    tbl_select (fun _ t => negb (Nat.eqb (t_user_id t) 2)) (tokens d) /\
  tbl_select (fun _ o => negb (Nat.eqb (o_user_id o) 2)) (orders d') =
    tbl_select (fun _ o => negb (Nat.eqb (o_user_id o) 2)) (orders d) /\
  tbl_select (fun _ p => negb (Nat.eqb (p_created_by p) 2)) (products d') =
    tbl_select (fun _ p => negb (Nat.eqb (p_created_by p) 2)) (products d) /\
  tbl_select (fun _ i => negb (order_owned_by 2 (oi_order_id i) d)) (order_items d') =
    tbl_select (fun _ i => negb (order_owned_by 2 (oi_order_id i) d)) (order_items d).
Proof.
  assert (Hf : forall i, i < 5 -> w_stmt (acc_world []) + i ∉ w_faults (acc_world [])) by (intros; apply not_elem_of_nil).
  split; [exact acc_db_wf | split; [exact Hf | apply (delete_account_cascade 2 (acc_world []) acc_db_wf Hf)]].
Defined.

(** The fifth statement (index 4), the DELETE of Bob's row, fails. *)
Lemma delete_account_partial_witness :
  (forall i, i < 4 -> w_stmt (acc_world [4]) + i ∉ w_faults (acc_world [4])) /\
  w_stmt (acc_world [4]) + 4 ∈ w_faults (acc_world [4]) /\
  let d' := w_db (delete_account 2 (acc_world [4])).1 in
  (delete_account 2 (acc_world [4])).2 = Ret (ErrorReply 500 "Failed to delete account") /\
  user_row_of 2 d' = user_row_of 2 (w_db (acc_world [4])) /\
  tbl_select (fun _ t => Nat.eqb (t_user_id t) 2) (tokens d') = [] /\
  tbl_select (fun _ o => Nat.eqb (o_user_id o) 2) (orders d') = [] /\
  tbl_select (fun _ p => Nat.eqb (p_created_by p) 2) (products d') = [].
Proof.
  assert (Hf : forall i, i < 4 -> w_stmt (acc_world [4]) + i ∉ w_faults (acc_world [4])).
  { intros i Hi. cbn. rewrite list_elem_of_singleton. lia. }
  assert (H4 : w_stmt (acc_world [4]) + 4 ∈ w_faults (acc_world [4])) by (cbn; left).
  split; [exact Hf | split; [exact H4 | apply (delete_account_partial 2 (acc_world [4]) Hf H4)]].
Defined.

(** ** Catalog *)

(** Ann (1) tries to change and to delete Bob's lamp. *)
Lemma product_owner_only_witness :
  owned_product 1 1 (w_db (acc_world [])) = None /\ (w_stmt (acc_world []) ∉ w_faults (acc_world [])) /\
  update_product 1 1 (Some {| pu_name := None; pu_price := Some (Some 1%Z); pu_description := None |}) (acc_world []) =
    (tick (acc_world []), Ret (ErrorReply 404 "Product not found")) /\
  delete_product 1 1 (acc_world []) = (tick (acc_world []), Ret (ErrorReply 404 "Product not found")).
Proof.
  assert (Ho : owned_product 1 1 (w_db (acc_world [])) = None) by reflexivity.
  assert (Hf : w_stmt (acc_world []) ∉ w_faults (acc_world [])) by apply not_elem_of_nil.
  split; [exact Ho | split; [exact Hf | apply (product_owner_only 1 1 _ (acc_world []) Ho Hf)]].
Defined.

(** Bob deletes his lamp: Ann's order 1 still costs 60 but lists no item. *)
Lemma delete_product_rewrites_history_witness :
  db_wf (w_db (acc_world [])) /\ w_faults (acc_world []) = [] /\ owned_product 1 2 (w_db (acc_world [])) <> None /\
  order_of_user 1 1 (w_db (acc_world [])) = Some (new_order_row 1 60 500) /\
  exists v v',
    (get_order 1 1 (acc_world [])).2 = Ret (Reply 200 v) /\
    (get_order 1 1 (delete_product 2 1 (acc_world [])).1).2 = Ret (Reply 200 v') /\
    ov_total_amount v' = ov_total_amount v /\
    ov_items v = map item_view_of (items_of_order 1 (w_db (acc_world []))) /\
    ov_items v' = map item_view_of (List.filter (fun x => negb (Nat.eqb (oi_product_id x.1) 1))
                                                (items_of_order 1 (w_db (acc_world [])))).
Proof.
  assert (Ho : owned_product 1 2 (w_db (acc_world [])) <> None) by discriminate.
  assert (Hb : order_of_user 1 1 (w_db (acc_world [])) = Some (new_order_row 1 60 500)) by reflexivity.
  split; [exact acc_db_wf | split; [reflexivity | split; [exact Ho | split; [exact Hb |]]]].
  apply (delete_product_rewrites_history 2 1 1 1 _ (acc_world []) acc_db_wf eq_refl Ho Hb).
Defined.

Lemma create_product_price_check_witness :
  "Mug"%string <> ""%string /\ w_faults (acc_world []) = [] /\ tbl_wf (products (w_db (acc_world []))) /\ (-5 < 0)%Z /\
  (create_product 1 (Some {| pr_name := Some "Mug"; pr_price := Some 0%Z; pr_description := None |}) (acc_world [])).2 =
    Ret (ErrorReply 400 "Name and price required") /\
  exists v w', create_product 1 (Some {| pr_name := Some "Mug"; pr_price := Some (-5)%Z; pr_description := None |})
                 (acc_world []) = (w', Ret (Reply 201 v)) /\ pv_price v = (-5)%Z /\
    tbl_get (pv_id v) (products (w_db w')) = Some (new_product_row "Mug" (-5) (pv_description v) 1 (w_now (acc_world []))).
Proof.
  assert (Hwf : tbl_wf (products (w_db (acc_world [])))) by (apply tbl_wfb_sound; reflexivity).
  split; [discriminate | split; [reflexivity | split; [exact Hwf | split; [lia |]]]].
  apply (create_product_price_check 1 "Mug" None (-5) (acc_world []) ltac:(discriminate) eq_refl Hwf ltac:(lia)).
Defined.

(** ** The schema *)

(** Carol registers again: her username and email are taken, and the
    second [reg] answers 400 without writing. *)
Lemma reg_duplicate_check_witness :
  (w_faults carol_run.1 = [] /\ missing_field (Some carol) = None) /\
  exists w' rep, reg cfg0 (Some carol) "salt" carol_run.1 = (w', Ret rep) /\
    rep = ErrorReply 400 "Email or username already registered" /\ w_db w' = w_db carol_run.1.
Proof.
  assert (Hf : w_faults carol_run.1 = []) by (vm_compute; reflexivity).
  assert (Hm : missing_field (Some carol) = None) by reflexivity.
  split; [done|].
  destruct (reg_duplicate_check cfg0 carol "salt" carol_run.1 Hf Hm) as (w' & rep & Hr & Ht & _).
  exists w', rep. split; [exact Hr|]. apply Ht. vm_compute. reflexivity.
Defined.
